(** * pandaFlash: the WebUSB DFU / DFUSe flashing core

    A shallow embedding of the [DfuDevice] class and of the retry and
    flashing code of the page component ([writeWithFallback],
    [flashWithRetry], [flash]), together with the properties stated for them
    in the specification.

    The physical device is not part of the program.  It is modelled as an
    oracle that answers each control transfer from the history of everything
    the host did so far; the history doubles as the trace on which the
    protocol properties are stated.  Loops that the source leaves unbounded
    ([pollUntil], the block loop of [do_download]) take a [fuel] argument and
    report [Hang] when it runs out. *)

From Stdlib Require Import ZArith List Lia DecimalString.
From Stdlib.Strings Require Import Byte.
From stdpp Require Import base gmap strings list.

#[local] Set Warnings "-clear-no-such-hyp".

Local Open Scope Z_scope.

(** ** JavaScript values the code manipulates *)

(** What a [throw] (or a rejected promise) carries.  Every [throw] of the
    class builds an [Error]; WebUSB rejects with a [DOMException], which is an
    [Error] too.  [lastErr] of the retry loops starts out [undefined]. *)
Inductive Thrown : Type :=
| ErrorObj (message : string)
| Undefined.

(** [e instanceof Error ? e.message : String(e)] *)
Definition errorMsg (e : Thrown) : string :=
  match e with
  | ErrorObj m => m
  | Undefined => "undefined"
  end.

(** [s.includes(search)] *)
Fixpoint includes (s search : string) : bool :=
  String.prefix search s ||
  match s with
  | EmptyString => false
  | String _ s' => includes s' search
  end.

(** Template-literal rendering of an integral number. *)
Definition show_number (z : Z) : string := NilZero.string_of_int (Z.to_int z).

(** ** Byte buffers: [ArrayBuffer], [Uint8Array], [DataView] *)

Definition byteLength (d : list byte) : Z := Z.of_nat (length d).

Definition byte_to_Z (b : byte) : Z := Z.of_N (Byte.to_N b).

(** ToUint8: the value modulo 256. *)
Definition byte_of_Z (z : Z) : byte :=
  match Byte.of_N (Z.to_N (z mod 256)) with
  | Some b => b
  | None => x00
  end.

Definition byte_at (d : list byte) (i : Z) : Z :=
  match d !! Z.to_nat i with
  | Some b => byte_to_Z b
  | None => 0
  end.

(** [new ArrayBuffer(n)]: n zero bytes. *)
Definition ArrayBuffer (n : nat) : list byte := replicate n x00.

(** [Uint8Array.prototype.slice(start, end)]: negative indices count from the
    end, both are clamped to the array, an empty range gives an empty array. *)
Definition relative_index (len i : Z) : Z :=
  if i <? 0 then Z.max (len + i) 0 else Z.min i len.

Definition slice (view : list byte) (start finish : Z) : list byte :=
  let len := byteLength view in
  let k := relative_index len start in
  let final := relative_index len finish in
  take (Z.to_nat (Z.max (final - k) 0)) (drop (Z.to_nat k) view).

(** ** Effects: exceptions, divergence, and a threaded state *)

(** The loops whose iteration count the source does not bound. *)
Inductive Loop : Type :=
| PollLoop
| DownloadLoop
| DescriptorWalk.

Inductive Outcome (A : Type) : Type :=
| Ret (a : A)
| Throw (e : Thrown)
| Hang (l : Loop).
Arguments Ret {A} a.
Arguments Throw {A} e.
Arguments Hang {A} l.

Definition Eff (S A : Type) : Type := S -> Outcome A * S.

Definition ret {S A} (a : A) : Eff S A := fun s => (Ret a, s).

Definition bind {S A B} (c : Eff S A) (k : A -> Eff S B) : Eff S B :=
  fun s =>
    match c s with
    | (Ret a, s') => k a s'
    | (Throw e, s') => (Throw e, s')
    | (Hang l, s') => (Hang l, s')
    end.

Definition throw {S A} (e : Thrown) : Eff S A := fun s => (Throw e, s).

Definition hang {S A} (l : Loop) : Eff S A := fun s => (Hang l, s).

(** [try { c } catch (e) { handler e }] *)
Definition try_catch {S A} (c : Eff S A) (handler : Thrown -> Eff S A) : Eff S A :=
  fun s =>
    match c s with
    | (Throw e, s') => handler e s'
    | r => r
    end.

Declare Scope eff_scope.
Delimit Scope eff_scope with eff.
Notation "x <- c1 ;; c2" := (bind c1 (fun x => c2))
  (at level 100, c1 at next level, right associativity) : eff_scope.
Notation "c1 ;;; c2" := (bind c1 (fun _ => c2))
  (at level 100, right associativity) : eff_scope.
Local Open Scope eff_scope.

Definition RangeError : Thrown := ErrorObj "Offset is outside the bounds of the DataView".

(** [DataView] accessors; an access outside the view throws a RangeError. *)
Definition in_view (d : list byte) (byteOffset size : Z) : bool :=
  (0 <=? byteOffset) && (byteOffset + size <=? byteLength d).

Definition getUint8 {S} (d : list byte) (byteOffset : Z) : Eff S Z :=
  if in_view d byteOffset 1 then ret (byte_at d byteOffset) else throw RangeError.

(** [getUint16(byteOffset, true)] *)
Definition getUint16 {S} (d : list byte) (byteOffset : Z) : Eff S Z :=
  if in_view d byteOffset 2
  then ret (byte_at d byteOffset + 256 * byte_at d (byteOffset + 1))
  else throw RangeError.

(** [getUint32(byteOffset, true)] *)
Definition getUint32 {S} (d : list byte) (byteOffset : Z) : Eff S Z :=
  if in_view d byteOffset 4
  then ret (byte_at d byteOffset
            + 256 * byte_at d (byteOffset + 1)
            + 65536 * byte_at d (byteOffset + 2)
            + 16777216 * byte_at d (byteOffset + 3))
  else throw RangeError.

Definition setUint8 {S} (d : list byte) (byteOffset v : Z) : Eff S (list byte) :=
  if in_view d byteOffset 1
  then ret (<[Z.to_nat byteOffset := byte_of_Z v]> d)
  else throw RangeError.

(** [setUint32(byteOffset, v, true)]: ToUint32 of the value, low byte first. *)
Definition setUint32 {S} (d : list byte) (byteOffset v : Z) : Eff S (list byte) :=
  if in_view d byteOffset 4
  then
    let u := v mod 4294967296 in
    let o := Z.to_nat byteOffset in
    ret (<[(o + 3)%nat := byte_of_Z (Z.shiftr u 24)]>
         (<[(o + 2)%nat := byte_of_Z (Z.shiftr u 16)]>
          (<[(o + 1)%nat := byte_of_Z (Z.shiftr u 8)]>
           (<[o := byte_of_Z u]> d))))
  else throw RangeError.

(** ** WebUSB: control transfers, the device oracle, the history *)

Inductive USBRequestType : Type := req_standard | req_class | req_vendor.
Inductive USBRecipient : Type := rcpt_device | rcpt_interface | rcpt_endpoint | rcpt_other.
Inductive USBTransferStatus : Type := status_ok | status_stall | status_babble.

Definition show_status (s : USBTransferStatus) : string :=
  match s with
  | status_ok => "ok"
  | status_stall => "stall"
  | status_babble => "babble"
  end.

Definition is_ok (s : USBTransferStatus) : bool :=
  match s with status_ok => true | _ => false end.

Record USBControlTransferParameters : Type := {
  requestType : USBRequestType;
  recipient : USBRecipient;
  request : Z;
  value : Z;
  index : Z
}.

Record USBOutTransferResult : Type := {
  out_status : USBTransferStatus;
  bytesWritten : Z
}.

Record USBInTransferResult : Type := {
  in_status : USBTransferStatus;
  in_data : list byte
}.

(** Everything the host did, oldest first: each transfer with the answer it
    got, each timer wait, each call of the progress callback. *)
Inductive Event : Type :=
| EvControlOut (setup : USBControlTransferParameters) (data : option (list byte))
               (result : Thrown + USBOutTransferResult)
| EvControlIn (setup : USBControlTransferParameters) (length : Z)
              (result : Thrown + USBInTransferResult)
| EvSleep (ms : Z)
| EvProgress (done total : Z).

Definition History : Type := list Event.

(** The device: its answer to a transfer may depend on all that came before.
    [inl e] is a rejected promise. *)
Record USBDevice : Type := {
  answerOut : History -> USBControlTransferParameters -> option (list byte) ->
              Thrown + USBOutTransferResult;
  answerIn : History -> USBControlTransferParameters -> Z ->
             Thrown + USBInTransferResult
}.

Definition controlTransferOut (device : USBDevice)
    (setup : USBControlTransferParameters) (data : option (list byte))
  : Eff History USBOutTransferResult :=
  fun h =>
    let r := answerOut device h setup data in
    (match r with inl e => Throw e | inr res => Ret res end,
     h ++ [EvControlOut setup data r]).

Definition controlTransferIn (device : USBDevice)
    (setup : USBControlTransferParameters) (length : Z)
  : Eff History USBInTransferResult :=
  fun h =>
    let r := answerIn device h setup length in
    (match r with inl e => Throw e | inr res => Ret res end,
     h ++ [EvControlIn setup length r]).

(** [await new Promise(res => setTimeout(res, ms))] *)
Definition sleep (ms : Z) : Eff History unit :=
  fun h => (Ret tt, h ++ [EvSleep ms]).

(** [this.logProgress(done, total)] *)
Definition logProgress (done total : Z) : Eff History unit :=
  fun h => (Ret tt, h ++ [EvProgress done total]).

(** ** The [DfuDevice] class *)

(** The part of [DfuSettings] the class reads. *)
Record DfuSettings : Type := {
  configurationValue : Z;
  interfaceNumber : Z;
  alternateSetting : Z
}.

Module DFU.
Definition DETACH : Z := 0.
Definition DNLOAD : Z := 1.
Definition UPLOAD : Z := 2.
Definition GETSTATUS : Z := 3.
Definition CLRSTATUS : Z := 4.
Definition GETSTATE : Z := 5.
Definition ABORT : Z := 6.
End DFU.

Module STATE.
Definition appIDLE : Z := 0.
Definition appDETACH : Z := 1.
Definition dfuIDLE : Z := 2.
Definition dfuDNLOAD_SYNC : Z := 3.
Definition dfuDNBUSY : Z := 4.
Definition dfuDNLOAD_IDLE : Z := 5.
Definition dfuMANIFEST_SYNC : Z := 6.
Definition dfuMANIFEST : Z := 7.
Definition dfuMANIFEST_WAIT_RESET : Z := 8.
Definition dfuUPLOAD_IDLE : Z := 9.
Definition dfuERROR : Z := 10.
End STATE.

(** The record [getStatus] returns. *)
Record DfuStatus : Type := {
  status : Z;
  pollTimeout : Z;
  state : Z
}.

Section DfuDevice.
Variable device : USBDevice.
Variable settings : DfuSettings.

Definition class_setup (request value : Z) : USBControlTransferParameters :=
  {| requestType := req_class;
     recipient := rcpt_interface;
     request := request;
     value := value;
     index := interfaceNumber settings |}.

Definition requestOut (request : Z) (data : option (list byte)) (value : Z)
  : Eff History Z :=
  r <- controlTransferOut device (class_setup request value) data ;;
  if is_ok (out_status r)
  then ret (bytesWritten r)
  else throw (ErrorObj ("controlTransferOut failed: " +:+ show_status (out_status r))).

Definition requestIn (request length value : Z) : Eff History (list byte) :=
  r <- controlTransferIn device (class_setup request value) length ;;
  if is_ok (in_status r)
  then ret (in_data r)
  else throw (ErrorObj ("controlTransferIn failed: " +:+ show_status (in_status r))).

Definition getStatus : Eff History DfuStatus :=
  d <- requestIn DFU.GETSTATUS 6 0 ;;
  st <- getUint8 d 0 ;;
  t <- getUint32 d 1 ;;
  s <- getUint8 d 4 ;;
  ret {| status := st; pollTimeout := Z.land t 16777215; state := s |}.

Definition getState : Eff History Z :=
  d <- requestIn DFU.GETSTATE 1 0 ;;
  getUint8 d 0.

Definition abortToIdle : Eff History unit :=
  requestOut DFU.ABORT None 0 ;;;
  s <- getState ;;
  s <- (if s =? STATE.dfuERROR
        then requestOut DFU.CLRSTATUS None 0 ;;; getState
        else ret s) ;;
  if negb (s =? STATE.dfuIDLE)
  then throw (ErrorObj ("Failed to return to IDLE, state=" +:+ show_number s))
  else ret tt.

(** The [while] of [pollUntil], entered with the status just read. *)
Fixpoint pollUntil_loop (fuel : nat) (targetState : Z) (st : DfuStatus)
  : Eff History DfuStatus :=
  if negb (state st =? targetState) && negb (state st =? STATE.dfuERROR)
  then
    match fuel with
    | O => hang PollLoop
    | S fuel' =>
        sleep (pollTimeout st) ;;;
        st' <- getStatus ;;
        pollUntil_loop fuel' targetState st'
    end
  else ret st.

Definition pollUntil (fuel : nat) (targetState : Z) : Eff History DfuStatus :=
  st <- getStatus ;;
  pollUntil_loop fuel targetState st.

Definition dnloadBlock (fuel : nat) (data : list byte) (blockNum : Z)
  : Eff History DfuStatus :=
  requestOut DFU.DNLOAD (Some data) blockNum ;;;
  pollUntil fuel STATE.dfuDNLOAD_IDLE.

Definition download_failed (st : DfuStatus) : Thrown :=
  ErrorObj ("DFU DOWNLOAD failed state=" +:+ show_number (state st)
            +:+ " status=" +:+ show_number (status st)).

(** The [while (sent < view.byteLength)] of [do_download]; returns the
    block number reached.  [pollFuel] bounds each wait for a block,
    [fuel] the number of blocks. *)
Fixpoint download_loop (pollFuel fuel : nat) (xferSize : Z) (view : list byte)
    (sent block : Z) : Eff History Z :=
  if sent <? byteLength view
  then
    match fuel with
    | O => hang DownloadLoop
    | S fuel' =>
        let size := Z.min xferSize (byteLength view - sent) in
        st <- dnloadBlock pollFuel (slice view sent (sent + size)) block ;;
        if negb (status st =? 0)
        then throw (download_failed st)
        else
          logProgress (sent + size) (byteLength view) ;;;
          download_loop pollFuel fuel' xferSize view (sent + size) (block + 1)
    end
  else ret block.

Definition manifest_failed (fin : DfuStatus) : Thrown :=
  ErrorObj ("DFU MANIFEST failed state=" +:+ show_number (state fin)
            +:+ " status=" +:+ show_number (status fin)).

(** [firstBlock] is an optional parameter with default 2. *)
Definition do_download (fuel : nat) (xferSize : Z) (data : list byte)
    (manifestationTolerant : bool) (firstBlock : option Z) : Eff History unit :=
  abortToIdle ;;;
  let view := data in
  logProgress 0 (byteLength view) ;;;
  block <- download_loop fuel fuel xferSize view 0 (default 2 firstBlock) ;;
  requestOut DFU.DNLOAD (Some (ArrayBuffer 0)) block ;;;
  if manifestationTolerant
  then
    fin <- pollUntil fuel STATE.dfuIDLE ;;
    if negb (status fin =? 0) then throw (manifest_failed fin) else ret tt
  else
    try_catch (getStatus ;;; ret tt) (fun _ => ret tt).

(** The five-byte command buffer both vendor commands build. *)
Definition command_buffer (opcode addr : Z) : Eff History (list byte) :=
  let b := ArrayBuffer 5 in
  b <- setUint8 b 0 opcode ;;
  setUint32 b 1 addr.

Definition dfuseSetAddress (fuel : nat) (addr : Z) : Eff History unit :=
  b <- command_buffer 33 addr ;;
  abortToIdle ;;;
  st <- dnloadBlock fuel b 0 ;;
  if negb (status st =? 0)
  then throw (ErrorObj ("DFUSe SETADDR failed: status=" +:+ show_number (status st)
                        +:+ ", state=" +:+ show_number (state st)))
  else ret tt.

Definition dfuseErase (fuel : nat) (addr : Z) : Eff History unit :=
  b <- command_buffer 65 addr ;;
  abortToIdle ;;;
  st <- dnloadBlock fuel b 0 ;;
  if negb (status st =? 0)
  then throw (ErrorObj ("DFUSe ERASE failed: status=" +:+ show_number (status st)
                        +:+ ", state=" +:+ show_number (state st)))
  else ret tt.

(** The descriptor walk of [getTransferSize].  Every turn moves [offset]
    forward by [bLength >= 2], so a fuel of the buffer length is enough. *)
Fixpoint walk_descriptors (fuel : nat) (bytes : list byte) (offset : Z)
    (inTargetIntf : bool) : Eff History Z :=
  if offset + 2 <=? byteLength bytes
  then
    match fuel with
    | O => hang DescriptorWalk
    | S fuel' =>
        bLength <- getUint8 bytes offset ;;
        bType <- getUint8 bytes (offset + 1) ;;
        if bLength <? 2 then ret 2048
        else if bType =? 4 then
          intfNum <- getUint8 bytes (offset + 2) ;;
          alt <- getUint8 bytes (offset + 3) ;;
          cls <- getUint8 bytes (offset + 5) ;;
          subcls <- getUint8 bytes (offset + 6) ;;
          proto <- getUint8 bytes (offset + 7) ;;
          walk_descriptors fuel' bytes (offset + bLength)
            ((intfNum =? interfaceNumber settings)
             && (alt =? alternateSetting settings)
             && (cls =? 254) && (subcls =? 1) && (proto =? 2))
        else if inTargetIntf && (bType =? 33) then
          wTransferSize <- getUint16 bytes (offset + 5) ;;
          ret (if wTransferSize =? 0 then 2048 else wTransferSize)
        else walk_descriptors fuel' bytes (offset + bLength) inTargetIntf
    end
  else ret 2048.

Definition descriptor_setup : USBControlTransferParameters :=
  {| requestType := req_standard;
     recipient := rcpt_device;
     request := 6;
     value := Z.lor (Z.shiftl 2 8) (configurationValue settings);
     index := 0 |}.

Definition getTransferSize : Eff History Z :=
  first <- controlTransferIn device descriptor_setup 4 ;;
  if negb (is_ok (in_status first))
  then throw (ErrorObj (show_status (in_status first)))
  else
    wTotalLength <- getUint16 (in_data first) 2 ;;
    full <- controlTransferIn device descriptor_setup wTotalLength ;;
    if negb (is_ok (in_status full))
    then throw (ErrorObj (show_status (in_status full)))
    else
      let bytes := in_data full in
      walk_descriptors (length bytes) bytes 9 false.
End DfuDevice.

(** ** The retry orchestrators

    Both take the device as a parameter and only call its [do_download]; they
    are modelled over an arbitrary download action and an arbitrary state. *)

Section Orchestrator.
Context {St : Type}.
Variable do_download : Z -> list byte -> bool -> option Z -> Eff St unit.

Definition disconnected (e : Thrown) : bool := includes (errorMsg e) "disconnected".

(** The code after the [for] of either function. *)
Definition after_ladder (lastErr : Thrown) : Eff St bool :=
  if disconnected lastErr then ret true else throw lastErr.

(** The [for (const s of sizes)] of [writeWithFallback]. *)
Fixpoint writeWithFallback_loop (data : list byte) (sizes : list Z)
    (tried : gset Z) (lastErr : Thrown) : Eff St bool :=
  match sizes with
  | [] => after_ladder lastErr
  | s :: rest =>
      if bool_decide (s ∈ tried) then writeWithFallback_loop data rest tried lastErr
      else
        let tried := {[s]} ∪ tried in
        fun st =>
          match do_download s data true (Some 2) st with
          | (Ret _, st') => (Ret true, st')
          | (Throw e, st') =>
              if disconnected e then
                if (1 <? Z.of_nat (size tried))
                then (Ret true, st')
                else writeWithFallback_loop data rest tried e st'
              else writeWithFallback_loop data rest tried e st'
          | (Hang l, st') => (Hang l, st')
          end
  end.

Definition writeWithFallback (data : list byte) (sizes : list Z) : Eff St bool :=
  writeWithFallback_loop data sizes ∅ Undefined.

Definition transferSizes : list Z := [2048; 1024; 512; 256].

(** [const totalProgress = 0] *)
Definition totalProgress : Z := 0.

(** [totalProgress >= data.byteLength * 0.9], on integers. *)
Definition mostly_done (data : list byte) : bool :=
  byteLength data * 9 <=? totalProgress * 10.

(** The [for (const s of transferSizes)] of [flashWithRetry]. *)
Fixpoint flashWithRetry_loop (data : list byte) (sizes : list Z)
    (tried : gset Z) (lastErr : Thrown) : Eff St bool :=
  match sizes with
  | [] => after_ladder lastErr
  | s :: rest =>
      if bool_decide (s ∈ tried) then flashWithRetry_loop data rest tried lastErr
      else
        let tried := {[s]} ∪ tried in
        fun st =>
          match do_download s data true (Some 2) st with
          | (Ret _, st') => (Ret true, st')
          | (Throw e, st') =>
              if disconnected e then
                if mostly_done data then (Ret true, st')
                else if (1 <? Z.of_nat (size tried)) then (Ret true, st')
                else flashWithRetry_loop data rest tried e st'
              else flashWithRetry_loop data rest tried e st'
          | (Hang l, st') => (Hang l, st')
          end
  end.

Definition flashWithRetry (data : list byte) : Eff St bool :=
  flashWithRetry_loop data transferSizes ∅ Undefined.

(** A download action that also records the size it was called with. *)
Definition recording : Z -> list byte -> bool -> option Z -> Eff (St * list Z) unit :=
  fun s data tolerant firstBlock '(st, calls) =>
    let '(r, st') := do_download s data tolerant firstBlock st in
    (r, (st', calls ++ [s])).
End Orchestrator.

(** ** Wall-clock time

    [withTimeout] races an operation against a timer.  How long a transfer
    or a callback takes is up to the device and the browser: like the
    answers, it is given by an oracle, here the time each event takes on top
    of what the program asked for.  A wait lasts at least as long as asked. *)
Record Clock : Type := {
  latency : History -> Event -> Z
}.

(** Milliseconds the event [ev] takes when it follows the history [h]. *)
Definition duration (clock : Clock) (h : History) (ev : Event) : Z :=
  Z.max 0 (latency clock h ev)
  + match ev with
    | EvSleep ms => Z.max 0 ms
    | _ => 0
    end.

(** Milliseconds the events [evs] take when they follow [h]. *)
Fixpoint elapsed (clock : Clock) (h : History) (evs : list Event) : Z :=
  match evs with
  | [] => 0
  | ev :: rest => duration clock h ev + elapsed clock (h ++ [ev]) rest
  end.

(** The events of [evs] that have begun when [deadline] milliseconds have
    passed. *)
Fixpoint begun_before (clock : Clock) (h : History) (deadline : Z) (evs : list Event)
  : list Event :=
  match evs with
  | [] => []
  | ev :: rest =>
      if 0 <? deadline
      then ev :: begun_before clock (h ++ [ev]) (deadline - duration clock h ev) rest
      else []
  end.

Definition is_transfer (ev : Event) : bool :=
  match ev with
  | EvControlOut _ _ _ | EvControlIn _ _ _ => true
  | _ => false
  end.

(** A clock on which every control transfer takes [ms] milliseconds, and
    nothing else takes longer than asked. *)
Definition steady (ms : Z) : Clock :=
  {| latency := fun _ ev => if is_transfer ev then ms else 0 |}.

(** Every control transfer takes at least a millisecond. *)
Definition ticking (clock : Clock) : Prop :=
  forall h ev, is_transfer ev = true -> 1 <= latency clock h ev.

(** [new Error(`${operation} timed out after ${timeoutMs}ms`)] *)
Definition timed_out (operation : string) (timeoutMs : Z) : Thrown :=
  ErrorObj (operation +:+ " timed out after " +:+ show_number timeoutMs +:+ "ms").

(** ** The flashing run *)

Section Flash.
Variable clock : Clock.
Variable device : USBDevice.
Variable settings : DfuSettings.

(** [Promise.race([promise, timeoutPromise])].  [promise] is already running
    when the timer is set.  If it settles before [timeoutMs] have passed, the
    race settles with it; otherwise the timer rejects the race, and the
    history is what the abandoned operation had begun by then.  An operation
    whose fuel ran out before the deadline stays undecided ([Hang]). *)
Definition withTimeout {A} (promise : Eff History A) (timeoutMs : Z) (operation : string)
  : Eff History A :=
  fun h =>
    let '(r, h') := promise h in
    let evs := drop (length h) h' in
    if elapsed clock h evs <? timeoutMs
    then (r, h')
    else (Throw (timed_out operation timeoutMs),
          h ++ begun_before clock h timeoutMs evs).

(** The [try] block of [flash], after the firmware is loaded. *)
Definition flash_body (fuel : nat) (pandaBuffer bootstubBuffer : list byte)
  : Eff History unit :=
  transferSize <- getTransferSize device settings ;;
  let ladder := [transferSize; 2048; 1024; 512; 256] in
  withTimeout (dfuseErase device settings fuel 0x08004000) 10000 "Erase 0x08004000" ;;;
  withTimeout (dfuseErase device settings fuel 0x08008000) 10000 "Erase 0x08008000" ;;;
  withTimeout (dfuseErase device settings fuel 0x0800c000) 10000 "Erase 0x0800c000" ;;;
  withTimeout (dfuseSetAddress device settings fuel 0x08004000) 5000 "Set address 0x08004000" ;;;
  pandaSuccess <- withTimeout (flashWithRetry (do_download device settings fuel) pandaBuffer)
                    45000 "Write panda.bin" ;;
  (if negb pandaSuccess then throw (ErrorObj "Failed to write panda.bin") else ret tt) ;;;
  sleep 1000 ;;;
  try_catch (getState device settings ;;; ret tt) (fun _ => ret tt) ;;;
  withTimeout (dfuseErase device settings fuel 0x08000000) 10000 "Erase 0x08000000" ;;;
  withTimeout (dfuseSetAddress device settings fuel 0x08000000) 5000 "Set address 0x08000000" ;;;
  bootstubSuccess <- withTimeout (flashWithRetry (do_download device settings fuel) bootstubBuffer)
                       30000 "Write bootstub.panda.bin" ;;
  (if negb bootstubSuccess then throw (ErrorObj "Failed to write bootstub.panda.bin") else ret tt) ;;;
  try_catch (requestOut device settings 0 (Some (ArrayBuffer 0)) 1000 ;;; ret tt)
            (fun _ => ret tt).

(** [e?.message || String(e)] *)
Definition flash_errorMsg (e : Thrown) : string :=
  match e with
  | ErrorObj EmptyString => "Error"
  | ErrorObj m => m
  | Undefined => "undefined"
  end.

(** What the [catch] of [flash] tells the user. *)
Inductive FlashReport : Type :=
| FlashComplete
| FlashTimedOut
| FlashLikelyCompleted
| FlashFailed (errorMsg : string).

Definition flash (fuel : nat) (pandaBuffer bootstubBuffer : list byte)
  : Eff History FlashReport :=
  try_catch (flash_body fuel pandaBuffer bootstubBuffer ;;; ret FlashComplete)
    (fun e =>
       let errorMsg := flash_errorMsg e in
       if includes errorMsg "timed out" then ret FlashTimedOut
       else if includes errorMsg "disconnected" then ret FlashLikelyCompleted
       else ret (FlashFailed errorMsg)).
End Flash.

(** ** Reading a history *)

(** The DNLOAD requests of a history, oldest first: block number and payload. *)
Definition dnload_of (ev : Event) : option (Z * list byte) :=
  match ev with
  | EvControlOut setup (Some d) _ =>
      match requestType setup with
      | req_class => if request setup =? DFU.DNLOAD then Some (value setup, d) else None
      | _ => None
      end
  | _ => None
  end.

Definition dnloads (h : History) : list (Z * list byte) := omap dnload_of h.

(** The class requests of a history, oldest first: request code and [wValue]. *)
Definition class_request_of (ev : Event) : option (Z * Z) :=
  match ev with
  | EvControlOut setup _ _ | EvControlIn setup _ _ =>
      match requestType setup with
      | req_class => Some (request setup, value setup)
      | _ => None
      end
  | _ => None
  end.

Definition class_requests (h : History) : list (Z * Z) := omap class_request_of h.

(** The vendor commands of a history: the five-byte payloads sent to block 0,
    read back as opcode and little-endian address. *)
Definition vendor_payload (b : Z * list byte) : option (Z * Z) :=
  match b with
  | (0, [op; a0; a1; a2; a3]) =>
      Some (byte_to_Z op,
            byte_to_Z a0 + 256 * byte_to_Z a1 + 65536 * byte_to_Z a2
            + 16777216 * byte_to_Z a3)
  | _ => None
  end.

Definition vendor_command_of (ev : Event) : option (Z * Z) :=
  match dnload_of ev with
  | Some b => vendor_payload b
  | None => None
  end.

Definition vendor_commands (h : History) : list (Z * Z) := omap vendor_command_of h.

(** ** A simulated DFUSe device

    A small state machine in the shape of the DFU 1.1 state diagram, used to
    run the code on concrete inputs.  Its state is recomputed from the
    history at each transfer. *)

Record SimConfig : Type := {
  cfg_descriptor : list byte;      (* the configuration descriptor it reports *)
  cfg_start_state : Z;             (* state before the first request *)
  cfg_busy_polls : nat;            (* GETSTATUS answers that report "busy" *)
  cfg_poll_timeout : Z;            (* bwPollTimeout it asks for *)
  cfg_fault : option (Z * Z);      (* block number that fails, status code *)
  cfg_unplug_at : option nat       (* number of events after which it is gone *)
}.

Record SimState : Type := {
  sim_state : Z;                   (* state reached once no longer busy *)
  sim_status : Z;
  sim_busy : nat;
  sim_busy_state : Z               (* state reported while busy *)
}.

Definition sim_settle (s st : Z) : SimState :=
  {| sim_state := s; sim_status := st; sim_busy := 0; sim_busy_state := s |}.

Definition sim_step (cfg : SimConfig) (s : SimState) (ev : Event) : SimState :=
  match ev with
  | EvControlOut setup data _ =>
      match requestType setup with
      | req_class =>
          if request setup =? DFU.CLRSTATUS then sim_settle STATE.dfuIDLE 0
          else if sim_state s =? STATE.dfuERROR then s
          else if request setup =? DFU.ABORT then sim_settle STATE.dfuIDLE 0
          else if request setup =? DFU.DNLOAD then
            match data with
            | Some (_ :: _) =>
                match cfg_fault cfg with
                | Some (blk, code) =>
                    if value setup =? blk then sim_settle STATE.dfuERROR code
                    else {| sim_state := STATE.dfuDNLOAD_IDLE; sim_status := 0;
                            sim_busy := cfg_busy_polls cfg;
                            sim_busy_state := STATE.dfuDNBUSY |}
                | None => {| sim_state := STATE.dfuDNLOAD_IDLE; sim_status := 0;
                             sim_busy := cfg_busy_polls cfg;
                             sim_busy_state := STATE.dfuDNBUSY |}
                end
            | _ => {| sim_state := STATE.dfuIDLE; sim_status := 0;
                      sim_busy := cfg_busy_polls cfg;
                      sim_busy_state := STATE.dfuMANIFEST |}
            end
          else s
      | _ => s
      end
  | EvControlIn setup _ _ =>
      match requestType setup with
      | req_class =>
          if request setup =? DFU.GETSTATUS
          then {| sim_state := sim_state s; sim_status := sim_status s;
                  sim_busy := pred (sim_busy s); sim_busy_state := sim_busy_state s |}
          else s
      | _ => s
      end
  | _ => s
  end.

Definition sim_run (cfg : SimConfig) (h : History) : SimState :=
  fold_left (sim_step cfg) h (sim_settle (cfg_start_state cfg) 0).

Definition sim_reported_state (s : SimState) : Z :=
  match sim_busy s with
  | O => sim_state s
  | S _ => sim_busy_state s
  end.

Definition sim_gone (cfg : SimConfig) (h : History) : bool :=
  match cfg_unplug_at cfg with
  | Some n => (n <=? length h)%nat
  | None => false
  end.

Definition device_gone : Thrown := ErrorObj "The device was disconnected.".

Definition simulated (cfg : SimConfig) : USBDevice :=
  {| answerOut := fun h setup data =>
       if sim_gone cfg h then inl device_gone
       else inr {| out_status := status_ok;
                   bytesWritten := from_option byteLength 0 data |};
     answerIn := fun h setup len =>
       if sim_gone cfg h then inl device_gone
       else
         let s := sim_run cfg h in
         match requestType setup with
         | req_standard =>
             inr {| in_status := status_ok;
                    in_data := take (Z.to_nat len) (cfg_descriptor cfg) |}
         | _ =>
             if request setup =? DFU.GETSTATE
             then inr {| in_status := status_ok;
                         in_data := [byte_of_Z (sim_reported_state s)] |}
             else if request setup =? DFU.GETSTATUS
             then inr {| in_status := status_ok;
                         in_data := [byte_of_Z (sim_status s);
                                     byte_of_Z (cfg_poll_timeout cfg);
                                     byte_of_Z (Z.shiftr (cfg_poll_timeout cfg) 8);
                                     byte_of_Z (Z.shiftr (cfg_poll_timeout cfg) 16);
                                     byte_of_Z (sim_reported_state s);
                                     x00] |}
             else inr {| in_status := status_stall; in_data := [] |}
         end |}.

(** The configuration descriptor of a DFUSe bootloader: configuration header,
    one DFU-mode interface (number 0, alternate 0), and its functional
    descriptor advertising [wTransferSize = 2048]. *)
Definition dfuse_descriptor : list byte :=
  [x09; x02; x1b; x00; x01; x01; x00; xc0; x32;
   x09; x04; x00; x00; x00; xfe; x01; x02; x00;
   x09; x21; x0b; xff; x00; x00; x08; x1a; x01].

Definition dfuse_settings : DfuSettings :=
  {| configurationValue := 1; interfaceNumber := 0; alternateSetting := 0 |}.

Definition healthy : SimConfig :=
  {| cfg_descriptor := dfuse_descriptor;
     cfg_start_state := STATE.dfuIDLE;
     cfg_busy_polls := 1;
     cfg_poll_timeout := 5;
     cfg_fault := None;
     cfg_unplug_at := None |}.

(** The same device with an error latched from an earlier operation. *)
Definition latched : SimConfig :=
  {| cfg_descriptor := dfuse_descriptor;
     cfg_start_state := STATE.dfuERROR;
     cfg_busy_polls := 1;
     cfg_poll_timeout := 5;
     cfg_fault := None;
     cfg_unplug_at := None |}.

(** A device whose flash write fails (errWRITE, status 3) on one block. *)
Definition failing_at (blk : Z) : SimConfig :=
  {| cfg_descriptor := dfuse_descriptor;
     cfg_start_state := STATE.dfuIDLE;
     cfg_busy_polls := 1;
     cfg_poll_timeout := 5;
     cfg_fault := Some (blk, 3);
     cfg_unplug_at := None |}.

(** A device that disappears after [n] events. *)
Definition unplugged_after (n : nat) : SimConfig :=
  {| cfg_descriptor := dfuse_descriptor;
     cfg_start_state := STATE.dfuIDLE;
     cfg_busy_polls := 1;
     cfg_poll_timeout := 5;
     cfg_fault := None;
     cfg_unplug_at := Some n |}.

(** A firmware image: [n] bytes counting up from 0. *)
Fixpoint image_from (start : Z) (n : nat) : list byte :=
  match n with
  | O => []
  | S n' => byte_of_Z start :: image_from (start + 1) n'
  end.

Definition image (n : nat) : list byte := image_from 0 n.

(** The status record a GETSTATUS answer decodes to. *)
Definition decode_status (d : list byte) : DfuStatus :=
  {| status := byte_at d 0;
     pollTimeout := Z.land (byte_at d 1 + 256 * byte_at d 2 + 65536 * byte_at d 3
                            + 16777216 * byte_at d 4) 16777215;
     state := byte_at d 4 |}.

(** A GETSTATUS transfer that completed with the six bytes [d]. *)
Definition status_read (settings : DfuSettings) (d : list byte) : Event :=
  EvControlIn (class_setup settings DFU.GETSTATUS 0) 6
    (inr {| in_status := status_ok; in_data := d |}).



(** A device that reports dfuDNBUSY for the first [n] status reads of a
    history and dfuDNLOAD_IDLE from then on, asking for 7 ms each time. *)
Definition busy_answer : list byte := [x00; x07; x00; x00; x04; x00].
Definition ready_answer : list byte := [x00; x07; x00; x00; x05; x00].

Definition patient (n : nat) : USBDevice :=
  {| answerOut := fun _ _ data =>
       inr {| out_status := status_ok; bytesWritten := from_option byteLength 0 data |};
     answerIn := fun h _ _ =>
       inr {| in_status := status_ok;
              in_data := if (length h <? 2 * n)%nat then busy_answer else ready_answer |} |}.

(** ** Vocabulary of the statements *)

(** A class OUT request the device accepted. *)
Definition out_accepted (settings : DfuSettings) (request : Z)
    (data : option (list byte)) (value n : Z) : Event :=
  EvControlOut (class_setup settings request value) data
    (inr {| out_status := status_ok; bytesWritten := n |}).

(** A GETSTATE transfer that completed with the bytes [d]. *)
Definition state_read (settings : DfuSettings) (d : list byte) : Event :=
  EvControlIn (class_setup settings DFU.GETSTATE 0) 1
    (inr {| in_status := status_ok; in_data := d |}).

(** A transfer that was rejected, that completed with a status other than
    "ok", or (for a read) that delivered no byte at all. *)
Definition transfer_failed (ev : Event) : Prop :=
  match ev with
  | EvControlOut _ _ (inl _) => True
  | EvControlOut _ _ (inr res) => out_status res <> status_ok
  | EvControlIn _ _ (inl _) => True
  | EvControlIn _ _ (inr res) => in_status res <> status_ok \/ in_data res = []
  | _ => False
  end.

(** What [abortToIdle] answers once it has read the state [s]. *)
Definition idle_or_throw (s : Z) : Outcome unit :=
  if s =? STATE.dfuIDLE then Ret tt
  else Throw (ErrorObj ("Failed to return to IDLE, state=" +:+ show_number s)).

(** The three ways a run of [abortToIdle] can go. *)
Inductive abortToIdle_run (settings : DfuSettings) (h : History)
  : Outcome unit -> History -> Prop :=
| abort_direct n d :
    d <> [] -> byte_at d 0 <> STATE.dfuERROR ->
    abortToIdle_run settings h (idle_or_throw (byte_at d 0))
      (h ++ [out_accepted settings DFU.ABORT None 0 n; state_read settings d])
| abort_cleared n d n' d' :
    d <> [] -> byte_at d 0 = STATE.dfuERROR -> d' <> [] ->
    abortToIdle_run settings h (idle_or_throw (byte_at d' 0))
      (h ++ [out_accepted settings DFU.ABORT None 0 n; state_read settings d;
             out_accepted settings DFU.CLRSTATUS None 0 n'; state_read settings d'])
| abort_transfer_failed e evs ev :
    transfer_failed ev -> (length evs < 4)%nat ->
    abortToIdle_run settings h (Throw e) (h ++ evs ++ [ev]).

(** The command buffer, written out: opcode, then the address as an unsigned
    32-bit number, low byte first. *)
Definition command_bytes (opcode addr : Z) : list byte :=
  let u := addr mod 4294967296 in
  [byte_of_Z opcode; byte_of_Z u; byte_of_Z (Z.shiftr u 8);
   byte_of_Z (Z.shiftr u 16); byte_of_Z (Z.shiftr u 24)].

Definition setaddr_failed (st : DfuStatus) : Thrown :=
  ErrorObj ("DFUSe SETADDR failed: status=" +:+ show_number (status st)
            +:+ ", state=" +:+ show_number (state st)).

Definition erase_failed (st : DfuStatus) : Thrown :=
  ErrorObj ("DFUSe ERASE failed: status=" +:+ show_number (status st)
            +:+ ", state=" +:+ show_number (state st)).

(** The five steps section 4.4 of the specification gives for a vendor
    command, in its order: (1) [abortToIdle]; (2), (3) the command buffer sent
    as a DNLOAD to block 0; (4) poll until dfuDNLOAD_IDLE; (5) fail if the
    status is not zero. *)
Definition vendor_command_steps (device : USBDevice) (settings : DfuSettings)
    (fuel : nat) (opcode addr : Z) (failure : DfuStatus -> Thrown) : Eff History unit :=
  fun h =>
    match abortToIdle device settings h with
    | (Ret _, h1) =>
        match requestOut device settings DFU.DNLOAD (Some (command_bytes opcode addr)) 0 h1 with
        | (Ret _, h2) =>
            match pollUntil device settings fuel STATE.dfuDNLOAD_IDLE h2 with
            | (Ret st, h3) => (if status st =? 0 then Ret tt else Throw (failure st), h3)
            | (Throw e, h3) => (Throw e, h3)
            | (Hang l, h3) => (Hang l, h3)
            end
        | (Throw e, h2) => (Throw e, h2)
        | (Hang l, h2) => (Hang l, h2)
        end
    | (Throw e, h1) => (Throw e, h1)
    | (Hang l, h1) => (Hang l, h1)
    end.

(** [c] only appends to the history, and only events satisfying [P]. *)
Definition appends {A} (P : Event -> Prop) (c : Eff History A) : Prop :=
  forall h r h', c h = (r, h') -> exists evs, h' = h ++ evs /\ Forall P evs.

(** Events that carry no payload to the device and report no progress:
    reads, waits, and OUT requests without a data stage. *)
Definition housekeeping (ev : Event) : Prop :=
  match ev with
  | EvControlIn _ _ _ | EvSleep _ | EvControlOut _ None _ => True
  | _ => False
  end.

Definition hangs_in {S A} (P : Loop -> Prop) (c : Eff S A) : Prop :=
  forall s l s', c s = (Hang l, s') -> P l.

(** Number of data blocks for an image of length [L] cut in pieces of [S]. *)
Definition ceil_div (L S : Z) : Z := (L + S - 1) / S.

Definition block_count (view : list byte) (xferSize : Z) : nat :=
  Z.to_nat (ceil_div (byteLength view) xferSize).

(** The [i]-th piece of the image. *)
Definition chunk (xferSize : Z) (view : list byte) (i : nat) : list byte :=
  take (Z.to_nat xferSize) (drop (i * Z.to_nat xferSize) view).

Definition data_block (xferSize : Z) (view : list byte) (firstBlock : Z) (i : nat)
  : Z * list byte :=
  (firstBlock + Z.of_nat i, chunk xferSize view i).

Definition data_blocks (xferSize : Z) (view : list byte) (firstBlock : Z)
  : list (Z * list byte) :=
  map (data_block xferSize view firstBlock) (seq 0 (block_count view xferSize)).

(** Everything a complete [do_download] sends by DNLOAD: the data blocks, then
    the empty block that ends the image. *)
Definition expected_dnloads (xferSize : Z) (view : list byte) (firstBlock : Z)
  : list (Z * list byte) :=
  data_blocks xferSize view firstBlock
  ++ [(firstBlock + Z.of_nat (block_count view xferSize), [])].

(** [blocks_acknowledged k h h1]: started at history [h], the loop has sent
    the first [k] data blocks, the device has answered each with status 0,
    and the history is now [h1]. *)
Inductive blocks_acknowledged (device : USBDevice) (settings : DfuSettings)
    (pollFuel : nat) (xferSize : Z) (view : list byte) (firstBlock : Z)
  : nat -> History -> History -> Prop :=
| acknowledged_none h :
    blocks_acknowledged device settings pollFuel xferSize view firstBlock 0 h h
| acknowledged_next k h h1 st h2 :
    blocks_acknowledged device settings pollFuel xferSize view firstBlock k h h1 ->
    Z.of_nat k * xferSize < byteLength view ->
    dnloadBlock device settings pollFuel (chunk xferSize view k)
      (firstBlock + Z.of_nat k) h1 = (Ret st, h2) ->
    status st = 0 ->
    blocks_acknowledged device settings pollFuel xferSize view firstBlock (S k) h
      (h2 ++ [EvProgress (Z.min (Z.of_nat (S k) * xferSize) (byteLength view))
                (byteLength view)]).

(** A progress report no larger than [bound]. *)
Definition progress_at_most (bound : Z) (ev : Event) : Prop :=
  match ev with
  | EvProgress done _ => done <= bound
  | _ => True
  end.

(** The calls a loop adds to the record are distinct sizes, none of them tried
    before; and recording does not change the run. *)
Definition records_fresh_sizes {St : Type}
    (do_download : Z -> list byte -> bool -> option Z -> Eff St unit)
    (loop : forall S : Type, (Z -> list byte -> bool -> option Z -> Eff S unit) ->
                             list byte -> list Z -> gset Z -> Thrown -> Eff S bool) : Prop :=
  forall data sizes (tried : gset Z) lastErr st calls,
    fst (loop _ (recording do_download) data sizes tried lastErr (st, calls))
    = fst (loop _ do_download data sizes tried lastErr st) /\
    fst (snd (loop _ (recording do_download) data sizes tried lastErr (st, calls)))
    = snd (loop _ do_download data sizes tried lastErr st) /\
    exists new,
      snd (snd (loop _ (recording do_download) data sizes tried lastErr (st, calls)))
      = calls ++ new /\
      NoDup new /\ (forall x, x ∈ new -> (x ∉ tried) /\ (x ∈ sizes)).

(** A configuration descriptor cut short inside its interface descriptor: the
    nine header bytes (with [wTotalLength = 11]) and the first two bytes of
    an interface descriptor.  It holds no functional descriptor. *)
Definition truncated_descriptor : list byte :=
  [x09; x02; x0b; x00; x01; x01; x00; xc0; x32; x09; x04].

Definition truncated : SimConfig :=
  {| cfg_descriptor := truncated_descriptor;
     cfg_start_state := STATE.dfuIDLE;
     cfg_busy_polls := 1;
     cfg_poll_timeout := 5;
     cfg_fault := None;
     cfg_unplug_at := None |}.

(** A well-formed descriptor with the DFU interface but no functional
    descriptor, and one whose second record has length 0. *)
Definition bare_descriptor : list byte :=
  [x09; x02; x12; x00; x01; x01; x00; xc0; x32;
   x09; x04; x00; x00; x00; xfe; x01; x02; x00].

Definition zero_length_descriptor : list byte :=
  [x09; x02; x0d; x00; x01; x01; x00; xc0; x32; x00; x04; x00; x00].

Definition reporting (descriptor : list byte) : SimConfig :=
  {| cfg_descriptor := descriptor;
     cfg_start_state := STATE.dfuIDLE;
     cfg_busy_polls := 1;
     cfg_poll_timeout := 5;
     cfg_fault := None;
     cfg_unplug_at := None |}.

(** [c] sends no vendor command. *)
Definition no_vendor_command {A} (c : Eff History A) : Prop :=
  forall h r h', c h = (r, h') -> vendor_commands h' = vendor_commands h.

(** The DETACH request that ends the run, with whatever the device answers. *)
Definition detach_event (device : USBDevice) (settings : DfuSettings) (h : History) : Event :=
  EvControlOut (class_setup settings DFU.DETACH 1000) (Some [])
    (answerOut device h (class_setup settings DFU.DETACH 1000) (Some [])).

(** ** Status answers and descriptors as a device builds them *)

(** The six bytes of a GETSTATUS answer (DFU 1.1, section 6.1.2): bStatus,
    the 24-bit bwPollTimeout low byte first, bState, iString. *)
Definition encode_status (st : DfuStatus) (iString : byte) : list byte :=
  [byte_of_Z (status st);
   byte_of_Z (pollTimeout st);
   byte_of_Z (Z.shiftr (pollTimeout st) 8);
   byte_of_Z (Z.shiftr (pollTimeout st) 16);
   byte_of_Z (state st);
   iString].

Definition status_in_range (st : DfuStatus) : Prop :=
  0 <= status st < 256 /\ 0 <= pollTimeout st < 16777216 /\ 0 <= state st < 256.

(** One record of a configuration descriptor: bLength and bDescriptorType,
    then the rest of the record. *)
Record Descriptor : Type := {
  bDescriptorType : Z;
  payload : list byte
}.

Definition encode_descriptor (r : Descriptor) : list byte :=
  byte_of_Z (2 + byteLength (payload r)) :: byte_of_Z (bDescriptorType r) :: payload r.

Definition encode_descriptors (rs : list Descriptor) : list byte :=
  concat (map encode_descriptor rs).

(** A record whose length fits its length byte, and which is long enough
    for the fields the walk reads from it: up to bInterfaceProtocol of an
    interface record, up to wTransferSize of a DFU functional record. *)
Definition well_formed (r : Descriptor) : Prop :=
  0 <= bDescriptorType r < 256 /\
  byteLength (payload r) <= 253 /\
  (bDescriptorType r = 4 -> 6 <= byteLength (payload r)) /\
  (bDescriptorType r = 33 -> 5 <= byteLength (payload r)).

(** An interface record for the interface and alternate of the settings, in
    DFU mode: class 0xFE, subclass 1, protocol 2. *)
Definition selects (settings : DfuSettings) (r : Descriptor) : bool :=
  (byte_at (payload r) 0 =? interfaceNumber settings)
  && (byte_at (payload r) 1 =? alternateSetting settings)
  && (byte_at (payload r) 3 =? 254)
  && (byte_at (payload r) 4 =? 1)
  && (byte_at (payload r) 5 =? 2).

(** The wTransferSize field of a DFU functional record, 2048 standing in
    for 0. *)
Definition advertised (r : Descriptor) : Z :=
  let w := byte_at (payload r) 3 + 256 * byte_at (payload r) 4 in
  if w =? 0 then 2048 else w.

(** The search of [getTransferSize] on a list of records. *)
Fixpoint advertised_size (settings : DfuSettings) (inTargetIntf : bool)
    (rs : list Descriptor) : Z :=
  match rs with
  | [] => 2048
  | r :: rest =>
      if bDescriptorType r =? 4 then advertised_size settings (selects settings r) rest
      else if inTargetIntf && (bDescriptorType r =? 33) then advertised r
      else advertised_size settings inTargetIntf rest
  end.

(** The two reads of [getTransferSize] completed, the second one with the
    nine-byte header followed by the records [rs]. *)
Definition reports_descriptors (device : USBDevice) (settings : DfuSettings) (h : History)
    (rs : list Descriptor) : Prop :=
  exists first header,
    answerIn device h (descriptor_setup settings) 4
    = inr {| in_status := status_ok; in_data := first |} /\
    4 <= byteLength first /\
    answerIn device
      (h ++ [EvControlIn (descriptor_setup settings) 4
               (inr {| in_status := status_ok; in_data := first |})])
      (descriptor_setup settings) (byte_at first 2 + 256 * byte_at first 3)
    = inr {| in_status := status_ok; in_data := header ++ encode_descriptors rs |} /\
    byteLength header = 9.

(** The interface and functional records of [dfuse_descriptor]. *)
Definition dfuse_records : list Descriptor :=
  [ {| bDescriptorType := 4; payload := [x00; x00; x00; xfe; x01; x02; x00] |};
    {| bDescriptorType := 33; payload := [x0b; xff; x00; x00; x08; x1a; x01] |} ].

(** The progress reports of a history, oldest first: bytes done and total. *)
Definition progress_of (ev : Event) : option (Z * Z) :=
  match ev with
  | EvProgress done total => Some (done, total)
  | _ => None
  end.

Definition progress_reports (h : History) : list (Z * Z) := omap progress_of h.

(** The report made once [i] blocks are acknowledged. *)
Definition progress_after (xferSize : Z) (view : list byte) (i : nat) : Z * Z :=
  (Z.min (Z.of_nat i * xferSize) (byteLength view), byteLength view).

(** Everything a complete [do_download] reports: 0 bytes before the first
    block, then the running total after each block. *)
Definition expected_progress (xferSize : Z) (view : list byte) : list (Z * Z) :=
  map (progress_after xferSize view) (seq 0 (S (block_count view xferSize))).

(** ** Earlier and later versions of the page

    The repository carries three versions of the flashing page.  The
    definitions above follow the second one; the first one retries without
    looking at the error, the third one compares the failed size with the
    head of the ladder. *)

(** The first version: [writeWithFallback] returns nothing and rethrows the
    last error whatever it says. *)
Module PlainLadder.
Section Orchestrator.
Context {St : Type}.
Variable do_download : Z -> list byte -> bool -> option Z -> Eff St unit.

Fixpoint writeWithFallback_loop (data : list byte) (sizes : list Z)
    (tried : gset Z) (lastErr : Thrown) : Eff St unit :=
  match sizes with
  | [] => throw lastErr
  | s :: rest =>
      if bool_decide (s ∈ tried) then writeWithFallback_loop data rest tried lastErr
      else
        let tried := {[s]} ∪ tried in
        try_catch (do_download s data true (Some 2))
          (fun e => writeWithFallback_loop data rest tried e)
  end.

Definition writeWithFallback (data : list byte) (sizes : list Z) : Eff St unit :=
  writeWithFallback_loop data sizes ∅ Undefined.
End Orchestrator.
End PlainLadder.

(** The third version: a disconnection at the size [sizes[0]] moves on to
    the next size; at any other size it counts as success once more than one
    size was tried. *)
Module FirstSizeLadder.
Section Orchestrator.
Context {St : Type}.
Variable do_download : Z -> list byte -> bool -> option Z -> Eff St unit.

(** [first] is [sizes[0]] of the whole ladder, [undefined] if it is empty. *)
Fixpoint writeWithFallback_loop (first : option Z) (data : list byte) (sizes : list Z)
    (tried : gset Z) (lastErr : Thrown) : Eff St bool :=
  match sizes with
  | [] => after_ladder lastErr
  | s :: rest =>
      if bool_decide (s ∈ tried) then writeWithFallback_loop first data rest tried lastErr
      else
        let tried := {[s]} ∪ tried in
        fun st =>
          match do_download s data true (Some 2) st with
          | (Ret _, st') => (Ret true, st')
          | (Throw e, st') =>
              if disconnected e then
                if bool_decide (Some s = first)
                then writeWithFallback_loop first data rest tried e st'
                else if (1 <? Z.of_nat (size tried)) then (Ret true, st')
                else writeWithFallback_loop first data rest tried e st'
              else writeWithFallback_loop first data rest tried e st'
          | (Hang l, st') => (Hang l, st')
          end
  end.

Definition writeWithFallback (data : list byte) (sizes : list Z) : Eff St bool :=
  writeWithFallback_loop (head sizes) data sizes ∅ Undefined.
End Orchestrator.

Section Flash.
Variable clock : Clock.
Variable device : USBDevice.
Variable settings : DfuSettings.

(** Both branches of [reconnectIfNeeded] return [true]. *)
Definition reconnectIfNeeded : Eff History bool :=
  try_catch (getState device settings ;;; ret true) (fun _ => ret true).

(** The [try] block of the third version's [flash], after the firmware is
    loaded. *)
Definition flash_body (fuel : nat) (pandaBuffer bootstubBuffer : list byte)
  : Eff History unit :=
  transferSize <- getTransferSize device settings ;;
  let ladder := [transferSize; 2048; 1024; 512; 256] in
  withTimeout clock (dfuseErase device settings fuel 0x08004000) 10000 "Erase 0x08004000" ;;;
  withTimeout clock (dfuseErase device settings fuel 0x08008000) 10000 "Erase 0x08008000" ;;;
  withTimeout clock (dfuseErase device settings fuel 0x0800c000) 10000 "Erase 0x0800c000" ;;;
  withTimeout clock (dfuseSetAddress device settings fuel 0x08004000) 5000 "Set address 0x08004000" ;;;
  pandaSuccess <- withTimeout clock
                    (writeWithFallback (do_download device settings fuel) pandaBuffer ladder)
                    30000 "Write panda.bin" ;;
  failed <- (if negb pandaSuccess then ret true
             else reconnected <- reconnectIfNeeded ;; ret (negb reconnected)) ;;
  (if (failed : bool)
   then throw (ErrorObj "Failed to write panda.bin or reconnect after flash")
   else ret tt) ;;;
  withTimeout clock (dfuseErase device settings fuel 0x08000000) 10000 "Erase 0x08000000" ;;;
  withTimeout clock (dfuseSetAddress device settings fuel 0x08000000) 5000 "Set address 0x08000000" ;;;
  withTimeout clock (writeWithFallback (do_download device settings fuel) bootstubBuffer ladder)
    30000 "Write bootstub.panda.bin" ;;;
  try_catch (requestOut device settings 0 (Some (ArrayBuffer 0)) 1000 ;;; ret tt)
            (fun _ => ret tt).

Definition flash (fuel : nat) (pandaBuffer bootstubBuffer : list byte)
  : Eff History FlashReport :=
  try_catch (flash_body fuel pandaBuffer bootstubBuffer ;;; ret FlashComplete)
    (fun e =>
       let errorMsg := flash_errorMsg e in
       if includes errorMsg "timed out" then ret FlashTimedOut
       else if includes errorMsg "disconnected" then ret FlashLikelyCompleted
       else ret (FlashFailed errorMsg)).
End Flash.
End FirstSizeLadder.

(** A download action that fails at every size but [good], with the error
    message [complaint]. *)
Definition picky (good : Z) (complaint : string)
  : Z -> list byte -> bool -> option Z -> Eff (list Z) unit :=
  fun s _ _ _ calls =>
    (if s =? good then Ret tt else Throw (ErrorObj complaint), calls ++ [s]).

(** The outcome was produced by a download at one of the sizes. *)
Definition came_from_download {St : Type}
    (do_download : Z -> list byte -> bool -> option Z -> Eff St unit)
    (data : list byte) (sizes : list Z) (r : Outcome unit) (st' : St) : Prop :=
  exists s st0, s ∈ sizes /\ do_download s data true (Some 2) st0 = (r, st').

(** How a retry ladder can end: with [true]; with an error that does not
    mention a disconnection and is either [passed_on] or the error of a
    download; or waiting forever inside a download. *)
Definition ladder_outcome {St : Type}
    (do_download : Z -> list byte -> bool -> option Z -> Eff St unit)
    (data : list byte) (sizes : list Z) (passed_on : Prop)
    (r : Outcome bool) (st' : St) : Prop :=
  match r with
  | Ret b => b = true
  | Throw e =>
      disconnected e = false /\
      (passed_on \/ came_from_download do_download data sizes (Throw e) st')
  | Hang l => came_from_download do_download data sizes (Hang l) st'
  end.

(** The steps of a flashing run of the third version, one after the other,
    each on the history the previous one left. *)
Definition first_size_flash_steps (device : USBDevice) (settings : DfuSettings) (fuel : nat)
    (pandaBuffer bootstubBuffer : list byte) (h h' : History) : Prop :=
  exists transferSize h0 h1 h2 h3 h4 h5 h7 h8 h9,
    getTransferSize device settings h = (Ret transferSize, h0) /\
    1 <= transferSize <= 65535 /\
    dfuseErase device settings fuel 0x08004000 h0 = (Ret tt, h1) /\
    dfuseErase device settings fuel 0x08008000 h1 = (Ret tt, h2) /\
    dfuseErase device settings fuel 0x0800C000 h2 = (Ret tt, h3) /\
    dfuseSetAddress device settings fuel 0x08004000 h3 = (Ret tt, h4) /\
    FirstSizeLadder.writeWithFallback (do_download device settings fuel) pandaBuffer
      [transferSize; 2048; 1024; 512; 256] h4 = (Ret true, h5) /\
    dfuseErase device settings fuel 0x08000000 (snd (getState device settings h5))
    = (Ret tt, h7) /\
    dfuseSetAddress device settings fuel 0x08000000 h7 = (Ret tt, h8) /\
    FirstSizeLadder.writeWithFallback (do_download device settings fuel) bootstubBuffer
      [transferSize; 2048; 1024; 512; 256] h8 = (Ret true, h9) /\
    h' = h9 ++ [detach_event device settings h9].

(** ** Finding the DFU interface

    What WebUSB shows of a device: configurations, their interfaces, the
    alternate settings of each. *)
Module USB.
Record USBAlternateInterface : Type := {
  alternateSetting : Z;
  interfaceClass : Z;
  interfaceSubclass : Z;
  interfaceProtocol : Z;
  interfaceName : option string
}.

Record USBInterface : Type := {
  interfaceNumber : Z;
  alternates : list USBAlternateInterface
}.

Record USBConfiguration : Type := {
  configurationValue : Z;
  interfaces : list USBInterface
}.
End USB.

(** The [DfuSettings] object the page builds for a matching alternate. *)
Module Found.
Record DfuSettings : Type := {
  configuration : USB.USBConfiguration;
  interface : USB.USBInterface;
  alternate : USB.USBAlternateInterface;
  name : option string
}.
End Found.

(** The test of [findDfuInterfaces]: DFU class, DFU subclass, DFU mode. *)
Definition dfu_mode (alt : USB.USBAlternateInterface) : bool :=
  (USB.interfaceClass alt =? 0xfe) && (USB.interfaceSubclass alt =? 0x01)
  && (USB.interfaceProtocol alt =? 0x02).

(** The three nested [for] loops, each [push] in the order it happens. *)
Definition findDfuInterfaces (configurations : list USB.USBConfiguration)
  : list Found.DfuSettings :=
  flat_map (fun conf =>
    flat_map (fun intf =>
      flat_map (fun alt =>
        if dfu_mode alt
        then [ {| Found.configuration := conf; Found.interface := intf;
                  Found.alternate := alt; Found.name := USB.interfaceName alt |} ]
        else [])
        (USB.alternates intf))
      (USB.interfaces conf))
    configurations.

(** The numbers [DfuDevice] reads from the settings it is given. *)
Definition settings_of (s : Found.DfuSettings) : DfuSettings :=
  {| configurationValue := USB.configurationValue (Found.configuration s);
     interfaceNumber := USB.interfaceNumber (Found.interface s);
     alternateSetting := USB.alternateSetting (Found.alternate s) |}.

(** The interface record by which the configuration descriptor describes an
    alternate setting (USB 2.0, table 9-12). *)
Definition interface_record (intf : USB.USBInterface) (alt : USB.USBAlternateInterface)
    (bNumEndpoints iInterface : byte) : Descriptor :=
  {| bDescriptorType := 4;
     payload := [byte_of_Z (USB.interfaceNumber intf);
                 byte_of_Z (USB.alternateSetting alt);
                 bNumEndpoints;
                 byte_of_Z (USB.interfaceClass alt);
                 byte_of_Z (USB.interfaceSubclass alt);
                 byte_of_Z (USB.interfaceProtocol alt);
                 iInterface] |}.

(** The STM32 bootloader as WebUSB shows it: one configuration, interface 0
    with two DFU-mode alternates (internal flash, option bytes). *)
Definition bootloader_alternate (n : Z) (label : string) : USB.USBAlternateInterface :=
  {| USB.alternateSetting := n; USB.interfaceClass := 0xfe; USB.interfaceSubclass := 1;
     USB.interfaceProtocol := 2; USB.interfaceName := Some label |}.

Definition bootloader_interface : USB.USBInterface :=
  {| USB.interfaceNumber := 0;
     USB.alternates := [bootloader_alternate 0 "@Internal Flash";
                        bootloader_alternate 1 "@Option Bytes"] |}.

Definition bootloader_configuration : USB.USBConfiguration :=
  {| USB.configurationValue := 1; USB.interfaces := [bootloader_interface] |}.

(** ** Opening and closing the device

    [DfuDevice.open] and [close] do not transfer anything; they call the
    session methods of the WebUSB device object and read its attributes. *)

Inductive Call : Type :=
| CallOpen
| CallSelectConfiguration (configurationValue : Z)
| CallClaimInterface (interfaceNumber : Z)
| CallSelectAlternateInterface (interfaceNumber alternateSetting : Z)
| CallClose.

(** The attributes of the device object the code reads.  [claimed] and
    [alternate] belong to the interface objects, which are live: they are
    given per position in [configuration.interfaces]. *)
Record Port : Type := {
  opened : bool;
  configuration : option USB.USBConfiguration;
  claimed : nat -> bool;
  alternate : nat -> option USB.USBAlternateInterface
}.

(** The device object and the calls made on it so far. *)
Definition Session : Type := Port * list Call.

(** The browser and the device behind it: whether a call is rejected
    ([Some e]) and what the device object shows afterwards. *)
Record Host : Type := {
  perform : Session -> Call -> option Thrown * Port
}.

Definition invoke (host : Host) (c : Call) : Eff Session unit :=
  fun s =>
    let r := perform host s c in
    (match fst r with Some e => Throw e | None => Ret tt end, (snd r, snd s ++ [c])).

Definition device_now : Eff Session Port := fun s => (Ret (fst s), s).

(** Reading [property] of [value], which is [null] or [undefined]. *)
Definition TypeError_reading (value property : string) : Thrown :=
  ErrorObj ("Cannot read properties of " +:+ value +:+ " (reading '" +:+ property +:+ "')").

Section Open.
Variable host : Host.
Variable settings : DfuSettings.

(** [this.device.configuration!.interfaces[intfNumber]], of which [property]
    is read next: the position and the interface found there. *)
Definition interface_at (intfNumber : Z) (property : string)
  : Eff Session (nat * USB.USBInterface) :=
  p <- device_now ;;
  match configuration p with
  | None => throw (TypeError_reading "null" "interfaces")
  | Some conf =>
      match (if 0 <=? intfNumber then USB.interfaces conf !! Z.to_nat intfNumber else None) with
      | Some intf => ret (Z.to_nat intfNumber, intf)
      | None => throw (TypeError_reading "undefined" property)
      end
  end.

(** [!intf.alternate || intf.alternate.alternateSetting !== alt] *)
Definition other_alternate (p : Port) (i : nat) (alt : Z) : bool :=
  match alternate p i with
  | None => true
  | Some a => negb (USB.alternateSetting a =? alt)
  end.

Definition open : Eff Session unit :=
  p <- device_now ;;
  (if negb (opened p) then invoke host CallOpen else ret tt) ;;;
  p <- device_now ;;
  (if match configuration p with
      | None => true
      | Some conf => negb (USB.configurationValue conf =? configurationValue settings)
      end
   then invoke host (CallSelectConfiguration (configurationValue settings))
   else ret tt) ;;;
  let intfNumber := interfaceNumber settings in
  found <- interface_at intfNumber "claimed" ;;
  p <- device_now ;;
  (if negb (claimed p (fst found)) then invoke host (CallClaimInterface intfNumber)
   else ret tt) ;;;
  let alt := alternateSetting settings in
  found <- interface_at intfNumber "alternate" ;;
  let i := fst found in
  let intf := snd found in
  p <- device_now ;;
  if other_alternate p i alt || (1 <? Z.of_nat (length (USB.alternates intf)))
  then
    try_catch (invoke host (CallSelectAlternateInterface intfNumber alt))
      (fun e =>
         p <- device_now ;;
         if other_alternate p i alt then throw e else ret tt)
  else ret tt.

Definition close : Eff Session unit :=
  try_catch (p <- device_now ;; if opened p then invoke host CallClose else ret tt)
    (fun _ => ret tt).

(** The calls [open] can make, in the order it makes them. *)
Definition open_calls : list Call :=
  [CallOpen;
   CallSelectConfiguration (configurationValue settings);
   CallClaimInterface (interfaceNumber settings);
   CallSelectAlternateInterface (interfaceNumber settings) (alternateSetting settings)].

(** The device object shows everything [open] wants, and the interface has
    a single alternate setting. *)
Definition ready (p : Port) : Prop :=
  opened p = true /\
  exists conf intf a,
    configuration p = Some conf /\
    USB.configurationValue conf = configurationValue settings /\
    0 <= interfaceNumber settings /\
    USB.interfaces conf !! Z.to_nat (interfaceNumber settings) = Some intf /\
    claimed p (Z.to_nat (interfaceNumber settings)) = true /\
    alternate p (Z.to_nat (interfaceNumber settings)) = Some a /\
    USB.alternateSetting a = alternateSetting settings /\
    (length (USB.alternates intf) <= 1)%nat.
End Open.

(** A host that accepts every call and updates the device object the way
    WebUSB describes, on the bootloader's single configuration. *)
Definition obliging : Host :=
  {| perform := fun s c =>
       let p := fst s in
       (None,
        match c with
        | CallOpen =>
            {| opened := true; configuration := configuration p;
               claimed := claimed p; alternate := alternate p |}
        | CallSelectConfiguration _ =>
            {| opened := opened p; configuration := Some bootloader_configuration;
               claimed := fun _ => false;
               alternate := fun _ => Some (bootloader_alternate 0 "@Internal Flash") |}
        | CallClaimInterface n =>
            {| opened := opened p; configuration := configuration p;
               claimed := fun i => (i =? Z.to_nat n)%nat || claimed p i;
               alternate := alternate p |}
        | CallSelectAlternateInterface n a =>
            {| opened := opened p; configuration := configuration p;
               claimed := claimed p;
               alternate := fun i => if (i =? Z.to_nat n)%nat
                                     then Some (bootloader_alternate a "")
                                     else alternate p i |}
        | CallClose =>
            {| opened := false; configuration := configuration p;
               claimed := fun _ => false; alternate := alternate p |}
        end) |}.

Definition unplugged_port : Port :=
  {| opened := false; configuration := None;
     claimed := fun _ => false; alternate := fun _ => None |}.

(** [c] only appends calls, and what it appends is a subsequence of
    [allowed]. *)
Definition calls_within {A} (allowed : list Call) (c : Eff Session A) : Prop :=
  forall s r s', c s = (r, s') -> exists calls, snd s' = snd s ++ calls /\ sublist calls allowed.

(** The device is open, the right configuration is selected, the
    interface is at the position of its number and claimed. *)
Definition prepared (settings : DfuSettings) (p : Port) (intf : USB.USBInterface) : Prop :=
  opened p = true /\
  0 <= interfaceNumber settings /\
  claimed p (Z.to_nat (interfaceNumber settings)) = true /\
  exists conf,
    configuration p = Some conf /\
    USB.configurationValue conf = configurationValue settings /\
    USB.interfaces conf !! Z.to_nat (interfaceNumber settings) = Some intf.

(** A device object on which nothing is left to do: open, configured,
    its only interface claimed, with a single alternate setting. *)
Definition settled_port : Port :=
  {| opened := true;
     configuration :=
       Some {| USB.configurationValue := 1;
               USB.interfaces :=
                 [ {| USB.interfaceNumber := 0;
                      USB.alternates := [bootloader_alternate 0 "@Internal Flash"] |} ] |};
     claimed := fun _ => true;
     alternate := fun _ => Some (bootloader_alternate 0 "@Internal Flash") |}.

(** ** Sending the device to its bootloader

    [enterDfuMode] of the page: open the device in normal mode, send the
    vendor request 0xd1 up to three times, close.  [open] and [close] of the
    device object are parameters here. *)

(** What the callback leaves on the page. *)
Inductive EnterReport : Type :=
| EnteredDfuMode
| EnterFailed (message : string).

Section EnterDfuMode.
Variable device : USBDevice.
Variable device_open : Eff History unit.
Variable device_close : Eff History unit.

Definition recover_setup : USBControlTransferParameters :=
  {| requestType := req_vendor;
     recipient := rcpt_device;
     request := 0xd1;
     value := 0;
     index := 0 |}.

(** [error.message] *)
Definition message_of (error : Thrown) : Eff History string :=
  match error with
  | ErrorObj m => ret m
  | Undefined => throw (TypeError_reading "undefined" "message")
  end.

(** One turn of the [for]: [Some success] when it leaves the loop by
    [break], [None] when it goes on to the next attempt. *)
Definition attempt_once (attempt : Z) : Eff History (option bool) :=
  try_catch
    (result <- controlTransferOut device recover_setup None ;;
     if is_ok (out_status result) then ret (Some true) else ret None)
    (fun error =>
       m <- message_of error ;;
       if (attempt =? 3) || includes m "disconnected"
       then ret (Some (includes m "disconnected"))
       else sleep 2000 ;;; ret None).

(** [for (let attempt = 1; attempt <= 3; attempt++)], entered at [attempt]
    with [remaining] turns to go; returns [success]. *)
Fixpoint attempts (remaining : nat) (attempt : Z) : Eff History bool :=
  match remaining with
  | O => ret false
  | S remaining' =>
      decision <- attempt_once attempt ;;
      match decision with
      | Some success => ret success
      | None => attempts remaining' (attempt + 1)
      end
  end.

Definition enterDfuMode : Eff History EnterReport :=
  try_catch
    (device_open ;;;
     success <- attempts 3 1 ;;
     (if (success : bool) then sleep 3000 else ret tt) ;;;
     try_catch device_close (fun _ => ret tt) ;;;
     ret EnteredDfuMode)
    (fun error =>
       m <- message_of error ;;
       if includes m "disconnected" then ret EnteredDfuMode else ret (EnterFailed m)).
End EnterDfuMode.

(** A recover request, with whatever came of it. *)
Definition recover_request (ev : Event) : Prop :=
  exists answer, ev = EvControlOut recover_setup None answer.

(** A recover request that the loop counts as success: it completed "ok",
    or it was rejected with a message that mentions a disconnection. *)
Definition recover_taken (ev : Event) : bool :=
  match ev with
  | EvControlOut _ _ (inr result) => is_ok (out_status result)
  | EvControlOut _ _ (inl (ErrorObj m)) => includes m "disconnected"
  | _ => false
  end.

(** A device that answers every request with a stall. *)
Definition stalling : USBDevice :=
  {| answerOut := fun _ _ _ => inr {| out_status := status_stall; bytesWritten := 0 |};
     answerIn := fun _ _ _ => inr {| in_status := status_stall; in_data := [] |} |}.

(** Number of control transfers among the events. *)
Fixpoint transfers (evs : list Event) : nat :=
  match evs with
  | [] => 0
  | (EvControlOut _ _ _ | EvControlIn _ _ _) :: rest => S (transfers rest)
  | _ :: rest => transfers rest
  end.

(** How the loop of [enterDfuMode] can end, given the events it added. *)
Definition attempts_outcome (evs : list Event) (r : Outcome bool) : Prop :=
  match r with
  | Ret success => success = existsb recover_taken evs
  | Throw e =>
      e = TypeError_reading "undefined" "message" /\
      last evs = Some (EvControlOut recover_setup None (inl Undefined))
  | Hang _ => False
  end.

(** ** The first page's own download

    The first version of the page defines a DFU class of its own inside the
    component, with a [do_download] that numbers blocks from 0 and looks
    only at the first byte of each status answer. *)
Module Inline.
Section Device.
Variable device : USBDevice.
Variable settings : DfuSettings.

Definition status_failed (dfuStatus : Z) : Thrown :=
  ErrorObj ("DFU error status: " +:+ show_number dfuStatus).

(** The [while (bytesTransferred < data.byteLength)]; returns [blockNum]. *)
Fixpoint download_loop (fuel : nat) (xferSize : Z) (data : list byte)
    (bytesTransferred blockNum : Z) : Eff History Z :=
  if bytesTransferred <? byteLength data
  then
    match fuel with
    | O => hang DownloadLoop
    | S fuel' =>
        let chunkSize := Z.min xferSize (byteLength data - bytesTransferred) in
        let chunk := slice data bytesTransferred (bytesTransferred + chunkSize) in
        controlTransferOut device (class_setup settings DFU.DNLOAD blockNum) (Some chunk) ;;;
        statusResult <- controlTransferIn device (class_setup settings DFU.GETSTATUS 0) 6 ;;
        (if 1 <=? byteLength (in_data statusResult)
         then
           let dfuStatus := byte_at (in_data statusResult) 0 in
           if negb (dfuStatus =? 0) then throw (status_failed dfuStatus) else ret tt
         else ret tt) ;;;
        logProgress (bytesTransferred + chunkSize) (byteLength data) ;;;
        sleep 10 ;;;
        download_loop fuel' xferSize data (bytesTransferred + chunkSize) (blockNum + 1)
    end
  else ret blockNum.

(** [manifestationTolerant] is accepted and not used. *)
Definition do_download (fuel : nat) (xferSize : Z) (data : list byte)
    (manifestationTolerant : bool) : Eff History unit :=
  try_catch
    (controlTransferOut device (class_setup settings DFU.CLRSTATUS 0) None ;;;
     blockNum <- download_loop fuel xferSize data 0 0 ;;
     controlTransferOut device (class_setup settings DFU.DNLOAD blockNum) None ;;;
     ret tt)
    (fun error => throw error).
End Device.
End Inline.

(** No transfer is rejected, and every answer to a read is empty or starts
    with a zero byte; the status of a transfer can be anything. *)
Definition never_complains (device : USBDevice) : Prop :=
  (forall h setup data, exists result, answerOut device h setup data = inr result) /\
  (forall h setup len,
      exists result, answerIn device h setup len = inr result /\
                     (in_data result = [] \/ byte_at (in_data result) 0 = 0)).

(** A simulated device that never faults and is never unplugged. *)
Definition conforming (cfg : SimConfig) : Prop :=
  cfg_fault cfg = None /\ cfg_unplug_at cfg = None.

(** No status poll is in progress while an error is latched. *)
Definition sim_inv (s : SimState) : Prop :=
  sim_state s = STATE.dfuERROR -> sim_busy s = 0%nat.

(** The device has taken a block and will report [state] after
    [cfg_busy_polls] status reads that show [busy_state]. *)
Definition sim_working (cfg : SimConfig) (state busy_state : Z) : SimState :=
  {| sim_state := state; sim_status := 0;
     sim_busy := cfg_busy_polls cfg; sim_busy_state := busy_state |}.

(** Everything a complete flashing run sends by DNLOAD: the erase commands
    and the address for the main image, the main image in blocks of 2048
    bytes from block 2, the erase command and the address for the bootstub,
    the bootstub image. *)
Definition flash_dnloads (pandaBuffer bootstubBuffer : list byte) : list (Z * list byte) :=
  [(0, command_bytes 65 0x08004000); (0, command_bytes 65 0x08008000);
   (0, command_bytes 65 0x0800C000); (0, command_bytes 33 0x08004000)]
  ++ expected_dnloads 2048 pandaBuffer 2
  ++ [(0, command_bytes 65 0x08000000); (0, command_bytes 33 0x08000000)]
  ++ expected_dnloads 2048 bootstubBuffer 2.

(** The vendor commands of a flashing run, in the order they are sent. *)
Definition flash_commands : list (Z * Z) :=
  [(65, 0x08004000); (65, 0x08008000); (65, 0x0800C000); (33, 0x08004000);
   (65, 0x08000000); (33, 0x08000000)].


(** [c] only appends to the history; when it returns it has made at least
    [m] control transfers, and when it gives up for lack of fuel at least
    [n]. *)
Definition costs {A} (m n : nat) (c : Eff History A) : Prop :=
  forall h r h',
    c h = (r, h') ->
    exists evs,
      h' = h ++ evs /\
      (forall a, r = Ret a -> (m <= transfers evs)%nat) /\
      (forall l, r = Hang l -> (n <= transfers evs)%nat).
(** From any history [c] returns a value with [Q], having appended events
    that send exactly [blocks] by DNLOAD. *)
Definition surely {A} (blocks : list (Z * list byte)) (Q : A -> Prop)
    (c : Eff History A) : Prop :=
  forall h r h',
    c h = (r, h') ->
    exists evs a, h' = h ++ evs /\ r = Ret a /\ Q a /\ dnloads evs = blocks.

(** [c] can only be late: it returns as [surely] says, or a timer stops it
    after 5000 ms or more, with an initial part of [blocks] sent. *)
Definition timely {A} (clock : Clock) (blocks : list (Z * list byte)) (Q : A -> Prop)
    (c : Eff History A) : Prop :=
  forall h r h',
    c h = (r, h') ->
    exists evs,
      h' = h ++ evs /\
      ((exists a, r = Ret a /\ Q a) /\ dnloads evs = blocks \/
       (exists operation timeoutMs, r = Throw (timed_out operation timeoutMs)) /\
       5000 <= elapsed clock h evs /\
       exists m, dnloads evs = take m blocks).

(** ** The helper library [webdfu.js]

    The same protocol written as a stand-alone library.  Where the page's
    class throws [Error] objects, the library throws strings: a computation
    that threw the string [s] answers [inl s]; a rejected transfer still
    throws what the browser rejected it with. *)
Module WebDfu.

Definition W (A : Type) : Type := Eff History (string + A).

Definition wret {A} (a : A) : W A := ret (inr a).

(** [throw s] of a string. *)
Definition wthrow {A} (s : string) : W A := ret (inl s).

Definition wbind {A B} (c : W A) (k : A -> W B) : W B :=
  r <- c ;;
  match r with
  | inl s => ret (inl s)
  | inr a => k a
  end.

(** Code that throws no string of its own. *)
Definition lift {A} (c : Eff History A) : W A := a <- c ;; ret (inr a).

(** [try { c } catch (error) { handler error }]: [error] is a string the
    library threw or the object of a rejected promise. *)
Definition wcatch {A} (c : W A) (handler : string + Thrown -> W A) : W A :=
  fun h =>
    match c h with
    | (Ret (inl s), h') => handler (inl s) h'
    | (Throw e, h') => handler (inr e) h'
    | r => r
    end.

Notation "x <~ c1 ;; c2" := (wbind c1 (fun x => c2))
  (at level 100, c1 at next level, right associativity) : eff_scope.
Notation "c1 ;;~ c2" := (wbind c1 (fun _ => c2))
  (at level 100, right associativity) : eff_scope.

(** [String(error)] of an [Error] object. *)
Definition String_of (e : Thrown) : string :=
  match e with
  | ErrorObj EmptyString => "Error"
  | ErrorObj m => "Error: " +:+ m
  | Undefined => "undefined"
  end.

(** [String(error)] of whatever was caught. *)
Definition caught_text (error : string + Thrown) : string :=
  match error with
  | inl s => s
  | inr e => String_of e
  end.

(** [s.endsWith(suffix)] *)
Definition endsWith (s suffix : string) : bool :=
  (String.length suffix <=? String.length s)%nat
  && String.eqb (String.substring (String.length s - String.length suffix)
                   (String.length suffix) s) suffix.

Section Device.
Variable device : USBDevice.
Variable settings : Found.DfuSettings.

(** [this.device_.reset()], which transfers nothing. *)
Variable device_reset : W unit.

(** [this.intfNumber] *)
Definition intfNumber : Z := USB.interfaceNumber (Found.interface settings).

Definition class_request (bRequest wValue : Z) : USBControlTransferParameters :=
  {| requestType := req_class;
     recipient := rcpt_interface;
     request := bRequest;
     value := wValue;
     index := intfNumber |}.

Definition requestOut (bRequest : Z) (data : option (list byte)) (wValue : Z) : W Z :=
  r <~ lift (controlTransferOut device (class_request bRequest wValue) data) ;;
  if negb (is_ok (out_status r))
  then wthrow (show_status (out_status r))
  else wret (bytesWritten r).

Definition requestIn (bRequest wLength wValue : Z) : W (list byte) :=
  r <~ lift (controlTransferIn device (class_request bRequest wValue) wLength) ;;
  if negb (is_ok (in_status r))
  then wthrow (show_status (in_status r))
  else wret (in_data r).

Definition detach : W Z := requestOut DFU.DETACH None 1000.

Definition download (data : list byte) (blockNum : Z) : W Z :=
  requestOut DFU.DNLOAD (Some data) blockNum.

Definition clearStatus : W Z := requestOut DFU.CLRSTATUS None 0.

Definition getStatus : W DfuStatus :=
  d <~ requestIn DFU.GETSTATUS 6 0 ;;
  st <~ lift (getUint8 d 0) ;;
  t <~ lift (getUint32 d 1) ;;
  s <~ lift (getUint8 d 4) ;;
  wret {| status := st; pollTimeout := Z.land t 0xFFFFFF; state := s |}.

Definition getState : W Z :=
  d <~ requestIn DFU.GETSTATE 1 0 ;;
  lift (getUint8 d 0).

Definition abort : W Z := requestOut DFU.ABORT None 0.

Definition abortToIdle : W unit :=
  abort ;;~
  st <~ getState ;;
  st <~ (if st =? STATE.dfuERROR
         then clearStatus ;;~ getState
         else wret st) ;;
  if negb (st =? STATE.dfuIDLE)
  then wthrow ("Failed to return to idle state after abort: state " +:+ show_number st)
  else wret tt.

(** The [while] of [poll_until], entered with the status just read. *)
Fixpoint poll_until_loop (fuel : nat) (state_predicate : Z -> bool) (st : DfuStatus)
  : W DfuStatus :=
  if negb (state_predicate (state st)) && negb (state st =? STATE.dfuERROR)
  then
    match fuel with
    | O => hang PollLoop
    | S fuel' =>
        lift (sleep (pollTimeout st)) ;;~
        st' <~ getStatus ;;
        poll_until_loop fuel' state_predicate st'
    end
  else wret st.

Definition poll_until (fuel : nat) (state_predicate : Z -> bool) : W DfuStatus :=
  st <~ getStatus ;;
  poll_until_loop fuel state_predicate st.

Definition poll_until_idle (fuel : nat) (idle_state : Z) : W DfuStatus :=
  poll_until fuel (fun s => s =? idle_state).

Definition command_failed (st : DfuStatus) : string :=
  "DFUSe command failed state=" +:+ show_number (state st)
  +:+ " status=" +:+ show_number (status st).

(** A failure of [abortToIdle] is caught and dropped. *)
Definition dfuseCommand (fuel : nat) (cmdBytes : list byte) : W unit :=
  wcatch abortToIdle (fun _ => wret tt) ;;~
  download cmdBytes 0 ;;~
  st <~ poll_until_idle fuel STATE.dfuDNLOAD_IDLE ;;
  if negb (status st =? 0) then wthrow (command_failed st) else wret tt.

Definition dfuseSetAddress (fuel : nat) (addr : Z) : W unit :=
  b <~ lift (command_buffer 0x21 addr) ;;
  dfuseCommand fuel b.

Definition dfuseErase (fuel : nat) (addr : Z) : W unit :=
  b <~ lift (command_buffer 0x41 addr) ;;
  dfuseCommand fuel b.

Definition download_failed (st : DfuStatus) : string :=
  "DFU DOWNLOAD failed state=" +:+ show_number (state st)
  +:+ ", status=" +:+ show_number (status st).

Definition manifest_failed (st : DfuStatus) : string :=
  "DFU MANIFEST failed state=" +:+ show_number (state st)
  +:+ ", status=" +:+ show_number (status st).

(** The [while (bytes_sent < expected_size)] of [do_download]; returns
    [bytes_sent] and [transaction].  [bytes_sent] advances by what the
    device reported as written. *)
Fixpoint download_loop (pollFuel fuel : nat) (xfer_size : Z) (data : list byte)
    (bytes_sent transaction : Z) : W (Z * Z) :=
  let expected_size := byteLength data in
  if bytes_sent <? expected_size
  then
    match fuel with
    | O => hang DownloadLoop
    | S fuel' =>
        let chunk_size := Z.min (expected_size - bytes_sent) xfer_size in
        bytes_written <~ download (slice data bytes_sent (bytes_sent + chunk_size))
                           transaction ;;
        st <~ poll_until_idle pollFuel STATE.dfuDNLOAD_IDLE ;;
        if negb (status st =? 0)
        then wthrow (download_failed st)
        else
          lift (logProgress (bytes_sent + bytes_written) expected_size) ;;~
          download_loop pollFuel fuel' xfer_size data (bytes_sent + bytes_written)
            (transaction + 1)
    end
  else wret (bytes_sent, transaction).

(** [typeof first_block === 'number' ? first_block
     : (this.settings?.alternate?.interfaceProtocol === 2 ? 2 : 0)] *)
Definition first_transaction (first_block : option Z) : Z :=
  match first_block with
  | Some b => b
  | None => if USB.interfaceProtocol (Found.alternate settings) =? 2 then 2 else 0
  end.

Definition reset_failure (text : string) : string :=
  "Error during reset for manifestation: " +:+ text.

Definition do_download (fuel : nat) (xfer_size : Z) (data : list byte)
    (manifestationTolerant : bool) (first_block : option Z) : W unit :=
  let expected_size := byteLength data in
  lift (logProgress 0 expected_size) ;;~
  sent <~ download_loop fuel fuel xfer_size data 0 (first_transaction first_block) ;;
  download (ArrayBuffer 0) (snd sent) ;;~
  (if manifestationTolerant
   then
     wcatch
       (st <~ poll_until fuel (fun s => (s =? STATE.dfuIDLE)
                                        || (s =? STATE.dfuMANIFEST_WAIT_RESET)) ;;
        if negb (status st =? 0) then wthrow (manifest_failed st) else wret tt)
       (fun error =>
          let s := caught_text error in
          if negb (endsWith s "Device unavailable.")
             && negb (endsWith s "The device was disconnected.")
          then wthrow ("Error during DFU manifest: " +:+ s)
          else wret tt)
   else
     wcatch (getStatus ;;~ wret tt) (fun _ => wret tt)) ;;~
  wcatch device_reset
    (fun error =>
       match error with
       | inl s =>
           if String.eqb s "NetworkError: Unable to reset the device."
              || String.eqb s "NotFoundError: Device unavailable."
              || String.eqb s "NotFoundError: The device was disconnected."
           then wret tt
           else wthrow (reset_failure s)
       | inr e => wthrow (reset_failure (String_of e))
       end).

(** [programDfuseImage]: erase the pages, set the address, download. *)
Fixpoint erase_pages (fuel : nat) (pageAddrs : list Z) : W unit :=
  match pageAddrs with
  | [] => wret tt
  | a :: rest => dfuseErase fuel a ;;~ erase_pages fuel rest
  end.

Definition programDfuseImage (fuel : nat) (startAddr : Z) (bytes : list byte)
    (pageAddrs : list Z) (xferSize : Z) (firstBlock : option Z) : W unit :=
  abortToIdle ;;~
  erase_pages fuel pageAddrs ;;~
  dfuseSetAddress fuel startAddr ;;~
  do_download fuel xferSize bytes true firstBlock.
End Device.
End WebDfu.

(** A device that takes every request and reports [written] bytes for each
    OUT transfer; its status answers show dfuIDLE once the empty block that
    ends an image was the last block sent, dfuDNLOAD_IDLE otherwise. *)
Definition idle_answer : list byte := [x00; x07; x00; x00; x02; x00].

Definition agreeable (written : Z) : USBDevice :=
  {| answerOut := fun _ _ _ => inr {| out_status := status_ok; bytesWritten := written |};
     answerIn := fun h _ _ =>
       inr {| in_status := status_ok;
              in_data := match last (dnloads h) with
                         | Some (_, []) => idle_answer
                         | _ => ready_answer
                         end |} |}.

(** The settings of the bootloader's first alternate, and the same with the
    run-time protocol number. *)
Definition bootloader_settings : Found.DfuSettings :=
  {| Found.configuration := bootloader_configuration;
     Found.interface := bootloader_interface;
     Found.alternate := bootloader_alternate 0 "@Internal Flash";
     Found.name := Some "@Internal Flash" |}.

Definition runtime_settings : Found.DfuSettings :=
  {| Found.configuration := bootloader_configuration;
     Found.interface := bootloader_interface;
     Found.alternate :=
       {| USB.alternateSetting := 0; USB.interfaceClass := 0xfe; USB.interfaceSubclass := 1;
          USB.interfaceProtocol := 1; USB.interfaceName := None |};
     Found.name := None |}.

(** Every OUT transfer that completes "ok" reports all its bytes written. *)
Definition writes_all (device : USBDevice) : Prop :=
  forall h setup data result,
    answerOut device h setup (Some data) = inr result ->
    out_status result = status_ok ->
    bytesWritten result = byteLength data.

(** Every OUT transfer of at least one byte that completes "ok" reports at
    least one byte written. *)
Definition writes_some (device : USBDevice) : Prop :=
  forall h setup data result,
    answerOut device h setup (Some data) = inr result ->
    out_status result = status_ok ->
    data <> [] ->
    1 <= bytesWritten result.

(** ** What a vendor command puts on the wire *)







(** ** Progress of the library's download *)

(** [increasing_from lo l]: [l] increases strictly, from above [lo]. *)
Fixpoint increasing_from (lo : Z) (l : list Z) : Prop :=
  match l with
  | [] => True
  | x :: rest => lo < x /\ increasing_from x rest
  end.

(** A computation that leaves the history as it found it. *)
Definition silent {A} (c : Eff History A) : Prop := forall h, snd (c h) = h.

(** ** The recover requests on the wire *)

(** The recover request made at the history [h], with the device's answer. *)
Definition recover_event (device : USBDevice) (h : History) : Event :=
  EvControlOut recover_setup None (answerOut device h recover_setup None).

(** The loop of [enterDfuMode], entered at turn [attempt] (1 to 3; 4 is
    past the last turn) with the history [h].  A request that completes "ok"
    ends the loop with success, and so does one rejected with a message that
    mentions a disconnection; a request that completes otherwise is followed
    by the next turn at once; a rejected one is followed by a wait of
    2000 ms and the next turn, except at the third turn, where the loop ends
    without success; a rejection that carries no [Error] ends the loop with
    a [TypeError]. *)
Inductive recover_run (device : USBDevice) : Z -> History -> Outcome bool -> History -> Prop :=
| recover_exhausted h : recover_run device 4 h (Ret false) h
| recover_ok attempt h result :
    attempt <= 3 ->
    answerOut device h recover_setup None = inr result ->
    out_status result = status_ok ->
    recover_run device attempt h (Ret true) (h ++ [recover_event device h])
| recover_not_ok attempt h result r h' :
    attempt <= 3 ->
    answerOut device h recover_setup None = inr result ->
    out_status result <> status_ok ->
    recover_run device (attempt + 1) (h ++ [recover_event device h]) r h' ->
    recover_run device attempt h r h'
| recover_gone attempt h m :
    attempt <= 3 ->
    answerOut device h recover_setup None = inl (ErrorObj m) ->
    includes m "disconnected" = true ->
    recover_run device attempt h (Ret true) (h ++ [recover_event device h])
| recover_rejected_last h m :
    answerOut device h recover_setup None = inl (ErrorObj m) ->
    includes m "disconnected" = false ->
    recover_run device 3 h (Ret false) (h ++ [recover_event device h])
| recover_rejected attempt h m r h' :
    attempt < 3 ->
    answerOut device h recover_setup None = inl (ErrorObj m) ->
    includes m "disconnected" = false ->
    recover_run device (attempt + 1) (h ++ [recover_event device h; EvSleep 2000]) r h' ->
    recover_run device attempt h r h'
| recover_no_error attempt h :
    attempt <= 3 ->
    answerOut device h recover_setup None = inl Undefined ->
    recover_run device attempt h (Throw (TypeError_reading "undefined" "message"))
      (h ++ [recover_event device h]).

(** ** The flashing run of the first version

    The first version of the page runs the same commands without timers,
    without the pause between the two images, and through the ladder that
    starts at the device's own transfer size. *)
Module FirstVersion.
Section Flash.
Variable device : USBDevice.
Variable settings : DfuSettings.

(** [(dev as any).requestOut?.(0x00, 0, 1000)]: the number 0 goes where a
    buffer is expected; what the browser makes of it is left open. *)
Variable exit_request : Eff History Z.

(** The [try] block of [flash]. *)
Definition flash_body (fuel : nat) (pandaBin bootstubBin : list byte) : Eff History unit :=
  transferSize <- getTransferSize device settings ;;
  let ladder := [transferSize; 2048; 1024; 512; 256] in
  dfuseErase device settings fuel 0x08004000 ;;;
  dfuseErase device settings fuel 0x08008000 ;;;
  dfuseErase device settings fuel 0x0800C000 ;;;
  dfuseSetAddress device settings fuel 0x08004000 ;;;
  PlainLadder.writeWithFallback (do_download device settings fuel) pandaBin ladder ;;;
  dfuseErase device settings fuel 0x08000000 ;;;
  dfuseSetAddress device settings fuel 0x08000000 ;;;
  PlainLadder.writeWithFallback (do_download device settings fuel) bootstubBin ladder ;;;
  try_catch (exit_request ;;; ret tt) (fun _ => ret tt).

Definition flash (fuel : nat) (pandaBin bootstubBin : list byte) : Eff History FlashReport :=
  try_catch (flash_body fuel pandaBin bootstubBin ;;; ret FlashComplete)
    (fun e => ret (FlashFailed (flash_errorMsg e))).
End Flash.
End FirstVersion.

(** A device that is never busy. *)
Definition eager : SimConfig :=
  {| cfg_descriptor := dfuse_descriptor;
     cfg_start_state := STATE.dfuIDLE;
     cfg_busy_polls := 0;
     cfg_poll_timeout := 5;
     cfg_fault := None;
     cfg_unplug_at := None |}.

(** ** A flashing run on the wire *)

(** The sizes of a ladder that are tried, in order: each size once. *)
Fixpoint untried (tried : gset Z) (sizes : list Z) : list Z :=
  match sizes with
  | [] => []
  | s :: rest =>
      if bool_decide (s ∈ tried) then untried tried rest
      else s :: untried ({[s]} ∪ tried) rest
  end.

(** The DNLOAD blocks of one attempt at an image: the first [count] of the
    blocks that send it whole at the given size, numbered from 2. *)
Definition attempt_blocks (data : list byte) (attempt : Z * nat) : list (Z * list byte) :=
  take (snd attempt) (expected_dnloads (fst attempt) data 2).

(** The attempt has sent the whole image and the empty block after it. *)
Definition whole (data : list byte) (attempt : Z * nat) : Prop :=
  snd attempt = S (block_count data (fst attempt)).

(** A transfer the device rejected with a message that mentions a
    disconnection. *)
Definition rejected_as_gone (ev : Event) : Prop :=
  match ev with
  | EvControlOut _ _ (inl e) | EvControlIn _ _ (inl e) => disconnected e = true
  | _ => False
  end.

(** The events [evs] send the image [data] down the ladder [sizes]: one
    attempt after the other at the sizes of the ladder in order, each once;
    every attempt sends an initial part of the image's blocks at its size;
    the last attempt sends them all, or, where [lenient], ends with a
    transfer rejected as a disconnection. *)
Definition image_sent (lenient : bool) (data : list byte) (sizes : list Z)
    (evs : list Event) : Prop :=
  exists earlier final,
    dnloads evs = flat_map (attempt_blocks data) (earlier ++ [final]) /\
    map fst (earlier ++ [final]) `prefix_of` untried ∅ sizes /\
    (whole data final \/
     lenient = true /\ exists ev, last evs = Some ev /\ rejected_as_gone ev).

(** The four commands before the main image and the two before the
    bootstub, as DNLOADs of block 0. *)
Definition main_commands : list (Z * list byte) :=
  [(0, command_bytes 65 0x08004000); (0, command_bytes 65 0x08008000);
   (0, command_bytes 65 0x0800C000); (0, command_bytes 33 0x08004000)].

Definition bootstub_commands : list (Z * list byte) :=
  [(0, command_bytes 65 0x08000000); (0, command_bytes 33 0x08000000)].

(** The events of a flashing run, in the order of the wire: the transfer
    size is read and the main image's pages are erased and its address set
    ([before]); the main image goes down the ladder ([main]); then come the
    events [between]; the bootstub's page is erased and its address set
    ([after]); the bootstub image goes down the ladder ([bootstub]); and
    the run ends with the events [finally]. *)
Definition flash_wire (lenient : bool) (sizes : list Z) (pandaBuffer bootstubBuffer : list byte)
    (between finally : list Event -> Prop) (evs : list Event) : Prop :=
  exists before main pause after bootstub exit,
    evs = before ++ main ++ pause ++ after ++ bootstub ++ exit /\
    dnloads before = main_commands /\
    image_sent lenient pandaBuffer sizes main /\
    between pause /\
    dnloads after = bootstub_commands /\
    image_sent lenient bootstubBuffer sizes bootstub /\
    finally exit.

(** The pause of the second version: a wait of 1000 ms, then one read of
    the state, whatever it answers. *)
Definition paused (settings : DfuSettings) (evs : list Event) : Prop :=
  exists probe,
    evs = [EvSleep 1000; EvControlIn (class_setup settings DFU.GETSTATE 0) 1 probe].

(** The DETACH request, whatever the device answers. *)
Definition detached (settings : DfuSettings) (evs : list Event) : Prop :=
  exists answer,
    evs = [EvControlOut (class_setup settings DFU.DETACH 1000) (Some []) answer].

(** [c] only appends events; when it throws an error that mentions a
    disconnection, the last of them is a transfer the device rejected so. *)
Definition gone_on_wire {A} (c : Eff History A) : Prop :=
  forall h r h',
    c h = (r, h') ->
    exists evs,
      h' = h ++ evs /\
      forall e, r = Throw e -> disconnected e = true ->
                exists ev, last evs = Some ev /\ rejected_as_gone ev.

(** The letter "c" (code 99), and strings without it. *)
Definition letter_c : Ascii.ascii :=
  Ascii.Ascii true true false false false true true false.

Fixpoint no_c (s : string) : bool :=
  match s with
  | EmptyString => true
  | String ch rest => negb (Ascii.eqb ch letter_c) && no_c rest
  end.

(** The step [c], run from [h], returned at [h'] within [limit] ms. *)
Definition in_time {A} (clock : Clock) (limit : Z) (c : Eff History A) (h : History)
    (a : A) (h' : History) : Prop :=
  c h = (Ret a, h') /\ elapsed clock h (drop (length h) h') < limit.

(** The steps of a flashing run of the second version, one after the other,
    each on the history the previous one left, the timed ones each within
    its limit. *)
Definition flash_steps (clock : Clock) (device : USBDevice) (settings : DfuSettings)
    (fuel : nat) (pandaBuffer bootstubBuffer : list byte) (h h' : History) : Prop :=
  exists transferSize h0 h1 h2 h3 h4 h5 h6 h7 h8 h9,
    getTransferSize device settings h = (Ret transferSize, h0) /\
    in_time clock 10000 (dfuseErase device settings fuel 0x08004000) h0 tt h1 /\
    in_time clock 10000 (dfuseErase device settings fuel 0x08008000) h1 tt h2 /\
    in_time clock 10000 (dfuseErase device settings fuel 0x0800C000) h2 tt h3 /\
    in_time clock 5000 (dfuseSetAddress device settings fuel 0x08004000) h3 tt h4 /\
    in_time clock 45000 (flashWithRetry (do_download device settings fuel) pandaBuffer)
      h4 true h5 /\
    h6 = snd (getState device settings (h5 ++ [EvSleep 1000])) /\
    in_time clock 10000 (dfuseErase device settings fuel 0x08000000) h6 tt h7 /\
    in_time clock 5000 (dfuseSetAddress device settings fuel 0x08000000) h7 tt h8 /\
    in_time clock 30000 (flashWithRetry (do_download device settings fuel) bootstubBuffer)
      h8 true h9 /\
    h' = h9 ++ [detach_event device settings h9].

(** The steps of a flashing run of the first version. *)
Definition first_flash_steps (device : USBDevice) (settings : DfuSettings)
    (exit_request : Eff History Z) (fuel : nat) (pandaBin bootstubBin : list byte)
    (h h' : History) : Prop :=
  exists transferSize h0 h1 h2 h3 h4 h5 h7 h8 h9 r,
    getTransferSize device settings h = (Ret transferSize, h0) /\
    dfuseErase device settings fuel 0x08004000 h0 = (Ret tt, h1) /\
    dfuseErase device settings fuel 0x08008000 h1 = (Ret tt, h2) /\
    dfuseErase device settings fuel 0x0800C000 h2 = (Ret tt, h3) /\
    dfuseSetAddress device settings fuel 0x08004000 h3 = (Ret tt, h4) /\
    PlainLadder.writeWithFallback (do_download device settings fuel) pandaBin
      [transferSize; 2048; 1024; 512; 256] h4 = (Ret tt, h5) /\
    dfuseErase device settings fuel 0x08000000 h5 = (Ret tt, h7) /\
    dfuseSetAddress device settings fuel 0x08000000 h7 = (Ret tt, h8) /\
    PlainLadder.writeWithFallback (do_download device settings fuel) bootstubBin
      [transferSize; 2048; 1024; 512; 256] h8 = (Ret tt, h9) /\
    exit_request h9 = (r, h') /\
    forall l, r <> Hang l.

(** * Properties *)

(** ** Running monadic code *)

Lemma bind_Ret_inv {S A B} (c : Eff S A) (k : A -> Eff S B) s b s' :
  bind c k s = (Ret b, s') ->
  exists a s1, c s = (Ret a, s1) /\ k a s1 = (Ret b, s').
Proof.
  unfold bind. destruct (c s) as [[a | e | l] s1]; intros H; try discriminate.
  exists a, s1. split; [reflexivity | exact H].
Qed.

Lemma bind_run {S A B} (c : Eff S A) (k : A -> Eff S B) s a s1 :
  c s = (Ret a, s1) -> bind c k s = k a s1.
Proof. intros H. unfold bind. rewrite H. reflexivity. Qed.

Lemma bind_throw {S A B} (c : Eff S A) (k : A -> Eff S B) s e s1 :
  c s = (Throw e, s1) -> bind c k s = (Throw e, s1).
Proof. intros H. unfold bind. rewrite H. reflexivity. Qed.

Lemma bind_hang {S A B} (c : Eff S A) (k : A -> Eff S B) s l s1 :
  c s = (Hang l, s1) -> bind c k s = (Hang l, s1).
Proof. intros H. unfold bind. rewrite H. reflexivity. Qed.

(** ** Status reads *)





Lemma byte_at_range d i : 0 <= byte_at d i < 256.
Proof.
  unfold byte_at. destruct (d !! Z.to_nat i) as [b |]; [| lia].
  unfold byte_to_Z. pose proof (Byte.to_N_bounded b). lia.
Qed.

(** [& 0xffffff] keeps bytes 1 to 3 of the status record, low byte first. *)
Lemma pollTimeout_decode d :
  pollTimeout (decode_status d)
  = byte_at d 1 + 256 * byte_at d 2 + 65536 * byte_at d 3.
Proof.
  unfold decode_status; simpl.
  change 16777215 with (Z.ones 24).
  rewrite Z.land_ones by lia.
  pose proof (byte_at_range d 1). pose proof (byte_at_range d 2).
  pose proof (byte_at_range d 3).
  change (2 ^ 24) with 16777216.
  rewrite (Z.mul_comm 16777216), Z.mod_add by lia.
  apply Z.mod_small. lia.
Qed.

Lemma patient_getStatus n settings h :
  getStatus (patient n) settings h
  = (Ret (decode_status (if (length h <? 2 * n)%nat then busy_answer else ready_answer)),
     h ++ [status_read settings
             (if (length h <? 2 * n)%nat then busy_answer else ready_answer)]).
Proof.
  unfold getStatus, requestIn, controlTransferIn, bind, patient. cbn [answerIn].
  destruct (length h <? 2 * n)%nat; reflexivity.
Qed.





(** ** Single transfers *)

Lemma requestOut_cases device settings request data value h :
  (exists n, requestOut device settings request data value h
             = (Ret n, h ++ [out_accepted settings request data value n])) \/
  (exists e ev, requestOut device settings request data value h = (Throw e, h ++ [ev])
                /\ transfer_failed ev).
Proof.
  unfold requestOut, bind, controlTransferOut, out_accepted.
  destruct (answerOut device h (class_setup settings request value) data)
    as [e | [s n]] eqn:E.
  - right. eexists; eexists. split; [reflexivity | exact I].
  - destruct s; simpl.
    + left. exists n. reflexivity.
    + right. eexists; eexists. split; [reflexivity | simpl; discriminate].
    + right. eexists; eexists. split; [reflexivity | simpl; discriminate].
Qed.

Lemma in_view_true d off size :
  0 <= off -> off + size <= byteLength d -> in_view d off size = true.
Proof.
  intros H1 H2. unfold in_view.
  apply andb_true_intro. split; apply Z.leb_le; assumption.
Qed.

Lemma getUint8_head {S} b d (s : S) : getUint8 (b :: d) 0 s = (Ret (byte_at (b :: d) 0), s).
Proof.
  unfold getUint8. rewrite in_view_true; [reflexivity | lia |].
  unfold byteLength. cbn [length]. lia.
Qed.

Lemma getState_cases device settings h :
  (exists d, d <> [] /\
             getState device settings h = (Ret (byte_at d 0), h ++ [state_read settings d])) \/
  (exists e ev, getState device settings h = (Throw e, h ++ [ev]) /\ transfer_failed ev).
Proof.
  unfold getState, requestIn, bind, controlTransferIn, state_read.
  destruct (answerIn device h (class_setup settings DFU.GETSTATE 0) 1)
    as [e | [s d]] eqn:E.
  - right. eexists; eexists. split; [reflexivity | exact I].
  - destruct s; simpl.
    + destruct d as [| b d].
      * right. eexists; eexists. split; [reflexivity | simpl; auto].
      * left. exists (b :: d). split; [discriminate | apply getUint8_head].
    + right. eexists; eexists. split; [reflexivity | simpl; left; discriminate].
    + right. eexists; eexists. split; [reflexivity | simpl; left; discriminate].
Qed.

Lemma bind_assoc {S A B C} (c : Eff S A) (k : A -> Eff S B) (k' : B -> Eff S C) s :
  bind (bind c k) k' s = bind c (fun a => bind (k a) k') s.
Proof. unfold bind. destruct (c s) as [[a | e | l] s1]; reflexivity. Qed.

Lemma abortToIdle_cases device settings h r h' :
  abortToIdle device settings h = (r, h') -> abortToIdle_run settings h r h'.
Proof.
  unfold abortToIdle. intros H.
  destruct (requestOut_cases device settings DFU.ABORT None 0 h)
    as [(n & E1) | (e & ev & E1 & F)].
  2:{ rewrite (bind_throw _ _ _ _ _ E1) in H. injection H as <- <-.
      apply (abort_transfer_failed settings h e [] ev F). simpl; lia. }
  rewrite (bind_run _ _ _ _ _ E1) in H.
  destruct (getState_cases device settings (h ++ [out_accepted settings DFU.ABORT None 0 n]))
    as [(d & Hd & E2) | (e & ev & E2 & F)].
  2:{ rewrite (bind_throw _ _ _ _ _ E2) in H. injection H as <- <-.
      rewrite <- app_assoc.
      apply (abort_transfer_failed settings h e [_] ev F). simpl; lia. }
  rewrite (bind_run _ _ _ _ _ E2) in H. rewrite <- app_assoc in H. simpl app in H.
  destruct (Z.eqb_spec (byte_at d 0) STATE.dfuERROR) as [Herr | Herr].
  - rewrite bind_assoc in H.
    destruct (requestOut_cases device settings DFU.CLRSTATUS None 0
                (h ++ [out_accepted settings DFU.ABORT None 0 n; state_read settings d]))
      as [(n' & E3) | (e & ev & E3 & F)].
    2:{ rewrite (bind_throw _ _ _ _ _ E3) in H. injection H as <- <-.
        rewrite <- app_assoc.
        apply (abort_transfer_failed settings h e [_; _] ev F). simpl; lia. }
    rewrite (bind_run _ _ _ _ _ E3) in H. rewrite <- app_assoc in H. simpl app in H.
    destruct (getState_cases device settings
                (h ++ [out_accepted settings DFU.ABORT None 0 n; state_read settings d;
                       out_accepted settings DFU.CLRSTATUS None 0 n']))
      as [(d' & Hd' & E4) | (e & ev & E4 & F)].
    2:{ rewrite (bind_throw _ _ _ _ _ E4) in H. injection H as <- <-.
        rewrite <- app_assoc.
        apply (abort_transfer_failed settings h e [_; _; _] ev F). simpl; lia. }
    rewrite (bind_run _ _ _ _ _ E4) in H. rewrite <- app_assoc in H. simpl app in H.
    pose proof (abort_cleared settings h n d n' d' Hd Herr Hd') as R.
    unfold idle_or_throw in R.
    destruct (byte_at d' 0 =? STATE.dfuIDLE); injection H as <- <-; exact R.
  - unfold bind at 1 in H. unfold ret at 1 in H.
    pose proof (abort_direct settings h n d Hd Herr) as R.
    unfold idle_or_throw in R.
    destruct (byte_at d 0 =? STATE.dfuIDLE); injection H as <- <-; exact R.
Qed.

(** ** The vendor commands *)

Lemma byte_of_Z_value z : byte_to_Z (byte_of_Z z) = z mod 256.
Proof.
  unfold byte_to_Z, byte_of_Z.
  pose proof (Z.mod_pos_bound z 256 ltac:(lia)) as Hr.
  destruct (Byte.of_N (Z.to_N (z mod 256))) as [b |] eqn:E.
  - apply Byte.to_of_N in E. rewrite E. lia.
  - apply Byte.of_N_None_iff in E. lia.
Qed.

Lemma command_buffer_run opcode addr (h : History) :
  command_buffer opcode addr h = (Ret (command_bytes opcode addr), h).
Proof. reflexivity. Qed.

Lemma le32_decode u :
  0 <= u < 4294967296 ->
  u mod 256 + 256 * (Z.shiftr u 8 mod 256) + 65536 * (Z.shiftr u 16 mod 256)
  + 16777216 * (Z.shiftr u 24 mod 256) = u.
Proof.
  intros Hu. rewrite !Z.shiftr_div_pow2 by lia.
  change (2 ^ 8) with 256. change (2 ^ 16) with 65536. change (2 ^ 24) with 16777216.
  pose proof (Z.div_mod u 256 ltac:(lia)).
  pose proof (Z.mod_pos_bound u 256 ltac:(lia)).
  assert (u / 65536 = u / 256 / 256) as -> by (rewrite Z.div_div by lia; reflexivity).
  assert (u / 16777216 = u / 256 / 256 / 256) as ->
    by (rewrite !Z.div_div by lia; reflexivity).
  pose proof (Z.div_mod (u / 256) 256 ltac:(lia)).
  pose proof (Z.mod_pos_bound (u / 256) 256 ltac:(lia)).
  pose proof (Z.div_mod (u / 256 / 256) 256 ltac:(lia)).
  pose proof (Z.mod_pos_bound (u / 256 / 256) 256 ltac:(lia)).
  assert (0 <= u / 256 / 256 / 256 < 256).
  { split.
    - repeat apply Z.div_pos; lia.
    - repeat (apply Z.div_lt_upper_bound; [lia |]). lia. }
  rewrite (Z.mod_small (u / 256 / 256 / 256)) by lia.
  lia.
Qed.

Lemma vendor_command_run device settings fuel opcode addr failure h :
  (b <- command_buffer opcode addr ;;
   abortToIdle device settings ;;;
   st <- dnloadBlock device settings fuel b 0 ;;
   if negb (status st =? 0) then throw (failure st) else ret tt) h
  = vendor_command_steps device settings fuel opcode addr failure h.
Proof.
  unfold vendor_command_steps, dnloadBlock.
  unfold bind at 1. rewrite command_buffer_run.
  unfold bind at 1.
  destruct (abortToIdle device settings h) as [[[] | e | l] h1]; try reflexivity.
  rewrite bind_assoc. unfold bind at 1.
  destruct (requestOut device settings DFU.DNLOAD _ 0 h1) as [[n | e | l] h2];
    try reflexivity.
  unfold bind at 1.
  destruct (pollUntil device settings fuel STATE.dfuDNLOAD_IDLE h2) as [[st | e | l] h3];
    try reflexivity.
  destruct (status st =? 0); reflexivity.
Qed.


Lemma vendor_command_after_abort device settings fuel opcode addr failure h h1 st h3 :
  abortToIdle device settings h = (Ret tt, h1) ->
  dnloadBlock device settings fuel (command_bytes opcode addr) 0 h1 = (Ret st, h3) ->
  status st = 0 ->
  vendor_command_steps device settings fuel opcode addr failure h = (Ret tt, h3).
Proof.
  intros Ha Hd Hs. unfold vendor_command_steps. rewrite Ha.
  unfold dnloadBlock in Hd. apply bind_Ret_inv in Hd as (n & h2 & Ho & Hp).
  rewrite Ho, Hp. rewrite Hs. reflexivity.
Qed.

(** C4.  A run of [abortToIdle] sends ABORT and reads the state; when that
    state is dfuERROR it sends CLRSTATUS and reads the state again, and
    otherwise sends nothing more; with the reads completed it throws exactly
    when the last state read is not dfuIDLE (the only other way to fail is a
    transfer that does not complete).  So a run in which CLRSTATUS was sent is
    one in which the state read after ABORT was dfuERROR; when the state read
    after CLRSTATUS is dfuIDLE, [abortToIdle] returns normally, and a vendor
    command issued at that point succeeds whenever the device then takes the
    command with status 0: the CLRSTATUS precedes the command's DNLOAD. *)
Theorem abortToIdle_spec device settings h r h' :
  abortToIdle device settings h = (r, h') ->
  abortToIdle_run settings h r h' /\
  (forall n d n' d',
      h' = h ++ [out_accepted settings DFU.ABORT None 0 n; state_read settings d;
                 out_accepted settings DFU.CLRSTATUS None 0 n'; state_read settings d'] ->
      byte_at d' 0 = STATE.dfuIDLE ->
      byte_at d 0 = STATE.dfuERROR /\
      r = Ret tt /\
      forall fuel addr st h3,
        status st = 0 ->
        (dnloadBlock device settings fuel (command_bytes 65 addr) 0 h' = (Ret st, h3) ->
         dfuseErase device settings fuel addr h = (Ret tt, h3)) /\
        (dnloadBlock device settings fuel (command_bytes 33 addr) 0 h' = (Ret st, h3) ->
         dfuseSetAddress device settings fuel addr h = (Ret tt, h3))).
Proof.
  intros Hrun. pose proof (abortToIdle_cases _ _ _ _ _ Hrun) as R.
  split; [exact R |].
  intros n d n' d' Hh Hidle.
  assert (byte_at d 0 = STATE.dfuERROR /\ r = Ret tt) as [Herr ->].
  { subst h'. inversion R as [m c Hc Hne Hr Ht | m c m' c' Hc He Hc' Hr Ht | e evs ev F L Hr Ht].
    - apply app_inv_head in Ht. discriminate Ht.
    - apply app_inv_head in Ht. injection Ht as _ Ed _ Ec. subst c c'.
      unfold idle_or_throw. rewrite Hidle. split; [exact He | reflexivity].
    - apply app_inv_head in Ht.
      change [out_accepted settings DFU.ABORT None 0 n; state_read settings d;
              out_accepted settings DFU.CLRSTATUS None 0 n'; state_read settings d']
        with ([out_accepted settings DFU.ABORT None 0 n; state_read settings d;
               out_accepted settings DFU.CLRSTATUS None 0 n'] ++ [state_read settings d'])
        in Ht.
      apply app_inj_tail in Ht as [_ ->]. simpl in F.
      destruct F as [F | F]; [congruence |]. subst d'. discriminate Hidle. }
  split; [exact Herr |]. split; [reflexivity |].
  intros fuel addr st h3 Hs. split; intros Hd.
  - unfold dfuseErase. rewrite (vendor_command_run _ _ _ 65 _ erase_failed).
    eapply vendor_command_after_abort; eauto.
  - unfold dfuseSetAddress. rewrite (vendor_command_run _ _ _ 33 _ setaddr_failed).
    eapply vendor_command_after_abort; eauto.
Qed.

Lemma abortToIdle_spec_witness :
  exists h3,
    dfuseErase (simulated latched) dfuse_settings 3 0x08004000 [] = (Ret tt, h3) /\
    class_requests h3
    = [(DFU.ABORT, 0); (DFU.GETSTATE, 0); (DFU.CLRSTATUS, 0); (DFU.GETSTATE, 0);
       (DFU.DNLOAD, 0); (DFU.GETSTATUS, 0); (DFU.GETSTATUS, 0)].
Proof.
  eexists. split.
  - refine (proj1 (proj2 (proj2 (proj2 (abortToIdle_spec (simulated latched) dfuse_settings []
                                          (Ret tt) _ _) 0 [x0a] 0 [x02] _ _))
                            3%nat 0x08004000 _ _ _) _).
    + vm_compute. reflexivity.
    + reflexivity.
    + reflexivity.
    + shelve.
    + vm_compute. reflexivity.
  - vm_compute. reflexivity.
  Unshelve. vm_compute. reflexivity.
Defined.

(** ** Histories only grow *)

Lemma appends_ret {A} P (a : A) : appends P (ret a).
Proof. intros h r h' [= <- <-]. exists []. rewrite app_nil_r. auto. Qed.

Lemma appends_throw {A} P e : appends P (@throw History A e).
Proof. intros h r h' [= <- <-]. exists []. rewrite app_nil_r. auto. Qed.

Lemma appends_hang {A} P l : appends P (@hang History A l).
Proof. intros h r h' [= <- <-]. exists []. rewrite app_nil_r. auto. Qed.

Lemma appends_bind {A B} P (c : Eff History A) (k : A -> Eff History B) :
  appends P c -> (forall a, appends P (k a)) -> appends P (bind c k).
Proof.
  intros Hc Hk h r h' H. unfold bind in H.
  destruct (c h) as [[a | e | l] h1] eqn:E;
    destruct (Hc _ _ _ E) as (evs & -> & F).
  - destruct (Hk a _ _ _ H) as (evs' & -> & F').
    exists (evs ++ evs'). rewrite app_assoc. split; [reflexivity |].
    apply Forall_app; auto.
  - injection H as <- <-. eauto.
  - injection H as <- <-. eauto.
Qed.

Lemma appends_try_catch {A} P (c : Eff History A) (k : Thrown -> Eff History A) :
  appends P c -> (forall e, appends P (k e)) -> appends P (try_catch c k).
Proof.
  intros Hc Hk h r h' H. unfold try_catch in H.
  destruct (c h) as [[a | e | l] h1] eqn:E;
    destruct (Hc _ _ _ E) as (evs & -> & F).
  - injection H as <- <-. eauto.
  - destruct (Hk e _ _ _ H) as (evs' & -> & F').
    exists (evs ++ evs'). rewrite app_assoc. split; [reflexivity |].
    apply Forall_app; auto.
  - injection H as <- <-. eauto.
Qed.

Lemma appends_getUint8 P d off : appends P (getUint8 d off).
Proof. unfold getUint8. destruct in_view; [apply appends_ret | apply appends_throw]. Qed.

Lemma appends_getUint16 P d off : appends P (getUint16 d off).
Proof. unfold getUint16. destruct in_view; [apply appends_ret | apply appends_throw]. Qed.

Lemma appends_getUint32 P d off : appends P (getUint32 d off).
Proof. unfold getUint32. destruct in_view; [apply appends_ret | apply appends_throw]. Qed.

Lemma appends_controlTransferIn (P : Event -> Prop) device setup len :
  (forall ans, P (EvControlIn setup len ans)) ->
  appends P (controlTransferIn device setup len).
Proof.
  intros HP h r h' H. unfold controlTransferIn in H. injection H as <- <-.
  eexists. split; [reflexivity |]. auto.
Qed.

Lemma appends_controlTransferOut (P : Event -> Prop) device setup data :
  (forall ans, P (EvControlOut setup data ans)) ->
  appends P (controlTransferOut device setup data).
Proof.
  intros HP h r h' H. unfold controlTransferOut in H. injection H as <- <-.
  eexists. split; [reflexivity |]. auto.
Qed.

Lemma appends_requestIn (P : Event -> Prop) device settings req len v :
  (forall ans, P (EvControlIn (class_setup settings req v) len ans)) ->
  appends P (requestIn device settings req len v).
Proof.
  intros HP. unfold requestIn. apply appends_bind.
  - apply appends_controlTransferIn, HP.
  - intros r. destruct is_ok; [apply appends_ret | apply appends_throw].
Qed.

Lemma appends_requestOut (P : Event -> Prop) device settings req data v :
  (forall ans, P (EvControlOut (class_setup settings req v) data ans)) ->
  appends P (requestOut device settings req data v).
Proof.
  intros HP. unfold requestOut. apply appends_bind.
  - apply appends_controlTransferOut, HP.
  - intros r. destruct is_ok; [apply appends_ret | apply appends_throw].
Qed.

Lemma housekeeping_getStatus device settings :
  appends housekeeping (getStatus device settings).
Proof.
  unfold getStatus. apply appends_bind; [apply appends_requestIn; intros; exact I |].
  intros d. apply appends_bind; [apply appends_getUint8 |].
  intros a. apply appends_bind; [apply appends_getUint32 |].
  intros t. apply appends_bind; [apply appends_getUint8 |].
  intros s. apply appends_ret.
Qed.

Lemma housekeeping_getState device settings :
  appends housekeeping (getState device settings).
Proof.
  unfold getState. apply appends_bind; [apply appends_requestIn; intros; exact I |].
  intros d. apply appends_getUint8.
Qed.

Lemma housekeeping_abortToIdle device settings :
  appends housekeeping (abortToIdle device settings).
Proof.
  unfold abortToIdle.
  apply appends_bind; [apply appends_requestOut; intros; exact I |].
  intros _. apply appends_bind; [apply housekeeping_getState |].
  intros s. apply appends_bind.
  - destruct (s =? STATE.dfuERROR); [| apply appends_ret].
    apply appends_bind; [apply appends_requestOut; intros; exact I |].
    intros _. apply housekeeping_getState.
  - intros s'. destruct negb; [apply appends_throw | apply appends_ret].
Qed.

Lemma housekeeping_sleep ms : appends housekeeping (sleep ms).
Proof.
  intros h r h' [= <- <-]. eexists. split; [reflexivity |].
  constructor; [exact I | constructor].
Qed.

Lemma housekeeping_pollUntil_loop device settings target fuel :
  forall st, appends housekeeping (pollUntil_loop device settings fuel target st).
Proof.
  induction fuel as [| fuel IH]; intros st; simpl;
    destruct (negb (state st =? target) && negb (state st =? STATE.dfuERROR));
    try apply appends_ret; try apply appends_hang.
  apply appends_bind; [apply housekeeping_sleep |].
  intros _. apply appends_bind; [apply housekeeping_getStatus |].
  intros st'. apply IH.
Qed.

Lemma housekeeping_pollUntil device settings fuel target :
  appends housekeeping (pollUntil device settings fuel target).
Proof.
  unfold pollUntil. apply appends_bind; [apply housekeeping_getStatus |].
  intros st. apply housekeeping_pollUntil_loop.
Qed.

(** One block: the DNLOAD itself, then housekeeping. *)
Lemma dnloadBlock_events device settings fuel data blockNum h r h' :
  dnloadBlock device settings fuel data blockNum h = (r, h') ->
  exists ans evs,
    h' = h ++ EvControlOut (class_setup settings DFU.DNLOAD blockNum) (Some data) ans :: evs
    /\ Forall housekeeping evs.
Proof.
  unfold dnloadBlock, requestOut. rewrite bind_assoc. unfold bind at 1.
  unfold controlTransferOut.
  destruct (answerOut device h _ (Some data)) as [e | res] eqn:E; intros H.
  - injection H as <- <-. exists (inl e), []. auto.
  - destruct (is_ok (out_status res)).
    + unfold bind at 1 in H. unfold ret at 1 in H.
      apply housekeeping_pollUntil in H as (evs & -> & F).
      exists (inr res), evs. rewrite <- app_assoc. auto.
    + unfold bind at 1 in H. unfold throw at 1 in H.
      injection H as <- <-. exists (inr res), []. auto.
Qed.

Lemma dnloads_app h evs : dnloads (h ++ evs) = dnloads h ++ dnloads evs.
Proof. apply omap_app. Qed.

Lemma dnloads_housekeeping evs : Forall housekeeping evs -> dnloads evs = [].
Proof.
  induction 1 as [| ev evs Hev _ IH]; [reflexivity |].
  destruct ev as [setup [d |] ans | | |]; simpl in Hev; try contradiction; exact IH.
Qed.

(** ** Which loop a computation can give up in *)

Lemma hangs_ret {S A} P (a : A) : hangs_in P (@ret S A a).
Proof. intros s l s' H. discriminate H. Qed.

Lemma hangs_throw {S A} P e : hangs_in P (@throw S A e).
Proof. intros s l s' H. discriminate H. Qed.

Lemma hangs_hang {S A} (P : Loop -> Prop) l : P l -> hangs_in P (@hang S A l).
Proof. intros HP s l' s' [= <- <-]. exact HP. Qed.

Lemma hangs_bind {S A B} P (c : Eff S A) (k : A -> Eff S B) :
  hangs_in P c -> (forall a, hangs_in P (k a)) -> hangs_in P (bind c k).
Proof.
  intros Hc Hk s l s' H. unfold bind in H.
  destruct (c s) as [[a | e | l1] s1] eqn:E.
  - eapply Hk, H.
  - discriminate H.
  - injection H as <- <-. eapply Hc, E.
Qed.

Lemma hangs_try_catch {S A} P (c : Eff S A) (k : Thrown -> Eff S A) :
  hangs_in P c -> (forall e, hangs_in P (k e)) -> hangs_in P (try_catch c k).
Proof.
  intros Hc Hk s l s' H. unfold try_catch in H.
  destruct (c s) as [[a | e | l1] s1] eqn:E.
  - discriminate H.
  - eapply Hk, H.
  - injection H as <- <-. eapply Hc, E.
Qed.

Lemma hangs_getUint8 {S} P d off : hangs_in P (@getUint8 S d off).
Proof. unfold getUint8. destruct in_view; [apply hangs_ret | apply hangs_throw]. Qed.

Lemma hangs_getUint16 {S} P d off : hangs_in P (@getUint16 S d off).
Proof. unfold getUint16. destruct in_view; [apply hangs_ret | apply hangs_throw]. Qed.

Lemma hangs_getUint32 {S} P d off : hangs_in P (@getUint32 S d off).
Proof. unfold getUint32. destruct in_view; [apply hangs_ret | apply hangs_throw]. Qed.

Lemma hangs_requestIn P device settings req len v :
  hangs_in P (requestIn device settings req len v).
Proof.
  unfold requestIn. apply hangs_bind.
  - intros h l h' H. unfold controlTransferIn in H.
    destruct answerIn; discriminate H.
  - intros r. destruct is_ok; [apply hangs_ret | apply hangs_throw].
Qed.

Lemma hangs_requestOut P device settings req data v :
  hangs_in P (requestOut device settings req data v).
Proof.
  unfold requestOut. apply hangs_bind.
  - intros h l h' H. unfold controlTransferOut in H.
    destruct answerOut; discriminate H.
  - intros r. destruct is_ok; [apply hangs_ret | apply hangs_throw].
Qed.

Lemma hangs_getStatus P device settings : hangs_in P (getStatus device settings).
Proof.
  unfold getStatus. apply hangs_bind; [apply hangs_requestIn |].
  intros d. apply hangs_bind; [apply hangs_getUint8 |].
  intros a. apply hangs_bind; [apply hangs_getUint32 |].
  intros t. apply hangs_bind; [apply hangs_getUint8 |].
  intros s. apply hangs_ret.
Qed.

Lemma hangs_getState P device settings : hangs_in P (getState device settings).
Proof.
  unfold getState. apply hangs_bind; [apply hangs_requestIn |].
  intros d. apply hangs_getUint8.
Qed.

(** [abortToIdle] has no loop. *)
Lemma hangs_abortToIdle P device settings : hangs_in P (abortToIdle device settings).
Proof.
  unfold abortToIdle. apply hangs_bind; [apply hangs_requestOut |].
  intros _. apply hangs_bind; [apply hangs_getState |].
  intros s. apply hangs_bind.
  - destruct (s =? STATE.dfuERROR); [| apply hangs_ret].
    apply hangs_bind; [apply hangs_requestOut |]. intros _. apply hangs_getState.
  - intros s'. destruct negb; [apply hangs_throw | apply hangs_ret].
Qed.

Lemma hangs_pollUntil_loop device settings target fuel :
  forall st, hangs_in (eq PollLoop) (pollUntil_loop device settings fuel target st).
Proof.
  induction fuel as [| fuel IH]; intros st; simpl;
    destruct (negb (state st =? target) && negb (state st =? STATE.dfuERROR));
    try apply hangs_ret; try (apply hangs_hang; reflexivity).
  apply hangs_bind; [intros h l h' H; discriminate H |].
  intros _. apply hangs_bind; [apply hangs_getStatus |].
  intros st'. apply IH.
Qed.

Lemma hangs_pollUntil device settings fuel target :
  hangs_in (eq PollLoop) (pollUntil device settings fuel target).
Proof.
  unfold pollUntil. apply hangs_bind; [apply hangs_getStatus |].
  intros st. apply hangs_pollUntil_loop.
Qed.

Lemma hangs_dnloadBlock device settings fuel data blockNum :
  hangs_in (eq PollLoop) (dnloadBlock device settings fuel data blockNum).
Proof.
  unfold dnloadBlock. apply hangs_bind; [apply hangs_requestOut |].
  intros _. apply hangs_pollUntil.
Qed.

(** ** The block loop of [do_download] *)

Lemma block_count_lt xferSize view k :
  1 <= xferSize ->
  (Z.of_nat k * xferSize < byteLength view <-> (k < block_count view xferSize)%nat).
Proof.
  intros HS. unfold block_count, ceil_div.
  assert (0 <= byteLength view) as HL by (unfold byteLength; lia).
  set (L := byteLength view) in *.
  pose proof (Z.div_mod (L + xferSize - 1) xferSize ltac:(lia)) as Hd.
  pose proof (Z.mod_pos_bound (L + xferSize - 1) xferSize ltac:(lia)) as Hm.
  set (q := (L + xferSize - 1) / xferSize) in *.
  assert (0 <= q) by (apply Z.div_pos; lia).
  split; intros H1.
  - assert (Z.of_nat k < q) by nia. lia.
  - assert (Z.of_nat k < q) by lia. nia.
Qed.

Lemma slice_chunk xferSize view k :
  1 <= xferSize ->
  Z.of_nat k * xferSize < byteLength view ->
  slice view (Z.of_nat k * xferSize)
    (Z.of_nat k * xferSize + Z.min xferSize (byteLength view - Z.of_nat k * xferSize))
  = chunk xferSize view k.
Proof.
  intros HS Hlt. unfold slice, chunk, relative_index.
  set (L := byteLength view) in *. set (sent := Z.of_nat k * xferSize) in *.
  assert (0 <= sent) by (unfold sent; nia).
  destruct (Z.ltb_spec sent 0); [lia |].
  destruct (Z.ltb_spec (sent + Z.min xferSize (L - sent)) 0); [lia |].
  rewrite (Z.min_l sent L) by lia.
  rewrite (Z.min_l (sent + Z.min xferSize (L - sent)) L) by lia.
  replace (Z.to_nat sent) with (k * Z.to_nat xferSize)%nat by (unfold sent; nia).
  replace (Z.max (sent + Z.min xferSize (L - sent) - sent) 0)
    with (Z.min xferSize (L - sent)) by lia.
  destruct (Z.le_ge_cases xferSize (L - sent)) as [Hle | Hge].
  - rewrite Z.min_l by lia. reflexivity.
  - rewrite Z.min_r by lia.
    assert (length (drop (k * Z.to_nat xferSize) view) = Z.to_nat (L - sent)) as Hlen.
    { rewrite length_drop. unfold L, sent, byteLength. nia. }
    rewrite <- Hlen. rewrite firstn_all. symmetry. apply take_ge. lia.
Qed.

Lemma download_loop_step device settings pollFuel fuel xferSize view sent block h :
  sent < byteLength view ->
  download_loop device settings pollFuel (S fuel) xferSize view sent block h
  = match dnloadBlock device settings pollFuel
            (slice view sent (sent + Z.min xferSize (byteLength view - sent))) block h with
    | (Ret st, h1) =>
        if status st =? 0
        then download_loop device settings pollFuel fuel xferSize view
               (sent + Z.min xferSize (byteLength view - sent)) (block + 1)
               (h1 ++ [EvProgress (sent + Z.min xferSize (byteLength view - sent))
                         (byteLength view)])
        else (Throw (download_failed st), h1)
    | (Throw e, h1) => (Throw e, h1)
    | (Hang l, h1) => (Hang l, h1)
    end.
Proof.
  intros Hlt. cbn [download_loop].
  destruct (Z.ltb_spec sent (byteLength view)); [| lia].
  unfold bind at 1.
  destruct (dnloadBlock device settings pollFuel _ block h) as [[st | e | l] h1];
    try reflexivity.
  destruct (status st =? 0); reflexivity.
Qed.

Lemma download_loop_done device settings pollFuel fuel xferSize view sent block h :
  byteLength view <= sent ->
  download_loop device settings pollFuel fuel xferSize view sent block h = (Ret block, h).
Proof.
  intros Hge. destruct fuel; cbn [download_loop];
    (destruct (Z.ltb_spec sent (byteLength view)); [lia | reflexivity]).
Qed.

Lemma dnloads_block settings blockNum data ans evs h :
  Forall housekeeping evs ->
  dnloads (h ++ EvControlOut (class_setup settings DFU.DNLOAD blockNum) (Some data) ans :: evs)
  = dnloads h ++ [(blockNum, data)].
Proof.
  intros F. rewrite dnloads_app. f_equal.
  change (dnloads (?e :: evs)) with ((blockNum, data) :: dnloads evs).
  rewrite (dnloads_housekeeping evs F). reflexivity.
Qed.

(** The loop, entered after [k] blocks, whatever way it ends: it has sent the
    next [m] data blocks in order and nothing else; it returns only after the
    last one; it gives up for lack of fuel only with blocks left to send. *)
Lemma download_loop_blocks device settings pollFuel xferSize view firstBlock :
  1 <= xferSize ->
  forall fuel k h r h',
    (k <= block_count view xferSize)%nat ->
    download_loop device settings pollFuel fuel xferSize view
      (Z.min (Z.of_nat k * xferSize) (byteLength view)) (firstBlock + Z.of_nat k) h
    = (r, h') ->
    exists m,
      (k + m <= block_count view xferSize)%nat /\
      dnloads h' = dnloads h ++ map (data_block xferSize view firstBlock) (seq k m) /\
      (forall b, r = Ret b ->
                 (k + m = block_count view xferSize)%nat /\
                 b = firstBlock + Z.of_nat (block_count view xferSize)) /\
      (r = Hang DownloadLoop -> (k + fuel < block_count view xferSize)%nat).
Proof.
  intros HS. set (n := block_count view xferSize). set (L := byteLength view).
  induction fuel as [| fuel IH]; intros k h r h' Hk H.
  - destruct (Z.lt_ge_cases (Z.of_nat k * xferSize) L) as [Hlt | Hge].
    + pose proof (proj1 (block_count_lt xferSize view k HS) Hlt) as Hkn.
      rewrite Z.min_l in H by lia. cbn [download_loop] in H.
      destruct (Z.ltb_spec (Z.of_nat k * xferSize) (byteLength view)); [| unfold L in *; lia].
      injection H as <- <-. exists 0%nat. simpl. rewrite app_nil_r.
      repeat split; try discriminate; unfold n in *; lia.
    + rewrite Z.min_r in H by lia. rewrite download_loop_done in H by lia.
      injection H as <- <-. exists 0%nat. simpl. rewrite app_nil_r.
      assert (~ (k < n)%nat) by (intros C; apply block_count_lt in C; unfold L in *; lia).
      split; [lia |]. split; [reflexivity |]. split; [| discriminate].
      intros b [= <-]. fold n. split; [lia |]. f_equal. lia.
  - destruct (Z.lt_ge_cases (Z.of_nat k * xferSize) L) as [Hlt | Hge].
    + pose proof (proj1 (block_count_lt xferSize view k HS) Hlt) as Hkn. fold n in Hkn.
      rewrite Z.min_l in H by lia.
      rewrite download_loop_step in H by exact Hlt.
      rewrite slice_chunk in H by assumption.
      destruct (dnloadBlock device settings pollFuel (chunk xferSize view k)
                  (firstBlock + Z.of_nat k) h) as [[st | e | l] h1] eqn:E.
      * destruct (dnloadBlock_events _ _ _ _ _ _ _ _ E) as (ans & evs & -> & F).
        destruct (status st =? 0).
        -- replace (Z.of_nat k * xferSize + Z.min xferSize (byteLength view - Z.of_nat k * xferSize))
             with (Z.min (Z.of_nat (S k) * xferSize) (byteLength view)) in H by (fold L; lia).
           replace (firstBlock + Z.of_nat k + 1) with (firstBlock + Z.of_nat (S k)) in H by lia.
           apply IH in H as (m & Hm & Hd & Hr & Hh); [| lia].
           exists (S m). split; [lia |]. split; [| split].
           ++ rewrite Hd, dnloads_app. change (dnloads [EvProgress _ _]) with (@nil (Z * list byte)).
              rewrite app_nil_r, dnloads_block by exact F.
              rewrite <- app_assoc. reflexivity.
           ++ intros b Hb. destruct (Hr b Hb). split; [lia | assumption].
           ++ intros Hb. specialize (Hh Hb). lia.
        -- injection H as <- <-. exists 1%nat. split; [lia |]. split; [| split].
           ++ rewrite dnloads_block by exact F. reflexivity.
           ++ intros b Hb; discriminate Hb.
           ++ intros Hb; discriminate Hb.
      * injection H as <- <-.
        destruct (dnloadBlock_events _ _ _ _ _ _ _ _ E) as (ans & evs & -> & F).
        exists 1%nat. split; [lia |]. split; [| split].
        -- rewrite dnloads_block by exact F. reflexivity.
        -- intros b Hb; discriminate Hb.
        -- intros Hb; discriminate Hb.
      * injection H as <- <-.
        pose proof (hangs_dnloadBlock _ _ _ _ _ _ _ _ E) as <-.
        destruct (dnloadBlock_events _ _ _ _ _ _ _ _ E) as (ans & evs & -> & F).
        exists 1%nat. split; [lia |]. split; [| split].
        -- rewrite dnloads_block by exact F. reflexivity.
        -- intros b Hb; discriminate Hb.
        -- intros Hb; discriminate Hb.
    + rewrite Z.min_r in H by lia. rewrite download_loop_done in H by (fold L; lia).
      injection H as <- <-. exists 0%nat. simpl. rewrite app_nil_r.
      assert (~ (k < n)%nat) by (intros C; apply block_count_lt in C; unfold L in *; lia).
      split; [lia |]. split; [reflexivity |]. split; [| discriminate].
      intros b [= <-]. fold n. split; [lia |]. f_equal. lia.
Qed.

Lemma block_count_ceil xferSize view :
  1 <= xferSize ->
  Z.of_nat (block_count view xferSize) = ceil_div (byteLength view) xferSize.
Proof.
  intros HS. unfold block_count. apply Z2Nat.id. unfold ceil_div.
  apply Z.div_pos; unfold byteLength; lia.
Qed.

Lemma chunk_length xferSize view i :
  1 <= xferSize -> (i < block_count view xferSize)%nat ->
  1 <= byteLength (chunk xferSize view i) <= xferSize /\
  byteLength (chunk xferSize view i)
  = Z.min xferSize (byteLength view - Z.of_nat i * xferSize).
Proof.
  intros HS Hi. apply block_count_lt in Hi; [| exact HS].
  unfold chunk, byteLength in *. rewrite length_take, length_drop. nia.
Qed.

Lemma chunks_concat xferSize view :
  1 <= xferSize ->
  forall m k, (k + m = block_count view xferSize)%nat ->
              concat (map (chunk xferSize view) (seq k m))
              = drop (k * Z.to_nat xferSize) view.
Proof.
  intros HS. induction m as [| m IH]; intros k Hk.
  - simpl. symmetry. apply drop_ge.
    assert (~ (k < block_count view xferSize)%nat) as Hn by lia.
    rewrite <- block_count_lt in Hn by exact HS. unfold byteLength in Hn. nia.
  - cbn [seq map concat]. rewrite IH by lia. unfold chunk.
    replace (S k * Z.to_nat xferSize)%nat with (k * Z.to_nat xferSize + Z.to_nat xferSize)%nat
      by lia.
    rewrite <- drop_drop. apply take_drop.
Qed.

Lemma data_blocks_facts xferSize view firstBlock :
  1 <= xferSize ->
  length (data_blocks xferSize view firstBlock) = block_count view xferSize /\
  map fst (data_blocks xferSize view firstBlock)
  = map (fun i => firstBlock + Z.of_nat i) (seq 0 (block_count view xferSize)) /\
  Forall (fun b => 1 <= byteLength (snd b) <= xferSize)
         (data_blocks xferSize view firstBlock) /\
  concat (map snd (data_blocks xferSize view firstBlock)) = view.
Proof.
  intros HS. unfold data_blocks. repeat split.
  - rewrite length_map, length_seq. reflexivity.
  - rewrite map_map. reflexivity.
  - apply Forall_forall. intros b Hb. apply list_elem_of_In, in_map_iff in Hb.
    destruct Hb as (i & <- & Hi). apply in_seq in Hi. simpl.
    apply chunk_length; [exact HS | lia].
  - rewrite map_map.
    exact (chunks_concat xferSize view HS (block_count view xferSize) 0 ltac:(lia)).
Qed.

Lemma do_download_dnloads device settings fuel xferSize data tolerant firstBlock h r h' :
  1 <= xferSize ->
  do_download device settings fuel xferSize data tolerant firstBlock h = (r, h') ->
  exists m,
    dnloads h' = dnloads h
                 ++ take m (expected_dnloads xferSize data (default 2 firstBlock)) /\
    (r = Ret tt -> m = S (block_count data xferSize)).
Proof.
  intros HS H. unfold do_download in H.
  set (fb := default 2 firstBlock) in *. set (n := block_count data xferSize).
  unfold bind at 1 in H.
  destruct (abortToIdle device settings h) as [[[] | e | l] h0] eqn:Ea;
    destruct (housekeeping_abortToIdle _ _ _ _ _ Ea) as (ev0 & -> & F0).
  2,3: injection H as <- <-; exists 0%nat;
       rewrite dnloads_app, (dnloads_housekeeping _ F0); simpl;
       split; [reflexivity | discriminate].
  unfold bind at 1 in H. cbn [logProgress] in H.
  unfold bind at 1 in H.
  destruct (download_loop device settings fuel fuel xferSize data 0 fb _)
    as [[b | e | l] h2] eqn:El.
  all: pose proof (fun h0 r0 h1 =>
                     download_loop_blocks device settings fuel xferSize data fb HS
                       fuel 0 h0 r0 h1 ltac:(lia)) as Hloop.
  all: rewrite Z.mul_0_l, Z.min_l, Z.add_0_r in Hloop by (unfold byteLength; lia).
  all: destruct (Hloop _ _ _ El) as (m & Hm & Hd & Hr & _); clear Hloop.
  all: rewrite dnloads_app, dnloads_app, (dnloads_housekeeping _ F0) in Hd.
  all: change (dnloads [EvProgress _ _]) with (@nil (Z * list byte)) in Hd.
  all: rewrite !app_nil_r in Hd.
  all: assert (map (data_block xferSize data fb) (seq 0 m)
               = take m (expected_dnloads xferSize data fb)) as Hpre
         by (unfold expected_dnloads, data_blocks; fold n;
             rewrite take_app_le by (rewrite length_map, length_seq; simpl in Hm; lia);
             rewrite firstn_map, take_seq; f_equal; f_equal; simpl in Hm; lia).
  2,3: injection H as <- <-; exists m; rewrite Hd, Hpre;
       split; [reflexivity | discriminate].
  destruct (Hr b eq_refl) as [Hmn ->]. simpl in Hmn. subst m.
  assert (forall ans evs,
             Forall housekeeping evs ->
             dnloads (h2 ++ EvControlOut (class_setup settings DFU.DNLOAD
                                            (fb + Z.of_nat n)) (Some []) ans :: evs)
             = dnloads h ++ take (S n) (expected_dnloads xferSize data fb)) as Hall.
  { intros ans evs F. rewrite dnloads_block by exact F. rewrite Hd.
    unfold expected_dnloads, data_blocks. fold n.
    rewrite take_ge by (rewrite length_app, length_map, length_seq; simpl; lia).
    rewrite app_assoc. reflexivity. }
  exists (S n). split; [| reflexivity].
  assert (appends housekeeping
            (if tolerant
             then fin <- pollUntil device settings fuel STATE.dfuIDLE ;;
                  (if negb (status fin =? 0) then throw (manifest_failed fin) else ret tt)
             else try_catch (getStatus device settings ;;; ret tt) (fun _ => ret tt)))
    as Hfin.
  { destruct tolerant.
    - apply appends_bind; [apply housekeeping_pollUntil |].
      intros fin. destruct negb; [apply appends_throw | apply appends_ret].
    - apply appends_try_catch.
      + apply appends_bind; [apply housekeeping_getStatus | intros; apply appends_ret].
      + intros; apply appends_ret. }
  unfold bind at 1 in H. unfold requestOut in H. unfold bind at 1 in H.
  unfold controlTransferOut in H. unfold ArrayBuffer in H. cbn [replicate] in H.
  destruct (answerOut device h2 _ (Some [])) as [e | res].
  - injection H as <- <-. apply Hall. constructor.
  - destruct (is_ok (out_status res)).
    + unfold ret at 1 in H. apply Hfin in H as (evs & -> & F).
      rewrite <- app_assoc. apply Hall, F.
    + injection H as <- <-. apply Hall. constructor.
Qed.


(** The scenario of the specification: 40000 bytes in chunks of 2048 are
    blocks 2 to 21, the last one of 40000 - 19 * 2048 = 1088 bytes, and an
    empty block 22. *)
Example do_download_40000 :
  let run := do_download (simulated healthy) dfuse_settings 20 2048
               (image (Z.to_nat 40000)) true None [] in
  fst run = Ret tt /\
  map (fun b => (fst b, byteLength (snd b))) (dnloads (snd run))
  = map (fun i => (Z.of_nat i, 2048)) (seq 2 19) ++ [(21, 1088); (22, 0)].
Proof. vm_compute. split; reflexivity. Qed.

(** ** A block the device refuses *)

Lemma download_loop_resume device settings pollFuel xferSize view firstBlock k h h1 :
  1 <= xferSize ->
  blocks_acknowledged device settings pollFuel xferSize view firstBlock k h h1 ->
  (forall fuel,
      download_loop device settings pollFuel (k + fuel) xferSize view 0 firstBlock h
      = download_loop device settings pollFuel fuel xferSize view
          (Z.min (Z.of_nat k * xferSize) (byteLength view)) (firstBlock + Z.of_nat k) h1) /\
  dnloads h1 = dnloads h ++ map (data_block xferSize view firstBlock) (seq 0 k).
Proof.
  intros HS. induction 1 as [h | k h h1 st h2 _ [IH IHd] Hlt Hd Hst].
  - split.
    + intros fuel. simpl. rewrite Z.min_l by (unfold byteLength; lia).
      rewrite Z.add_0_r. reflexivity.
    + simpl. rewrite app_nil_r. reflexivity.
  - split.
    + intros fuel. replace (S k + fuel)%nat with (k + S fuel)%nat by lia.
      rewrite IH. rewrite Z.min_l by lia.
      rewrite download_loop_step by exact Hlt.
      rewrite slice_chunk by assumption. rewrite Hd, Hst. simpl (0 =? 0).
      cbv iota.
      replace (Z.of_nat k * xferSize + Z.min xferSize (byteLength view - Z.of_nat k * xferSize))
        with (Z.min (Z.of_nat (S k) * xferSize) (byteLength view)) by lia.
      replace (firstBlock + Z.of_nat k + 1) with (firstBlock + Z.of_nat (S k)) by lia.
      reflexivity.
    + destruct (dnloadBlock_events _ _ _ _ _ _ _ _ Hd) as (ans & evs & -> & F).
      rewrite dnloads_app. change (dnloads [EvProgress _ _]) with (@nil (Z * list byte)).
      rewrite app_nil_r, dnloads_block by exact F. rewrite IHd.
      rewrite seq_S, map_app, <- app_assoc. reflexivity.
Qed.

(** C6.  When, after any number [k] of acknowledged data blocks, the device
    answers the next data block with a status that is not zero,
    [do_download] throws the error "DFU DOWNLOAD failed state=<state>
    status=<status>" built from that answer, and its history ends with the
    poll of that block: the refused block is the last DNLOAD, no further data
    block and no closing empty block follow. *)
Theorem do_download_block_failure device settings fuel xferSize data tolerant firstBlock
    h h0 k h1 st h2 :
  1 <= xferSize ->
  abortToIdle device settings h = (Ret tt, h0) ->
  blocks_acknowledged device settings fuel xferSize data (default 2 firstBlock) k
    (h0 ++ [EvProgress 0 (byteLength data)]) h1 ->
  Z.of_nat k * xferSize < byteLength data ->
  dnloadBlock device settings fuel (chunk xferSize data k)
    (default 2 firstBlock + Z.of_nat k) h1 = (Ret st, h2) ->
  status st <> 0 ->
  (k < fuel)%nat ->
  do_download device settings fuel xferSize data tolerant firstBlock h
  = (Throw (ErrorObj ("DFU DOWNLOAD failed state=" +:+ show_number (state st)
                      +:+ " status=" +:+ show_number (status st))), h2) /\
  dnloads h2 = dnloads h
               ++ map (data_block xferSize data (default 2 firstBlock)) (seq 0 (S k)).
Proof.
  intros HS Ha Hack Hlt Hd Hst Hfuel.
  destruct (download_loop_resume _ _ _ _ _ _ _ _ _ HS Hack) as [Hres Hdn].
  split.
  - unfold do_download. rewrite (bind_run _ _ _ _ _ Ha).
    unfold bind at 1. cbn [logProgress].
    apply bind_throw.
    replace fuel with (k + S (fuel - S k))%nat at 2 by lia.
    rewrite Hres. rewrite Z.min_l by lia.
    rewrite download_loop_step by exact Hlt.
    rewrite slice_chunk by assumption. rewrite Hd.
    destruct (Z.eqb_spec (status st) 0); [contradiction | reflexivity].
  - destruct (dnloadBlock_events _ _ _ _ _ _ _ _ Hd) as (ans & evs & -> & F).
    rewrite dnloads_block by exact F. rewrite Hdn.
    destruct (housekeeping_abortToIdle _ _ _ _ _ Ha) as (ev0 & -> & F0).
    rewrite !dnloads_app, (dnloads_housekeeping _ F0).
    change (dnloads [EvProgress _ _]) with (@nil (Z * list byte)).
    rewrite !app_nil_r, seq_S, map_app, <- app_assoc. reflexivity.
Qed.

Lemma do_download_block_failure_witness :
  exists h2,
    do_download (simulated (failing_at 4)) dfuse_settings 9 4 (image 30) true None []
    = (Throw (ErrorObj "DFU DOWNLOAD failed state=10 status=3"), h2) /\
    map fst (dnloads h2) = [2; 3; 4].
Proof.
  eexists.
  pose proof (fun h0 h1 st h2 Ha Hack Hd Hst =>
                do_download_block_failure (simulated (failing_at 4)) dfuse_settings
                  9 4 (image 30) true None [] h0 2 h1 st h2
                  ltac:(lia) Ha Hack ltac:(vm_compute; reflexivity) Hd Hst ltac:(lia)) as T.
  edestruct T as [Hrun Hdn]; clear T.
  - vm_compute. reflexivity.
  - eapply acknowledged_next; [eapply acknowledged_next; [apply acknowledged_none | ..] | ..].
    + vm_compute. reflexivity.
    + vm_compute. reflexivity.
    + reflexivity.
    + vm_compute. reflexivity.
    + vm_compute. reflexivity.
    + reflexivity.
  - vm_compute. reflexivity.
  - vm_compute. discriminate.
  - split; [exact Hrun |]. rewrite Hdn. reflexivity.
Defined.

(** ** Termination of the block loop *)

Lemma housekeeping_progress bound evs :
  Forall housekeeping evs -> Forall (progress_at_most bound) evs.
Proof.
  intros F. eapply Forall_impl; [exact F |].
  intros [? [?|] ?|? ? ?|?|? ?]; simpl; auto; contradiction.
Qed.

Lemma download_loop_stuck device settings pollFuel xferSize view :
  xferSize <= 0 -> view <> [] ->
  forall fuel sent block h r h',
    sent <= 0 ->
    download_loop device settings pollFuel fuel xferSize view sent block h = (r, h') ->
    (forall b, r <> Ret b) /\
    exists evs, h' = h ++ evs /\ Forall (progress_at_most sent) evs.
Proof.
  intros HS Hne.
  assert (0 < byteLength view) as HL
      by (destruct view; [contradiction | unfold byteLength; simpl; lia]).
  induction fuel as [| fuel IH]; intros sent block h r h' Hsent H.
  - cbn [download_loop] in H.
    destruct (Z.ltb_spec sent (byteLength view)); [| lia].
    injection H as <- <-. split; [discriminate |].
    exists []. rewrite app_nil_r. auto.
  - rewrite download_loop_step in H by lia.
    destruct (dnloadBlock device settings pollFuel _ block h) as [[st | e | l] h1] eqn:E;
      destruct (dnloadBlock_events _ _ _ _ _ _ _ _ E) as (ans & evs & -> & F).
    + destruct (status st =? 0).
      * apply IH in H as (Hr & evs' & -> & F'); [| lia].
        split; [exact Hr |].
        eexists. rewrite <- !app_assoc. split; [reflexivity |].
        simpl. constructor; [exact I |].
        apply Forall_app. split; [apply housekeeping_progress, F |].
        constructor; [simpl; lia |].
        eapply Forall_impl; [exact F' |].
        intros [? ? ?|? ? ?|?|? ?]; simpl; auto. lia.
      * injection H as <- <-. split; [discriminate |].
        eexists. split; [reflexivity |].
        constructor; [exact I | apply housekeeping_progress, F].
    + injection H as <- <-. split; [discriminate |].
      eexists. split; [reflexivity |].
      constructor; [exact I | apply housekeeping_progress, F].
    + injection H as <- <-. split; [discriminate |].
      eexists. split; [reflexivity |].
      constructor; [exact I | apply housekeeping_progress, F].
Qed.

(** The device [patient 0] takes every block at once, with status 0. *)
Lemma patient_dnloadBlock settings pollFuel data blockNum h :
  exists h1,
    dnloadBlock (patient 0) settings pollFuel data blockNum h
    = (Ret (decode_status ready_answer), h1).
Proof.
  unfold dnloadBlock, requestOut, controlTransferOut, bind. cbn [patient answerOut].
  cbn [out_status is_ok ret]. unfold pollUntil, bind.
  rewrite patient_getStatus.
  replace (length _ <? 2 * 0)%nat with false by (symmetry; apply Nat.ltb_ge; lia).
  eexists. destruct pollFuel; reflexivity.
Qed.

Lemma patient_download_loop_hangs settings pollFuel xferSize view :
  xferSize <= 0 -> view <> [] ->
  forall fuel sent block h,
    sent <= 0 ->
    fst (download_loop (patient 0) settings pollFuel fuel xferSize view sent block h)
    = Hang DownloadLoop.
Proof.
  intros HS Hne.
  assert (0 < byteLength view) as HL
      by (destruct view; [contradiction | unfold byteLength; simpl; lia]).
  induction fuel as [| fuel IH]; intros sent block h Hsent.
  - cbn [download_loop].
    destruct (Z.ltb_spec sent (byteLength view)); [reflexivity | lia].
  - rewrite download_loop_step by lia.
    destruct (patient_dnloadBlock settings pollFuel
                (slice view sent (sent + Z.min xferSize (byteLength view - sent))) block h)
      as (h1 & ->).
    change (status (decode_status ready_answer) =? 0) with true. cbv iota.
    apply IH. lia.
Qed.


(** ** The retry orchestrators *)

Section OrchestratorFacts.
Context {St : Type}.
Variable do_download : Z -> list byte -> bool -> option Z -> Eff St unit.

Lemma tried_first (s : Z) : (1 <? Z.of_nat (size ({[s]} ∪ (∅ : gset Z)))) = false.
Proof. rewrite union_empty_r_L, size_singleton. reflexivity. Qed.

Lemma tried_later (s : Z) (tried : gset Z) :
  s ∉ tried -> tried <> ∅ -> (1 <? Z.of_nat (size ({[s]} ∪ tried))) = true.
Proof.
  intros Hs Hne. rewrite size_union by set_solver. rewrite size_singleton.
  assert (size tried <> 0%nat) by (intros E; apply size_empty_iff in E; set_solver).
  apply Z.ltb_lt. lia.
Qed.

(** Once every remaining size has been tried, what is left is the code after
    the loop. *)
Lemma writeWithFallback_loop_exhausted data rest (tried : gset Z) lastErr st :
  Forall (fun x => x ∈ tried) rest ->
  writeWithFallback_loop do_download data rest tried lastErr st = after_ladder lastErr st.
Proof.
  induction 1 as [| x rest Hx _ IH]; [reflexivity |].
  cbn [writeWithFallback_loop]. rewrite bool_decide_eq_true_2 by exact Hx. exact IH.
Qed.

Lemma flashWithRetry_loop_exhausted data rest (tried : gset Z) lastErr st :
  Forall (fun x => x ∈ tried) rest ->
  flashWithRetry_loop do_download data rest tried lastErr st = after_ladder lastErr st.
Proof.
  induction 1 as [| x rest Hx _ IH]; [reflexivity |].
  cbn [flashWithRetry_loop]. rewrite bool_decide_eq_true_2 by exact Hx. exact IH.
Qed.

Lemma writeWithFallback_loop_failed data s rest (tried : gset Z) lastErr st e st' :
  s ∉ tried ->
  do_download s data true (Some 2) st = (Throw e, st') ->
  writeWithFallback_loop do_download data (s :: rest) tried lastErr st
  = if disconnected e && (1 <? Z.of_nat (size ({[s]} ∪ tried)))
    then (Ret true, st')
    else writeWithFallback_loop do_download data rest ({[s]} ∪ tried) e st'.
Proof.
  intros Hs Hd. cbn [writeWithFallback_loop].
  rewrite bool_decide_eq_false_2 by exact Hs. rewrite Hd.
  destruct (disconnected e), (1 <? Z.of_nat (size ({[s]} ∪ tried))); reflexivity.
Qed.

Lemma flashWithRetry_loop_failed data s rest (tried : gset Z) lastErr st e st' :
  s ∉ tried ->
  do_download s data true (Some 2) st = (Throw e, st') ->
  flashWithRetry_loop do_download data (s :: rest) tried lastErr st
  = if disconnected e && (mostly_done data || (1 <? Z.of_nat (size ({[s]} ∪ tried))))
    then (Ret true, st')
    else flashWithRetry_loop do_download data rest ({[s]} ∪ tried) e st'.
Proof.
  intros Hs Hd. cbn [flashWithRetry_loop].
  rewrite bool_decide_eq_false_2 by exact Hs. rewrite Hd.
  destruct (disconnected e), (mostly_done data),
    (1 <? Z.of_nat (size ({[s]} ∪ tried))); reflexivity.
Qed.

Lemma mostly_done_nonempty data : data <> [] -> mostly_done data = false.
Proof.
  intros Hne. unfold mostly_done, totalProgress, byteLength.
  destruct data; [contradiction |]. apply Z.leb_gt. simpl length. lia.
Qed.

Lemma after_ladder_run lastErr (st : St) :
  after_ladder lastErr st
  = if disconnected lastErr then (Ret true, st) else (Throw lastErr, st).
Proof. unfold after_ladder. destruct (disconnected lastErr); reflexivity. Qed.

End OrchestratorFacts.

(** C2 (as amended).  Take any point of a ladder run at which a size [s] not
    tried before is attempted and the download throws [e].
    (a) If [e] reports a disconnection and some size was tried before, the run
        ends in success.
    (b) If [e] reports a disconnection and [s] is the first size tried, then
        in [writeWithFallback], and in [flashWithRetry] for a non-empty image,
        the run does not end there: the next size of the ladder is attempted
        and decides the outcome.
    (c) If [e] reports a disconnection and no untried size is left, the run
        ends in success.
    (d) If [e] does not report a disconnection and no untried size is left,
        [e] is thrown again. *)
Theorem retry_policy {St : Type} (do_download : Z -> list byte -> bool -> option Z -> Eff St unit)
    data s rest (tried : gset Z) lastErr st e st' :
  s ∉ tried ->
  do_download s data true (Some 2) st = (Throw e, st') ->
  (disconnected e = true -> tried <> ∅ ->
   writeWithFallback_loop do_download data (s :: rest) tried lastErr st = (Ret true, st') /\
   flashWithRetry_loop do_download data (s :: rest) tried lastErr st = (Ret true, st')) /\
  (disconnected e = true -> tried = ∅ ->
   forall s2 rest2, rest = s2 :: rest2 -> s2 <> s ->
     writeWithFallback_loop do_download data (s :: rest) tried lastErr st
     = match do_download s2 data true (Some 2) st' with
       | (Ret _, st2) => (Ret true, st2)
       | (Throw e2, st2) =>
           if disconnected e2 then (Ret true, st2)
           else writeWithFallback_loop do_download data rest2 ({[s2]} ∪ ({[s]} ∪ ∅)) e2 st2
       | (Hang l, st2) => (Hang l, st2)
       end /\
     (data <> [] ->
      flashWithRetry_loop do_download data (s :: rest) tried lastErr st
      = match do_download s2 data true (Some 2) st' with
        | (Ret _, st2) => (Ret true, st2)
        | (Throw e2, st2) =>
            if disconnected e2 then (Ret true, st2)
            else flashWithRetry_loop do_download data rest2 ({[s2]} ∪ ({[s]} ∪ ∅)) e2 st2
        | (Hang l, st2) => (Hang l, st2)
        end)) /\
  (disconnected e = true -> Forall (fun x => x ∈ {[s]} ∪ tried) rest ->
   writeWithFallback_loop do_download data (s :: rest) tried lastErr st = (Ret true, st') /\
   flashWithRetry_loop do_download data (s :: rest) tried lastErr st = (Ret true, st')) /\
  (disconnected e = false -> Forall (fun x => x ∈ {[s]} ∪ tried) rest ->
   writeWithFallback_loop do_download data (s :: rest) tried lastErr st = (Throw e, st') /\
   flashWithRetry_loop do_download data (s :: rest) tried lastErr st = (Throw e, st')).
Proof.
  intros Hs Hd.
  rewrite (writeWithFallback_loop_failed do_download data s rest tried lastErr st e st' Hs Hd).
  rewrite (flashWithRetry_loop_failed do_download data s rest tried lastErr st e st' Hs Hd).
  split; [| split; [| split]].
  - intros He Hne. rewrite He, (tried_later s tried Hs Hne), orb_true_r. auto.
  - intros He -> s2 rest2 -> Hs2. rewrite He, tried_first. simpl andb. cbv iota.
    assert (s2 ∉ ({[s]} ∪ ∅ : gset Z)) as Hs2' by set_solver.
    assert (({[s]} ∪ ∅ : gset Z) <> ∅) as Hne by set_solver.
    split.
    + cbn [writeWithFallback_loop]. rewrite bool_decide_eq_false_2 by exact Hs2'.
      rewrite (tried_later s2 _ Hs2' Hne). reflexivity.
    + intros Hdata. rewrite (mostly_done_nonempty data Hdata). simpl orb. cbv iota.
      cbn [flashWithRetry_loop]. rewrite bool_decide_eq_false_2 by exact Hs2'.
      rewrite (mostly_done_nonempty data Hdata), (tried_later s2 _ Hs2' Hne). reflexivity.
  - intros He Hall. rewrite He. simpl andb.
    rewrite (writeWithFallback_loop_exhausted do_download data rest _ e st' Hall).
    rewrite (flashWithRetry_loop_exhausted do_download data rest _ e st' Hall).
    rewrite after_ladder_run, He.
    destruct (1 <? Z.of_nat (size ({[s]} ∪ tried))), (mostly_done data); auto.
  - intros He Hall. rewrite He. simpl andb. cbv iota.
    rewrite (writeWithFallback_loop_exhausted do_download data rest _ e st' Hall).
    rewrite (flashWithRetry_loop_exhausted do_download data rest _ e st' Hall).
    rewrite after_ladder_run, He. auto.
Qed.

(** The first size disconnects, the second is attempted; and a disconnection
    on the second size is taken for success. *)
Lemma retry_policy_witness :
  exists h1 h2,
    do_download (simulated (unplugged_after 0)) dfuse_settings 3 2048 (image 3) true (Some 2) []
    = (Throw device_gone, h1) /\
    do_download (simulated (unplugged_after 0)) dfuse_settings 3 1024 (image 3) true (Some 2) h1
    = (Throw device_gone, h2) /\
    flashWithRetry (do_download (simulated (unplugged_after 0)) dfuse_settings 3) (image 3) []
    = (Ret true, h2).
Proof.
  eexists. eexists. split; [vm_compute; reflexivity |]. split; [vm_compute; reflexivity |].
  unfold flashWithRetry, transferSizes.
  pose proof (retry_policy (do_download (simulated (unplugged_after 0)) dfuse_settings 3)
                (image 3) 2048 [1024; 512; 256] ∅ Undefined [] device_gone _
                ltac:(set_solver) ltac:(vm_compute; reflexivity)) as (_ & Hb & _ & _).
  destruct (Hb eq_refl eq_refl 1024 [512; 256] eq_refl ltac:(discriminate)) as [_ Hf].
  rewrite (Hf ltac:(discriminate)). vm_compute. reflexivity.
Defined.

(** C2 as stated fails for [flashWithRetry] on an empty image: the first size
    (2048) fails by disconnection and the run ends in success at once;
    [do_download] is never called with 1024. *)
Lemma retry_first_disconnect_counterexample :
  exists h,
    fst (do_download (simulated (unplugged_after 0)) dfuse_settings 3 2048 [] true (Some 2) [])
    = Throw device_gone /\
    disconnected device_gone = true /\
    flashWithRetry (recording (do_download (simulated (unplugged_after 0)) dfuse_settings 3))
      [] ([], [])
    = (Ret true, (h, [2048])).
Proof. eexists. vm_compute. repeat split; reflexivity. Qed.

(** ** No size is tried twice *)

Section Recording.
Context {St : Type}.
Variable do_download : Z -> list byte -> bool -> option Z -> Eff St unit.

Lemma recording_run s data tolerant firstBlock st calls :
  recording do_download s data tolerant firstBlock (st, calls)
  = (fst (do_download s data tolerant firstBlock st),
     (snd (do_download s data tolerant firstBlock st), calls ++ [s])).
Proof.
  unfold recording. destruct (do_download s data tolerant firstBlock st). reflexivity.
Qed.

Lemma fresh_cons (s : Z) (tried : gset Z) (sizes new : list Z) :
  s ∉ tried -> NoDup new ->
  (forall x, x ∈ new -> (x ∉ {[s]} ∪ tried) /\ (x ∈ sizes)) ->
  NoDup (s :: new) /\ (forall x, x ∈ s :: new -> (x ∉ tried) /\ (x ∈ s :: sizes)).
Proof.
  intros Hs Hn Hnew. split.
  - apply NoDup_cons. split; [| exact Hn]. intros Hin. apply Hnew in Hin. set_solver.
  - intros x Hx. apply elem_of_cons in Hx as [-> | Hx].
    + split; [exact Hs | set_solver].
    + apply Hnew in Hx. set_solver.
Qed.

Lemma writeWithFallback_records : records_fresh_sizes do_download (@writeWithFallback_loop).
Proof.
  intros data sizes. induction sizes as [| s rest IH]; intros tried lastErr st calls.
  - cbn [writeWithFallback_loop]. unfold after_ladder.
    destruct (disconnected lastErr); simpl; repeat split; auto;
      exists []; rewrite app_nil_r; repeat split; auto using NoDup_nil_2; set_solver.
  - cbn [writeWithFallback_loop]. destruct (bool_decide (s ∈ tried)) eqn:Hs.
    + destruct (IH tried lastErr st calls) as (H1 & H2 & new & H3 & H4 & H5).
      repeat split; auto. exists new. repeat split; auto; set_solver.
    + apply bool_decide_eq_false in Hs. rewrite recording_run.
      destruct (do_download s data true (Some 2) st) as [[[] | e | l] st1]; simpl.
      * repeat split; auto. exists [s]. repeat split; auto.
        -- apply NoDup_singleton.
        -- set_solver.
        -- set_solver.
      * destruct (disconnected e && (1 <? Z.of_nat (size ({[s]} ∪ tried)))) eqn:T.
        -- apply andb_prop in T as [-> ->]. simpl. repeat split; auto.
           exists [s]. repeat split; auto; [apply NoDup_singleton | set_solver | set_solver].
        -- destruct (IH ({[s]} ∪ tried) e st1 (calls ++ [s]))
             as (H1 & H2 & new & H3 & H4 & H5).
           destruct (fresh_cons s tried rest new Hs H4 H5) as [N1 N2].
           destruct (disconnected e), (1 <? Z.of_nat (size ({[s]} ∪ tried)));
             try discriminate T; (repeat split; auto);
             exists (s :: new); rewrite H3, <- app_assoc;
             (split; [reflexivity |]); (split; [exact N1 | exact N2]).
      * repeat split; auto. exists [s]. repeat split; auto.
        -- apply NoDup_singleton.
        -- set_solver.
        -- set_solver.
Qed.

Lemma flashWithRetry_records : records_fresh_sizes do_download (@flashWithRetry_loop).
Proof.
  intros data sizes. induction sizes as [| s rest IH]; intros tried lastErr st calls.
  - cbn [flashWithRetry_loop]. unfold after_ladder.
    destruct (disconnected lastErr); simpl; repeat split; auto;
      exists []; rewrite app_nil_r; repeat split; auto using NoDup_nil_2; set_solver.
  - cbn [flashWithRetry_loop]. destruct (bool_decide (s ∈ tried)) eqn:Hs.
    + destruct (IH tried lastErr st calls) as (H1 & H2 & new & H3 & H4 & H5).
      repeat split; auto. exists new. repeat split; auto; set_solver.
    + apply bool_decide_eq_false in Hs. rewrite recording_run.
      destruct (do_download s data true (Some 2) st) as [[[] | e | l] st1]; simpl.
      * repeat split; auto. exists [s]. repeat split; auto.
        -- apply NoDup_singleton.
        -- set_solver.
        -- set_solver.
      * destruct (disconnected e
                  && (mostly_done data || (1 <? Z.of_nat (size ({[s]} ∪ tried))))) eqn:T.
        -- assert (exists new,
                      calls ++ [s] = calls ++ new /\ NoDup new /\
                      (forall x, x ∈ new -> (x ∉ tried) /\ (x ∈ s :: rest))) as Hone
             by (exists [s]; repeat split; auto; [apply NoDup_singleton | set_solver | set_solver]).
           destruct (disconnected e), (mostly_done data),
             (1 <? Z.of_nat (size ({[s]} ∪ tried)));
             try discriminate T; simpl; repeat split; auto.
        -- destruct (IH ({[s]} ∪ tried) e st1 (calls ++ [s]))
             as (H1 & H2 & new & H3 & H4 & H5).
           destruct (fresh_cons s tried rest new Hs H4 H5) as [N1 N2].
           destruct (disconnected e), (mostly_done data),
             (1 <? Z.of_nat (size ({[s]} ∪ tried)));
             try discriminate T; (repeat split; auto);
             exists (s :: new); rewrite H3, <- app_assoc;
             (split; [reflexivity |]); (split; [exact N1 | exact N2]).
      * repeat split; auto. exists [s]. repeat split; auto.
        -- apply NoDup_singleton.
        -- set_solver.
        -- set_solver.
Qed.

End Recording.

(** C9.  In one run of either orchestrator no transfer size is passed to
    [do_download] twice, whatever the ladder holds: the sizes the download
    action was called with, in order, form a list without repetition, each
    taken from the ladder.  (Recording the calls leaves the run as it is.) *)
Theorem orchestrator_no_reuse {St : Type}
    (do_download : Z -> list byte -> bool -> option Z -> Eff St unit) data sizes st :
  let recorded := writeWithFallback (recording do_download) data sizes (st, []) in
  let recorded' := flashWithRetry (recording do_download) data (st, []) in
  (fst recorded, fst (snd recorded)) = writeWithFallback do_download data sizes st /\
  NoDup (snd (snd recorded)) /\
  (forall x, x ∈ snd (snd recorded) -> x ∈ sizes) /\
  (fst recorded', fst (snd recorded')) = flashWithRetry do_download data st /\
  NoDup (snd (snd recorded')) /\
  (forall x, x ∈ snd (snd recorded') -> x ∈ transferSizes).
Proof.
  intros recorded recorded'.
  destruct (writeWithFallback_records do_download data sizes ∅ Undefined st [])
    as (H1 & H2 & new & H3 & H4 & H5).
  destruct (flashWithRetry_records do_download data transferSizes ∅ Undefined st [])
    as (G1 & G2 & new' & G3 & G4 & G5).
  fold (writeWithFallback (recording do_download) data sizes (st, [])) in H1, H2, H3.
  fold (writeWithFallback do_download data sizes st) in H1, H2.
  fold (flashWithRetry (recording do_download) data (st, [])) in G1, G2, G3.
  fold (flashWithRetry do_download data st) in G1, G2.
  fold recorded in H1, H2, H3. fold recorded' in G1, G2, G3.
  simpl in H3, G3. rewrite H1, H2, H3, G1, G2, G3.
  repeat split.
  - destruct (writeWithFallback do_download data sizes st); reflexivity.
  - exact H4.
  - intros x Hx. apply H5, Hx.
  - destruct (flashWithRetry do_download data st); reflexivity.
  - exact G4.
  - intros x Hx. apply G5, Hx.
Qed.

(** A ladder whose first entry repeats one of the fixed sizes, as when the
    descriptor reports 2048: each size is called once. *)
Example writeWithFallback_duplicate_ladder :
  snd (snd (writeWithFallback
              (recording (do_download (simulated (failing_at 2)) dfuse_settings 3))
              (image 3) [2048; 2048; 1024; 512; 256] ([], [])))
  = [2048; 1024; 512; 256].
Proof. vm_compute. reflexivity. Qed.

(** ** The descriptor walk *)

(** The walk is total: with the buffer length as fuel it never gives up. *)
Lemma walk_descriptors_total settings bytes :
  forall fuel offset inTargetIntf,
    0 <= offset ->
    byteLength bytes - offset < 2 * Z.of_nat fuel + 2 ->
    hangs_in (fun _ => False) (walk_descriptors settings fuel bytes offset inTargetIntf).
Proof.
  induction fuel as [| fuel IH]; intros offset inTargetIntf H0 Hf; cbn [walk_descriptors].
  - destruct (Z.leb_spec (offset + 2) (byteLength bytes)); [lia | apply hangs_ret].
  - destruct (Z.leb_spec (offset + 2) (byteLength bytes)); [| apply hangs_ret].
    apply hangs_bind; [apply hangs_getUint8 |]. intros bLength.
    apply hangs_bind; [apply hangs_getUint8 |]. intros bType.
    destruct (Z.ltb_spec bLength 2); [apply hangs_ret |].
    destruct (bType =? 4).
    + repeat (apply hangs_bind; [apply hangs_getUint8 |]; intros ?).
      apply IH; lia.
    + destruct (inTargetIntf && (bType =? 33)).
      * apply hangs_bind; [apply hangs_getUint16 |]. intros ?. apply hangs_ret.
      * apply IH; lia.
Qed.

Lemma getTransferSize_never_hangs device settings h l h' :
  getTransferSize device settings h <> (Hang l, h').
Proof.
  intros H. revert H. generalize h l h'. change (hangs_in (fun _ => False)
                                                   (getTransferSize device settings)).
  unfold getTransferSize.
  apply hangs_bind.
  { intros s l0 s' H. unfold controlTransferIn in H. destruct answerIn; discriminate H. }
  intros first. destruct (negb (is_ok (in_status first))); [apply hangs_throw |].
  apply hangs_bind; [apply hangs_getUint16 |]. intros wTotalLength.
  apply hangs_bind.
  { intros s l0 s' H. unfold controlTransferIn in H. destruct answerIn; discriminate H. }
  intros full. destruct (negb (is_ok (in_status full))); [apply hangs_throw |].
  apply walk_descriptors_total; unfold byteLength; lia.
Qed.

Example getTransferSize_advertised :
  fst (getTransferSize (simulated healthy) dfuse_settings []) = Ret 2048.
Proof. reflexivity. Qed.

Example getTransferSize_bare :
  fst (getTransferSize (simulated (reporting bare_descriptor)) dfuse_settings []) = Ret 2048.
Proof. reflexivity. Qed.

Example getTransferSize_zero_length :
  fst (getTransferSize (simulated (reporting zero_length_descriptor)) dfuse_settings [])
  = Ret 2048.
Proof. reflexivity. Qed.

(** C5 fails on the code.  Both device reads complete with status "ok", the
    descriptor holds no record of type 0x21, and [getTransferSize] throws a
    RangeError instead of returning 2048: the walk checks that the two header
    bytes of a record lie inside the buffer, but reads the fields of an
    interface record (up to offset + 7) without a check. *)
Theorem getTransferSize_truncated_throws :
  Forall (fun ev => match ev with
                    | EvControlIn _ _ (inr res) => in_status res = status_ok
                    | _ => False
                    end)
         (snd (getTransferSize (simulated truncated) dfuse_settings [])) /\
  Forall (fun b => b <> x21) truncated_descriptor /\
  fst (getTransferSize (simulated truncated) dfuse_settings []) = Throw RangeError.
Proof.
  split; [| split].
  - vm_compute. repeat constructor.
  - repeat constructor; discriminate.
  - reflexivity.
Qed.

(** ** The flashing run *)

Lemma vendor_commands_dnloads h : vendor_commands h = omap vendor_payload (dnloads h).
Proof.
  induction h as [| ev h IH]; [reflexivity |].
  unfold vendor_commands, dnloads in *.
  change (omap vendor_command_of (ev :: h))
    with (match vendor_command_of ev with
          | Some y => y :: omap vendor_command_of h
          | None => omap vendor_command_of h
          end).
  change (omap dnload_of (ev :: h))
    with (match dnload_of ev with
          | Some y => y :: omap dnload_of h
          | None => omap dnload_of h
          end).
  unfold vendor_command_of at 1.
  destruct (dnload_of ev) as [b |]; [| exact IH].
  change (omap vendor_payload (b :: omap dnload_of h))
    with (match vendor_payload b with
          | Some y => y :: omap vendor_payload (omap dnload_of h)
          | None => omap vendor_payload (omap dnload_of h)
          end).
  rewrite IH. reflexivity.
Qed.

Lemma no_vendor_command_housekeeping {A} (c : Eff History A) :
  appends housekeeping c -> no_vendor_command c.
Proof.
  intros Hc h r h' H. apply Hc in H as (evs & -> & F).
  rewrite !vendor_commands_dnloads, dnloads_app, (dnloads_housekeeping _ F), app_nil_r.
  reflexivity.
Qed.

Lemma no_vendor_command_bind {A B} (c : Eff History A) (k : A -> Eff History B) :
  no_vendor_command c -> (forall a, no_vendor_command (k a)) -> no_vendor_command (bind c k).
Proof.
  intros Hc Hk h r h' H. unfold bind in H.
  destruct (c h) as [[a | e | l] h1] eqn:E; pose proof (Hc _ _ _ E) as E1.
  - rewrite <- E1. eapply Hk, H.
  - injection H as <- <-. exact E1.
  - injection H as <- <-. exact E1.
Qed.

Lemma data_blocks_not_vendor xferSize view firstBlock m :
  1 <= firstBlock ->
  omap vendor_payload (take m (expected_dnloads xferSize view firstBlock)) = [].
Proof.
  intros Hfb.
  assert (Forall (fun b => 1 <= fst b) (expected_dnloads xferSize view firstBlock)) as F.
  { unfold expected_dnloads, data_blocks. apply Forall_app. split.
    - apply Forall_forall. intros b Hb. apply list_elem_of_In, in_map_iff in Hb.
      destruct Hb as (i & <- & _). simpl. lia.
    - constructor; [simpl; lia | constructor]. }
  apply (Forall_take _ m) in F. induction F as [| [blk d] l Hb _ IH]; [reflexivity |].
  change (omap vendor_payload ((blk, d) :: l))
    with (match vendor_payload (blk, d) with
          | Some y => y :: omap vendor_payload l
          | None => omap vendor_payload l
          end).
  simpl in Hb. destruct blk as [| p | p]; try lia; cbn [vendor_payload]; exact IH.
Qed.

Lemma no_vendor_command_do_download device settings fuel xferSize data tolerant :
  1 <= xferSize ->
  no_vendor_command (do_download device settings fuel xferSize data tolerant (Some 2)).
Proof.
  intros HS h r h' H.
  destruct (do_download_dnloads _ _ _ _ _ _ _ _ _ _ HS H) as (m & Hm & _).
  rewrite !vendor_commands_dnloads, Hm, omap_app.
  change (default 2 (Some 2)) with 2.
  rewrite data_blocks_not_vendor by lia. apply app_nil_r.
Qed.

Lemma no_vendor_command_flashWithRetry_loop device settings fuel data :
  forall sizes tried lastErr,
    Forall (fun s => 1 <= s) sizes ->
    no_vendor_command
      (flashWithRetry_loop (do_download device settings fuel) data sizes tried lastErr).
Proof.
  induction sizes as [| s rest IH]; intros tried lastErr Hsz h r h' H.
  - cbn [flashWithRetry_loop] in H. unfold after_ladder in H.
    destruct (disconnected lastErr); injection H as <- <-; reflexivity.
  - apply Forall_cons in Hsz as [Hs Hrest]. cbn [flashWithRetry_loop] in H.
    destruct (bool_decide (s ∈ tried)); [eapply IH; eauto |].
    destruct (do_download device settings fuel s data true (Some 2) h) as [[[] | e | l] h1] eqn:E;
      pose proof (no_vendor_command_do_download _ _ _ _ _ _ Hs _ _ _ E) as E1.
    + injection H as <- <-. exact E1.
    + rewrite <- E1.
      destruct (disconnected e);
        [destruct (mostly_done data);
         [| destruct (1 <? Z.of_nat (size ({[s]} ∪ tried)))] |];
        try (injection H as <- <-; reflexivity); eapply IH; eauto.
    + injection H as <- <-. exact E1.
Qed.

Lemma vendor_payload_command opcode addr :
  vendor_payload (0, command_bytes opcode addr) = Some (opcode mod 256, addr mod 4294967296).
Proof.
  unfold command_bytes, vendor_payload. rewrite !byte_of_Z_value.
  rewrite le32_decode by (apply Z.mod_pos_bound; lia). reflexivity.
Qed.

Lemma vendor_command_steps_commands device settings fuel opcode addr failure h h' :
  vendor_command_steps device settings fuel opcode addr failure h = (Ret tt, h') ->
  vendor_commands h' = vendor_commands h ++ [(opcode mod 256, addr mod 4294967296)].
Proof.
  unfold vendor_command_steps. intros H.
  destruct (abortToIdle device settings h) as [[[] | e | l] h1] eqn:Ea; try discriminate H.
  apply housekeeping_abortToIdle in Ea as (ev0 & -> & F0).
  destruct (requestOut device settings DFU.DNLOAD _ 0 (h ++ ev0)) as [[n | e | l] h2] eqn:Eo;
    try discriminate H.
  destruct (requestOut_cases device settings DFU.DNLOAD (Some (command_bytes opcode addr)) 0
              (h ++ ev0)) as [(n' & Eo') | (e & ev & Eo' & _)];
    rewrite Eo' in Eo; [| discriminate Eo].
  injection Eo as <- <-.
  destruct (pollUntil device settings fuel STATE.dfuDNLOAD_IDLE _) as [[st | e | l] h3] eqn:Ep;
    try discriminate H.
  apply housekeeping_pollUntil in Ep as (ev1 & -> & F1).
  destruct (status st =? 0); [| discriminate H]. injection H as <-.
  rewrite !vendor_commands_dnloads. rewrite <- !app_assoc.
  rewrite !dnloads_app, (dnloads_housekeeping _ F0), (dnloads_housekeeping _ F1).
  unfold out_accepted.
  change (dnloads [EvControlOut _ _ _]) with [(0, command_bytes opcode addr)].
  cbn [app]. rewrite omap_app.
  change (omap vendor_payload [(0, command_bytes opcode addr)])
    with (match vendor_payload (0, command_bytes opcode addr) with
          | Some y => [y]
          | None => []
          end).
  rewrite vendor_payload_command. reflexivity.
Qed.

Lemma appends_walk_descriptors P settings bytes :
  forall fuel offset inTargetIntf,
    appends P (walk_descriptors settings fuel bytes offset inTargetIntf).
Proof.
  induction fuel as [| fuel IH]; intros offset inTargetIntf; cbn [walk_descriptors];
    (destruct (offset + 2 <=? byteLength bytes); [| apply appends_ret]).
  - apply appends_hang.
  - apply appends_bind; [apply appends_getUint8 |]. intros bLength.
    apply appends_bind; [apply appends_getUint8 |]. intros bType.
    destruct (bLength <? 2); [apply appends_ret |].
    destruct (bType =? 4).
    + repeat (apply appends_bind; [apply appends_getUint8 |]; intros ?). apply IH.
    + destruct (inTargetIntf && (bType =? 33)); [| apply IH].
      apply appends_bind; [apply appends_getUint16 |]. intros ?. apply appends_ret.
Qed.

Lemma housekeeping_getTransferSize device settings :
  appends housekeeping (getTransferSize device settings).
Proof.
  unfold getTransferSize.
  apply appends_bind; [apply appends_controlTransferIn; intros; exact I |].
  intros first. destruct (negb (is_ok (in_status first))); [apply appends_throw |].
  apply appends_bind; [apply appends_getUint16 |]. intros wTotalLength.
  apply appends_bind; [apply appends_controlTransferIn; intros; exact I |].
  intros full. destruct (negb (is_ok (in_status full))); [apply appends_throw |].
  apply appends_walk_descriptors.
Qed.

Lemma probe_run device settings h :
  try_catch (getState device settings ;;; ret tt) (fun _ => ret tt) h
  = (Ret tt, snd (getState device settings h)).
Proof.
  unfold try_catch, bind.
  destruct (getState device settings h) as [[s | e | l] h1] eqn:E; try reflexivity.
  exfalso. exact (hangs_getState (fun _ => False) _ _ _ _ _ E).
Qed.

Lemma detach_run device settings h :
  try_catch (requestOut device settings 0 (Some (ArrayBuffer 0)) 1000 ;;; ret tt)
            (fun _ => ret tt) h
  = (Ret tt, h ++ [detach_event device settings h]).
Proof.
  unfold try_catch, bind, requestOut, bind, controlTransferOut, detach_event.
  change (ArrayBuffer 0) with (@nil byte). change DFU.DETACH with 0.
  destruct (answerOut device h (class_setup settings 0 1000) (Some [])) as [e | res];
    [reflexivity |].
  destruct (is_ok (out_status res)); reflexivity.
Qed.

Lemma check_success_run (success : bool) message (h : History) r h' :
  (if negb success then throw (ErrorObj message) else ret tt) h = (Ret r, h') ->
  success = true /\ h' = h.
Proof. destruct success; intros [= <-]; auto. Qed.

(** *** Timers *)

Lemma duration_nonneg clock h ev : 0 <= duration clock h ev.
Proof. unfold duration. destruct ev; lia. Qed.

Lemma elapsed_nonneg clock evs : forall h, 0 <= elapsed clock h evs.
Proof.
  induction evs as [| ev evs IH]; intros h; cbn [elapsed]; [lia |].
  pose proof (duration_nonneg clock h ev). specialize (IH (h ++ [ev])). lia.
Qed.

Lemma elapsed_app clock evs1 evs2 :
  forall h, elapsed clock h (evs1 ++ evs2)
            = elapsed clock h evs1 + elapsed clock (h ++ evs1) evs2.
Proof.
  induction evs1 as [| ev evs1 IH]; intros h; cbn [elapsed app].
  - rewrite app_nil_r. lia.
  - rewrite IH, <- app_assoc. cbn [app]. lia.
Qed.

(** What had begun at the deadline is an initial part of the events. *)
Lemma begun_before_take clock evs :
  forall h deadline, exists k, begun_before clock h deadline evs = take k evs.
Proof.
  induction evs as [| ev evs IH]; intros h deadline; cbn [begun_before].
  - exists 0%nat. reflexivity.
  - destruct (0 <? deadline); [| exists 0%nat; reflexivity].
    destruct (IH (h ++ [ev]) (deadline - duration clock h ev)) as (k & ->).
    exists (S k). reflexivity.
Qed.

(** If the events outlast the deadline, so does the part of them begun
    before it. *)
Lemma begun_before_late clock evs :
  forall h deadline,
    deadline <= elapsed clock h evs ->
    deadline <= elapsed clock h (begun_before clock h deadline evs).
Proof.
  induction evs as [| ev evs IH]; intros h deadline Hlate;
    cbn [begun_before elapsed] in *; [exact Hlate |].
  destruct (Z.ltb_spec 0 deadline) as [Hpos | Hneg]; cbn [elapsed]; [| lia].
  specialize (IH (h ++ [ev]) (deadline - duration clock h ev) ltac:(lia)). lia.
Qed.

(** How a race against the timer ends: with the operation, in time; or
    with the timer, the operation having taken at least the time limit. *)
Lemma withTimeout_cases {A} clock (c : Eff History A) timeoutMs operation h r h' :
  withTimeout clock c timeoutMs operation h = (r, h') ->
  (c h = (r, h') /\ elapsed clock h (drop (length h) h') < timeoutMs) \/
  (exists r0 h0,
      c h = (r0, h0) /\
      timeoutMs <= elapsed clock h (drop (length h) h0) /\
      r = Throw (timed_out operation timeoutMs) /\
      h' = h ++ begun_before clock h timeoutMs (drop (length h) h0)).
Proof.
  unfold withTimeout. destruct (c h) as [r0 h0].
  destruct (Z.ltb_spec (elapsed clock h (drop (length h) h0)) timeoutMs) as [Hin | Hlate];
    intros [= <- <-].
  - left. split; [reflexivity | exact Hin].
  - right. exists r0, h0. repeat split. exact Hlate.
Qed.

Lemma withTimeout_Ret_inv {A} clock (c : Eff History A) timeoutMs operation h a h' :
  withTimeout clock c timeoutMs operation h = (Ret a, h') ->
  c h = (Ret a, h') /\ elapsed clock h (drop (length h) h') < timeoutMs.
Proof.
  intros H. apply withTimeout_cases in H as [H | (r0 & h0 & _ & _ & C & _)];
    [exact H | discriminate C].
Qed.

Lemma withTimeout_in_time {A} clock (c : Eff History A) timeoutMs operation h r h' :
  c h = (r, h') ->
  elapsed clock h (drop (length h) h') < timeoutMs ->
  withTimeout clock c timeoutMs operation h = (r, h').
Proof.
  intros E Hin. unfold withTimeout. rewrite E.
  destruct (Z.ltb_spec (elapsed clock h (drop (length h) h')) timeoutMs); [reflexivity | lia].
Qed.

(** The message of a timer is the one [flash] looks for. *)
Lemma includes_append_l a b search :
  includes b search = true -> includes (a +:+ b) search = true.
Proof.
  intros Hb. induction a as [| ch a IH]; [exact Hb |].
  change (String ch a +:+ b) with (String ch (a +:+ b)).
  cbn [includes]. rewrite IH. apply orb_true_r.
Qed.

Lemma timed_out_message operation timeoutMs :
  exists m, timed_out operation timeoutMs = ErrorObj m /\
            m <> EmptyString /\ includes m "timed out" = true.
Proof.
  eexists. split; [reflexivity |]. split.
  - destruct operation; discriminate.
  - apply includes_append_l. reflexivity.
Qed.

Lemma dfuseErase_commands device settings fuel addr h h' :
  dfuseErase device settings fuel addr h = (Ret tt, h') ->
  vendor_commands h' = vendor_commands h ++ [(65, addr mod 4294967296)].
Proof.
  unfold dfuseErase. rewrite (vendor_command_run _ _ _ 65 _ erase_failed).
  apply vendor_command_steps_commands.
Qed.

Lemma dfuseSetAddress_commands device settings fuel addr h h' :
  dfuseSetAddress device settings fuel addr h = (Ret tt, h') ->
  vendor_commands h' = vendor_commands h ++ [(33, addr mod 4294967296)].
Proof.
  unfold dfuseSetAddress. rewrite (vendor_command_run _ _ _ 33 _ setaddr_failed).
  apply vendor_command_steps_commands.
Qed.

Lemma flashWithRetry_commands device settings fuel data h r h' :
  flashWithRetry (do_download device settings fuel) data h = (r, h') ->
  vendor_commands h' = vendor_commands h.
Proof.
  apply no_vendor_command_flashWithRetry_loop.
  repeat constructor; lia.
Qed.

Lemma vendor_commands_app h evs :
  vendor_commands (h ++ evs) = vendor_commands h ++ vendor_commands evs.
Proof. apply omap_app. Qed.

(** ** Further properties of the device class *)

(** *** Status answers *)

Lemma getStatus_run device settings h :
  getStatus device settings h
  = (match answerIn device h (class_setup settings DFU.GETSTATUS 0) 6 with
     | inl e => Throw e
     | inr res =>
         if is_ok (in_status res)
         then if 5 <=? byteLength (in_data res)
              then Ret (decode_status (in_data res))
              else Throw RangeError
         else Throw (ErrorObj ("controlTransferIn failed: " +:+ show_status (in_status res)))
     end,
     h ++ [EvControlIn (class_setup settings DFU.GETSTATUS 0) 6
             (answerIn device h (class_setup settings DFU.GETSTATUS 0) 6)]).
Proof.
  unfold getStatus, requestIn, controlTransferIn, bind.
  destruct (answerIn device h _ 6) as [e | [s d]]; [reflexivity |].
  cbn [in_status in_data]. destruct s; cbn [is_ok]; try reflexivity.
  unfold getUint8, getUint32, in_view, ret, throw, decode_status.
  destruct (Z.leb_spec 5 (byteLength d)) as [Hlen | Hlen].
  - replace (0 + 1 <=? byteLength d) with true by (symmetry; apply Z.leb_le; lia).
    replace (1 + 4 <=? byteLength d) with true by (symmetry; apply Z.leb_le; lia).
    replace (4 + 1 <=? byteLength d) with true by (symmetry; apply Z.leb_le; lia).
    reflexivity.
  - replace (1 + 4 <=? byteLength d) with false by (symmetry; apply Z.leb_gt; lia).
    cbn [Z.leb Z.compare andb]. destruct (0 + 1 <=? byteLength d); reflexivity.
Qed.

Lemma decode_status_range d :
  status_in_range (decode_status d) /\
  pollTimeout (decode_status d) = byte_at d 1 + 256 * byte_at d 2 + 65536 * byte_at d 3.
Proof.
  pose proof (byte_at_range d 0). pose proof (byte_at_range d 4).
  pose proof (pollTimeout_decode d) as Ht.
  pose proof (byte_at_range d 1). pose proof (byte_at_range d 2).
  pose proof (byte_at_range d 3).
  unfold status_in_range. cbn [status state decode_status].
  rewrite Ht. repeat split; lia.
Qed.

Lemma le24_decode t :
  0 <= t < 16777216 ->
  t mod 256 + 256 * (Z.shiftr t 8 mod 256) + 65536 * (Z.shiftr t 16 mod 256) = t.
Proof.
  intros Ht. pose proof (le32_decode t ltac:(lia)) as H.
  rewrite (Z.shiftr_div_pow2 t 24) in H by lia.
  change (2 ^ 24) with 16777216 in H.
  rewrite (Z.div_small t 16777216) in H by lia.
  change (0 mod 256) with 0 in H. lia.
Qed.

Lemma decode_encode_status st iString :
  status_in_range st -> decode_status (encode_status st iString) = st.
Proof.
  intros (Hs & Ht & Hst). destruct st as [s t q]. cbn [status pollTimeout state] in *.
  assert (Hp := pollTimeout_decode (encode_status {| status := s; pollTimeout := t; state := q |}
                                      iString)).
  unfold decode_status in *. cbn [pollTimeout] in Hp. rewrite Hp.
  unfold encode_status. cbn [status pollTimeout state].
  set (b0 := byte_of_Z s). set (b1 := byte_of_Z t). set (b2 := byte_of_Z (Z.shiftr t 8)).
  set (b3 := byte_of_Z (Z.shiftr t 16)). set (b4 := byte_of_Z q).
  change (byte_at [b0; b1; b2; b3; b4; iString] 0) with (byte_to_Z b0).
  change (byte_at [b0; b1; b2; b3; b4; iString] 1) with (byte_to_Z b1).
  change (byte_at [b0; b1; b2; b3; b4; iString] 2) with (byte_to_Z b2).
  change (byte_at [b0; b1; b2; b3; b4; iString] 3) with (byte_to_Z b3).
  change (byte_at [b0; b1; b2; b3; b4; iString] 4) with (byte_to_Z b4).
  subst b0 b1 b2 b3 b4. rewrite !byte_of_Z_value.
  rewrite (Z.mod_small s), (Z.mod_small q) by lia.
  rewrite le24_decode by lia. reflexivity.
Qed.

(** X1.  [getStatus] issues exactly one GETSTATUS read of six bytes.  A
    rejected transfer passes its error on, a transfer that did not complete
    "ok" gives "controlTransferIn failed: <status>", an answer of fewer than
    five bytes gives a RangeError, and any longer answer is decoded: bStatus
    from byte 0, bwPollTimeout from bytes 1 to 3 (low byte first, so below
    2^24), bState from byte 4.  Decoding undoes the device's encoding. *)
Theorem getStatus_decodes device settings h :
  getStatus device settings h
  = (match answerIn device h (class_setup settings DFU.GETSTATUS 0) 6 with
     | inl e => Throw e
     | inr res =>
         if is_ok (in_status res)
         then if 5 <=? byteLength (in_data res)
              then Ret (decode_status (in_data res))
              else Throw RangeError
         else Throw (ErrorObj ("controlTransferIn failed: " +:+ show_status (in_status res)))
     end,
     h ++ [EvControlIn (class_setup settings DFU.GETSTATUS 0) 6
             (answerIn device h (class_setup settings DFU.GETSTATUS 0) 6)]) /\
  (forall d, status_in_range (decode_status d) /\
             pollTimeout (decode_status d)
             = byte_at d 1 + 256 * byte_at d 2 + 65536 * byte_at d 3) /\
  (forall st iString, status_in_range st -> decode_status (encode_status st iString) = st).
Proof.
  split; [apply getStatus_run |].
  split; [apply decode_status_range | apply decode_encode_status].
Qed.

Lemma getStatus_decodes_witness :
  status_in_range {| status := 3; pollTimeout := 70000; state := 10 |} /\
  decode_status [x03; x70; x11; x01; x0a; x00]
  = {| status := 3; pollTimeout := 70000; state := 10 |}.
Proof.
  assert (Hr : status_in_range {| status := 3; pollTimeout := 70000; state := 10 |})
    by (unfold status_in_range; simpl; lia).
  split; [exact Hr |].
  exact (proj2 (proj2 (getStatus_decodes (simulated healthy) dfuse_settings []))
           {| status := 3; pollTimeout := 70000; state := 10 |} x00 Hr).
Defined.

(** *** The transfer size *)

Lemma getUint16_range {S} d off (s : S) v s' :
  getUint16 d off s = (Ret v, s') -> 0 <= v <= 65535.
Proof.
  unfold getUint16. destruct (in_view d off 2); [| discriminate].
  intros H. injection H as <- _.
  pose proof (byte_at_range d off). pose proof (byte_at_range d (off + 1)). lia.
Qed.

Lemma walk_descriptors_range settings bytes :
  forall fuel offset inTargetIntf (h : History) v h',
    walk_descriptors settings fuel bytes offset inTargetIntf h = (Ret v, h') ->
    1 <= v <= 65535.
Proof.
  induction fuel as [| fuel IH]; intros offset inTargetIntf h v h' H;
    cbn [walk_descriptors] in H.
  - destruct (offset + 2 <=? byteLength bytes); [discriminate |].
    injection H as <- _. lia.
  - destruct (offset + 2 <=? byteLength bytes); [| injection H as <- _; lia].
    apply bind_Ret_inv in H as (bLength & h1 & _ & H).
    apply bind_Ret_inv in H as (bType & h2 & _ & H).
    destruct (bLength <? 2); [injection H as <- _; lia |].
    destruct (bType =? 4).
    + do 5 (apply bind_Ret_inv in H as (? & ? & _ & H)).
      eapply IH; exact H.
    + destruct (inTargetIntf && (bType =? 33)).
      * apply bind_Ret_inv in H as (w & h3 & Hw & H).
        apply getUint16_range in Hw. injection H as <- _.
        destruct (Z.eqb_spec w 0); lia.
      * eapply IH; exact H.
Qed.

Lemma walk_descriptors_silent settings bytes fuel offset inTargetIntf (h : History) :
  snd (walk_descriptors settings fuel bytes offset inTargetIntf h) = h.
Proof.
  destruct (walk_descriptors settings fuel bytes offset inTargetIntf h) as [r h'] eqn:H.
  destruct (appends_walk_descriptors (fun _ => False) settings bytes fuel offset inTargetIntf
              h r h' H) as (evs & -> & Hevs).
  destruct evs as [| ev evs]; [apply app_nil_r |].
  inversion Hevs; contradiction.
Qed.

Lemma getTransferSize_range device settings h v h' :
  getTransferSize device settings h = (Ret v, h') -> 1 <= v <= 65535.
Proof.
  unfold getTransferSize. intros H.
  apply bind_Ret_inv in H as (first & h1 & _ & H).
  destruct (negb (is_ok (in_status first))); [discriminate |].
  apply bind_Ret_inv in H as (total & h2 & _ & H).
  apply bind_Ret_inv in H as (full & h3 & _ & H).
  destruct (negb (is_ok (in_status full))); [discriminate |].
  eapply walk_descriptors_range; exact H.
Qed.


(** *** The descriptor walk on well-formed records *)

Lemma byte_at_app_r pre l i :
  0 <= i -> byte_at (pre ++ l) (byteLength pre + i) = byte_at l i.
Proof.
  intros Hi. unfold byte_at, byteLength.
  replace (Z.to_nat (Z.of_nat (length pre) + i)) with (length pre + Z.to_nat i)%nat by lia.
  rewrite lookup_app_r by lia.
  replace (length pre + Z.to_nat i - length pre)%nat with (Z.to_nat i) by lia.
  reflexivity.
Qed.

Lemma byte_at_app_l l tl i :
  0 <= i < byteLength l -> byte_at (l ++ tl) i = byte_at l i.
Proof.
  intros Hi. unfold byte_at, byteLength in *.
  rewrite lookup_app_l by lia. reflexivity.
Qed.

Lemma byteLength_app a b : byteLength (a ++ b) = byteLength a + byteLength b.
Proof. unfold byteLength. rewrite length_app. lia. Qed.

Lemma getUint8_app {S} pre l i (s : S) :
  0 <= i < byteLength l ->
  getUint8 (pre ++ l) (byteLength pre + i) s = (Ret (byte_at l i), s).
Proof.
  intros Hi. unfold getUint8.
  rewrite in_view_true, byte_at_app_r; [reflexivity | lia | |].
  - unfold byteLength. lia.
  - rewrite byteLength_app. lia.
Qed.

Lemma getUint16_app {S} pre l i (s : S) :
  0 <= i -> i + 2 <= byteLength l ->
  getUint16 (pre ++ l) (byteLength pre + i) s
  = (Ret (byte_at l i + 256 * byte_at l (i + 1)), s).
Proof.
  intros Hi Hl. unfold getUint16.
  rewrite in_view_true.
  - rewrite byte_at_app_r by lia.
    replace (byteLength pre + i + 1) with (byteLength pre + (i + 1)) by lia.
    rewrite byte_at_app_r by lia. reflexivity.
  - unfold byteLength. lia.
  - rewrite byteLength_app. lia.
Qed.

Lemma byteLength_encode_descriptor r :
  byteLength (encode_descriptor r) = 2 + byteLength (payload r).
Proof. unfold encode_descriptor, byteLength. cbn [length]. lia. Qed.

(** The fields the walk reads from an encoded record. *)
Lemma encode_descriptor_fields r tl :
  well_formed r ->
  byte_at (encode_descriptor r ++ tl) 0 = 2 + byteLength (payload r) /\
  byte_at (encode_descriptor r ++ tl) 1 = bDescriptorType r /\
  forall j, 0 <= j < byteLength (payload r) ->
            byte_at (encode_descriptor r ++ tl) (2 + j) = byte_at (payload r) j.
Proof.
  intros (Ht & Hl & _). unfold encode_descriptor.
  set (b0 := byte_of_Z _). set (b1 := byte_of_Z _).
  split; [| split].
  - change (byte_at ((b0 :: b1 :: payload r) ++ tl) 0) with (byte_to_Z b0).
    subst b0. rewrite byte_of_Z_value. apply Z.mod_small. unfold byteLength in *. lia.
  - change (byte_at ((b0 :: b1 :: payload r) ++ tl) 1) with (byte_to_Z b1).
    subst b1. rewrite byte_of_Z_value. apply Z.mod_small. lia.
  - intros j Hj.
    change ((b0 :: b1 :: payload r) ++ tl) with ([b0; b1] ++ (payload r ++ tl)).
    change 2 with (byteLength [b0; b1]).
    rewrite byte_at_app_r by lia. apply byte_at_app_l. exact Hj.
Qed.

Lemma walk_descriptors_encoded settings :
  forall rs pre fuel inTargetIntf (h : History),
    Forall well_formed rs ->
    (length rs <= fuel)%nat ->
    walk_descriptors settings fuel (pre ++ encode_descriptors rs) (byteLength pre)
      inTargetIntf h
    = (Ret (advertised_size settings inTargetIntf rs), h).
Proof.
  induction rs as [| r rs IH]; intros pre fuel inTargetIntf h Hwf Hfuel.
  - unfold encode_descriptors. cbn [map concat advertised_size]. rewrite app_nil_r.
    destruct fuel; cbn [walk_descriptors];
      (destruct (Z.leb_spec (byteLength pre + 2) (byteLength pre)); [lia | reflexivity]).
  - inversion Hwf as [| ? ? Hr Hrs]; subst.
    destruct fuel as [| fuel]; [cbn [length] in Hfuel; lia |].
    cbn [length] in Hfuel.
    unfold encode_descriptors. cbn [map concat]. fold (encode_descriptors rs).
    set (tl := encode_descriptors rs).
    destruct (encode_descriptor_fields r tl Hr) as (F0 & F1 & Fj).
    pose proof Hr as (Ht & Hl & H4 & H33).
    assert (Hlen : byteLength (encode_descriptor r ++ tl)
                   = 2 + byteLength (payload r) + byteLength tl)
      by (rewrite byteLength_app, byteLength_encode_descriptor; reflexivity).
    assert (Hp : 0 <= byteLength (payload r)) by (unfold byteLength; lia).
    assert (Htl : 0 <= byteLength tl) by (unfold byteLength; lia).
    assert (G8 : forall j, 0 <= j < 2 + byteLength (payload r) ->
                 getUint8 (pre ++ encode_descriptor r ++ tl) (byteLength pre + j) h
                 = (Ret (byte_at (encode_descriptor r ++ tl) j), h))
      by (intros j Hj; apply getUint8_app; lia).
    assert (G16 : forall j, 0 <= j -> j + 2 <= 2 + byteLength (payload r) ->
                  getUint16 (pre ++ encode_descriptor r ++ tl) (byteLength pre + j) h
                  = (Ret (byte_at (encode_descriptor r ++ tl) j
                          + 256 * byte_at (encode_descriptor r ++ tl) (j + 1)), h))
      by (intros j Hj Hj'; apply getUint16_app; lia).
    cbn [walk_descriptors].
    replace (byteLength pre + 2 <=? byteLength (pre ++ encode_descriptor r ++ tl)) with true
      by (symmetry; apply Z.leb_le; rewrite byteLength_app; lia).
    replace (byteLength pre) with (byteLength pre + 0) at 1 by lia.
    rewrite (bind_run _ _ _ _ _ (G8 0 ltac:(lia))).
    rewrite (bind_run _ _ _ _ _ (G8 1 ltac:(lia))).
    rewrite F0, F1.
    replace (2 + byteLength (payload r) <? 2) with false by (symmetry; apply Z.ltb_ge; lia).
    assert (Hnext : forall b,
               walk_descriptors settings fuel (pre ++ encode_descriptor r ++ tl)
                 (byteLength pre + (2 + byteLength (payload r))) b h
               = (Ret (advertised_size settings b rs), h)).
    { intros b. rewrite app_assoc.
      replace (byteLength pre + (2 + byteLength (payload r)))
        with (byteLength (pre ++ encode_descriptor r))
        by (rewrite byteLength_app, byteLength_encode_descriptor; reflexivity).
      apply IH; [exact Hrs | lia]. }
    cbn [advertised_size].
    destruct (Z.eqb_spec (bDescriptorType r) 4) as [E4 | N4].
    + specialize (H4 E4).
      replace (byteLength pre + 2) with (byteLength pre + (2 + 0)) by lia.
      replace (byteLength pre + 3) with (byteLength pre + (2 + 1)) by lia.
      replace (byteLength pre + 5) with (byteLength pre + (2 + 3)) by lia.
      replace (byteLength pre + 6) with (byteLength pre + (2 + 4)) by lia.
      replace (byteLength pre + 7) with (byteLength pre + (2 + 5)) by lia.
      rewrite (bind_run _ _ _ _ _ (G8 (2 + 0) ltac:(lia))).
      rewrite (bind_run _ _ _ _ _ (G8 (2 + 1) ltac:(lia))).
      rewrite (bind_run _ _ _ _ _ (G8 (2 + 3) ltac:(lia))).
      rewrite (bind_run _ _ _ _ _ (G8 (2 + 4) ltac:(lia))).
      rewrite (bind_run _ _ _ _ _ (G8 (2 + 5) ltac:(lia))).
      rewrite !Fj by lia. apply Hnext.
    + destruct (inTargetIntf && (bDescriptorType r =? 33)) eqn:E33.
      * apply andb_prop in E33 as [_ E33]. apply Z.eqb_eq in E33. specialize (H33 E33).
        replace (byteLength pre + 5) with (byteLength pre + (2 + 3)) by lia.
        rewrite (bind_run _ _ _ _ _ (G16 (2 + 3) ltac:(lia) ltac:(lia))).
        replace (2 + 3 + 1) with (2 + 4) by lia.
        rewrite !Fj by lia. reflexivity.
      * apply Hnext.
Qed.

Lemma encode_descriptors_length rs : (length rs <= length (encode_descriptors rs))%nat.
Proof.
  induction rs as [| r rs IH]; [apply Nat.le_refl |].
  unfold encode_descriptors in *. cbn [map concat length]. rewrite length_app.
  unfold encode_descriptor at 1. cbn [length]. lia.
Qed.

Lemma getTransferSize_encoded device settings h rs :
  reports_descriptors device settings h rs ->
  Forall well_formed rs ->
  fst (getTransferSize device settings h) = Ret (advertised_size settings false rs).
Proof.
  intros (first & header & Hfirst & Hlen & Hfull & Hheader) Hwf.
  unfold getTransferSize, bind, controlTransferIn. rewrite Hfirst.
  cbn [in_status in_data is_ok negb].
  unfold getUint16. rewrite in_view_true by lia. cbn [ret].
  replace (2 + 1) with 3 by reflexivity. rewrite Hfull.
  cbn [in_status in_data is_ok negb].
  replace 9 with (byteLength header) by exact Hheader.
  rewrite walk_descriptors_encoded; [reflexivity | exact Hwf |].
  rewrite length_app. pose proof (encode_descriptors_length rs). lia.
Qed.

Lemma advertised_size_skip settings before rest :
  Forall (fun r => bDescriptorType r = 4 -> selects settings r = false) before ->
  advertised_size settings false (before ++ rest) = advertised_size settings false rest.
Proof.
  induction 1 as [| r before Hr _ IH]; [reflexivity |].
  cbn [app advertised_size].
  destruct (Z.eqb_spec (bDescriptorType r) 4) as [E | _]; [rewrite (Hr E) |]; exact IH.
Qed.

Lemma advertised_size_between settings between rest :
  Forall (fun r => bDescriptorType r <> 4 /\ bDescriptorType r <> 33) between ->
  advertised_size settings true (between ++ rest) = advertised_size settings true rest.
Proof.
  induction 1 as [| r between [H4 H33] _ IH]; [reflexivity |].
  cbn [app advertised_size].
  destruct (Z.eqb_spec (bDescriptorType r) 4); [contradiction |].
  destruct (Z.eqb_spec (bDescriptorType r) 33); [contradiction |].
  exact IH.
Qed.

Lemma advertised_size_none settings rs :
  Forall (fun r => bDescriptorType r <> 33) rs ->
  forall b, advertised_size settings b rs = 2048.
Proof.
  induction 1 as [| r rs H33 _ IH]; intros b; [reflexivity |].
  cbn [advertised_size].
  destruct (bDescriptorType r =? 4); [apply IH |].
  destruct (Z.eqb_spec (bDescriptorType r) 33); [contradiction |].
  rewrite andb_false_r. apply IH.
Qed.

(** X3.  When the device reports a configuration descriptor made of
    well-formed records, [getTransferSize] returns the wTransferSize of the
    first DFU functional record (type 0x21) that follows the interface record
    of the selected interface and alternate in DFU mode, with no other
    interface record in between; a wTransferSize of 0 counts as 2048.  It
    returns 2048 when the descriptor holds no functional record, or no
    interface record for the selected interface in DFU mode. *)
Theorem getTransferSize_well_formed device settings h rs :
  reports_descriptors device settings h rs ->
  Forall well_formed rs ->
  (forall before intf between func after,
      rs = before ++ intf :: between ++ func :: after ->
      Forall (fun r => bDescriptorType r = 4 -> selects settings r = false) before ->
      bDescriptorType intf = 4 ->
      selects settings intf = true ->
      Forall (fun r => bDescriptorType r <> 4 /\ bDescriptorType r <> 33) between ->
      bDescriptorType func = 33 ->
      fst (getTransferSize device settings h) = Ret (advertised func)) /\
  (Forall (fun r => bDescriptorType r <> 33) rs \/
   Forall (fun r => bDescriptorType r = 4 -> selects settings r = false) rs ->
   fst (getTransferSize device settings h) = Ret 2048).
Proof.
  intros Hrep Hwf. rewrite (getTransferSize_encoded _ _ _ _ Hrep Hwf). split.
  - intros before intf between func after -> Hbefore Hintf Hsel Hbetween Hfunc.
    rewrite advertised_size_skip by exact Hbefore.
    cbn [advertised_size]. rewrite Hintf, Hsel. cbn [Z.eqb Pos.eqb].
    rewrite advertised_size_between by exact Hbetween.
    cbn [advertised_size]. rewrite Hfunc. reflexivity.
  - intros [Hnone | Hnone].
    + rewrite advertised_size_none by exact Hnone. reflexivity.
    + rewrite <- (app_nil_r rs). rewrite advertised_size_skip by exact Hnone. reflexivity.
Qed.

Lemma getTransferSize_well_formed_witness :
  reports_descriptors (simulated healthy) dfuse_settings [] dfuse_records /\
  fst (getTransferSize (simulated healthy) dfuse_settings []) = Ret 2048.
Proof.
  assert (Hrep : reports_descriptors (simulated healthy) dfuse_settings [] dfuse_records).
  { exists (take 4 dfuse_descriptor), (take 9 dfuse_descriptor).
    repeat split; try reflexivity; vm_compute; discriminate. }
  assert (Hwf : Forall well_formed dfuse_records).
  { repeat constructor; vm_compute; congruence. }
  split; [exact Hrep |].
  refine (proj1 (getTransferSize_well_formed (simulated healthy) dfuse_settings [] dfuse_records
                   Hrep Hwf)
            [] {| bDescriptorType := 4; payload := [x00; x00; x00; xfe; x01; x02; x00] |}
            [] {| bDescriptorType := 33; payload := [x0b; xff; x00; x00; x08; x1a; x01] |}
            [] eq_refl _ eq_refl eq_refl _ eq_refl); constructor.
Defined.

(** *** Progress reports of a download *)

Lemma progress_reports_app h evs :
  progress_reports (h ++ evs) = progress_reports h ++ progress_reports evs.
Proof. unfold progress_reports. apply omap_app. Qed.

Lemma progress_reports_housekeeping evs :
  Forall housekeeping evs -> progress_reports evs = [].
Proof.
  induction 1 as [| ev evs Hev _ IH]; [reflexivity |].
  change (progress_reports (ev :: evs))
    with (match progress_of ev with
          | Some p => p :: progress_reports evs
          | None => progress_reports evs
          end).
  rewrite IH. destruct ev; try reflexivity. contradiction.
Qed.

Lemma progress_reports_block setup data ans evs h :
  Forall housekeeping evs ->
  progress_reports (h ++ EvControlOut setup data ans :: evs) = progress_reports h.
Proof.
  intros F. rewrite progress_reports_app.
  change (progress_reports (EvControlOut setup data ans :: evs)) with (progress_reports evs).
  rewrite (progress_reports_housekeeping _ F). apply app_nil_r.
Qed.

(** Blocks sent and progress reported by the loop, side by side. *)
Lemma download_loop_trace device settings pollFuel xferSize view firstBlock :
  1 <= xferSize ->
  forall fuel k h r h',
    (k <= block_count view xferSize)%nat ->
    download_loop device settings pollFuel fuel xferSize view
      (Z.min (Z.of_nat k * xferSize) (byteLength view)) (firstBlock + Z.of_nat k) h
    = (r, h') ->
    exists m p,
      (k + m <= block_count view xferSize)%nat /\
      (p <= m <= p + 1)%nat /\
      dnloads h' = dnloads h ++ map (data_block xferSize view firstBlock) (seq k m) /\
      progress_reports h'
      = progress_reports h ++ map (progress_after xferSize view) (seq (S k) p) /\
      (forall b, r = Ret b ->
                 (k + m = block_count view xferSize)%nat /\ p = m /\
                 b = firstBlock + Z.of_nat (block_count view xferSize)).
Proof.
  intros HS. set (n := block_count view xferSize). set (L := byteLength view).
  assert (Hdone : forall fuel k h r h',
             L <= Z.of_nat k * xferSize -> (k <= n)%nat ->
             download_loop device settings pollFuel fuel xferSize view
               (Z.min (Z.of_nat k * xferSize) L) (firstBlock + Z.of_nat k) h = (r, h') ->
             exists m p,
               (k + m <= n)%nat /\ (p <= m <= p + 1)%nat /\
               dnloads h' = dnloads h ++ map (data_block xferSize view firstBlock) (seq k m) /\
               progress_reports h'
               = progress_reports h ++ map (progress_after xferSize view) (seq (S k) p) /\
               (forall b, r = Ret b ->
                          (k + m = n)%nat /\ p = m /\ b = firstBlock + Z.of_nat n)).
  { intros fuel k h r h' Hge Hk H.
    rewrite Z.min_r in H by lia. rewrite download_loop_done in H by (fold L; lia).
    injection H as <- <-. exists 0%nat, 0%nat. cbn [seq map]. rewrite !app_nil_r.
    assert (~ (k < n)%nat) by (intros C; apply block_count_lt in C; unfold L in *; lia).
    split; [lia |]. split; [lia |]. split; [reflexivity |]. split; [reflexivity |].
    intros b [= <-]. split; [lia |]. split; [reflexivity |]. f_equal. lia. }
  assert (Hstop : forall k h ans evs,
             (k < n)%nat -> Forall housekeeping evs ->
             exists m p,
               (k + m <= n)%nat /\ (p <= m <= p + 1)%nat /\
               dnloads (h ++ EvControlOut (class_setup settings DFU.DNLOAD
                                             (firstBlock + Z.of_nat k))
                                (Some (chunk xferSize view k)) ans :: evs)
               = dnloads h ++ map (data_block xferSize view firstBlock) (seq k m) /\
               progress_reports (h ++ EvControlOut (class_setup settings DFU.DNLOAD
                                                      (firstBlock + Z.of_nat k))
                                         (Some (chunk xferSize view k)) ans :: evs)
               = progress_reports h ++ map (progress_after xferSize view) (seq (S k) p)).
  { intros k h ans evs Hk F. exists 1%nat, 0%nat.
    split; [lia |]. split; [lia |]. split.
    - rewrite dnloads_block by exact F. reflexivity.
    - rewrite progress_reports_block by exact F. cbn [seq map]. rewrite app_nil_r.
      reflexivity. }
  induction fuel as [| fuel IH]; intros k h r h' Hk H.
  - destruct (Z.lt_ge_cases (Z.of_nat k * xferSize) L) as [Hlt | Hge];
      [| eapply Hdone; eassumption].
    pose proof (proj1 (block_count_lt xferSize view k HS) Hlt) as Hkn.
    rewrite Z.min_l in H by lia. cbn [download_loop] in H.
    destruct (Z.ltb_spec (Z.of_nat k * xferSize) (byteLength view)); [| unfold L in *; lia].
    injection H as <- <-. exists 0%nat, 0%nat. cbn [seq map]. rewrite !app_nil_r.
    repeat split; try discriminate; unfold n in *; lia.
  - destruct (Z.lt_ge_cases (Z.of_nat k * xferSize) L) as [Hlt | Hge];
      [| eapply Hdone; eassumption].
    pose proof (proj1 (block_count_lt xferSize view k HS) Hlt) as Hkn. fold n in Hkn.
    rewrite Z.min_l in H by lia.
    rewrite download_loop_step in H by exact Hlt.
    rewrite slice_chunk in H by assumption.
    destruct (dnloadBlock device settings pollFuel (chunk xferSize view k)
                (firstBlock + Z.of_nat k) h) as [[st | e | l] h1] eqn:E;
      destruct (dnloadBlock_events _ _ _ _ _ _ _ _ E) as (ans & evs & -> & F).
    + destruct (status st =? 0).
      * replace (Z.of_nat k * xferSize + Z.min xferSize (byteLength view - Z.of_nat k * xferSize))
          with (Z.min (Z.of_nat (S k) * xferSize) (byteLength view)) in H by (fold L; lia).
        replace (firstBlock + Z.of_nat k + 1) with (firstBlock + Z.of_nat (S k)) in H by lia.
        apply IH in H as (m & p & Hm & Hp & Hd & Hg & Hr); [| lia].
        exists (S m), (S p). split; [lia |]. split; [lia |]. split; [| split].
        -- rewrite Hd, dnloads_app.
           change (dnloads [EvProgress _ _]) with (@nil (Z * list byte)).
           rewrite app_nil_r, dnloads_block by exact F.
           rewrite <- app_assoc. reflexivity.
        -- rewrite Hg, progress_reports_app, progress_reports_block by exact F.
           rewrite <- app_assoc. reflexivity.
        -- intros b Hb. destruct (Hr b Hb) as (? & ? & ?).
           split; [lia |]. split; [lia | assumption].
      * injection H as <- <-.
        destruct (Hstop k h ans evs Hkn F) as (m & p & ? & ? & ? & ?).
        exists m, p. repeat split; try assumption; try lia; discriminate.
    + injection H as <- <-.
      destruct (Hstop k h ans evs Hkn F) as (m & p & ? & ? & ? & ?).
      exists m, p. repeat split; try assumption; try lia; discriminate.
    + injection H as <- <-.
      destruct (Hstop k h ans evs Hkn F) as (m & p & ? & ? & ? & ?).
      exists m, p. repeat split; try assumption; try lia; discriminate.
Qed.

Lemma progress_after_last xferSize view :
  1 <= xferSize ->
  progress_after xferSize view (block_count view xferSize) = (byteLength view, byteLength view).
Proof.
  intros HS. unfold progress_after. f_equal. apply Z.min_r.
  destruct (Z.lt_ge_cases (Z.of_nat (block_count view xferSize) * xferSize) (byteLength view))
    as [Hlt | Hge]; [| exact Hge].
  apply block_count_lt in Hlt; [lia | exact HS].
Qed.

(** X4.  The progress callback during [do_download], with a chunk size of
    at least 1: the reports are an initial part of [(0, L)],
    [(min (S, L), L)], [(min (2 S, L), L)], ... (one report before the first
    block, one after each acknowledged block); there are never more reports
    than blocks sent plus the initial one, and never fewer reports than
    blocks sent; a call that returns has made all of them, the last one
    being [(L, L)]. *)
Theorem do_download_progress device settings fuel xferSize data tolerant firstBlock h r h' :
  1 <= xferSize ->
  do_download device settings fuel xferSize data tolerant firstBlock h = (r, h') ->
  exists k p,
    dnloads h' = dnloads h ++ take k (expected_dnloads xferSize data (default 2 firstBlock)) /\
    progress_reports h' = progress_reports h ++ take p (expected_progress xferSize data) /\
    (k <= p <= k + 1)%nat /\
    (p <= S (block_count data xferSize))%nat /\
    (r = Ret tt ->
     k = S (block_count data xferSize) /\ p = S (block_count data xferSize) /\
     last (progress_reports h') = Some (byteLength data, byteLength data)).
Proof.
  intros HS H. unfold do_download in H.
  set (fb := default 2 firstBlock) in *. set (n := block_count data xferSize).
  unfold bind at 1 in H.
  destruct (abortToIdle device settings h) as [[[] | e | l] h0] eqn:Ea;
    destruct (housekeeping_abortToIdle _ _ _ _ _ Ea) as (ev0 & -> & F0).
  2,3: injection H as <- <-; exists 0%nat, 0%nat;
       rewrite dnloads_app, (dnloads_housekeeping _ F0), progress_reports_app,
         (progress_reports_housekeeping _ F0); cbn [take]; rewrite !app_nil_r;
       repeat split; try reflexivity; try lia; discriminate.
  unfold bind at 1 in H. cbn [logProgress] in H.
  unfold bind at 1 in H.
  destruct (download_loop device settings fuel fuel xferSize data 0 fb _)
    as [[b | e | l] h2] eqn:El.
  all: pose proof (fun h0 r0 h1 =>
                     download_loop_trace device settings fuel xferSize data fb HS
                       fuel 0 h0 r0 h1 ltac:(lia)) as Hloop.
  all: rewrite Z.mul_0_l, Z.min_l, Z.add_0_r in Hloop by (unfold byteLength; lia).
  all: destruct (Hloop _ _ _ El) as (m & p & Hm & Hp & Hd & Hg & Hr); clear Hloop.
  all: rewrite dnloads_app, dnloads_app, (dnloads_housekeeping _ F0) in Hd.
  all: change (dnloads [EvProgress _ _]) with (@nil (Z * list byte)) in Hd.
  all: rewrite !app_nil_r in Hd.
  all: rewrite !progress_reports_app, (progress_reports_housekeeping _ F0) in Hg.
  all: change (progress_reports [EvProgress 0 (byteLength data)])
         with [(0, byteLength data)] in Hg.
  all: assert (H0 : (0, byteLength data) = progress_after xferSize data 0)
         by (unfold progress_after; rewrite Z.mul_0_l, Z.min_l by (unfold byteLength; lia);
             reflexivity).
  all: rewrite H0 in Hg; clear H0.
  all: rewrite app_nil_r, <- app_assoc in Hg.
  all: change ([progress_after xferSize data 0] ++ map (progress_after xferSize data) (seq 1 p))
         with (map (progress_after xferSize data) (seq 0 (S p))) in Hg.
  all: cbn [Nat.add] in Hm.
  all: assert (map (data_block xferSize data fb) (seq 0 m)
               = take m (expected_dnloads xferSize data fb)) as Hpre
         by (unfold expected_dnloads, data_blocks; fold n;
             rewrite take_app_le by (rewrite length_map, length_seq; lia);
             rewrite firstn_map, take_seq; f_equal; f_equal; lia).
  all: assert (map (progress_after xferSize data) (seq 0 (S p))
               = take (S p) (expected_progress xferSize data)) as Hrep
         by (unfold expected_progress; fold n;
             rewrite firstn_map, take_seq; f_equal; f_equal; lia).
  2,3: injection H as <- <-; exists m, (S p); rewrite Hd, Hpre, Hg, Hrep;
       repeat split; try reflexivity; try (fold n; lia); discriminate.
  destruct (Hr b eq_refl) as (Hmn & -> & ->). cbn [Nat.add] in Hmn. subst m.
  fold n in Hd, Hg, Hpre, Hrep.
  assert (forall ans evs,
             Forall housekeeping evs ->
             dnloads (h2 ++ EvControlOut (class_setup settings DFU.DNLOAD
                                            (fb + Z.of_nat n)) (Some []) ans :: evs)
             = dnloads h ++ take (S n) (expected_dnloads xferSize data fb)) as Hall.
  { intros ans evs F. rewrite dnloads_block by exact F. rewrite Hd.
    unfold expected_dnloads, data_blocks. fold n.
    rewrite take_ge by (rewrite length_app, length_map, length_seq; simpl; lia).
    rewrite app_assoc. reflexivity. }
  assert (Hlast : last (progress_reports h ++ take (S n) (expected_progress xferSize data))
                  = Some (byteLength data, byteLength data)).
  { rewrite <- Hrep, seq_S, map_app, app_assoc. cbn [map Nat.add].
    rewrite last_snoc. unfold n. rewrite progress_after_last by exact HS. reflexivity. }
  assert (Hfinal : forall ans evs,
             Forall housekeeping evs ->
             progress_reports (h2 ++ EvControlOut (class_setup settings DFU.DNLOAD
                                                     (fb + Z.of_nat n)) (Some []) ans :: evs)
             = progress_reports h ++ take (S n) (expected_progress xferSize data)).
  { intros ans evs F. rewrite progress_reports_block by exact F.
    rewrite Hg, Hrep. reflexivity. }
  assert (appends housekeeping
            (if tolerant
             then fin <- pollUntil device settings fuel STATE.dfuIDLE ;;
                  (if negb (status fin =? 0) then throw (manifest_failed fin) else ret tt)
             else try_catch (getStatus device settings ;;; ret tt) (fun _ => ret tt)))
    as Hfin.
  { destruct tolerant.
    - apply appends_bind; [apply housekeeping_pollUntil |].
      intros fin. destruct negb; [apply appends_throw | apply appends_ret].
    - apply appends_try_catch.
      + apply appends_bind; [apply housekeeping_getStatus | intros; apply appends_ret].
      + intros; apply appends_ret. }
  exists (S n), (S n).
  unfold bind at 1 in H. unfold requestOut in H. unfold bind at 1 in H.
  unfold controlTransferOut in H. unfold ArrayBuffer in H. cbn [replicate] in H.
  destruct (answerOut device h2 _ (Some [])) as [e | res].
  - injection H as <- <-. rewrite Hall, Hfinal by constructor.
    repeat split; try reflexivity; try lia; discriminate.
  - destruct (is_ok (out_status res)).
    + unfold ret at 1 in H. apply Hfin in H as (evs & -> & F).
      rewrite <- app_assoc. cbn [app]. rewrite Hall, Hfinal by exact F.
      repeat split; try reflexivity; try lia. exact Hlast.
    + injection H as <- <-. rewrite Hall, Hfinal by constructor.
      repeat split; try reflexivity; try lia; discriminate.
Qed.

Lemma do_download_progress_witness :
  exists h',
    do_download (simulated healthy) dfuse_settings 4 4 (image 10) true None [] = (Ret tt, h') /\
    progress_reports h' = [(0, 10); (4, 10); (8, 10); (10, 10)].
Proof.
  eexists. split; [vm_compute; reflexivity |].
  edestruct (do_download_progress (simulated healthy) dfuse_settings 4 4 (image 10) true None
               [] (Ret tt)) as (k & p & _ & Hg & _ & _ & Hr).
  - lia.
  - vm_compute. reflexivity.
  - destruct (Hr eq_refl) as (_ & -> & _). rewrite Hg. vm_compute. reflexivity.
Defined.

(** ** The other versions of the retry ladder *)

Section LadderVersions.
Context {St : Type}.
Variable do_download : Z -> list byte -> bool -> option Z -> Eff St unit.

Lemma first_size_loop_agrees data :
  forall sizes (first : option Z) (tried : gset Z) lastErr st,
    (tried = ∅ -> first = head sizes) ->
    (tried <> ∅ -> exists f, first = Some f /\ f ∈ tried) ->
    FirstSizeLadder.writeWithFallback_loop do_download first data sizes tried lastErr st
    = writeWithFallback_loop do_download data sizes tried lastErr st.
Proof.
  induction sizes as [| s rest IH]; intros first tried lastErr st Hempty Hfull;
    [reflexivity |].
  cbn [FirstSizeLadder.writeWithFallback_loop writeWithFallback_loop].
  destruct (bool_decide_reflect (s ∈ tried)) as [Hin | Hout].
  - apply IH; [| exact Hfull]. intros ->. set_solver.
  - assert (Hnext : forall e st',
               FirstSizeLadder.writeWithFallback_loop do_download first data rest
                 ({[s]} ∪ tried) e st'
               = writeWithFallback_loop do_download data rest ({[s]} ∪ tried) e st').
    { intros e st'. apply IH; [set_solver |]. intros _.
      destruct (decide (tried = ∅)) as [-> | Hne].
      - exists s. split; [rewrite (Hempty eq_refl); reflexivity | set_solver].
      - destruct (Hfull Hne) as (f & -> & Hf). exists f. split; [reflexivity | set_solver]. }
    destruct (do_download s data true (Some 2) st) as [[[] | e | l] st']; try reflexivity.
    destruct (disconnected e); [| apply Hnext].
    destruct (bool_decide_reflect (Some s = first)) as [Hfirst | Hfirst].
    + destruct (decide (tried = ∅)) as [-> | Hne].
      * rewrite tried_first. apply Hnext.
      * destruct (Hfull Hne) as (f & -> & Hf). injection Hfirst as ->. contradiction.
    + destruct (1 <? Z.of_nat (size ({[s]} ∪ tried))); [reflexivity | apply Hnext].
Qed.

Lemma plain_loop_returns data :
  forall sizes (tried : gset Z) lastErr lastErr' st st',
    PlainLadder.writeWithFallback_loop do_download data sizes tried lastErr st = (Ret tt, st') ->
    exists st'', writeWithFallback_loop do_download data sizes tried lastErr' st
                 = (Ret true, st'').
Proof.
  induction sizes as [| s rest IH]; intros tried lastErr lastErr' st st' H;
    cbn [PlainLadder.writeWithFallback_loop writeWithFallback_loop] in *.
  - discriminate H.
  - destruct (bool_decide (s ∈ tried)); [eapply IH; exact H |].
    unfold try_catch in H.
    destruct (do_download s data true (Some 2) st) as [[[] | e | l] st1].
    + eexists; reflexivity.
    + destruct (disconnected e).
      * destruct (1 <? Z.of_nat (size ({[s]} ∪ tried))); [eexists; reflexivity |].
        eapply IH; exact H.
      * eapply IH; exact H.
    + discriminate H.
Qed.

Lemma plain_loop_throws data :
  forall sizes (tried : gset Z) lastErr st e st',
    writeWithFallback_loop do_download data sizes tried lastErr st = (Throw e, st') ->
    PlainLadder.writeWithFallback_loop do_download data sizes tried lastErr st = (Throw e, st').
Proof.
  induction sizes as [| s rest IH]; intros tried lastErr st e st' H;
    cbn [PlainLadder.writeWithFallback_loop writeWithFallback_loop] in *.
  - rewrite after_ladder_run in H. destruct (disconnected lastErr); [discriminate H |].
    injection H as -> ->. reflexivity.
  - destruct (bool_decide (s ∈ tried)); [apply IH; exact H |].
    unfold try_catch.
    destruct (do_download s data true (Some 2) st) as [[[] | e1 | l] st1];
      try discriminate H.
    destruct (disconnected e1).
    + destruct (1 <? Z.of_nat (size ({[s]} ∪ tried))); [discriminate H |].
      apply IH; exact H.
    + apply IH; exact H.
Qed.

Lemma plain_loop_agrees data :
  (forall s st e st', do_download s data true (Some 2) st = (Throw e, st') ->
                      disconnected e = false) ->
  forall sizes (tried : gset Z) lastErr st,
    disconnected lastErr = false ->
    PlainLadder.writeWithFallback_loop do_download data sizes tried lastErr st
    = match writeWithFallback_loop do_download data sizes tried lastErr st with
      | (Ret _, st') => (Ret tt, st')
      | (Throw e, st') => (Throw e, st')
      | (Hang l, st') => (Hang l, st')
      end.
Proof.
  intros Hquiet.
  induction sizes as [| s rest IH]; intros tried lastErr st Hlast;
    cbn [PlainLadder.writeWithFallback_loop writeWithFallback_loop].
  - rewrite after_ladder_run, Hlast. reflexivity.
  - destruct (bool_decide (s ∈ tried)); [apply IH; exact Hlast |].
    unfold try_catch.
    destruct (do_download s data true (Some 2) st) as [[[] | e | l] st1] eqn:E;
      try reflexivity.
    rewrite (Hquiet _ _ _ _ E). apply IH. exact (Hquiet _ _ _ _ E).
Qed.
End LadderVersions.

(** X5.  The third version's [writeWithFallback], which tests
    [s === sizes[0]] before [tried.size > 1], behaves exactly like the second
    version's, which tests only [tried.size > 1]: the same outcome and the
    same final state for every download action, image and ladder. *)
Theorem first_size_ladder_same {St : Type}
    (do_download : Z -> list byte -> bool -> option Z -> Eff St unit) data sizes st :
  FirstSizeLadder.writeWithFallback do_download data sizes st
  = writeWithFallback do_download data sizes st.
Proof.
  unfold FirstSizeLadder.writeWithFallback, writeWithFallback.
  apply first_size_loop_agrees; [reflexivity | intros H; contradiction H; reflexivity].
Qed.

(** X6.  The first version's [writeWithFallback], which rethrows the last
    error whatever it says, against the later one.  Whenever the first
    version succeeds, so does the later one; whenever the later one throws,
    the first version throws the same error in the same state; and when no
    failed download mentions a disconnection the two make the same attempts
    and end alike. *)
Theorem plain_ladder_compared {St : Type}
    (do_download : Z -> list byte -> bool -> option Z -> Eff St unit) data sizes st :
  (forall st', PlainLadder.writeWithFallback do_download data sizes st = (Ret tt, st') ->
               exists st'', writeWithFallback do_download data sizes st = (Ret true, st'')) /\
  (forall e st', writeWithFallback do_download data sizes st = (Throw e, st') ->
                 PlainLadder.writeWithFallback do_download data sizes st = (Throw e, st')) /\
  ((forall s st0 e st', do_download s data true (Some 2) st0 = (Throw e, st') ->
                        disconnected e = false) ->
   PlainLadder.writeWithFallback do_download data sizes st
   = match writeWithFallback do_download data sizes st with
     | (Ret _, st') => (Ret tt, st')
     | (Throw e, st') => (Throw e, st')
     | (Hang l, st') => (Hang l, st')
     end).
Proof.
  unfold PlainLadder.writeWithFallback, writeWithFallback. split; [| split].
  - intros st' H. eapply plain_loop_returns; exact H.
  - intros e st' H. apply plain_loop_throws; exact H.
  - intros Hquiet. apply plain_loop_agrees; [exact Hquiet | reflexivity].
Qed.

Lemma plain_ladder_compared_witness :
  PlainLadder.writeWithFallback (picky 512 "stall") [] [2048; 2048; 1024; 512; 256] []
  = (Ret tt, [2048; 1024; 512]) /\
  writeWithFallback (picky 512 "stall") [] [2048; 2048; 1024; 512; 256] []
  = (Ret true, [2048; 1024; 512]).
Proof.
  split; [| reflexivity].
  rewrite (proj2 (proj2 (plain_ladder_compared (picky 512 "stall") []
                           [2048; 2048; 1024; 512; 256] []))).
  - reflexivity.
  - intros s st0 e st' H. unfold picky in H. destruct (s =? 512); [discriminate H |].
    injection H as <- _. reflexivity.
Defined.

(** ** How the retry ladders can end *)

Section LadderOutcomes.
Context {St : Type}.
Variable do_download : Z -> list byte -> bool -> option Z -> Eff St unit.

Lemma came_from_download_cons data s sizes r st' :
  came_from_download do_download data sizes r st' -> came_from_download do_download data (s :: sizes) r st'.
Proof. intros (x & st0 & Hx & H). exists x, st0. split; [set_solver | exact H]. Qed.

Lemma ladder_outcome_cons data s sizes (P Q : Prop) r st' :
  (P -> Q \/ exists e, r = Throw e /\
                       came_from_download do_download data (s :: sizes) (Throw e) st') ->
  ladder_outcome do_download data sizes P r st' ->
  ladder_outcome do_download data (s :: sizes) Q r st'.
Proof.
  intros HP. destruct r as [b | e | l]; cbn [ladder_outcome].
  - auto.
  - intros [He [Hp | Hc]]; (split; [exact He |]).
    + destruct (HP Hp) as [Hq | (e' & [= <-] & Hc)]; [left | right]; assumption.
    + right. apply came_from_download_cons, Hc.
  - apply came_from_download_cons.
Qed.

Lemma writeWithFallback_loop_outcome data :
  forall sizes (tried : gset Z) lastErr st r st',
    writeWithFallback_loop do_download data sizes tried lastErr st = (r, st') ->
    ladder_outcome do_download data sizes
      (r = Throw lastErr /\ st' = st /\ Forall (fun x => x ∈ tried) sizes) r st'.
Proof.
  induction sizes as [| s rest IH]; intros tried lastErr st r st' H;
    cbn [writeWithFallback_loop] in H.
  - rewrite after_ladder_run in H. destruct (disconnected lastErr) eqn:Hd;
      injection H as <- <-; cbn [ladder_outcome]; [reflexivity |].
    split; [exact Hd |]. left. repeat split. constructor.
  - destruct (bool_decide_reflect (s ∈ tried)) as [Hin | Hout].
    + apply IH in H. revert H. apply ladder_outcome_cons.
      intros (-> & -> & F). left. repeat split. constructor; assumption.
    + destruct (do_download s data true (Some 2) st) as [[[] | e | l] st1] eqn:E.
      * injection H as <- <-. reflexivity.
      * assert (Hnext : writeWithFallback_loop do_download data rest ({[s]} ∪ tried) e st1
                        = (r, st') -> ladder_outcome do_download data (s :: rest)
                                        (r = Throw lastErr /\ st' = st /\
                                         Forall (fun x => x ∈ tried) (s :: rest)) r st').
        { intros H'. apply IH in H'. revert H'. apply ladder_outcome_cons.
          intros (-> & -> & _). right. exists e. split; [reflexivity |].
          exists s, st. split; [set_solver | exact E]. }
        destruct (disconnected e); [| exact (Hnext H)].
        destruct (1 <? Z.of_nat (size ({[s]} ∪ tried))); [| exact (Hnext H)].
        injection H as <- <-. reflexivity.
      * injection H as <- <-. exists s, st. split; [set_solver | exact E].
Qed.

Lemma flashWithRetry_loop_outcome data :
  forall sizes (tried : gset Z) lastErr st r st',
    flashWithRetry_loop do_download data sizes tried lastErr st = (r, st') ->
    ladder_outcome do_download data sizes
      (r = Throw lastErr /\ st' = st /\ Forall (fun x => x ∈ tried) sizes) r st'.
Proof.
  induction sizes as [| s rest IH]; intros tried lastErr st r st' H;
    cbn [flashWithRetry_loop] in H.
  - rewrite after_ladder_run in H. destruct (disconnected lastErr) eqn:Hd;
      injection H as <- <-; cbn [ladder_outcome]; [reflexivity |].
    split; [exact Hd |]. left. repeat split. constructor.
  - destruct (bool_decide_reflect (s ∈ tried)) as [Hin | Hout].
    + apply IH in H. revert H. apply ladder_outcome_cons.
      intros (-> & -> & F). left. repeat split. constructor; assumption.
    + destruct (do_download s data true (Some 2) st) as [[[] | e | l] st1] eqn:E.
      * injection H as <- <-. reflexivity.
      * assert (Hnext : flashWithRetry_loop do_download data rest ({[s]} ∪ tried) e st1
                        = (r, st') -> ladder_outcome do_download data (s :: rest)
                                        (r = Throw lastErr /\ st' = st /\
                                         Forall (fun x => x ∈ tried) (s :: rest)) r st').
        { intros H'. apply IH in H'. revert H'. apply ladder_outcome_cons.
          intros (-> & -> & _). right. exists e. split; [reflexivity |].
          exists s, st. split; [set_solver | exact E]. }
        destruct (disconnected e); [| exact (Hnext H)].
        destruct (mostly_done data); [injection H as <- <-; reflexivity |].
        destruct (1 <? Z.of_nat (size ({[s]} ∪ tried))); [| exact (Hnext H)].
        injection H as <- <-. reflexivity.
      * injection H as <- <-. exists s, st. split; [set_solver | exact E].
Qed.
End LadderOutcomes.

(** X7.  How the retry ladders can end.  They never return [false]: a
    failure is always a thrown error.  A thrown error never mentions a
    disconnection and is the error of a failed download at one of the sizes
    (for [writeWithFallback] with an empty ladder it is [undefined]); a
    ladder waits forever only inside a download. *)
Theorem ladder_outcomes {St : Type}
    (do_download : Z -> list byte -> bool -> option Z -> Eff St unit) data sizes st :
  (forall r st', writeWithFallback do_download data sizes st = (r, st') ->
                 ladder_outcome do_download data sizes
                   (sizes = [] /\ r = Throw Undefined /\ st' = st) r st') /\
  (forall r st', flashWithRetry do_download data st = (r, st') ->
                 ladder_outcome do_download data transferSizes False r st').
Proof.
  split; intros r st' H.
  - apply writeWithFallback_loop_outcome in H.
    destruct r as [b | e | l]; cbn [ladder_outcome] in *; try exact H.
    destruct H as [He [(Hr & Hst & F) | Hc]]; (split; [exact He |]); [left | right; exact Hc].
    repeat split; try assumption.
    destruct sizes as [| s rest]; [reflexivity |].
    inversion F as [| ? ? Hs _]; subst. set_solver.
  - apply flashWithRetry_loop_outcome in H.
    destruct r as [b | e | l]; cbn [ladder_outcome] in *; try exact H.
    destruct H as [He [(_ & _ & F) | Hc]]; (split; [exact He |]); [| right; exact Hc].
    inversion F as [| ? ? Hs _]; subst. set_solver.
Qed.

Lemma ladder_outcomes_witness :
  flashWithRetry (picky 0 "stall") [] [] = (Throw (ErrorObj "stall"), [2048; 1024; 512; 256]) /\
  ladder_outcome (picky 0 "stall") [] transferSizes False
    (Throw (ErrorObj "stall")) [2048; 1024; 512; 256].
Proof.
  assert (H : flashWithRetry (picky 0 "stall") [] []
              = (Throw (ErrorObj "stall"), [2048; 1024; 512; 256])) by reflexivity.
  split; [exact H |].
  exact (proj2 (ladder_outcomes (picky 0 "stall") [] [] []) _ _ H).
Defined.

(** ** Where a flashing run can wait forever *)

Lemma hangs_weaken {S A} (P Q : Loop -> Prop) (c : Eff S A) :
  (forall l, P l -> Q l) -> hangs_in P c -> hangs_in Q c.
Proof. intros HPQ H s l s' E. apply HPQ. exact (H s l s' E). Qed.

Lemma hangs_controlTransferOut P device setup data :
  hangs_in P (controlTransferOut device setup data).
Proof.
  intros h l h' H. unfold controlTransferOut in H. destruct answerOut; discriminate H.
Qed.

Lemma hangs_controlTransferIn P device setup len :
  hangs_in P (controlTransferIn device setup len).
Proof.
  intros h l h' H. unfold controlTransferIn in H. destruct answerIn; discriminate H.
Qed.

Lemma hangs_command_buffer P opcode addr : hangs_in P (command_buffer opcode addr).
Proof.
  intros h l h' H. rewrite command_buffer_run in H. discriminate H.
Qed.

Lemma hangs_sleep P ms : hangs_in P (sleep ms).
Proof. intros h l h' H. discriminate H. Qed.

Lemma hangs_logProgress P done total : hangs_in P (logProgress done total).
Proof. intros h l h' H. discriminate H. Qed.

Lemma hangs_dfuseErase device settings fuel addr :
  hangs_in (eq PollLoop) (dfuseErase device settings fuel addr).
Proof.
  unfold dfuseErase.
  apply hangs_bind; [apply hangs_command_buffer |]. intros b.
  apply hangs_bind; [apply hangs_abortToIdle |]. intros _.
  apply hangs_bind; [apply hangs_dnloadBlock |]. intros st.
  destruct negb; [apply hangs_throw | apply hangs_ret].
Qed.

Lemma hangs_dfuseSetAddress device settings fuel addr :
  hangs_in (eq PollLoop) (dfuseSetAddress device settings fuel addr).
Proof.
  unfold dfuseSetAddress.
  apply hangs_bind; [apply hangs_command_buffer |]. intros b.
  apply hangs_bind; [apply hangs_abortToIdle |]. intros _.
  apply hangs_bind; [apply hangs_dnloadBlock |]. intros st.
  destruct negb; [apply hangs_throw | apply hangs_ret].
Qed.

Lemma hangs_getTransferSize P device settings :
  hangs_in P (getTransferSize device settings).
Proof.
  intros h l h' H. exfalso. exact (getTransferSize_never_hangs _ _ _ _ _ H).
Qed.

Lemma block_count_le_length xferSize view :
  1 <= xferSize -> (block_count view xferSize <= length view)%nat.
Proof.
  intros HS.
  destruct (Nat.le_gt_cases (block_count view xferSize) (length view)) as [H | H];
    [exact H |].
  apply (block_count_lt xferSize view (length view) HS) in H.
  unfold byteLength in H. nia.
Qed.

(** With enough fuel for every block, the block loop never gives up. *)
Lemma hangs_download_loop device settings pollFuel xferSize view firstBlock fuel :
  1 <= xferSize ->
  (block_count view xferSize <= fuel)%nat ->
  hangs_in (eq PollLoop)
    (download_loop device settings pollFuel fuel xferSize view 0 firstBlock).
Proof.
  intros HS Hfuel h l h' H.
  assert (Hany : forall fuel sent block,
             hangs_in (fun l => l = PollLoop \/ l = DownloadLoop)
               (download_loop device settings pollFuel fuel xferSize view sent block)).
  { clear. induction fuel as [| fuel IH]; intros sent block; cbn [download_loop].
    - destruct (sent <? byteLength view); [apply hangs_hang | apply hangs_ret]. right.
      reflexivity.
    - destruct (sent <? byteLength view); [| apply hangs_ret].
      apply hangs_bind.
      + eapply hangs_weaken; [| apply hangs_dnloadBlock]. intros ? <-. left. reflexivity.
      + intros st. destruct negb; [apply hangs_throw |].
        apply hangs_bind; [apply hangs_logProgress | intros _; apply IH]. }
  destruct (Hany _ _ _ _ _ _ H) as [-> | ->]; [reflexivity |].
  pose proof (download_loop_blocks device settings pollFuel xferSize view firstBlock HS
                fuel 0 h (Hang DownloadLoop) h' ltac:(lia)) as Hb.
  rewrite Z.mul_0_l, Z.min_l, Z.add_0_r in Hb by (unfold byteLength; lia).
  destruct (Hb H) as (m & _ & _ & _ & Hh). specialize (Hh eq_refl). lia.
Qed.

Lemma hangs_do_download device settings fuel xferSize data tolerant firstBlock :
  1 <= xferSize ->
  (length data <= fuel)%nat ->
  hangs_in (eq PollLoop)
    (do_download device settings fuel xferSize data tolerant firstBlock).
Proof.
  intros HS Hfuel. unfold do_download.
  apply hangs_bind; [apply hangs_abortToIdle |]. intros _.
  apply hangs_bind; [apply hangs_logProgress |]. intros _.
  apply hangs_bind.
  { apply hangs_download_loop; [exact HS |].
    pose proof (block_count_le_length xferSize data HS). lia. }
  intros block.
  apply hangs_bind; [apply hangs_requestOut |]. intros _.
  destruct tolerant.
  - apply hangs_bind; [apply hangs_pollUntil |]. intros fin.
    destruct negb; [apply hangs_throw | apply hangs_ret].
  - apply hangs_try_catch.
    + apply hangs_bind; [apply hangs_getStatus | intros; apply hangs_ret].
    + intros; apply hangs_ret.
Qed.

Section LadderHangs.
Context {St : Type}.
Variable do_download : Z -> list byte -> bool -> option Z -> Eff St unit.
Variable P : Loop -> Prop.

Lemma hangs_after_ladder lastErr : hangs_in P (@after_ladder St lastErr).
Proof.
  unfold after_ladder. destruct disconnected; [apply hangs_ret | apply hangs_throw].
Qed.

Lemma hangs_writeWithFallback_loop data :
  forall sizes tried lastErr,
    Forall (fun s => hangs_in P (do_download s data true (Some 2))) sizes ->
    hangs_in P (writeWithFallback_loop do_download data sizes tried lastErr).
Proof.
  induction sizes as [| s rest IH]; intros tried lastErr F; cbn [writeWithFallback_loop].
  - apply hangs_after_ladder.
  - inversion F as [| ? ? Hs Hrest]; subst.
    destruct (bool_decide (s ∈ tried)); [apply IH; exact Hrest |].
    intros st l st' H.
    destruct (do_download s data true (Some 2) st) as [[[] | e | l0] st1] eqn:E.
    + discriminate H.
    + destruct (disconnected e).
      * destruct (1 <? Z.of_nat (size ({[s]} ∪ tried))); [discriminate H |].
        exact (IH _ _ Hrest _ _ _ H).
      * exact (IH _ _ Hrest _ _ _ H).
    + injection H as <- <-. exact (Hs _ _ _ E).
Qed.

Lemma hangs_flashWithRetry_loop data :
  forall sizes tried lastErr,
    Forall (fun s => hangs_in P (do_download s data true (Some 2))) sizes ->
    hangs_in P (flashWithRetry_loop do_download data sizes tried lastErr).
Proof.
  induction sizes as [| s rest IH]; intros tried lastErr F; cbn [flashWithRetry_loop].
  - apply hangs_after_ladder.
  - inversion F as [| ? ? Hs Hrest]; subst.
    destruct (bool_decide (s ∈ tried)); [apply IH; exact Hrest |].
    intros st l st' H.
    destruct (do_download s data true (Some 2) st) as [[[] | e | l0] st1] eqn:E.
    + discriminate H.
    + destruct (disconnected e).
      * destruct (mostly_done data); [discriminate H |].
        destruct (1 <? Z.of_nat (size ({[s]} ∪ tried))); [discriminate H |].
        exact (IH _ _ Hrest _ _ _ H).
      * exact (IH _ _ Hrest _ _ _ H).
    + injection H as <- <-. exact (Hs _ _ _ E).
Qed.
End LadderHangs.

Lemma hangs_bind_ret {S A B} P (c : Eff S A) (k : A -> Eff S B) :
  hangs_in P c ->
  (forall s a s', c s = (Ret a, s') -> hangs_in P (k a)) ->
  hangs_in P (bind c k).
Proof.
  intros Hc Hk s l s' H. unfold bind in H.
  destruct (c s) as [[a | e | l0] s1] eqn:E.
  - exact (Hk _ _ _ E _ _ _ H).
  - discriminate H.
  - injection H as <- <-. exact (Hc _ _ _ E).
Qed.

Lemma hangs_detach device settings :
  hangs_in (eq PollLoop)
    (try_catch (requestOut device settings 0 (Some (ArrayBuffer 0)) 1000 ;;; ret tt)
       (fun _ => ret tt)).
Proof.
  apply hangs_try_catch; [| intros; apply hangs_ret].
  apply hangs_bind; [apply hangs_requestOut | intros; apply hangs_ret].
Qed.

Lemma hangs_ladder_downloads device settings fuel data sizes :
  (length data <= fuel)%nat ->
  Forall (fun s => 1 <= s) sizes ->
  Forall (fun s => hangs_in (eq PollLoop)
                     (do_download device settings fuel s data true (Some 2))) sizes.
Proof.
  intros Hfuel F. eapply Forall_impl; [exact F |].
  intros s Hs. apply hangs_do_download; assumption.
Qed.

(** *** The third version's flashing run *)

Lemma no_vendor_command_writeWithFallback_loop device settings fuel data :
  forall sizes tried lastErr,
    Forall (fun s => 1 <= s) sizes ->
    no_vendor_command
      (writeWithFallback_loop (do_download device settings fuel) data sizes tried lastErr).
Proof.
  induction sizes as [| s rest IH]; intros tried lastErr Hsz h r h' H.
  - cbn [writeWithFallback_loop] in H. unfold after_ladder in H.
    destruct (disconnected lastErr); injection H as <- <-; reflexivity.
  - apply Forall_cons in Hsz as [Hs Hrest]. cbn [writeWithFallback_loop] in H.
    destruct (bool_decide (s ∈ tried)); [eapply IH; eauto |].
    destruct (do_download device settings fuel s data true (Some 2) h) as [[[] | e | l] h1] eqn:E;
      pose proof (no_vendor_command_do_download _ _ _ _ _ _ Hs _ _ _ E) as E1.
    + injection H as <- <-. exact E1.
    + rewrite <- E1.
      destruct (disconnected e);
        [destruct (1 <? Z.of_nat (size ({[s]} ∪ tried))) |];
        try (injection H as <- <-; reflexivity); eapply IH; eauto.
    + injection H as <- <-. exact E1.
Qed.

Lemma reconnectIfNeeded_run device settings h :
  FirstSizeLadder.reconnectIfNeeded device settings h
  = (Ret true, snd (getState device settings h)).
Proof.
  unfold FirstSizeLadder.reconnectIfNeeded, try_catch, bind.
  destruct (getState device settings h) as [[s | e | l] h1] eqn:E; try reflexivity.
  exfalso. exact (hangs_getState (fun _ => False) _ _ _ _ _ E).
Qed.

Lemma first_size_ladder_run device settings fuel data sizes h r h' :
  Forall (fun s => 1 <= s) sizes ->
  FirstSizeLadder.writeWithFallback (do_download device settings fuel) data sizes h = (r, h') ->
  vendor_commands h' = vendor_commands h /\ forall b, r = Ret b -> b = true.
Proof.
  intros Hsizes H. unfold FirstSizeLadder.writeWithFallback in H.
  rewrite first_size_loop_agrees in H
    by (try reflexivity; intros C; contradiction C; reflexivity).
  split.
  - eapply no_vendor_command_writeWithFallback_loop; eassumption.
  - intros b ->. apply writeWithFallback_loop_outcome in H. exact H.
Qed.

(** X9.  A run of the third version's flashing sequence that completes is
    made of these steps, in this order: read the transfer size, which is at
    least 1 and heads the ladder [transferSize, 2048, 1024, 512, 256] used
    for both images; erase 0x08004000, 0x08008000, 0x0800C000; set the
    address to 0x08004000; download the main image through
    [writeWithFallback]; probe the state once, at once, ignoring the
    outcome; erase 0x08000000; set the address to 0x08000000; download the
    bootstub image; send DETACH, ignoring the answer.  The vendor commands on
    the wire are those six and no other. *)
Theorem first_size_flash_sequence clock device settings fuel pandaBuffer bootstubBuffer h h' :
  FirstSizeLadder.flash_body clock device settings fuel pandaBuffer bootstubBuffer h
  = (Ret tt, h') ->
  first_size_flash_steps device settings fuel pandaBuffer bootstubBuffer h h' /\
  vendor_commands h'
  = vendor_commands h
    ++ [(65, 0x08004000); (65, 0x08008000); (65, 0x0800C000); (33, 0x08004000);
        (65, 0x08000000); (33, 0x08000000)] /\
  last h' = Some (detach_event device settings (removelast h')).
Proof.
  intros H. unfold FirstSizeLadder.flash_body in H.
  apply bind_Ret_inv in H as (transferSize & h0 & E0 & H).
  pose proof (getTransferSize_range _ _ _ _ _ E0) as Hsize.
  assert (Hsizes : Forall (fun s => 1 <= s) [transferSize; 2048; 1024; 512; 256])
    by (repeat constructor; lia).
  apply bind_Ret_inv in H as ([] & h1 & E1 & H). apply withTimeout_Ret_inv in E1 as [E1 _].
  apply bind_Ret_inv in H as ([] & h2 & E2 & H). apply withTimeout_Ret_inv in E2 as [E2 _].
  apply bind_Ret_inv in H as ([] & h3 & E3 & H). apply withTimeout_Ret_inv in E3 as [E3 _].
  apply bind_Ret_inv in H as ([] & h4 & E4 & H). apply withTimeout_Ret_inv in E4 as [E4 _].
  apply bind_Ret_inv in H as (pandaSuccess & h5 & E5 & H).
  apply withTimeout_Ret_inv in E5 as [E5 _].
  destruct (first_size_ladder_run _ _ _ _ _ _ _ _ Hsizes E5) as [V5 T5].
  rewrite (T5 _ eq_refl) in *. clear T5.
  cbn [negb] in H. rewrite bind_assoc in H.
  rewrite (bind_run _ _ _ _ _ (reconnectIfNeeded_run device settings h5)) in H.
  unfold bind at 1 in H. cbn [ret negb] in H.
  unfold bind at 1 in H. cbn [ret] in H.
  apply bind_Ret_inv in H as ([] & h7 & E7 & H). apply withTimeout_Ret_inv in E7 as [E7 _].
  apply bind_Ret_inv in H as ([] & h8 & E8 & H). apply withTimeout_Ret_inv in E8 as [E8 _].
  apply bind_Ret_inv in H as (bootstubSuccess & h9 & E9 & H).
  apply withTimeout_Ret_inv in E9 as [E9 _].
  destruct (first_size_ladder_run _ _ _ _ _ _ _ _ Hsizes E9) as [V9 T9].
  rewrite (T9 _ eq_refl) in *. clear T9.
  rewrite detach_run in H. injection H as <-.
  split; [| split].
  - exists transferSize, h0, h1, h2, h3, h4, h5, h7, h8, h9. repeat split; assumption || lia.
  - apply (no_vendor_command_housekeeping _ (housekeeping_getTransferSize device settings))
      in E0.
    apply dfuseErase_commands in E1, E2, E3, E7.
    apply dfuseSetAddress_commands in E4, E8.
    assert (vendor_commands (snd (getState device settings h5)) = vendor_commands h5) as E6.
    { destruct (getState device settings h5) as [r6 h6] eqn:Eg.
      apply (no_vendor_command_housekeeping _ (housekeeping_getState device settings)) in Eg.
      exact Eg. }
    rewrite vendor_commands_app.
    change (vendor_commands [detach_event _ _ _]) with (@nil (Z * Z)).
    rewrite app_nil_r, V9, E8, E7, E6, V5, E4, E3, E2, E1, E0.
    rewrite <- !app_assoc. reflexivity.
  - rewrite last_snoc, removelast_last. reflexivity.
Qed.

Lemma first_size_flash_sequence_witness :
  exists h',
    FirstSizeLadder.flash_body (steady 1) (simulated healthy) dfuse_settings 3 (image 3)
      (image 2) []
    = (Ret tt, h') /\
    vendor_commands h'
    = [(65, 0x08004000); (65, 0x08008000); (65, 0x0800C000); (33, 0x08004000);
       (65, 0x08000000); (33, 0x08000000)].
Proof.
  eexists. split; [vm_compute; reflexivity |].
  refine (proj1 (proj2 (first_size_flash_sequence (steady 1) (simulated healthy)
                          dfuse_settings 3 (image 3) (image 2) [] _ _))).
  vm_compute. reflexivity.
Defined.

(** ** Finding the DFU interface *)

Lemma findDfuInterfaces_elem configurations s :
  s ∈ findDfuInterfaces configurations <->
  Found.configuration s ∈ configurations /\
  Found.interface s ∈ USB.interfaces (Found.configuration s) /\
  Found.alternate s ∈ USB.alternates (Found.interface s) /\
  dfu_mode (Found.alternate s) = true /\
  Found.name s = USB.interfaceName (Found.alternate s).
Proof.
  unfold findDfuInterfaces. rewrite (list_elem_of_In _ s), in_flat_map. split.
  - intros (conf & Hconf & H). apply in_flat_map in H as (intf & Hintf & H).
    apply in_flat_map in H as (alt & Halt & H).
    destruct (dfu_mode alt) eqn:Hmode; [| contradiction].
    destruct H as [<- | []].
    cbn [Found.configuration Found.interface Found.alternate Found.name].
    repeat split; try (apply list_elem_of_In; assumption); assumption.
  - intros (Hconf & Hintf & Halt & Hmode & Hname).
    apply list_elem_of_In in Hconf, Hintf, Halt.
    exists (Found.configuration s). split; [exact Hconf |].
    apply in_flat_map. exists (Found.interface s). split; [exact Hintf |].
    apply in_flat_map. exists (Found.alternate s). split; [exact Halt |].
    rewrite Hmode. left. destruct s; cbn in *. rewrite Hname. reflexivity.
Qed.

(** X10.  [findDfuInterfaces] returns exactly the alternate settings of the
    device with class 0xFE, subclass 1 and protocol 2, each with the
    interface and the configuration it belongs to, configuration by
    configuration in the order of the device.  The test is the one
    [getTransferSize] applies to the interface records of the configuration
    descriptor: the record of a found alternate is the record it selects. *)
Theorem findDfuInterfaces_spec configurations s :
  (s ∈ findDfuInterfaces configurations <->
   Found.configuration s ∈ configurations /\
   Found.interface s ∈ USB.interfaces (Found.configuration s) /\
   Found.alternate s ∈ USB.alternates (Found.interface s) /\
   USB.interfaceClass (Found.alternate s) = 0xfe /\
   USB.interfaceSubclass (Found.alternate s) = 0x01 /\
   USB.interfaceProtocol (Found.alternate s) = 0x02 /\
   Found.name s = USB.interfaceName (Found.alternate s)) /\
  (forall more, findDfuInterfaces (configurations ++ more)
                = findDfuInterfaces configurations ++ findDfuInterfaces more) /\
  (s ∈ findDfuInterfaces configurations ->
   0 <= USB.interfaceNumber (Found.interface s) < 256 ->
   0 <= USB.alternateSetting (Found.alternate s) < 256 ->
   forall bNumEndpoints iInterface,
     well_formed (interface_record (Found.interface s) (Found.alternate s)
                    bNumEndpoints iInterface) /\
     selects (settings_of s)
       (interface_record (Found.interface s) (Found.alternate s) bNumEndpoints iInterface)
     = true).
Proof.
  assert (Hmode : forall alt,
             dfu_mode alt = true <->
             USB.interfaceClass alt = 0xfe /\ USB.interfaceSubclass alt = 0x01 /\
             USB.interfaceProtocol alt = 0x02).
  { intros alt. unfold dfu_mode. rewrite !andb_true_iff, !Z.eqb_eq. tauto. }
  split; [| split].
  - rewrite findDfuInterfaces_elem, Hmode. tauto.
  - intros more. unfold findDfuInterfaces. apply flat_map_app.
  - intros Hs Hn Ha bNumEndpoints iInterface.
    apply findDfuInterfaces_elem in Hs as (_ & _ & _ & Hm & _).
    apply Hmode in Hm as (Hc & Hsub & Hp).
    split.
    + unfold well_formed, interface_record, byteLength. cbn. lia.
    + unfold selects, interface_record, settings_of.
      cbn [payload interfaceNumber alternateSetting].
      set (b0 := byte_of_Z (USB.interfaceNumber _)).
      set (b1 := byte_of_Z (USB.alternateSetting _)).
      set (b3 := byte_of_Z (USB.interfaceClass _)).
      set (b4 := byte_of_Z (USB.interfaceSubclass _)).
      set (b5 := byte_of_Z (USB.interfaceProtocol _)).
      change (byte_at [b0; b1; bNumEndpoints; b3; b4; b5; iInterface] 0) with (byte_to_Z b0).
      change (byte_at [b0; b1; bNumEndpoints; b3; b4; b5; iInterface] 1) with (byte_to_Z b1).
      change (byte_at [b0; b1; bNumEndpoints; b3; b4; b5; iInterface] 3) with (byte_to_Z b3).
      change (byte_at [b0; b1; bNumEndpoints; b3; b4; b5; iInterface] 4) with (byte_to_Z b4).
      change (byte_at [b0; b1; bNumEndpoints; b3; b4; b5; iInterface] 5) with (byte_to_Z b5).
      subst b0 b1 b3 b4 b5. rewrite !byte_of_Z_value, Hc, Hsub, Hp.
      rewrite !Z.mod_small by lia. rewrite !Z.eqb_refl. reflexivity.
Qed.

Lemma findDfuInterfaces_spec_witness :
  map settings_of (findDfuInterfaces [bootloader_configuration])
  = [dfuse_settings;
     {| configurationValue := 1; interfaceNumber := 0; alternateSetting := 1 |}] /\
  selects dfuse_settings
    (interface_record bootloader_interface (bootloader_alternate 0 "@Internal Flash") x00 x04)
  = true.
Proof.
  split; [reflexivity |].
  refine (proj2 (proj2 (proj2 (findDfuInterfaces_spec [bootloader_configuration]
            {| Found.configuration := bootloader_configuration;
               Found.interface := bootloader_interface;
               Found.alternate := bootloader_alternate 0 "@Internal Flash";
               Found.name := Some "@Internal Flash" |})) _ _ _ x00 x04)).
  - vm_compute. left.
  - simpl. lia.
  - simpl. lia.
Defined.

(** ** Opening and closing the device *)

Lemma within_ret {A} (a : A) : calls_within [] (@ret Session A a).
Proof. intros s r s' [= <- <-]. exists []. rewrite app_nil_r. split; [reflexivity | constructor]. Qed.

Lemma within_throw {A} e : calls_within [] (@throw Session A e).
Proof. intros s r s' [= <- <-]. exists []. rewrite app_nil_r. split; [reflexivity | constructor]. Qed.

Lemma within_device_now : calls_within [] device_now.
Proof. intros s r s' [= <- <-]. exists []. rewrite app_nil_r. split; [reflexivity | constructor]. Qed.

Lemma within_invoke host c : calls_within [c] (invoke host c).
Proof. intros s r s' [= <- <-]. exists [c]. split; reflexivity. Qed.

Lemma within_weaken {A} l l' (c : Eff Session A) :
  sublist l l' -> calls_within l c -> calls_within l' c.
Proof.
  intros Hl Hc s r s' H. destruct (Hc _ _ _ H) as (calls & E & Hs).
  exists calls. split; [exact E | etransitivity; eassumption].
Qed.

Lemma within_bind {A B} l1 l2 (c : Eff Session A) (k : A -> Eff Session B) :
  calls_within l1 c -> (forall a, calls_within l2 (k a)) -> calls_within (l1 ++ l2) (bind c k).
Proof.
  intros Hc Hk s r s' H. unfold bind in H.
  destruct (c s) as [[a | e | l] s1] eqn:E; destruct (Hc _ _ _ E) as (calls1 & E1 & S1).
  - destruct (Hk _ _ _ _ H) as (calls2 & E2 & S2).
    exists (calls1 ++ calls2). split; [rewrite E2, E1, app_assoc; reflexivity |].
    apply sublist_app; assumption.
  - injection H as <- <-. exists calls1. split; [exact E1 |].
    apply sublist_inserts_r. exact S1.
  - injection H as <- <-. exists calls1. split; [exact E1 |].
    apply sublist_inserts_r. exact S1.
Qed.

Lemma within_try_catch {A} l1 l2 (c : Eff Session A) (k : Thrown -> Eff Session A) :
  calls_within l1 c -> (forall e, calls_within l2 (k e)) ->
  calls_within (l1 ++ l2) (try_catch c k).
Proof.
  intros Hc Hk s r s' H. unfold try_catch in H.
  destruct (c s) as [[a | e | l] s1] eqn:E; destruct (Hc _ _ _ E) as (calls1 & E1 & S1).
  - injection H as <- <-. exists calls1. split; [exact E1 |].
    apply sublist_inserts_r. exact S1.
  - destruct (Hk _ _ _ _ H) as (calls2 & E2 & S2).
    exists (calls1 ++ calls2). split; [rewrite E2, E1, app_assoc; reflexivity |].
    apply sublist_app; assumption.
  - injection H as <- <-. exists calls1. split; [exact E1 |].
    apply sublist_inserts_r. exact S1.
Qed.

Lemma within_when host (b : bool) c :
  calls_within [c] (if b then invoke host c else ret tt).
Proof.
  destruct b; [apply within_invoke |].
  eapply within_weaken; [| apply within_ret]. apply sublist_nil_l.
Qed.

Lemma within_interface_at n property : calls_within [] (interface_at n property).
Proof.
  unfold interface_at. apply (within_bind [] []); [apply within_device_now |].
  intros p. destruct (configuration p) as [conf |]; [| apply within_throw].
  destruct (if 0 <=? n then _ else _); [apply within_ret | apply within_throw].
Qed.

Lemma open_within host settings : calls_within (open_calls settings) (open host settings).
Proof.
  unfold open, open_calls.
  apply (within_bind [] [_; _; _; _]); [apply within_device_now |]. intros p0.
  apply (within_bind [_] [_; _; _]); [apply within_when |]. intros _.
  apply (within_bind [] [_; _; _]); [apply within_device_now |]. intros p1.
  apply (within_bind [_] [_; _]); [apply within_when |]. intros _.
  apply (within_bind [] [_; _]); [apply within_interface_at |]. intros found.
  apply (within_bind [] [_; _]); [apply within_device_now |]. intros p2.
  apply (within_bind [_] [_]); [apply within_when |]. intros _.
  apply (within_bind [] [_]); [apply within_interface_at |]. intros found'.
  apply (within_bind [] [_]); [apply within_device_now |]. intros p3.
  destruct (_ || _).
  - apply (within_try_catch [_] []); [apply within_invoke |]. intros e.
    apply (within_bind [] []); [apply within_device_now |]. intros p4.
    destruct other_alternate; [apply within_throw | apply within_ret].
  - eapply within_weaken; [| apply within_ret]. apply sublist_nil_l.
Qed.

Lemma interface_at_run settings p log intf property :
  prepared settings p intf ->
  interface_at (interfaceNumber settings) property (p, log)
  = (Ret (Z.to_nat (interfaceNumber settings), intf), (p, log)).
Proof.
  intros (_ & Hn & _ & conf & Hconf & _ & Hintf).
  unfold interface_at, bind, device_now. cbn [fst]. rewrite Hconf.
  replace (0 <=? interfaceNumber settings) with true by (symmetry; apply Z.leb_le; exact Hn).
  rewrite Hintf. reflexivity.
Qed.

(** [open] on a prepared device: everything up to the alternate setting
    goes through without a call. *)
Lemma open_prepared host settings p log intf :
  prepared settings p intf ->
  open host settings (p, log)
  = (if other_alternate p (Z.to_nat (interfaceNumber settings)) (alternateSetting settings)
        || (1 <? Z.of_nat (length (USB.alternates intf)))
     then
       try_catch (invoke host (CallSelectAlternateInterface (interfaceNumber settings)
                                 (alternateSetting settings)))
         (fun e =>
            p <- device_now ;;
            if other_alternate p (Z.to_nat (interfaceNumber settings))
                 (alternateSetting settings)
            then throw e else ret tt)
     else ret tt) (p, log).
Proof.
  intros Hp. pose proof Hp as (Hopen & Hn & Hclaimed & conf & Hconf & Hvalue & Hintf).
  unfold open.
  unfold bind at 1. cbn [device_now fst]. rewrite Hopen. cbn [negb].
  unfold bind at 1. cbn [ret].
  unfold bind at 1. cbn [device_now fst]. rewrite Hconf, Hvalue, Z.eqb_refl. cbn [negb].
  unfold bind at 1. cbn [ret].
  rewrite (bind_run _ _ _ _ _ (interface_at_run settings p log intf "claimed" Hp)).
  unfold bind at 1. cbn [device_now fst]. rewrite Hclaimed. cbn [negb].
  unfold bind at 1. cbn [ret].
  rewrite (bind_run _ _ _ _ _ (interface_at_run settings p log intf "alternate" Hp)).
  unfold bind at 1. cbn [device_now fst snd]. reflexivity.
Qed.

Lemma ready_prepared settings p :
  ready settings p ->
  exists intf,
    prepared settings p intf /\
    other_alternate p (Z.to_nat (interfaceNumber settings)) (alternateSetting settings) = false /\
    (length (USB.alternates intf) <= 1)%nat.
Proof.
  intros (Hopen & conf & intf & a & Hconf & Hvalue & Hn & Hintf & Hclaimed & Halt & Ha & Hlen).
  exists intf. split; [| split].
  - repeat split; try assumption. exists conf. repeat split; assumption.
  - unfold other_alternate. rewrite Halt, Ha, Z.eqb_refl. reflexivity.
  - exact Hlen.
Qed.

(** X11.  [DfuDevice.open] and [close] on the device object.  [open] makes
    at most four calls, in this order and with these arguments: [open],
    [selectConfiguration] with the configuration of the settings,
    [claimInterface] and [selectAlternateInterface] with their interface
    number and alternate setting.  On a device that is open, configured,
    claimed and on the right alternate, with a single alternate setting, it
    makes no call at all.  Once the device is prepared,
    [selectAlternateInterface] is called when the alternate differs or the
    interface has several, and its rejection is passed on only if the
    alternate is still not the wanted one.  The interface is looked up by
    position: when the configuration has nothing at the position of the
    interface number, [open] fails with a TypeError.  [close] never throws,
    and calls [close] on the device only when it is open. *)
Theorem open_spec host settings p log :
  let n := interfaceNumber settings in
  let alt := alternateSetting settings in
  calls_within (open_calls settings) (open host settings) /\
  (ready settings p -> open host settings (p, log) = (Ret tt, (p, log))) /\
  (forall intf,
      prepared settings p intf ->
      other_alternate p (Z.to_nat n) alt = true \/ (1 < length (USB.alternates intf))%nat ->
      let answer := perform host (p, log) (CallSelectAlternateInterface n alt) in
      open host settings (p, log)
      = (match fst answer with
         | None => Ret tt
         | Some e => if other_alternate (snd answer) (Z.to_nat n) alt then Throw e else Ret tt
         end,
         (snd answer, log ++ [CallSelectAlternateInterface n alt]))) /\
  (forall conf,
      opened p = true ->
      configuration p = Some conf ->
      USB.configurationValue conf = configurationValue settings ->
      n < 0 \/ USB.interfaces conf !! Z.to_nat n = None ->
      open host settings (p, log)
      = (Throw (TypeError_reading "undefined" "claimed"), (p, log))) /\
  fst (close host (p, log)) = Ret tt /\
  snd (snd (close host (p, log))) = log ++ (if opened p then [CallClose] else []).
Proof.
  cbv zeta. split; [apply open_within |]. split; [| split; [| split; [| split]]].
  - intros Hready. apply ready_prepared in Hready as (intf & Hp & Halt & Hlen).
    rewrite (open_prepared _ _ _ _ _ Hp), Halt.
    replace (1 <? Z.of_nat (length (USB.alternates intf))) with false
      by (symmetry; apply Z.ltb_ge; lia).
    reflexivity.
  - intros intf Hp Hselect. rewrite (open_prepared _ _ _ _ _ Hp).
    replace (_ || _) with true.
    2:{ symmetry. apply orb_true_iff. destruct Hselect as [-> | Hlen]; [left; reflexivity |].
        right. apply Z.ltb_lt. lia. }
    unfold try_catch, invoke. cbn [fst snd].
    destruct (perform host (p, log) _) as [[e |] p']; cbn [fst snd]; [| reflexivity].
    unfold bind, device_now. cbn [fst].
    destruct (other_alternate p' _ _); reflexivity.
  - intros conf Hopen Hconf Hvalue Hnone.
    unfold open.
    unfold bind at 1. cbn [device_now fst]. rewrite Hopen. cbn [negb].
    unfold bind at 1. cbn [ret].
    unfold bind at 1. cbn [device_now fst]. rewrite Hconf, Hvalue, Z.eqb_refl. cbn [negb].
    unfold bind at 1. cbn [ret].
    unfold bind at 1. unfold interface_at at 1. unfold bind at 1. cbn [device_now fst].
    rewrite Hconf.
    destruct Hnone as [Hneg | Hnone].
    + replace (0 <=? interfaceNumber settings) with false
        by (symmetry; apply Z.leb_gt; exact Hneg).
      reflexivity.
    + rewrite Hnone. destruct (0 <=? interfaceNumber settings); reflexivity.
  - unfold close, try_catch, bind, device_now, invoke. cbn [fst snd].
    destruct (opened p); [| reflexivity].
    destruct (perform host (p, log) CallClose) as [[e |] p']; reflexivity.
  - unfold close, try_catch, bind, device_now, invoke. cbn [fst snd].
    destruct (opened p); [| cbn; rewrite app_nil_r; reflexivity].
    destruct (perform host (p, log) CallClose) as [[e |] p']; reflexivity.
Qed.

Lemma open_spec_witness :
  ready dfuse_settings settled_port /\
  open obliging dfuse_settings (settled_port, []) = (Ret tt, (settled_port, [])) /\
  snd (snd (open obliging dfuse_settings (unplugged_port, [])))
  = [CallOpen; CallSelectConfiguration 1; CallClaimInterface 0;
     CallSelectAlternateInterface 0 0].
Proof.
  assert (Hready : ready dfuse_settings settled_port).
  { split; [reflexivity |].
    eexists; eexists; eexists. repeat split; try reflexivity; simpl; lia. }
  split; [exact Hready |]. split; [| reflexivity].
  exact (proj1 (proj2 (open_spec obliging dfuse_settings settled_port [])) Hready).
Defined.

(** ** Sending the device to its bootloader *)

Lemma attempt_once_run device attempt h :
  let answer := answerOut device h recover_setup None in
  let h1 := h ++ [EvControlOut recover_setup None answer] in
  attempt_once device attempt h
  = match answer with
    | inr result => (Ret (if is_ok (out_status result) then Some true else None), h1)
    | inl (ErrorObj m) =>
        if (attempt =? 3) || includes m "disconnected"
        then (Ret (Some (includes m "disconnected")), h1)
        else (Ret None, h1 ++ [EvSleep 2000])
    | inl Undefined => (Throw (TypeError_reading "undefined" "message"), h1)
    end.
Proof.
  cbv zeta. unfold attempt_once, try_catch, bind, controlTransferOut.
  destruct (answerOut device h recover_setup None) as [[m |] | result].
  - cbn [message_of ret]. destruct (_ || _); reflexivity.
  - reflexivity.
  - destruct (is_ok (out_status result)); reflexivity.
Qed.

Lemma transfers_app evs more : transfers (evs ++ more) = (transfers evs + transfers more)%nat.
Proof.
  induction evs as [| ev evs IH]; [reflexivity |].
  destruct ev; cbn [app transfers]; rewrite IH; reflexivity.
Qed.

Lemma attempts_shape device :
  forall remaining attempt h r h',
    attempt + Z.of_nat remaining = 4 ->
    attempts device remaining attempt h = (r, h') ->
    exists evs,
      h' = h ++ evs /\
      Forall (fun ev => recover_request ev \/ ev = EvSleep 2000) evs /\
      (transfers evs <= remaining)%nat /\
      (remaining <> 0%nat -> (1 <= transfers evs)%nat) /\
      attempts_outcome evs r.
Proof.
  induction remaining as [| remaining IH]; intros attempt h r h' Hturn H.
  - injection H as <- <-. exists []. cbn. rewrite app_nil_r.
    repeat split; try constructor. congruence.
  - cbn [attempts] in H. unfold bind at 1 in H. rewrite attempt_once_run in H.
    set (answer := answerOut device h recover_setup None) in H.
    set (ev := EvControlOut recover_setup None answer) in H.
    assert (Hev : recover_request ev \/ ev = EvSleep 2000) by (left; exists answer; reflexivity).
    assert (Hstop : forall success,
               success = recover_taken ev ->
               (Ret success, h ++ [ev]) = (r, h') ->
               exists evs,
                 h' = h ++ evs /\
                 Forall (fun ev => recover_request ev \/ ev = EvSleep 2000) evs /\
                 (transfers evs <= S remaining)%nat /\
                 (S remaining <> 0%nat -> (1 <= transfers evs)%nat) /\
                 attempts_outcome evs r).
    { intros success -> [= <- <-]. exists [ev]. repeat split.
      - constructor; [exact Hev | constructor].
      - cbn. lia.
      - cbn. lia.
      - cbn [attempts_outcome existsb]. rewrite orb_false_r. reflexivity. }
    assert (Hnext : forall more,
               recover_taken ev = false ->
               Forall (fun ev => recover_request ev \/ ev = EvSleep 2000) more ->
               transfers more = 0%nat ->
               attempts device remaining (attempt + 1) (h ++ ev :: more) = (r, h') ->
               exists evs,
                 h' = h ++ evs /\
                 Forall (fun ev => recover_request ev \/ ev = EvSleep 2000) evs /\
                 (transfers evs <= S remaining)%nat /\
                 (S remaining <> 0%nat -> (1 <= transfers evs)%nat) /\
                 attempts_outcome evs r).
    { intros more Htaken Hmore Hcount Hrun.
      destruct (IH (attempt + 1) (h ++ ev :: more) r h' ltac:(lia) Hrun)
        as (evs & -> & Hall & Hle & _ & Hout).
      exists (ev :: more ++ evs).
      assert (Htr : transfers (ev :: more ++ evs) = S (transfers evs)).
      { unfold ev at 1. cbn [transfers]. rewrite transfers_app, Hcount. reflexivity. }
      split; [rewrite <- app_assoc; reflexivity |].
      split; [constructor; [exact Hev |]; apply Forall_app; split; assumption |].
      split; [lia |]. split; [lia |].
      destruct r as [success | e | l]; cbn [attempts_outcome] in *.
      - cbn [existsb]. rewrite Htaken, existsb_app.
        assert (existsb recover_taken more = false) as ->.
        { clear -Hmore Hcount. induction Hmore as [| x more [[a ->] | ->] _ IHm].
          - reflexivity.
          - discriminate Hcount.
          - apply IHm. exact Hcount. }
        exact Hout.
      - destruct Hout as [He Hlast]. split; [exact He |].
        destruct evs as [| x evs]; [discriminate Hlast |].
        change (ev :: more ++ x :: evs) with ((ev :: more) ++ x :: evs).
        rewrite last_app, Hlast. reflexivity.
      - exact Hout. }
    subst ev. destruct answer as [[m |] | result] eqn:Ha.
    + destruct ((attempt =? 3) || includes m "disconnected") eqn:Hbreak.
      * apply (Hstop _ eq_refl H).
      * apply orb_false_iff in Hbreak as [_ Hm].
        rewrite <- app_assoc in H.
        apply (Hnext [EvSleep 2000]); [exact Hm | | reflexivity | exact H].
        constructor; [right; reflexivity | constructor].
    + injection H as <- <-. eexists. split; [reflexivity |].
      split; [constructor; [left; eexists; reflexivity | constructor] |].
      split; [cbn; lia |]. split; [cbn; lia |].
      split; reflexivity.
    + destruct (is_ok (out_status result)) eqn:Hok.
      * apply (Hstop true); [cbn [recover_taken]; rewrite Hok; reflexivity | exact H].
      * apply (Hnext []); [cbn [recover_taken]; exact Hok | constructor | reflexivity |
                           exact H].
Qed.


(** ** The first page's own download *)

Lemma inline_loop_step device settings fuel xferSize data sent block h :
  sent < byteLength data ->
  let size := Z.min xferSize (byteLength data - sent) in
  let out := answerOut device h (class_setup settings DFU.DNLOAD block)
               (Some (slice data sent (sent + size))) in
  let h1 := h ++ [EvControlOut (class_setup settings DFU.DNLOAD block)
                    (Some (slice data sent (sent + size))) out] in
  let answer := answerIn device h1 (class_setup settings DFU.GETSTATUS 0) 6 in
  let h2 := h1 ++ [EvControlIn (class_setup settings DFU.GETSTATUS 0) 6 answer] in
  Inline.download_loop device settings (S fuel) xferSize data sent block h
  = match out, answer with
    | inl e, _ => (Throw e, h1)
    | inr _, inl e => (Throw e, h2)
    | inr _, inr result =>
        if (1 <=? byteLength (in_data result)) && negb (byte_at (in_data result) 0 =? 0)
        then (Throw (Inline.status_failed (byte_at (in_data result) 0)), h2)
        else Inline.download_loop device settings fuel xferSize data (sent + size) (block + 1)
               (h2 ++ [EvProgress (sent + size) (byteLength data); EvSleep 10])
    end.
Proof.
  intros Hlt. cbv zeta. cbn [Inline.download_loop].
  destruct (Z.ltb_spec sent (byteLength data)) as [_ | Hge]; [| lia].
  unfold bind at 1. unfold controlTransferOut at 1.
  destruct (answerOut device h _ _) as [e | out]; [reflexivity |].
  unfold bind at 1. unfold controlTransferIn at 1.
  destruct (answerIn device _ _ 6) as [e | result]; [reflexivity |].
  unfold bind at 1.
  destruct (1 <=? byteLength (in_data result)); cbn [andb].
  - destruct (negb (byte_at (in_data result) 0 =? 0)); [reflexivity |].
    cbn [ret]. unfold bind at 1. cbn [logProgress]. unfold bind at 1. cbn [sleep].
    rewrite <- app_assoc. reflexivity.
  - cbn [ret]. unfold bind at 1. cbn [logProgress]. unfold bind at 1. cbn [sleep].
    rewrite <- app_assoc. reflexivity.
Qed.

Lemma inline_loop_done device settings fuel xferSize data sent block h :
  byteLength data <= sent ->
  Inline.download_loop device settings fuel xferSize data sent block h = (Ret block, h).
Proof.
  intros Hge. destruct fuel; cbn [Inline.download_loop];
    (destruct (Z.ltb_spec sent (byteLength data)); [lia | reflexivity]).
Qed.

Lemma dnloads_quiet h ev :
  dnload_of ev = None -> dnloads (h ++ [ev]) = dnloads h.
Proof.
  intros Hev. rewrite dnloads_app.
  change (dnloads [ev]) with (match dnload_of ev with
                              | Some b => [b]
                              | None => []
                              end).
  rewrite Hev. apply app_nil_r.
Qed.

Lemma inline_loop_blocks device settings xferSize data :
  1 <= xferSize ->
  forall fuel k h r h',
    (k <= block_count data xferSize)%nat ->
    Inline.download_loop device settings fuel xferSize data
      (Z.min (Z.of_nat k * xferSize) (byteLength data)) (Z.of_nat k) h = (r, h') ->
    exists m,
      (k + m <= block_count data xferSize)%nat /\
      dnloads h' = dnloads h ++ map (data_block xferSize data 0) (seq k m) /\
      (forall b, r = Ret b ->
                 (k + m = block_count data xferSize)%nat /\
                 b = Z.of_nat (block_count data xferSize)).
Proof.
  intros HS. set (n := block_count data xferSize). set (L := byteLength data).
  assert (Hdone : forall fuel k h r h',
             L <= Z.of_nat k * xferSize -> (k <= n)%nat ->
             Inline.download_loop device settings fuel xferSize data
               (Z.min (Z.of_nat k * xferSize) L) (Z.of_nat k) h = (r, h') ->
             exists m,
               (k + m <= n)%nat /\
               dnloads h' = dnloads h ++ map (data_block xferSize data 0) (seq k m) /\
               (forall b, r = Ret b -> (k + m = n)%nat /\ b = Z.of_nat n)).
  { intros fuel k h r h' Hge Hk H.
    rewrite Z.min_r in H by lia. rewrite inline_loop_done in H by (fold L; lia).
    injection H as <- <-.
    assert (~ (k < n)%nat) by (intros C; apply block_count_lt in C; unfold L in *; lia).
    exists 0%nat. cbn [seq map]. rewrite app_nil_r.
    split; [lia |]. split; [reflexivity |].
    intros b [= <-]. split; [lia |]. f_equal. lia. }
  induction fuel as [| fuel IH]; intros k h r h' Hk H.
  - destruct (Z.lt_ge_cases (Z.of_nat k * xferSize) L) as [Hlt | Hge];
      [| eapply Hdone; eassumption].
    pose proof (proj1 (block_count_lt xferSize data k HS) Hlt) as Hkn.
    rewrite Z.min_l in H by lia. cbn [Inline.download_loop] in H.
    destruct (Z.ltb_spec (Z.of_nat k * xferSize) (byteLength data)); [| unfold L in *; lia].
    injection H as <- <-. exists 0%nat. cbn [seq map]. rewrite app_nil_r.
    repeat split; try discriminate; unfold n in *; lia.
  - destruct (Z.lt_ge_cases (Z.of_nat k * xferSize) L) as [Hlt | Hge];
      [| eapply Hdone; eassumption].
    pose proof (proj1 (block_count_lt xferSize data k HS) Hlt) as Hkn. fold n in Hkn.
    rewrite Z.min_l in H by lia.
    rewrite inline_loop_step in H by exact Hlt. cbv zeta in H.
    rewrite slice_chunk in H by assumption.
    set (sent := EvControlOut (class_setup settings DFU.DNLOAD (Z.of_nat k))
                   (Some (chunk xferSize data k)) _) in H.
    assert (Hsent : dnloads (h ++ [sent])
                    = dnloads h ++ map (data_block xferSize data 0) (seq k 1)).
    { unfold sent. rewrite dnloads_block by constructor. reflexivity. }
    assert (Hstop : forall ev,
               dnload_of ev = None ->
               exists m,
                 (k + m <= n)%nat /\
                 dnloads ((h ++ [sent]) ++ [ev])
                 = dnloads h ++ map (data_block xferSize data 0) (seq k m)).
    { intros ev Hev. exists 1%nat. split; [lia |]. rewrite dnloads_quiet by exact Hev.
      exact Hsent. }
    destruct (answerOut device h _ _) as [e | out].
    { injection H as <- <-. exists 1%nat. repeat split; [lia | exact Hsent | discriminate..]. }
    destruct (answerIn device (h ++ [sent]) _ 6) as [e | result].
    { injection H as <- <-. destruct (Hstop (EvControlIn (class_setup settings DFU.GETSTATUS 0)
                                                6 (inl e)) eq_refl) as (m & Hm & Hd).
      exists m. repeat split; [exact Hm | exact Hd | discriminate..]. }
    destruct ((1 <=? byteLength (in_data result))
              && negb (byte_at (in_data result) 0 =? 0)).
    { injection H as <- <-. destruct (Hstop (EvControlIn (class_setup settings DFU.GETSTATUS 0)
                                                6 (inr result)) eq_refl) as (m & Hm & Hd).
      exists m. repeat split; [exact Hm | exact Hd | discriminate..]. }
    replace (Z.of_nat k * xferSize + Z.min xferSize (byteLength data - Z.of_nat k * xferSize))
      with (Z.min (Z.of_nat (S k) * xferSize) (byteLength data)) in H by (fold L; lia).
    replace (Z.of_nat k + 1) with (Z.of_nat (S k)) in H by lia.
    apply IH in H as (m & Hm & Hd & Hr); [| lia].
    exists (S m). split; [lia |]. split.
    + rewrite Hd.
      change (((h ++ [sent]) ++ [EvControlIn (class_setup settings DFU.GETSTATUS 0) 6
                                    (inr result)])
              ++ [EvProgress (Z.min (Z.of_nat (S k) * xferSize) (byteLength data))
                    (byteLength data); EvSleep 10])
        with (((h ++ [sent]) ++ [EvControlIn (class_setup settings DFU.GETSTATUS 0) 6
                                    (inr result)])
              ++ [EvProgress (Z.min (Z.of_nat (S k) * xferSize) (byteLength data))
                    (byteLength data)] ++ [EvSleep 10]).
      rewrite app_assoc, !dnloads_quiet by reflexivity.
      rewrite Hsent, <- app_assoc. reflexivity.
    + intros b Hb. destruct (Hr b Hb). split; [lia | assumption].
Qed.

Lemma inline_loop_completes device settings xferSize data :
  never_complains device ->
  1 <= xferSize ->
  forall fuel k h,
    (k <= block_count data xferSize)%nat ->
    (block_count data xferSize <= k + fuel)%nat ->
    exists h',
      Inline.download_loop device settings fuel xferSize data
        (Z.min (Z.of_nat k * xferSize) (byteLength data)) (Z.of_nat k) h
      = (Ret (Z.of_nat (block_count data xferSize)), h').
Proof.
  intros [Hout Hin] HS. set (n := block_count data xferSize). set (L := byteLength data).
  induction fuel as [| fuel IH]; intros k h Hk Hfuel.
  - assert (k = n) as -> by lia.
    assert (L <= Z.of_nat n * xferSize) as Hn.
    { destruct (Z.lt_ge_cases (Z.of_nat n * xferSize) L) as [C | C]; [| exact C].
      apply block_count_lt in C; [fold n in C; lia | exact HS]. }
    exists h. rewrite Z.min_r by lia. apply inline_loop_done. fold L. lia.
  - destruct (Z.lt_ge_cases (Z.of_nat k * xferSize) L) as [Hlt | Hge].
    + pose proof (proj1 (block_count_lt xferSize data k HS) Hlt) as Hkn. fold n in Hkn.
      rewrite Z.min_l by lia. rewrite inline_loop_step by exact Hlt. cbv zeta.
      destruct (Hout h (class_setup settings DFU.DNLOAD (Z.of_nat k))
                  (Some (slice data (Z.of_nat k * xferSize)
                           (Z.of_nat k * xferSize
                            + Z.min xferSize (byteLength data - Z.of_nat k * xferSize)))))
        as (out & ->).
      match goal with
      | |- context [answerIn device ?hh ?ss 6] =>
          destruct (Hin hh ss 6) as (result & -> & Hquiet)
      end.
      replace ((1 <=? byteLength (in_data result))
               && negb (byte_at (in_data result) 0 =? 0)) with false.
      2:{ symmetry. destruct Hquiet as [-> | ->]; [reflexivity |].
          rewrite Z.eqb_refl. apply andb_false_r. }
      replace (Z.of_nat k * xferSize
               + Z.min xferSize (byteLength data - Z.of_nat k * xferSize))
        with (Z.min (Z.of_nat (S k) * xferSize) (byteLength data)) by (fold L; lia).
      replace (Z.of_nat k + 1) with (Z.of_nat (S k)) by lia.
      apply IH; lia.
    + assert (~ (k < n)%nat) by (intros C; apply block_count_lt in C; unfold L in *; lia).
      assert (k = n) as -> by lia.
      exists h. rewrite Z.min_r by lia. apply inline_loop_done. fold L. lia.
Qed.

Lemma inline_loop_appends device settings xferSize data :
  forall fuel sent block h r h',
    Inline.download_loop device settings fuel xferSize data sent block h = (r, h') ->
    exists rest, h' = h ++ rest.
Proof.
  induction fuel as [| fuel IH]; intros sent block h r h' H.
  - cbn [Inline.download_loop] in H. destruct (sent <? byteLength data);
      injection H as <- <-; exists []; rewrite app_nil_r; reflexivity.
  - destruct (Z.lt_ge_cases sent (byteLength data)) as [Hlt | Hge].
    + rewrite inline_loop_step in H by exact Hlt. cbv zeta in H.
      destruct (answerOut device h _ _) as [e | out];
        [injection H as <- <-; eexists; reflexivity |].
      destruct (answerIn device _ _ 6) as [e | result];
        [injection H as <- <-; eexists; rewrite <- app_assoc; reflexivity |].
      destruct (_ && _);
        [injection H as <- <-; eexists; rewrite <- app_assoc; reflexivity |].
      apply IH in H as (rest & ->). eexists. rewrite <- !app_assoc. reflexivity.
    + rewrite inline_loop_done in H by exact Hge. injection H as <- <-.
      exists []. rewrite app_nil_r. reflexivity.
Qed.

Lemma inline_do_download_run device settings fuel xferSize data tolerant h :
  let clear := answerOut device h (class_setup settings DFU.CLRSTATUS 0) None in
  let h0 := h ++ [EvControlOut (class_setup settings DFU.CLRSTATUS 0) None clear] in
  Inline.do_download device settings fuel xferSize data tolerant h
  = match clear with
    | inl e => (Throw e, h0)
    | inr _ =>
        match Inline.download_loop device settings fuel xferSize data 0 0 h0 with
        | (Ret blockNum, h1) =>
            let final := answerOut device h1 (class_setup settings DFU.DNLOAD blockNum) None in
            (match final with inl e => Throw e | inr _ => Ret tt end,
             h1 ++ [EvControlOut (class_setup settings DFU.DNLOAD blockNum) None final])
        | (Throw e, h1) => (Throw e, h1)
        | (Hang l, h1) => (Hang l, h1)
        end
    end.
Proof.
  cbv zeta. unfold Inline.do_download, try_catch.
  unfold bind at 1. unfold controlTransferOut at 1.
  destruct (answerOut device h _ None) as [e | clear]; [reflexivity |].
  unfold bind at 1.
  destruct (Inline.download_loop device settings fuel xferSize data 0 0 _)
    as [[blockNum | e | l] h1]; try reflexivity.
  unfold bind, controlTransferOut.
  destruct (answerOut device h1 _ None) as [e | final]; reflexivity.
Qed.

(** X13.  The download of the first page's own DFU class, with a chunk
    size of at least 1.  It starts with CLRSTATUS; it sends the image in the
    same pieces as [DfuDevice.do_download] but numbers them from 0, so the
    first piece goes out as block 0; a call that returns has sent all of
    them and, last, a DNLOAD with the next number and no data stage.  It
    never looks at the status of a transfer: with a device that rejects no
    transfer and whose status answers are empty or start with a zero byte,
    it returns normally, whatever the transfers' statuses were. *)
Theorem inline_do_download_spec device settings fuel xferSize data tolerant h :
  1 <= xferSize ->
  let run := Inline.do_download device settings fuel xferSize data tolerant h in
  let n := block_count data xferSize in
  (exists clear rest,
      snd run = h ++ EvControlOut (class_setup settings DFU.CLRSTATUS 0) None clear :: rest) /\
  (exists m, dnloads (snd run) = dnloads h ++ take m (data_blocks xferSize data 0)) /\
  (fst run = Ret tt ->
   dnloads (snd run) = dnloads h ++ data_blocks xferSize data 0 /\
   exists final,
     last (snd run)
     = Some (EvControlOut (class_setup settings DFU.DNLOAD (Z.of_nat n)) None final)) /\
  (never_complains device -> (n <= fuel)%nat -> fst run = Ret tt).
Proof.
  intros HS. cbv zeta. rewrite inline_do_download_run. cbv zeta.
  set (n := block_count data xferSize).
  set (clear := answerOut device h (class_setup settings DFU.CLRSTATUS 0) None).
  set (h0 := h ++ [EvControlOut (class_setup settings DFU.CLRSTATUS 0) None clear]).
  assert (Hh0 : dnloads h0 = dnloads h) by (apply dnloads_quiet; reflexivity).
  assert (Htake : forall m, (m <= n)%nat ->
                            map (data_block xferSize data 0) (seq 0 m)
                            = take m (data_blocks xferSize data 0)).
  { intros m Hm. unfold data_blocks. fold n.
    rewrite firstn_map, take_seq. f_equal. f_equal. lia. }
  pose proof (fun hh r h1 =>
                inline_loop_blocks device settings xferSize data HS fuel 0 hh r h1
                  ltac:(lia)) as Hloop.
  rewrite Z.mul_0_l, Z.min_l in Hloop by (unfold byteLength; lia).
  change (Z.of_nat 0) with 0 in Hloop.
  split; [| split; [| split]].
  - destruct clear as [e | res] eqn:Hc.
    + exists (inl e), []. reflexivity.
    + destruct (Inline.download_loop device settings fuel xferSize data 0 0 h0)
        as [[b | e | l] h1] eqn:El;
        destruct (inline_loop_appends device settings xferSize data _ _ _ _ _ _ El)
          as (rest & ->);
        cbn [snd]; unfold h0; eexists; eexists; rewrite <- !app_assoc; reflexivity.
  - destruct clear as [e | res] eqn:Hc.
    + exists 0%nat. cbn [snd take]. rewrite app_nil_r. exact Hh0.
    + destruct (Inline.download_loop device settings fuel xferSize data 0 0 h0)
        as [[b | e | l] h1] eqn:El;
        destruct (Hloop _ _ _ El) as (m & Hm & Hd & _); exists m; cbn [snd];
        rewrite <- Htake by (cbn in Hm; lia); try rewrite dnloads_quiet by reflexivity;
        rewrite Hd, Hh0; reflexivity.
  - destruct clear as [e | res] eqn:Hc; [discriminate |].
    destruct (Inline.download_loop device settings fuel xferSize data 0 0 h0)
      as [[b | e | l] h1] eqn:El; try discriminate.
    destruct (Hloop _ _ _ El) as (m & Hm & Hd & Hr).
    destruct (Hr b eq_refl) as [Hmn ->]. cbn [Nat.add] in Hmn. subst m.
    cbn [fst snd]. intros _. split.
    + rewrite dnloads_quiet by reflexivity. rewrite Hd, Hh0. reflexivity.
    + eexists. rewrite last_snoc. reflexivity.
  - intros Hquiet Hfuel.
    destruct (proj1 Hquiet h (class_setup settings DFU.CLRSTATUS 0) None) as (res & Hres).
    fold clear in Hres. rewrite Hres.
    destruct (inline_loop_completes device settings xferSize data Hquiet HS fuel 0 h0
                ltac:(lia) ltac:(fold n; lia)) as (h1 & El).
    rewrite Z.mul_0_l, Z.min_l in El by (unfold byteLength; lia).
    change (Z.of_nat 0) with 0 in El. rewrite El.
    destruct (proj1 Hquiet h1 (class_setup settings DFU.DNLOAD
                                 (Z.of_nat (block_count data xferSize))) None)
      as (final & ->).
    reflexivity.
Qed.

Lemma inline_do_download_spec_witness :
  never_complains stalling /\
  fst (Inline.do_download stalling dfuse_settings 3 4 (image 10) false []) = Ret tt /\
  map fst (dnloads (snd (Inline.do_download stalling dfuse_settings 3 4 (image 10) false [])))
  = [0; 1; 2].
Proof.
  assert (Hquiet : never_complains stalling).
  { split; intros; eexists; [reflexivity | split; [reflexivity | left; reflexivity]]. }
  split; [exact Hquiet |]. split; [| vm_compute; reflexivity].
  refine (proj2 (proj2 (proj2 (inline_do_download_spec stalling dfuse_settings 3 4 (image 10)
                                 false [] _))) Hquiet _).
  - lia.
  - vm_compute. lia.
Defined.

(** ** The end of a download *)

(** X14.  The manifestation phase of [do_download].  Once every data
    block has been acknowledged with status 0 and the device has accepted
    the closing empty block, a tolerant download polls for dfuIDLE and
    returns if the status it ends on is 0, otherwise throws "DFU MANIFEST
    failed state=<state> status=<status>" built from that status (a failed
    or endless poll is passed on); a download that is not tolerant reads
    the status once and returns, whatever the read gives. *)
Theorem do_download_manifest device settings fuel xferSize data firstBlock h h0 h1 written h2 :
  1 <= xferSize ->
  (block_count data xferSize <= fuel)%nat ->
  abortToIdle device settings h = (Ret tt, h0) ->
  blocks_acknowledged device settings fuel xferSize data (default 2 firstBlock)
    (block_count data xferSize) (h0 ++ [EvProgress 0 (byteLength data)]) h1 ->
  requestOut device settings DFU.DNLOAD (Some [])
    (default 2 firstBlock + Z.of_nat (block_count data xferSize)) h1 = (Ret written, h2) ->
  do_download device settings fuel xferSize data true firstBlock h
  = match pollUntil device settings fuel STATE.dfuIDLE h2 with
    | (Ret fin, h3) =>
        (if status fin =? 0
         then Ret tt
         else Throw (ErrorObj ("DFU MANIFEST failed state=" +:+ show_number (state fin)
                               +:+ " status=" +:+ show_number (status fin))), h3)
    | (Throw e, h3) => (Throw e, h3)
    | (Hang l, h3) => (Hang l, h3)
    end /\
  do_download device settings fuel xferSize data false firstBlock h
  = (Ret tt, snd (getStatus device settings h2)).
Proof.
  intros HS Hfuel Habort Hack Hfinal.
  set (n := block_count data xferSize) in *.
  destruct (download_loop_resume _ _ _ _ _ _ _ _ _ HS Hack) as [Hresume _].
  assert (Hloop : download_loop device settings fuel fuel xferSize data 0 (default 2 firstBlock)
                    (h0 ++ [EvProgress 0 (byteLength data)])
                  = (Ret (default 2 firstBlock + Z.of_nat n), h1)).
  { replace fuel with (n + (fuel - n))%nat at 2 by lia.
    rewrite Hresume. apply download_loop_done.
    destruct (Z.lt_ge_cases (Z.of_nat n * xferSize) (byteLength data)) as [C | C]; [| lia].
    apply block_count_lt in C; [fold n in C; lia | exact HS]. }
  assert (Hhead : forall tolerant,
             do_download device settings fuel xferSize data tolerant firstBlock h
             = (if tolerant
                then fin <- pollUntil device settings fuel STATE.dfuIDLE ;;
                     (if negb (status fin =? 0) then throw (manifest_failed fin) else ret tt)
                else try_catch (getStatus device settings ;;; ret tt) (fun _ => ret tt)) h2).
  { intros tolerant. unfold do_download.
    rewrite (bind_run _ _ _ _ _ Habort).
    unfold bind at 1. cbn [logProgress].
    rewrite (bind_run _ _ _ _ _ Hloop).
    change (ArrayBuffer 0) with (@nil byte).
    rewrite (bind_run _ _ _ _ _ Hfinal). reflexivity. }
  split.
  - rewrite Hhead. unfold bind.
    destruct (pollUntil device settings fuel STATE.dfuIDLE h2) as [[fin | e | l] h3];
      try reflexivity.
    destruct (status fin =? 0); reflexivity.
  - rewrite Hhead. unfold try_catch, bind.
    destruct (getStatus device settings h2) as [[st | e | l] h3] eqn:E; try reflexivity.
    exfalso. exact (hangs_getStatus (fun _ => False) _ _ _ _ _ E).
Qed.

Lemma do_download_manifest_witness :
  exists h',
    do_download (simulated healthy) dfuse_settings 3 4 (image 6) true None [] = (Ret tt, h') /\
    map fst (class_requests h')
    = [DFU.ABORT; DFU.GETSTATE;
       DFU.DNLOAD; DFU.GETSTATUS; DFU.GETSTATUS;
       DFU.DNLOAD; DFU.GETSTATUS; DFU.GETSTATUS;
       DFU.DNLOAD; DFU.GETSTATUS; DFU.GETSTATUS].
Proof.
  eexists. split.
  - refine (eq_trans
              (proj1 (do_download_manifest (simulated healthy) dfuse_settings 3 4 (image 6)
                        None [] _ _ _ _ _ _ _ _ _)) _).
    + lia.
    + vm_compute. lia.
    + vm_compute. reflexivity.
    + change (block_count (image 6) 4) with 2%nat.
      eapply acknowledged_next; [eapply acknowledged_next; [apply acknowledged_none | ..] | ..].
      * vm_compute. reflexivity.
      * vm_compute. reflexivity.
      * reflexivity.
      * vm_compute. reflexivity.
      * vm_compute. reflexivity.
      * reflexivity.
    + vm_compute. reflexivity.
    + vm_compute. reflexivity.
  - vm_compute. reflexivity.
Defined.

(** ** Running against the simulated device *)

Lemma sim_run_snoc cfg h ev : sim_run cfg (h ++ [ev]) = sim_step cfg (sim_run cfg h) ev.
Proof. unfold sim_run. rewrite fold_left_app. reflexivity. Qed.

Lemma sim_inv_step cfg s ev : sim_inv s -> sim_inv (sim_step cfg s ev).
Proof.
  unfold sim_inv. intros Hs.
  destruct ev as [setup data ans | setup len ans | ms | done total]; cbn [sim_step];
    try exact Hs.
  - destruct (requestType setup); try exact Hs.
    destruct (request setup =? DFU.CLRSTATUS); [reflexivity |].
    destruct (sim_state s =? STATE.dfuERROR); [exact Hs |].
    destruct (request setup =? DFU.ABORT); [reflexivity |].
    destruct (request setup =? DFU.DNLOAD); [| exact Hs].
    destruct data as [[| b d] |]; try discriminate.
    destruct (cfg_fault cfg) as [[blk code] |]; [| discriminate].
    destruct (value setup =? blk); [reflexivity | discriminate].
  - destruct (requestType setup); try exact Hs.
    destruct (request setup =? DFU.GETSTATUS); [| exact Hs].
    cbn [sim_state sim_busy]. intros E. rewrite (Hs E). reflexivity.
Qed.

Lemma sim_inv_run cfg h : sim_inv (sim_run cfg h).
Proof.
  induction h as [| ev h IH] using rev_ind.
  - intros _. reflexivity.
  - rewrite sim_run_snoc. apply sim_inv_step, IH.
Qed.

Lemma sim_not_gone cfg h : cfg_unplug_at cfg = None -> sim_gone cfg h = false.
Proof. intros H. unfold sim_gone. rewrite H. reflexivity. Qed.

Lemma sim_requestOut cfg settings request data value h :
  cfg_unplug_at cfg = None ->
  requestOut (simulated cfg) settings request data value h
  = (Ret (from_option byteLength 0 data),
     h ++ [EvControlOut (class_setup settings request value) data
             (inr {| out_status := status_ok;
                     bytesWritten := from_option byteLength 0 data |})]).
Proof.
  intros Hu. unfold requestOut, bind, controlTransferOut. cbn [simulated answerOut].
  rewrite (sim_not_gone _ _ Hu). reflexivity.
Qed.

Lemma sim_getState cfg settings h :
  cfg_unplug_at cfg = None ->
  exists ev,
    getState (simulated cfg) settings h
    = (Ret (sim_reported_state (sim_run cfg h) mod 256), h ++ [ev]) /\
    sim_run cfg (h ++ [ev]) = sim_run cfg h.
Proof.
  intros Hu. eexists. split.
  - unfold getState, requestIn, bind, controlTransferIn. cbn [simulated answerIn].
    rewrite (sim_not_gone _ _ Hu). cbn [class_setup requestType request].
    cbn [Z.eqb DFU.GETSTATE Pos.eqb is_ok in_status in_data].
    unfold ret. cbv beta iota. rewrite getUint8_head.
    change (byte_at [?b] 0) with (byte_to_Z b).
    rewrite byte_of_Z_value. reflexivity.
  - rewrite sim_run_snoc. reflexivity.
Qed.

Lemma sim_getStatus cfg settings h :
  cfg_unplug_at cfg = None ->
  exists ev st,
    getStatus (simulated cfg) settings h = (Ret st, h ++ [ev]) /\
    status st = sim_status (sim_run cfg h) mod 256 /\
    state st = sim_reported_state (sim_run cfg h) mod 256 /\
    sim_run cfg (h ++ [ev])
    = {| sim_state := sim_state (sim_run cfg h);
         sim_status := sim_status (sim_run cfg h);
         sim_busy := pred (sim_busy (sim_run cfg h));
         sim_busy_state := sim_busy_state (sim_run cfg h) |}.
Proof.
  intros Hu. rewrite getStatus_run. cbn [simulated answerIn].
  rewrite (sim_not_gone _ _ Hu). cbn [class_setup requestType request].
  cbn [Z.eqb DFU.GETSTATE DFU.GETSTATUS Pos.eqb is_ok in_status in_data].
  set (s := sim_run cfg h).
  set (d := [byte_of_Z (sim_status s); _; _; _; byte_of_Z (sim_reported_state s); x00]).
  change (5 <=? byteLength d) with true. cbv iota.
  eexists. exists (decode_status d). split; [reflexivity |].
  split; [| split].
  - unfold decode_status. cbn [status]. subst d.
    change (byte_at (?b :: _) 0) with (byte_to_Z b). apply byte_of_Z_value.
  - unfold decode_status. cbn [state]. subst d.
    change (byte_at [_; _; _; _; ?b; _] 4) with (byte_to_Z b). apply byte_of_Z_value.
  - rewrite sim_run_snoc. reflexivity.
Qed.

Lemma pollUntil_loop_terminal device settings fuel target st h :
  state st = target ->
  pollUntil_loop device settings fuel target st h = (Ret st, h).
Proof.
  intros <-. destruct fuel; cbn [pollUntil_loop]; rewrite Z.eqb_refl; reflexivity.
Qed.

Lemma pollUntil_unfold device settings fuel target h :
  pollUntil device settings (S fuel) target h
  = match getStatus device settings h with
    | (Ret st, h1) =>
        if negb (state st =? target) && negb (state st =? STATE.dfuERROR)
        then pollUntil device settings fuel target (h1 ++ [EvSleep (pollTimeout st)])
        else (Ret st, h1)
    | (Throw e, h1) => (Throw e, h1)
    | (Hang l, h1) => (Hang l, h1)
    end.
Proof.
  unfold pollUntil. unfold bind at 1.
  destruct (getStatus device settings h) as [[st | e | l] h1]; try reflexivity.
  cbn [pollUntil_loop].
  destruct (negb (state st =? target) && negb (state st =? STATE.dfuERROR)).
  - unfold bind at 1. cbn [sleep]. reflexivity.
  - destruct fuel; cbn [pollUntil_loop]; reflexivity.
Qed.

(** Polling the simulated device: after [sim_busy] reads that show the
    busy state, the read that shows the state it settles in. *)
Lemma sim_pollUntil cfg settings target busy_state status0 :
  cfg_unplug_at cfg = None ->
  0 <= target < 256 ->
  0 <= busy_state < 256 ->
  busy_state <> target ->
  busy_state <> STATE.dfuERROR ->
  forall b fuel h,
    sim_run cfg h
    = {| sim_state := target; sim_status := status0; sim_busy := b;
         sim_busy_state := busy_state |} ->
    (b <= fuel)%nat ->
    exists st h',
      pollUntil (simulated cfg) settings fuel target h = (Ret st, h') /\
      state st = target /\
      status st = status0 mod 256 /\
      sim_run cfg h'
      = {| sim_state := target; sim_status := status0; sim_busy := 0;
           sim_busy_state := busy_state |}.
Proof.
  intros Hu Ht Hb Hne Herr.
  induction b as [| b IH]; intros fuel h Hs Hfuel.
  - destruct (sim_getStatus cfg settings h Hu) as (ev & st & Hget & Hstatus & Hstate & Hrun).
    rewrite Hs in Hstatus, Hstate, Hrun.
    cbn [sim_status sim_reported_state sim_busy sim_state sim_busy_state pred] in *.
    rewrite Z.mod_small in Hstate by exact Ht.
    exists st, (h ++ [ev]). unfold pollUntil. rewrite (bind_run _ _ _ _ _ Hget).
    rewrite pollUntil_loop_terminal by exact Hstate.
    repeat split; assumption.
  - destruct fuel as [| fuel]; [lia |].
    destruct (sim_getStatus cfg settings h Hu) as (ev & st & Hget & Hstatus & Hstate & Hrun).
    rewrite Hs in Hstatus, Hstate, Hrun.
    cbn [sim_status sim_reported_state sim_busy sim_state sim_busy_state pred] in *.
    rewrite Z.mod_small in Hstate by exact Hb.
    rewrite pollUntil_unfold, Hget, Hstate.
    replace (negb (busy_state =? target) && negb (busy_state =? STATE.dfuERROR)) with true.
    2:{ symmetry. apply andb_true_intro.
        split; apply negb_true_iff, Z.eqb_neq; assumption. }
    apply IH; [| lia].
    rewrite sim_run_snoc, Hrun. reflexivity.
Qed.

Lemma sim_abortToIdle cfg settings h :
  cfg_unplug_at cfg = None ->
  exists h',
    abortToIdle (simulated cfg) settings h = (Ret tt, h') /\
    sim_run cfg h' = sim_settle STATE.dfuIDLE 0.
Proof.
  intros Hu. unfold abortToIdle.
  rewrite (bind_run _ _ _ _ _ (sim_requestOut cfg settings DFU.ABORT None 0 h Hu)).
  set (h1 := h ++ [_]).
  assert (Hs1 : sim_run cfg h1
                = if sim_state (sim_run cfg h) =? STATE.dfuERROR
                  then sim_run cfg h else sim_settle STATE.dfuIDLE 0).
  { unfold h1. rewrite sim_run_snoc. reflexivity. }
  destruct (sim_getState cfg settings h1 Hu) as (ev1 & Hget1 & Hrun1).
  rewrite (bind_run _ _ _ _ _ Hget1).
  destruct (Z.eqb_spec (sim_state (sim_run cfg h)) STATE.dfuERROR) as [Herr | Hok].
  - pose proof (sim_inv_run cfg h Herr) as Hbusy.
    assert (Hrep : sim_reported_state (sim_run cfg h1) = STATE.dfuERROR).
    { rewrite Hs1. unfold sim_reported_state. rewrite Hbusy. exact Herr. }
    rewrite Hrep. change (STATE.dfuERROR mod 256 =? STATE.dfuERROR) with true. cbv iota.
    rewrite bind_assoc.
    rewrite (bind_run _ _ _ _ _
               (sim_requestOut cfg settings DFU.CLRSTATUS None 0 (h1 ++ [ev1]) Hu)).
    set (h2 := (h1 ++ [ev1]) ++ [_]).
    assert (Hs2 : sim_run cfg h2 = sim_settle STATE.dfuIDLE 0).
    { unfold h2. rewrite sim_run_snoc. reflexivity. }
    destruct (sim_getState cfg settings h2 Hu) as (ev2 & Hget2 & Hrun2).
    rewrite (bind_run _ _ _ _ _ Hget2). rewrite Hs2.
    exists (h2 ++ [ev2]). split; [reflexivity |]. rewrite Hrun2. exact Hs2.
  - assert (Hrep : sim_reported_state (sim_run cfg h1) = STATE.dfuIDLE)
      by (rewrite Hs1; reflexivity).
    rewrite Hrep. change (STATE.dfuIDLE mod 256 =? STATE.dfuERROR) with false. cbv iota.
    unfold bind at 1. cbn [ret].
    exists (h1 ++ [ev1]). split; [reflexivity |]. rewrite Hrun1. exact Hs1.
Qed.

(** A block with data, taken by a device that has no error latched. *)
Lemma sim_dnloadBlock cfg settings fuel data blockNum h :
  conforming cfg ->
  data <> [] ->
  sim_state (sim_run cfg h) <> STATE.dfuERROR ->
  (cfg_busy_polls cfg <= fuel)%nat ->
  exists st h',
    dnloadBlock (simulated cfg) settings fuel data blockNum h = (Ret st, h') /\
    status st = 0 /\
    sim_state (sim_run cfg h') = STATE.dfuDNLOAD_IDLE.
Proof.
  intros [Hfault Hu] Hdata Hok Hfuel. unfold dnloadBlock.
  rewrite (bind_run _ _ _ _ _
             (sim_requestOut cfg settings DFU.DNLOAD (Some data) blockNum h Hu)).
  set (h1 := h ++ [_]).
  assert (Hs1 : sim_run cfg h1 = sim_working cfg STATE.dfuDNLOAD_IDLE STATE.dfuDNBUSY).
  { unfold h1. rewrite sim_run_snoc. cbn [sim_step class_setup requestType request].
    change (DFU.DNLOAD =? DFU.CLRSTATUS) with false. cbv iota.
    replace (sim_state (sim_run cfg h) =? STATE.dfuERROR) with false
      by (symmetry; apply Z.eqb_neq; exact Hok).
    change (DFU.DNLOAD =? DFU.ABORT) with false.
    change (DFU.DNLOAD =? DFU.DNLOAD) with true. cbv iota.
    destruct data as [| b d]; [contradiction |]. rewrite Hfault. reflexivity. }
  destruct (sim_pollUntil cfg settings STATE.dfuDNLOAD_IDLE STATE.dfuDNBUSY 0 Hu
              ltac:(unfold STATE.dfuDNLOAD_IDLE; lia) ltac:(unfold STATE.dfuDNBUSY; lia)
              ltac:(discriminate) ltac:(discriminate)
              (cfg_busy_polls cfg) fuel h1 Hs1 Hfuel)
    as (st & h' & Hpoll & _ & Hstatus & Hrun).
  exists st, h'. split; [exact Hpoll |]. split; [exact Hstatus |].
  rewrite Hrun. reflexivity.
Qed.

(** The empty block that ends the image, and the wait for manifestation. *)
Lemma sim_finish cfg settings fuel blockNum h :
  conforming cfg ->
  sim_state (sim_run cfg h) <> STATE.dfuERROR ->
  (cfg_busy_polls cfg <= fuel)%nat ->
  exists written h1 st h',
    requestOut (simulated cfg) settings DFU.DNLOAD (Some []) blockNum h = (Ret written, h1) /\
    pollUntil (simulated cfg) settings fuel STATE.dfuIDLE h1 = (Ret st, h') /\
    status st = 0 /\
    sim_state (sim_run cfg h') = STATE.dfuIDLE.
Proof.
  intros [Hfault Hu] Hok Hfuel.
  pose proof (sim_requestOut cfg settings DFU.DNLOAD (Some []) blockNum h Hu) as Hout.
  set (h1 := h ++ [_]) in Hout.
  assert (Hs1 : sim_run cfg h1 = sim_working cfg STATE.dfuIDLE STATE.dfuMANIFEST).
  { unfold h1. rewrite sim_run_snoc. cbn [sim_step class_setup requestType request].
    change (DFU.DNLOAD =? DFU.CLRSTATUS) with false. cbv iota.
    replace (sim_state (sim_run cfg h) =? STATE.dfuERROR) with false
      by (symmetry; apply Z.eqb_neq; exact Hok).
    reflexivity. }
  destruct (sim_pollUntil cfg settings STATE.dfuIDLE STATE.dfuMANIFEST 0 Hu
              ltac:(unfold STATE.dfuIDLE; lia) ltac:(unfold STATE.dfuMANIFEST; lia)
              ltac:(discriminate) ltac:(discriminate)
              (cfg_busy_polls cfg) fuel h1 Hs1 Hfuel)
    as (st & h' & Hpoll & _ & Hstatus & Hrun).
  eexists. exists h1, st, h'. split; [exact Hout |]. split; [exact Hpoll |].
  split; [exact Hstatus |]. rewrite Hrun. reflexivity.
Qed.

Lemma sim_download_loop cfg settings pollFuel xferSize view firstBlock :
  conforming cfg ->
  1 <= xferSize ->
  (cfg_busy_polls cfg <= pollFuel)%nat ->
  forall fuel k h,
    (k <= block_count view xferSize)%nat ->
    (block_count view xferSize <= k + fuel)%nat ->
    sim_state (sim_run cfg h) <> STATE.dfuERROR ->
    exists h',
      download_loop (simulated cfg) settings pollFuel fuel xferSize view
        (Z.min (Z.of_nat k * xferSize) (byteLength view)) (firstBlock + Z.of_nat k) h
      = (Ret (firstBlock + Z.of_nat (block_count view xferSize)), h') /\
      sim_state (sim_run cfg h') <> STATE.dfuERROR.
Proof.
  intros Hcfg HS Hpoll. set (n := block_count view xferSize). set (L := byteLength view).
  assert (Hend : L <= Z.of_nat n * xferSize).
  { destruct (Z.lt_ge_cases (Z.of_nat n * xferSize) L) as [C | C]; [| exact C].
    apply block_count_lt in C; [fold n in C; lia | exact HS]. }
  induction fuel as [| fuel IH]; intros k h Hk Hfuel Hok.
  - assert (k = n) as -> by lia.
    exists h. rewrite Z.min_r by lia. rewrite download_loop_done by (fold L; lia).
    split; [reflexivity | exact Hok].
  - destruct (Z.lt_ge_cases (Z.of_nat k * xferSize) L) as [Hlt | Hge].
    + pose proof (proj1 (block_count_lt xferSize view k HS) Hlt) as Hkn. fold n in Hkn.
      rewrite Z.min_l by lia. rewrite download_loop_step by exact Hlt.
      rewrite slice_chunk by assumption.
      assert (Hchunk : chunk xferSize view k <> []).
      { pose proof (chunk_length xferSize view k HS Hkn) as [Hlen _].
        intros E. rewrite E in Hlen. unfold byteLength in Hlen. cbn in Hlen. lia. }
      destruct (sim_dnloadBlock cfg settings pollFuel (chunk xferSize view k)
                  (firstBlock + Z.of_nat k) h Hcfg Hchunk Hok Hpoll)
        as (st & h1 & -> & -> & Hs1).
      change (0 =? 0) with true. cbv iota.
      replace (Z.of_nat k * xferSize + Z.min xferSize (byteLength view - Z.of_nat k * xferSize))
        with (Z.min (Z.of_nat (S k) * xferSize) (byteLength view)) by (fold L; lia).
      replace (firstBlock + Z.of_nat k + 1) with (firstBlock + Z.of_nat (S k)) by lia.
      apply IH; [lia | lia |].
      rewrite sim_run_snoc. cbn [sim_step]. rewrite Hs1. discriminate.
    + assert (~ (k < n)%nat) by (intros C; apply block_count_lt in C; unfold L in *; lia).
      assert (k = n) as -> by lia.
      exists h. rewrite Z.min_r by lia. rewrite download_loop_done by (fold L; lia).
      split; [reflexivity | exact Hok].
Qed.

Lemma sim_do_download cfg settings fuel xferSize data tolerant firstBlock h :
  conforming cfg ->
  1 <= xferSize ->
  (block_count data xferSize <= fuel)%nat ->
  (cfg_busy_polls cfg <= fuel)%nat ->
  exists h',
    do_download (simulated cfg) settings fuel xferSize data tolerant firstBlock h
    = (Ret tt, h') /\
    sim_state (sim_run cfg h') <> STATE.dfuERROR.
Proof.
  intros Hcfg HS Hblocks Hpolls. pose proof Hcfg as [_ Hu]. unfold do_download.
  destruct (sim_abortToIdle cfg settings h Hu) as (h0 & Habort & Hs0).
  rewrite (bind_run _ _ _ _ _ Habort).
  unfold bind at 1. cbn [logProgress].
  destruct (sim_download_loop cfg settings fuel xferSize data (default 2 firstBlock)
              Hcfg HS Hpolls fuel 0 (h0 ++ [EvProgress 0 (byteLength data)])
              ltac:(lia) ltac:(lia)) as (h1 & Hloop & Hs1).
  { rewrite sim_run_snoc. cbn [sim_step]. rewrite Hs0. discriminate. }
  rewrite Z.mul_0_l, Z.min_l, Z.add_0_r in Hloop by (unfold byteLength; lia).
  rewrite (bind_run _ _ _ _ _ Hloop).
  change (ArrayBuffer 0) with (@nil byte).
  destruct (sim_finish cfg settings fuel
              (default 2 firstBlock + Z.of_nat (block_count data xferSize)) h1
              Hcfg Hs1 Hpolls) as (written & h2 & fin & h3 & Hout & Hpoll & Hstatus & Hs3).
  rewrite (bind_run _ _ _ _ _ Hout).
  destruct tolerant.
  - rewrite (bind_run _ _ _ _ _ Hpoll), Hstatus. exists h3. split; [reflexivity |].
    rewrite Hs3. discriminate.
  - unfold try_catch.
    destruct (sim_getStatus cfg settings h2 Hu) as (ev & st & Hget & _ & _ & Hrun).
    rewrite (bind_run _ _ _ _ _ Hget). exists (h2 ++ [ev]). split; [reflexivity |].
    rewrite Hrun. cbn [sim_state].
    assert (Hs2 : sim_run cfg h2 = sim_working cfg STATE.dfuIDLE STATE.dfuMANIFEST).
    { rewrite sim_requestOut in Hout by exact Hu. injection Hout as _ <-.
      rewrite sim_run_snoc. cbn [sim_step class_setup requestType request].
      change (DFU.DNLOAD =? DFU.CLRSTATUS) with false. cbv iota.
      replace (sim_state (sim_run cfg h1) =? STATE.dfuERROR) with false
        by (symmetry; apply Z.eqb_neq; exact Hs1).
      reflexivity. }
    rewrite Hs2. discriminate.
Qed.

(** X15.  Against a device that follows the DFU state machine (it takes
    every request, reports busy for a fixed number of status reads after each
    block and during manifestation, never faults and is never unplugged),
    whatever requests it has seen before and whatever state it starts in, a
    latched error included: [do_download] with a chunk size of at least 1
    and fuel for every block and every wait delivers the whole image, block
    by block and closed by the empty block, and returns. *)
Theorem do_download_completes cfg settings fuel xferSize data tolerant firstBlock h :
  conforming cfg ->
  1 <= xferSize ->
  (block_count data xferSize <= fuel)%nat ->
  (cfg_busy_polls cfg <= fuel)%nat ->
  let run := do_download (simulated cfg) settings fuel xferSize data tolerant firstBlock h in
  fst run = Ret tt /\
  dnloads (snd run) = dnloads h ++ expected_dnloads xferSize data (default 2 firstBlock).
Proof.
  intros Hcfg HS Hblocks Hpolls. cbv zeta.
  destruct (sim_do_download cfg settings fuel xferSize data tolerant firstBlock h
              Hcfg HS Hblocks Hpolls) as (h' & Hrun & _).
  rewrite Hrun. split; [reflexivity |]. cbn [snd].
  destruct (do_download_dnloads _ _ _ _ _ _ _ _ _ _ HS Hrun) as (m & Hd & Hm).
  rewrite Hd, (Hm eq_refl). f_equal. apply take_ge.
  unfold expected_dnloads, data_blocks.
  rewrite length_app, length_map, length_seq. cbn [length]. lia.
Qed.

Lemma do_download_completes_witness :
  fst (do_download (simulated latched) dfuse_settings 3 4 (image 10) true None []) = Ret tt /\
  map fst (dnloads (snd (do_download (simulated latched) dfuse_settings 3 4 (image 10)
                           true None [])))
  = [2; 3; 4; 5].
Proof.
  split; [| vm_compute; reflexivity].
  refine (proj1 (do_download_completes latched dfuse_settings 3 4 (image 10) true None []
                   _ _ _ _)).
  - split; reflexivity.
  - lia.
  - vm_compute. lia.
  - vm_compute. lia.
Defined.

Lemma dnloads_appends {A} (c : Eff History A) h r h' :
  appends housekeeping c -> c h = (r, h') -> dnloads h' = dnloads h.
Proof.
  intros Hc H. destruct (Hc _ _ _ H) as (evs & -> & F).
  rewrite dnloads_app, (dnloads_housekeeping _ F). apply app_nil_r.
Qed.

Lemma sim_vendor_command cfg settings fuel opcode addr failure h :
  conforming cfg ->
  (cfg_busy_polls cfg <= fuel)%nat ->
  exists h',
    vendor_command_steps (simulated cfg) settings fuel opcode addr failure h = (Ret tt, h') /\
    dnloads h' = dnloads h ++ [(0, command_bytes opcode addr)].
Proof.
  intros Hcfg Hpolls. pose proof Hcfg as [_ Hu].
  destruct (sim_abortToIdle cfg settings h Hu) as (h0 & Habort & Hs0).
  destruct (sim_dnloadBlock cfg settings fuel (command_bytes opcode addr) 0 h0 Hcfg
              ltac:(discriminate) ltac:(rewrite Hs0; discriminate) Hpolls)
    as (st & h1 & Hblock & Hstatus & _).
  exists h1. split.
  - exact (vendor_command_after_abort _ _ _ _ _ _ _ _ _ _ Habort Hblock Hstatus).
  - destruct (dnloadBlock_events _ _ _ _ _ _ _ _ Hblock) as (ans & evs & -> & F).
    rewrite dnloads_block by exact F.
    rewrite (dnloads_appends _ _ _ _ (housekeeping_abortToIdle _ _) Habort). reflexivity.
Qed.

Lemma sim_dfuseErase cfg settings fuel addr h :
  conforming cfg -> (cfg_busy_polls cfg <= fuel)%nat ->
  exists h', dfuseErase (simulated cfg) settings fuel addr h = (Ret tt, h') /\
             dnloads h' = dnloads h ++ [(0, command_bytes 65 addr)].
Proof.
  intros Hcfg Hpolls. unfold dfuseErase. rewrite (vendor_command_run _ _ _ 65 _ erase_failed).
  apply sim_vendor_command; assumption.
Qed.

Lemma sim_dfuseSetAddress cfg settings fuel addr h :
  conforming cfg -> (cfg_busy_polls cfg <= fuel)%nat ->
  exists h', dfuseSetAddress (simulated cfg) settings fuel addr h = (Ret tt, h') /\
             dnloads h' = dnloads h ++ [(0, command_bytes 33 addr)].
Proof.
  intros Hcfg Hpolls. unfold dfuseSetAddress.
  rewrite (vendor_command_run _ _ _ 33 _ setaddr_failed).
  apply sim_vendor_command; assumption.
Qed.

Lemma sim_getTransferSize cfg settings h :
  cfg_unplug_at cfg = None ->
  cfg_descriptor cfg = dfuse_descriptor ->
  exists h', getTransferSize (simulated cfg) settings h = (Ret 2048, h') /\
             dnloads h' = dnloads h.
Proof.
  intros Hu Hdesc.
  assert (Hrep : reports_descriptors (simulated cfg) settings h dfuse_records).
  { exists (take 4 dfuse_descriptor), (take 9 dfuse_descriptor).
    cbn [simulated answerIn]. rewrite !(sim_not_gone _ _ Hu), Hdesc.
    repeat split; try reflexivity; vm_compute; discriminate. }
  assert (Hwf : Forall well_formed dfuse_records)
    by (repeat constructor; vm_compute; congruence).
  pose proof (getTransferSize_encoded _ _ _ _ Hrep Hwf) as Hsize.
  destruct (getTransferSize (simulated cfg) settings h) as [r h'] eqn:E.
  cbn [fst] in Hsize. subst r. exists h'. split.
  - f_equal. f_equal.
    unfold dfuse_records. cbn [advertised_size bDescriptorType Z.eqb Pos.eqb].
    destruct (selects settings _); reflexivity.
  - exact (dnloads_appends _ _ _ _ (housekeeping_getTransferSize _ _) E).
Qed.

Lemma sim_do_download_blocks cfg settings fuel data h :
  conforming cfg ->
  (block_count data 2048 <= fuel)%nat ->
  (cfg_busy_polls cfg <= fuel)%nat ->
  exists h',
    do_download (simulated cfg) settings fuel 2048 data true (Some 2) h = (Ret tt, h') /\
    dnloads h' = dnloads h ++ expected_dnloads 2048 data 2.
Proof.
  intros Hcfg Hblocks Hpolls.
  destruct (sim_do_download cfg settings fuel 2048 data true (Some 2) h Hcfg ltac:(lia)
              Hblocks Hpolls) as (h' & Hrun & _).
  exists h'. split; [exact Hrun |].
  destruct (do_download_dnloads (simulated cfg) settings fuel 2048 data true (Some 2) h
              (Ret tt) h' ltac:(lia) Hrun) as (m & Hd & Hm).
  rewrite Hd, (Hm eq_refl). f_equal. apply take_ge.
  unfold expected_dnloads, data_blocks.
  rewrite length_app, length_map, length_seq. cbn [length]. lia.
Qed.

Lemma sim_flashWithRetry cfg settings fuel data h :
  conforming cfg ->
  (block_count data 2048 <= fuel)%nat ->
  (cfg_busy_polls cfg <= fuel)%nat ->
  exists h',
    flashWithRetry (do_download (simulated cfg) settings fuel) data h = (Ret true, h') /\
    dnloads h' = dnloads h ++ expected_dnloads 2048 data 2.
Proof.
  intros Hcfg Hblocks Hpolls.
  destruct (sim_do_download_blocks cfg settings fuel data h Hcfg Hblocks Hpolls)
    as (h' & Hrun & Hd).
  exists h'. split; [| exact Hd]. unfold flashWithRetry, transferSizes.
  cbn [flashWithRetry_loop].
  rewrite bool_decide_eq_false_2 by set_solver. rewrite Hrun. reflexivity.
Qed.

Lemma sim_writeWithFallback cfg settings fuel data rest h :
  conforming cfg ->
  (block_count data 2048 <= fuel)%nat ->
  (cfg_busy_polls cfg <= fuel)%nat ->
  exists h',
    FirstSizeLadder.writeWithFallback (do_download (simulated cfg) settings fuel) data
      (2048 :: rest) h = (Ret true, h') /\
    dnloads h' = dnloads h ++ expected_dnloads 2048 data 2.
Proof.
  intros Hcfg Hblocks Hpolls.
  destruct (sim_do_download_blocks cfg settings fuel data h Hcfg Hblocks Hpolls)
    as (h' & Hrun & Hd).
  exists h'. split; [| exact Hd]. unfold FirstSizeLadder.writeWithFallback.
  cbn [FirstSizeLadder.writeWithFallback_loop].
  rewrite bool_decide_eq_false_2 by set_solver. rewrite Hrun. reflexivity.
Qed.

Lemma dnloads_getState device settings h :
  dnloads (snd (getState device settings h)) = dnloads h.
Proof.
  destruct (getState device settings h) as [r h'] eqn:E.
  exact (dnloads_appends _ _ _ _ (housekeeping_getState _ _) E).
Qed.

(** ** A flashing run always ends *)

Lemma costs_weaken {A} m n m' n' (c : Eff History A) :
  costs m n c -> (m' <= m)%nat -> (n' <= n)%nat -> costs m' n' c.
Proof.
  intros Hc Hm Hn h r h' H. destruct (Hc _ _ _ H) as (evs & -> & R & G).
  exists evs. split; [reflexivity |]. split.
  - intros a Ha. specialize (R a Ha). lia.
  - intros l Hl. specialize (G l Hl). lia.
Qed.

(** Code without a loop of its own. *)
Lemma costs_straight {A} P n (c : Eff History A) :
  appends P c -> hangs_in (fun _ => False) c -> costs 0 n c.
Proof.
  intros Ha Hh h r h' H. destruct (Ha _ _ _ H) as (evs & -> & _).
  exists evs. split; [reflexivity |]. split; [intros; lia |].
  intros l ->. contradiction (Hh _ _ _ H).
Qed.

Lemma costs_bind {A B} m1 n1 m2 n2 (c : Eff History A) (k : A -> Eff History B) :
  costs m1 n1 c -> (forall a, costs m2 n2 (k a)) ->
  costs (m1 + m2) (Nat.min n1 (m1 + n2)) (bind c k).
Proof.
  intros Hc Hk h r h' H. unfold bind in H.
  destruct (c h) as [[a | e | l] h1] eqn:E; destruct (Hc _ _ _ E) as (evs & -> & R & G).
  - destruct (Hk a _ _ _ H) as (evs' & -> & R' & G').
    specialize (R a eq_refl).
    exists (evs ++ evs'). rewrite app_assoc, transfers_app. split; [reflexivity |]. split.
    + intros b Hb. specialize (R' b Hb). lia.
    + intros l Hl. specialize (G' l Hl). lia.
  - injection H as <- <-. exists evs. split; [reflexivity |]. split; intros; discriminate.
  - injection H as <- <-. exists evs. split; [reflexivity |]. split; [intros; discriminate |].
    intros l' Hl. specialize (G l eq_refl). lia.
Qed.

Lemma costs_try_catch {A} n (c : Eff History A) (k : Thrown -> Eff History A) :
  costs 0 n c -> (forall e, costs 0 n (k e)) -> costs 0 n (try_catch c k).
Proof.
  intros Hc Hk h r h' H. unfold try_catch in H.
  destruct (c h) as [[a | e | l] h1] eqn:E; destruct (Hc _ _ _ E) as (evs & -> & R & G).
  - injection H as <- <-. exists evs. split; [reflexivity |]. split; [intros; lia |].
    intros; discriminate.
  - destruct (Hk e _ _ _ H) as (evs' & -> & R' & G').
    exists (evs ++ evs'). rewrite app_assoc, transfers_app. split; [reflexivity |].
    split; [intros; lia |]. intros l Hl. specialize (G' l Hl). lia.
  - injection H as <- <-. exists evs. split; [reflexivity |]. split; [intros; discriminate |].
    intros l' Hl. specialize (G l eq_refl). lia.
Qed.

Lemma costs_ret {A} n (a : A) : costs 0 n (ret a).
Proof.
  intros h r h' [= <- <-]. exists []. rewrite app_nil_r. split; [reflexivity |].
  split; [intros; cbn; lia | intros; discriminate].
Qed.

Lemma costs_throw {A} n e : costs 0 n (@throw History A e).
Proof.
  intros h r h' [= <- <-]. exists []. rewrite app_nil_r. split; [reflexivity |].
  split; intros; discriminate.
Qed.

(** A status read that returns is one transfer. *)
Lemma costs_getStatus device settings n : costs 1 n (getStatus device settings).
Proof.
  intros h r h' H. rewrite getStatus_run in H. injection H as <- <-.
  eexists. split; [reflexivity |]. split; [intros; cbn; lia |].
  intros l Hl. destruct (answerIn device h _ 6) as [e | res]; [discriminate |].
  destruct (is_ok (in_status res)); [| discriminate].
  destruct (5 <=? byteLength (in_data res)); discriminate.
Qed.

Lemma costs_requestOut device settings request data value n :
  costs 1 n (requestOut device settings request data value).
Proof.
  intros h r h' H. unfold requestOut, bind, controlTransferOut in H.
  exists [EvControlOut (class_setup settings request value) data
            (answerOut device h (class_setup settings request value) data)].
  destruct (answerOut device h _ data) as [e | res].
  - injection H as <- <-. split; [reflexivity |]. split; intros; discriminate.
  - destruct (is_ok (out_status res)); injection H as <- <-;
      (split; [reflexivity |]); (split; [intros; cbn; lia | intros; discriminate]).
Qed.

(** The poll loop gives up only after [fuel] more status reads. *)
Lemma costs_pollUntil_loop device settings target :
  forall fuel st, costs 0 fuel (pollUntil_loop device settings fuel target st).
Proof.
  induction fuel as [| fuel IH]; intros st; cbn [pollUntil_loop];
    destruct (negb (state st =? target) && negb (state st =? STATE.dfuERROR));
    try apply costs_ret.
  - intros h r h' [= <- <-]. exists []. rewrite app_nil_r. split; [reflexivity |].
    split; [intros; discriminate | intros; cbn; lia].
  - eapply costs_weaken;
      [apply (costs_bind 0 (S fuel) 1 (S fuel));
       [apply (costs_straight housekeeping);
        [apply housekeeping_sleep | apply hangs_sleep]
       | intros _; eapply costs_weaken;
         [apply (costs_bind 1 (S fuel) 0 fuel); [apply costs_getStatus | apply IH]
         | lia | lia]]
      | lia | lia].
Qed.

Lemma costs_pollUntil device settings fuel target :
  costs 1 fuel (pollUntil device settings fuel target).
Proof.
  unfold pollUntil. eapply costs_weaken.
  - apply (costs_bind 1 fuel 0 fuel); [apply costs_getStatus | apply costs_pollUntil_loop].
  - lia.
  - lia.
Qed.

Lemma costs_dnloadBlock device settings fuel data blockNum :
  costs 1 fuel (dnloadBlock device settings fuel data blockNum).
Proof.
  unfold dnloadBlock. eapply costs_weaken.
  - apply (costs_bind 1 fuel 1 fuel); [apply costs_requestOut |].
    intros _. apply costs_pollUntil.
  - lia.
  - lia.
Qed.

Lemma costs_abortToIdle device settings n : costs 0 n (abortToIdle device settings).
Proof.
  apply (costs_straight housekeeping);
    [apply housekeeping_abortToIdle | apply hangs_abortToIdle].
Qed.

Lemma costs_vendor_command device settings fuel opcode addr failure :
  costs 0 fuel
    (b <- command_buffer opcode addr ;;
     abortToIdle device settings ;;;
     st <- dnloadBlock device settings fuel b 0 ;;
     if negb (status st =? 0) then throw (failure st) else ret tt).
Proof.
  eapply costs_weaken;
    [apply (costs_bind 0 fuel 0 fuel) | lia | lia].
  { intros h r h' H. rewrite command_buffer_run in H. injection H as <- <-.
    exists []. rewrite app_nil_r. split; [reflexivity |].
    split; [intros; cbn; lia | intros; discriminate]. }
  intros b. eapply costs_weaken;
    [apply (costs_bind 0 fuel 0 fuel); [apply costs_abortToIdle |] | lia | lia].
  intros _. eapply costs_weaken;
    [apply (costs_bind 1 fuel 0 fuel); [apply costs_dnloadBlock |] | lia | lia].
  intros st. destruct negb; [apply costs_throw | apply costs_ret].
Qed.

(** The block loop gives up only after [fuel] blocks or, inside a block,
    [pollFuel] status reads. *)
Lemma costs_download_loop device settings pollFuel xferSize view :
  forall fuel sent block,
    costs 0 (Nat.min pollFuel fuel)
      (download_loop device settings pollFuel fuel xferSize view sent block).
Proof.
  induction fuel as [| fuel IH]; intros sent block; cbn [download_loop];
    (destruct (sent <? byteLength view); [| apply costs_ret]).
  - intros h r h' [= <- <-]. exists []. rewrite app_nil_r. split; [reflexivity |].
    split; [intros; discriminate | intros; cbn; lia].
  - eapply costs_weaken;
      [apply (costs_bind 1 pollFuel 0 (Nat.min pollFuel fuel));
       [apply costs_dnloadBlock |]
      | lia | lia].
    intros st. destruct negb; [apply costs_throw |].
    eapply costs_weaken;
      [apply (costs_bind 0 (Nat.min pollFuel fuel) 0 (Nat.min pollFuel fuel));
       [apply (costs_straight (fun _ => True));
        [intros h r h' [= <- <-]; eexists; split; [reflexivity | repeat constructor]
        | apply hangs_logProgress]
       | intros _; apply IH]
      | lia | lia].
Qed.

Lemma costs_do_download device settings fuel xferSize data tolerant firstBlock :
  costs 0 fuel (do_download device settings fuel xferSize data tolerant firstBlock).
Proof.
  unfold do_download.
  eapply costs_weaken;
    [apply (costs_bind 0 fuel 0 fuel); [apply costs_abortToIdle |] | lia | lia].
  intros _. eapply costs_weaken;
    [apply (costs_bind 0 fuel 0 fuel) | lia | lia].
  { apply (costs_straight (fun _ => True)); [| apply hangs_logProgress].
    intros h r h' [= <- <-]. eexists. split; [reflexivity | repeat constructor]. }
  intros _. eapply costs_weaken;
    [apply (costs_bind 0 fuel 0 fuel) | lia | lia].
  { eapply costs_weaken; [apply costs_download_loop | lia | lia]. }
  intros block. eapply costs_weaken;
    [apply (costs_bind 1 fuel 0 fuel); [apply costs_requestOut |] | lia | lia].
  intros _. destruct tolerant.
  - eapply costs_weaken;
      [apply (costs_bind 1 fuel 0 fuel); [apply costs_pollUntil |] | lia | lia].
    intros fin. destruct negb; [apply costs_throw | apply costs_ret].
  - apply costs_try_catch; [| intros; apply costs_ret].
    eapply costs_weaken;
      [apply (costs_bind 1 fuel 0 fuel); [apply costs_getStatus | intros; apply costs_ret]
      | lia | lia].
Qed.

Section LadderCosts.
Variable download : Z -> list byte -> bool -> option Z -> Eff History unit.
Variable n : nat.
Hypothesis download_costs : forall s data, costs 0 n (download s data true (Some 2)).

Lemma costs_after_ladder lastErr : costs 0 n (@after_ladder History lastErr).
Proof. unfold after_ladder. destruct disconnected; [apply costs_ret | apply costs_throw]. Qed.

(** One rung: the download, then whatever the ladder does with its
    outcome, which sends nothing by itself. *)
Lemma costs_rung {B} s data (next : Outcome unit -> Eff History B) :
  (forall r, costs 0 n (next r)) ->
  costs 0 n (fun h => let '(r, h1) := download s data true (Some 2) h in
                      match r with
                      | Hang l => (Hang l, h1)
                      | _ => next r h1
                      end).
Proof.
  intros Hnext h r h' H.
  destruct (download s data true (Some 2) h) as [r1 h1] eqn:E.
  destruct (download_costs s data _ _ _ E) as (evs & -> & _ & G).
  destruct r1 as [[] | e | l].
  - destruct (Hnext _ _ _ _ H) as (evs' & -> & _ & G').
    exists (evs ++ evs'). rewrite app_assoc, transfers_app. split; [reflexivity |].
    split; [intros; lia |]. intros l Hl. specialize (G' l Hl). lia.
  - destruct (Hnext _ _ _ _ H) as (evs' & -> & _ & G').
    exists (evs ++ evs'). rewrite app_assoc, transfers_app. split; [reflexivity |].
    split; [intros; lia |]. intros l Hl. specialize (G' l Hl). lia.
  - injection H as <- <-. exists evs. split; [reflexivity |]. split; [intros; lia |].
    intros l' _. exact (G l eq_refl).
Qed.

Lemma costs_flashWithRetry_loop data :
  forall sizes tried lastErr,
    costs 0 n (flashWithRetry_loop download data sizes tried lastErr).
Proof.
  induction sizes as [| s rest IH]; intros tried lastErr; cbn [flashWithRetry_loop].
  - apply costs_after_ladder.
  - destruct (bool_decide (s ∈ tried)); [apply IH |].
    intros h r h' H.
    refine (costs_rung s data
              (fun r1 =>
                 match r1 with
                 | Throw e =>
                     if disconnected e
                     then if mostly_done data then ret true
                          else if 1 <? Z.of_nat (size ({[s]} ∪ tried)) then ret true
                               else flashWithRetry_loop download data rest ({[s]} ∪ tried) e
                     else flashWithRetry_loop download data rest ({[s]} ∪ tried) e
                 | _ => ret true
                 end) _ h r h' _).
    + intros [[] | e | l]; try apply costs_ret.
      destruct (disconnected e); [| apply IH].
      destruct (mostly_done data); [apply costs_ret |].
      destruct (1 <? _); [apply costs_ret | apply IH].
    + rewrite <- H. destruct (download s data true (Some 2) h) as [[[] | e | l] h1];
        try reflexivity.
      destruct (disconnected e); [| reflexivity].
      destruct (mostly_done data); [reflexivity |].
      destruct (1 <? _); reflexivity.
Qed.

Lemma costs_first_size_loop first data :
  forall sizes tried lastErr,
    costs 0 n (FirstSizeLadder.writeWithFallback_loop download first data sizes tried lastErr).
Proof.
  induction sizes as [| s rest IH]; intros tried lastErr;
    cbn [FirstSizeLadder.writeWithFallback_loop].
  - apply costs_after_ladder.
  - destruct (bool_decide (s ∈ tried)); [apply IH |].
    intros h r h' H.
    refine (costs_rung s data
              (fun r1 =>
                 match r1 with
                 | Throw e =>
                     if disconnected e
                     then if bool_decide (Some s = first)
                          then FirstSizeLadder.writeWithFallback_loop download first data rest
                                 ({[s]} ∪ tried) e
                          else if 1 <? Z.of_nat (size ({[s]} ∪ tried)) then ret true
                               else FirstSizeLadder.writeWithFallback_loop download first data
                                      rest ({[s]} ∪ tried) e
                     else FirstSizeLadder.writeWithFallback_loop download first data rest
                            ({[s]} ∪ tried) e
                 | _ => ret true
                 end) _ h r h' _).
    + intros [[] | e | l]; try apply costs_ret.
      destruct (disconnected e); [| apply IH].
      destruct (bool_decide (Some s = first)); [apply IH |].
      destruct (1 <? _); [apply costs_ret | apply IH].
    + rewrite <- H. destruct (download s data true (Some 2) h) as [[[] | e | l] h1];
        try reflexivity.
      destruct (disconnected e); [| reflexivity].
      destruct (bool_decide (Some s = first)); [reflexivity |].
      destruct (1 <? _); reflexivity.
Qed.
End LadderCosts.

(** On a ticking clock, time passes with every transfer. *)
Lemma elapsed_transfers clock evs :
  ticking clock -> forall h, Z.of_nat (transfers evs) <= elapsed clock h evs.
Proof.
  intros Htick. induction evs as [| ev evs IH]; intros h; cbn [elapsed transfers]; [lia |].
  specialize (IH (h ++ [ev])). pose proof (duration_nonneg clock h ev) as Hd.
  destruct ev as [setup data ans | setup len ans | ms | done total]; try lia.
  - pose proof (Htick h (EvControlOut setup data ans) eq_refl). unfold duration in *. lia.
  - pose proof (Htick h (EvControlIn setup len ans) eq_refl). unfold duration in *. lia.
Qed.

(** Under a timer no longer than the fuel, an operation never stays
    undecided. *)
Lemma withTimeout_settles {A} clock (c : Eff History A) n timeoutMs operation :
  ticking clock -> timeoutMs <= Z.of_nat n -> costs 0 n c ->
  hangs_in (fun _ => False) (withTimeout clock c timeoutMs operation).
Proof.
  intros Htick Hn Hc h l h' H.
  apply withTimeout_cases in H as [[H Hin] | (r0 & h0 & _ & _ & C & _)]; [| discriminate C].
  destruct (Hc _ _ _ H) as (evs & -> & _ & G). specialize (G l eq_refl).
  rewrite drop_app_length in Hin.
  pose proof (elapsed_transfers clock evs Htick h). lia.
Qed.

Lemma never_hangs_probe {A} device settings (a b : A) :
  hangs_in (fun _ => False)
    (try_catch (getState device settings ;;; ret a) (fun _ => ret b)).
Proof.
  apply hangs_try_catch; [| intros; apply hangs_ret].
  apply hangs_bind; [apply hangs_getState | intros; apply hangs_ret].
Qed.

Lemma never_hangs_detach device settings :
  hangs_in (fun _ => False)
    (try_catch (requestOut device settings 0 (Some (ArrayBuffer 0)) 1000 ;;; ret tt)
       (fun _ => ret tt)).
Proof.
  apply hangs_try_catch; [| intros; apply hangs_ret].
  apply hangs_bind; [apply hangs_requestOut | intros; apply hangs_ret].
Qed.

Lemma never_hangs_flash_body clock device settings fuel pandaBuffer bootstubBuffer :
  ticking clock -> 45000 <= Z.of_nat fuel ->
  hangs_in (fun _ => False)
    (flash_body clock device settings fuel pandaBuffer bootstubBuffer).
Proof.
  intros Htick Hfuel. unfold flash_body.
  assert (Hcmd : forall opcode addr failure T operation,
             T <= 45000 ->
             hangs_in (fun _ => False)
               (withTimeout clock
                  (b <- command_buffer opcode addr ;;
                   abortToIdle device settings ;;;
                   st <- dnloadBlock device settings fuel b 0 ;;
                   if negb (status st =? 0) then throw (failure st) else ret tt)
                  T operation)).
  { intros. apply (withTimeout_settles clock _ fuel); [exact Htick | lia |].
    apply costs_vendor_command. }
  assert (Hladder : forall data T operation,
             T <= 45000 ->
             hangs_in (fun _ => False)
               (withTimeout clock (flashWithRetry (do_download device settings fuel) data)
                  T operation)).
  { intros. apply (withTimeout_settles clock _ fuel); [exact Htick | lia |].
    apply costs_flashWithRetry_loop. intros. apply costs_do_download. }
  apply hangs_bind; [apply hangs_getTransferSize |]. intros transferSize.
  apply hangs_bind; [apply Hcmd; lia |]. intros _.
  apply hangs_bind; [apply Hcmd; lia |]. intros _.
  apply hangs_bind; [apply Hcmd; lia |]. intros _.
  apply hangs_bind; [apply Hcmd; lia |]. intros _.
  apply hangs_bind; [apply Hladder; lia |]. intros pandaSuccess.
  apply hangs_bind; [destruct negb; [apply hangs_throw | apply hangs_ret] |]. intros _.
  apply hangs_bind; [apply hangs_sleep |]. intros _.
  apply hangs_bind; [apply never_hangs_probe |]. intros _.
  apply hangs_bind; [apply Hcmd; lia |]. intros _.
  apply hangs_bind; [apply Hcmd; lia |]. intros _.
  apply hangs_bind; [apply Hladder; lia |]. intros bootstubSuccess.
  apply hangs_bind; [destruct negb; [apply hangs_throw | apply hangs_ret] |]. intros _.
  apply never_hangs_detach.
Qed.

Lemma never_hangs_first_size_flash_body clock device settings fuel pandaBuffer
    bootstubBuffer :
  ticking clock -> 45000 <= Z.of_nat fuel ->
  hangs_in (fun _ => False)
    (FirstSizeLadder.flash_body clock device settings fuel pandaBuffer bootstubBuffer).
Proof.
  intros Htick Hfuel. unfold FirstSizeLadder.flash_body.
  assert (Hcmd : forall opcode addr failure T operation,
             T <= 45000 ->
             hangs_in (fun _ => False)
               (withTimeout clock
                  (b <- command_buffer opcode addr ;;
                   abortToIdle device settings ;;;
                   st <- dnloadBlock device settings fuel b 0 ;;
                   if negb (status st =? 0) then throw (failure st) else ret tt)
                  T operation)).
  { intros. apply (withTimeout_settles clock _ fuel); [exact Htick | lia |].
    apply costs_vendor_command. }
  assert (Hladder : forall data sizes T operation,
             T <= 45000 ->
             hangs_in (fun _ => False)
               (withTimeout clock
                  (FirstSizeLadder.writeWithFallback (do_download device settings fuel)
                     data sizes)
                  T operation)).
  { intros. apply (withTimeout_settles clock _ fuel); [exact Htick | lia |].
    apply costs_first_size_loop. intros. apply costs_do_download. }
  apply hangs_bind; [apply hangs_getTransferSize |]. intros transferSize.
  apply hangs_bind; [apply Hcmd; lia |]. intros _.
  apply hangs_bind; [apply Hcmd; lia |]. intros _.
  apply hangs_bind; [apply Hcmd; lia |]. intros _.
  apply hangs_bind; [apply Hcmd; lia |]. intros _.
  apply hangs_bind; [apply Hladder; lia |]. intros pandaSuccess.
  apply hangs_bind.
  { destruct negb; [apply hangs_ret |].
    apply hangs_bind; [apply never_hangs_probe | intros; apply hangs_ret]. }
  intros failed.
  apply hangs_bind; [destruct failed; [apply hangs_throw | apply hangs_ret] |]. intros _.
  apply hangs_bind; [apply Hcmd; lia |]. intros _.
  apply hangs_bind; [apply Hcmd; lia |]. intros _.
  apply hangs_bind; [apply Hladder; lia |]. intros _.
  apply never_hangs_detach.
Qed.

(** What [flash] reports, and where it leaves the device, comes from its
    [try] block. *)
Lemma flash_report_body (body : Eff History unit) h r h' :
  try_catch (body ;;; ret FlashComplete)
    (fun e =>
       if includes (flash_errorMsg e) "timed out" then ret FlashTimedOut
       else if includes (flash_errorMsg e) "disconnected" then ret FlashLikelyCompleted
       else ret (FlashFailed (flash_errorMsg e))) h = (r, h') ->
  exists rb,
    body h = (rb, h') /\
    (r = Ret FlashComplete <-> rb = Ret tt) /\
    (forall l, r = Hang l <-> rb = Hang l) /\
    (forall operation timeoutMs, rb = Throw (timed_out operation timeoutMs) ->
                                  r = Ret FlashTimedOut) /\
    (forall e, r <> Throw e).
Proof.
  intros H. unfold try_catch, bind in H.
  destruct (body h) as [[[] | e | l] h1] eqn:E.
  - injection H as <- <-. eexists; split; [reflexivity |].
    split; [tauto |]. split; [split; discriminate |]. split; discriminate.
  - exists (Throw e). split.
    { destruct (includes (flash_errorMsg e) "timed out");
        [| destruct (includes (flash_errorMsg e) "disconnected")];
        injection H as _ <-; reflexivity. }
    split; [| split; [| split]].
    + destruct (includes (flash_errorMsg e) "timed out");
        [| destruct (includes (flash_errorMsg e) "disconnected")];
        injection H as <- _; split; discriminate.
    + destruct (includes (flash_errorMsg e) "timed out");
        [| destruct (includes (flash_errorMsg e) "disconnected")];
        injection H as <- _; split; discriminate.
    + intros operation timeoutMs [= ->].
      destruct (timed_out_message operation timeoutMs) as (m & Em & Hm & Hi).
      rewrite Em in H. cbn [flash_errorMsg] in H.
      destruct m as [| ch m]; [contradiction |]. rewrite Hi in H.
      injection H as <- _. reflexivity.
    + destruct (includes (flash_errorMsg e) "timed out");
        [| destruct (includes (flash_errorMsg e) "disconnected")];
        injection H as <- _; discriminate.
  - injection H as <- <-. eexists; split; [reflexivity |].
    split; [split; discriminate |]. split; [| split; discriminate].
    intros l'. split; intros [= ->]; reflexivity.
Qed.

Lemma flash_reports (body : Eff History unit) h :
  hangs_in (fun _ => False) body ->
  exists report,
    fst (try_catch (body ;;; ret FlashComplete)
           (fun e =>
              if includes (flash_errorMsg e) "timed out" then ret FlashTimedOut
              else if includes (flash_errorMsg e) "disconnected" then ret FlashLikelyCompleted
              else ret (FlashFailed (flash_errorMsg e))) h) = Ret report.
Proof.
  intros Hbody.
  destruct (try_catch _ _ h) as [r h'] eqn:H.
  destruct (flash_report_body _ _ _ _ H) as (rb & E & _ & Hh & _ & Ht).
  destruct r as [report | e | l]; cbn [fst].
  - eexists; reflexivity.
  - contradiction (Ht e eq_refl).
  - contradiction (Hbody _ _ _ (eq_trans E (f_equal (fun x => (x, h')) (proj1 (Hh l) eq_refl)))).
Qed.

(** An operation that outlasts its timer. *)
Lemma withTimeout_late {A} clock (c : Eff History A) timeoutMs operation h :
  timeoutMs <= elapsed clock h (drop (length h) (snd (c h))) ->
  exists h', withTimeout clock c timeoutMs operation h
             = (Throw (timed_out operation timeoutMs), h').
Proof.
  intros Hlate. unfold withTimeout. destruct (c h) as [r1 h1]. cbn [snd] in Hlate.
  destruct (Z.ltb_spec (elapsed clock h (drop (length h) h1)) timeoutMs); [lia |].
  eexists. reflexivity.
Qed.

(** X8.  A flashing run always ends, and always in a report.  It never
    rejects: the [catch] of [flash] turns every error into a report.  It
    never waits forever: every loop it runs (the status polls, the block
    loop of a download) runs under one of the timers of [withTimeout], the
    longest of them 45000 ms.  In the model: on a clock on which every
    control transfer takes at least a millisecond, with fuel for 45000 turns
    of any loop, the second and the third version of [flash] return a
    report from any history.  And the timers are real: when the first erase
    takes 10000 ms or longer, the report is that the flash timed out. *)
Theorem flash_settles clock device settings fuel pandaBuffer bootstubBuffer h :
  ticking clock ->
  45000 <= Z.of_nat fuel ->
  let second := flash clock device settings fuel pandaBuffer bootstubBuffer h in
  let third :=
    FirstSizeLadder.flash clock device settings fuel pandaBuffer bootstubBuffer h in
  (exists report, fst second = Ret report) /\
  (exists report, fst third = Ret report) /\
  (forall transferSize h0,
      getTransferSize device settings h = (Ret transferSize, h0) ->
      10000 <= elapsed clock h0
                 (drop (length h0) (snd (dfuseErase device settings fuel 0x08004000 h0))) ->
      fst second = Ret FlashTimedOut /\ fst third = Ret FlashTimedOut).
Proof.
  intros Htick Hfuel. cbv zeta. split; [| split].
  - apply flash_reports, never_hangs_flash_body; assumption.
  - apply flash_reports, never_hangs_first_size_flash_body; assumption.
  - intros transferSize h0 E0 Hlate. split.
    + destruct (flash clock device settings fuel pandaBuffer bootstubBuffer h)
        as [r h'] eqn:H. cbn [fst].
      destruct (flash_report_body _ _ _ _ H) as (rb & E & _ & _ & Ht & _).
      unfold flash_body in E. rewrite (bind_run _ _ _ _ _ E0) in E.
      destruct (withTimeout_late clock _ 10000 "Erase 0x08004000" h0 Hlate) as (h1 & E1).
      rewrite (bind_throw _ _ _ _ _ E1) in E. injection E as <- _. eapply Ht. reflexivity.
    + destruct (FirstSizeLadder.flash clock device settings fuel pandaBuffer
                  bootstubBuffer h) as [r h'] eqn:H. cbn [fst].
      destruct (flash_report_body _ _ _ _ H) as (rb & E & _ & _ & Ht & _).
      unfold FirstSizeLadder.flash_body in E. rewrite (bind_run _ _ _ _ _ E0) in E.
      destruct (withTimeout_late clock _ 10000 "Erase 0x08004000" h0 Hlate) as (h1 & E1).
      rewrite (bind_throw _ _ _ _ _ E1) in E. injection E as <- _. eapply Ht. reflexivity.
Qed.

Lemma flash_settles_witness :
  fst (flash (steady 6000) (simulated healthy) dfuse_settings (Z.to_nat 45000)
         (image 3) (image 2) [])
  = Ret FlashTimedOut.
Proof.
  refine (proj1 (proj2 (proj2 (flash_settles (steady 6000) (simulated healthy) dfuse_settings
                                 (Z.to_nat 45000) (image 3) (image 2) [] _ _))
                   2048 _ _ _)).
  - intros h ev Hev. cbn [steady latency]. rewrite Hev. lia.
  - vm_compute. discriminate.
  - vm_compute. reflexivity.
  - vm_compute. discriminate.
Defined.
(** ** Vendor commands of a run that does not complete *)










(** What had begun when a timer fired is an initial part of what the
    operation went on to do. *)
Lemma omap_take {A B} (f : A -> option B) (l : list A) k :
  exists m, omap f (take k l) = take m (omap f l).
Proof.
  revert k. induction l as [| x l IH]; intros k.
  - exists 0%nat. rewrite take_nil. reflexivity.
  - destruct k as [| k]; [exists 0%nat; reflexivity |].
    destruct (IH k) as (m & Hm). cbn [take].
    change (omap f (x :: take k l))
      with (match f x with Some y => y :: omap f (take k l) | None => omap f (take k l) end).
    change (omap f (x :: l))
      with (match f x with Some y => y :: omap f l | None => omap f l end).
    destruct (f x); [exists (S m); rewrite Hm; reflexivity | exists m; exact Hm].
Qed.










(** ** A flashing run against the simulated device, with its timers *)

Lemma surely_of_run {A} n blocks (Q : A -> Prop) (c : Eff History A) :
  (forall h, exists a h', c h = (Ret a, h') /\ Q a /\ dnloads h' = dnloads h ++ blocks) ->
  costs 0 n c ->
  surely blocks Q c.
Proof.
  intros Hrun Hc h r h' H. destruct (Hrun h) as (a & h1 & E & Ha & D).
  rewrite E in H. injection H as <- <-.
  destruct (Hc _ _ _ E) as (evs & -> & _).
  rewrite dnloads_app in D. apply app_inv_head in D.
  exists evs, a. auto.
Qed.

Lemma timely_surely {A} clock blocks (Q : A -> Prop) (c : Eff History A) :
  surely blocks Q c -> timely clock blocks Q c.
Proof.
  intros Hc h r h' H. destruct (Hc _ _ _ H) as (evs & a & -> & -> & Ha & D).
  exists evs. split; [reflexivity |]. left. split; [exists a; auto | exact D].
Qed.

Lemma timely_withTimeout {A} clock blocks (Q : A -> Prop) (c : Eff History A)
    timeoutMs operation :
  surely blocks Q c -> 5000 <= timeoutMs ->
  timely clock blocks Q (withTimeout clock c timeoutMs operation).
Proof.
  intros Hc HT h r h' H.
  apply withTimeout_cases in H as [[H _] | (r0 & h0 & H & Hlate & -> & ->)].
  - exact (timely_surely clock _ _ _ Hc _ _ _ H).
  - destruct (Hc _ _ _ H) as (evs & a & -> & _ & _ & D).
    rewrite drop_app_length in *.
    eexists. split; [reflexivity |]. right. split; [eexists; eexists; reflexivity |].
    split.
    + pose proof (begun_before_late clock evs h timeoutMs Hlate). lia.
    + destruct (begun_before_take clock evs h timeoutMs) as (k & ->).
      destruct (omap_take dnload_of evs k) as (m & Hm). exists m.
      unfold dnloads. rewrite Hm. fold (dnloads evs). rewrite D. reflexivity.
Qed.

Lemma timely_bind {A B} clock b1 b2 (Q : A -> Prop) (R : B -> Prop)
    (c : Eff History A) (k : A -> Eff History B) :
  timely clock b1 Q c -> (forall a, Q a -> timely clock b2 R (k a)) ->
  timely clock (b1 ++ b2) R (bind c k).
Proof.
  intros Hc Hk h r h' H. unfold bind in H.
  destruct (c h) as [r1 h1] eqn:E.
  destruct (Hc _ _ _ E) as (evs & -> & [[(a & -> & Ha) D] | [(op & T & ->) [Hlate (m & D)]]]).
  - destruct (Hk a Ha _ _ _ H)
      as (evs' & -> & [[Hr D'] | [Hr [Hlate (m & D')]]]).
    + exists (evs ++ evs'). rewrite app_assoc. split; [reflexivity |]. left.
      split; [exact Hr |]. rewrite dnloads_app, D, D'. reflexivity.
    + exists (evs ++ evs'). rewrite app_assoc. split; [reflexivity |]. right.
      split; [exact Hr |]. split.
      * rewrite elapsed_app. pose proof (elapsed_nonneg clock evs h). lia.
      * exists (length b1 + m)%nat. rewrite dnloads_app, D, D', take_app_add. reflexivity.
  - injection H as <- <-. exists evs. split; [reflexivity |]. right.
    split; [eexists; eexists; reflexivity |]. split; [exact Hlate |].
    exists (Nat.min m (length b1)). rewrite D.
    rewrite take_app_le by lia.
    destruct (Nat.le_ge_cases m (length b1)) as [Hle | Hge].
    + rewrite Nat.min_l by exact Hle. reflexivity.
    + rewrite Nat.min_r by exact Hge. rewrite !take_ge by lia. reflexivity.
Qed.

Section Simulated.
Variable clock : Clock.
Variable cfg : SimConfig.
Variable settings : DfuSettings.
Variable fuel : nat.
Hypothesis Hcfg : conforming cfg.
Hypothesis Hdesc : cfg_descriptor cfg = dfuse_descriptor.
Hypothesis Hpolls : (cfg_busy_polls cfg <= fuel)%nat.

Lemma surely_getTransferSize :
  surely [] (fun transferSize => transferSize = 2048) (getTransferSize (simulated cfg) settings).
Proof.
  apply (surely_of_run 0).
  - intros h. destruct (sim_getTransferSize cfg settings h (proj2 Hcfg) Hdesc) as (h' & E & D).
    exists 2048, h'. rewrite app_nil_r. auto.
  - apply (costs_straight housekeeping);
      [apply housekeeping_getTransferSize | apply hangs_getTransferSize].
Qed.

Lemma timely_erase addr timeoutMs operation :
  5000 <= timeoutMs ->
  timely clock [(0, command_bytes 65 addr)] (fun _ => True)
    (withTimeout clock (dfuseErase (simulated cfg) settings fuel addr) timeoutMs operation).
Proof.
  intros HT. apply timely_withTimeout; [| exact HT]. apply (surely_of_run fuel).
  - intros h. destruct (sim_dfuseErase cfg settings fuel addr h Hcfg Hpolls) as (h' & E & D).
    exists tt, h'. auto.
  - apply costs_vendor_command.
Qed.

Lemma timely_setAddress addr timeoutMs operation :
  5000 <= timeoutMs ->
  timely clock [(0, command_bytes 33 addr)] (fun _ => True)
    (withTimeout clock (dfuseSetAddress (simulated cfg) settings fuel addr)
       timeoutMs operation).
Proof.
  intros HT. apply timely_withTimeout; [| exact HT]. apply (surely_of_run fuel).
  - intros h.
    destruct (sim_dfuseSetAddress cfg settings fuel addr h Hcfg Hpolls) as (h' & E & D).
    exists tt, h'. auto.
  - apply costs_vendor_command.
Qed.

Lemma timely_flashWithRetry data timeoutMs operation :
  (block_count data 2048 <= fuel)%nat ->
  5000 <= timeoutMs ->
  timely clock (expected_dnloads 2048 data 2) (fun success => success = true)
    (withTimeout clock (flashWithRetry (do_download (simulated cfg) settings fuel) data)
       timeoutMs operation).
Proof.
  intros Hblocks HT. apply timely_withTimeout; [| exact HT]. apply (surely_of_run fuel).
  - intros h.
    destruct (sim_flashWithRetry cfg settings fuel data h Hcfg Hblocks Hpolls)
      as (h' & E & D).
    exists true, h'. auto.
  - apply costs_flashWithRetry_loop. intros. apply costs_do_download.
Qed.

Lemma timely_writeWithFallback data timeoutMs operation :
  (block_count data 2048 <= fuel)%nat ->
  5000 <= timeoutMs ->
  timely clock (expected_dnloads 2048 data 2) (fun success => success = true)
    (withTimeout clock
       (FirstSizeLadder.writeWithFallback (do_download (simulated cfg) settings fuel) data
          [2048; 2048; 1024; 512; 256])
       timeoutMs operation).
Proof.
  intros Hblocks HT. apply timely_withTimeout; [| exact HT]. apply (surely_of_run fuel).
  - intros h.
    destruct (sim_writeWithFallback cfg settings fuel data [2048; 1024; 512; 256] h
                Hcfg Hblocks Hpolls) as (h' & E & D).
    exists true, h'. auto.
  - apply costs_first_size_loop. intros. apply costs_do_download.
Qed.

Lemma surely_probe {A} (a b : A) :
  surely [] (fun _ => True)
    (try_catch (getState (simulated cfg) settings ;;; ret a) (fun _ => ret b)).
Proof.
  intros h r h' H.
  destruct (sim_getState cfg settings h (proj2 Hcfg)) as (ev & E & _).
  unfold try_catch in H. rewrite (bind_run _ _ _ _ _ E) in H. injection H as <- <-.
  destruct (housekeeping_getState _ _ _ _ _ E) as (evs & Heq & F).
  apply app_inv_head in Heq. subst evs.
  exists [ev], a. repeat split. apply dnloads_housekeeping, F.
Qed.

Lemma surely_detach :
  surely [] (fun _ => True)
    (try_catch (requestOut (simulated cfg) settings 0 (Some (ArrayBuffer 0)) 1000 ;;; ret tt)
       (fun _ => ret tt)).
Proof.
  intros h r h' H. rewrite detach_run in H. injection H as <- <-.
  eexists. exists tt. repeat split.
Qed.

Lemma timely_flash_body pandaBuffer bootstubBuffer :
  (block_count pandaBuffer 2048 <= fuel)%nat ->
  (block_count bootstubBuffer 2048 <= fuel)%nat ->
  timely clock (flash_dnloads pandaBuffer bootstubBuffer) (fun _ => True)
    (flash_body clock (simulated cfg) settings fuel pandaBuffer bootstubBuffer).
Proof.
  intros Hp Hb. unfold flash_body.
  replace (flash_dnloads pandaBuffer bootstubBuffer)
    with ([] ++ [(0, command_bytes 65 0x08004000)] ++ [(0, command_bytes 65 0x08008000)]
          ++ [(0, command_bytes 65 0x0800c000)] ++ [(0, command_bytes 33 0x08004000)]
          ++ expected_dnloads 2048 pandaBuffer 2 ++ [] ++ [] ++ []
          ++ [(0, command_bytes 65 0x08000000)] ++ [(0, command_bytes 33 0x08000000)]
          ++ expected_dnloads 2048 bootstubBuffer 2 ++ [] ++ [])
    by (unfold flash_dnloads; cbn [app]; rewrite !app_nil_r; reflexivity).
  eapply timely_bind; [apply timely_surely, surely_getTransferSize |]. intros ts _.
  eapply timely_bind; [apply timely_erase; lia |]. intros _ _.
  eapply timely_bind; [apply timely_erase; lia |]. intros _ _.
  eapply timely_bind; [apply timely_erase; lia |]. intros _ _.
  eapply timely_bind; [apply timely_setAddress; lia |]. intros _ _.
  eapply timely_bind; [apply timely_flashWithRetry; [exact Hp | lia] |]. intros success ->.
  cbn [negb].
  eapply timely_bind; [apply (timely_surely clock [] (fun _ => True)) |].
  { intros h r h' [= <- <-]. exists [], tt. rewrite app_nil_r. auto. }
  intros _ _.
  eapply timely_bind; [apply (timely_surely clock [] (fun _ => True)) |].
  { intros h r h' [= <- <-]. exists [EvSleep 1000], tt. auto. }
  intros _ _.
  eapply timely_bind; [apply timely_surely, surely_probe |]. intros _ _.
  eapply timely_bind; [apply timely_erase; lia |]. intros _ _.
  eapply timely_bind; [apply timely_setAddress; lia |]. intros _ _.
  eapply timely_bind; [apply timely_flashWithRetry; [exact Hb | lia] |]. intros success ->.
  cbn [negb].
  eapply timely_bind; [apply (timely_surely clock [] (fun _ => True)) |].
  { intros h r h' [= <- <-]. exists [], tt. rewrite app_nil_r. auto. }
  intros _ _. apply timely_surely, surely_detach.
Qed.

Lemma timely_first_size_flash_body pandaBuffer bootstubBuffer :
  (block_count pandaBuffer 2048 <= fuel)%nat ->
  (block_count bootstubBuffer 2048 <= fuel)%nat ->
  timely clock (flash_dnloads pandaBuffer bootstubBuffer) (fun _ => True)
    (FirstSizeLadder.flash_body clock (simulated cfg) settings fuel pandaBuffer
       bootstubBuffer).
Proof.
  intros Hp Hb. unfold FirstSizeLadder.flash_body.
  replace (flash_dnloads pandaBuffer bootstubBuffer)
    with ([] ++ [(0, command_bytes 65 0x08004000)] ++ [(0, command_bytes 65 0x08008000)]
          ++ [(0, command_bytes 65 0x0800c000)] ++ [(0, command_bytes 33 0x08004000)]
          ++ expected_dnloads 2048 pandaBuffer 2 ++ [] ++ []
          ++ [(0, command_bytes 65 0x08000000)] ++ [(0, command_bytes 33 0x08000000)]
          ++ expected_dnloads 2048 bootstubBuffer 2 ++ [])
    by (unfold flash_dnloads; cbn [app]; rewrite !app_nil_r; reflexivity).
  eapply timely_bind; [apply timely_surely, surely_getTransferSize |]. intros ts ->.
  eapply timely_bind; [apply timely_erase; lia |]. intros _ _.
  eapply timely_bind; [apply timely_erase; lia |]. intros _ _.
  eapply timely_bind; [apply timely_erase; lia |]. intros _ _.
  eapply timely_bind; [apply timely_setAddress; lia |]. intros _ _.
  eapply timely_bind; [apply timely_writeWithFallback; [exact Hp | lia] |].
  intros success ->. cbn [negb].
  eapply (timely_bind clock [] _ (fun failed => failed = false)).
  { apply timely_surely. intros h r h' H.
    unfold bind in H. rewrite reconnectIfNeeded_run in H. injection H as <- <-.
    destruct (sim_getState cfg settings h (proj2 Hcfg)) as (ev & E & _).
    rewrite E. cbn [snd].
    destruct (housekeeping_getState _ _ _ _ _ E) as (evs & Heq & F).
    apply app_inv_head in Heq. subst evs.
    exists [ev], false. repeat split. apply dnloads_housekeeping, F. }
  intros failed ->.
  eapply timely_bind; [apply (timely_surely clock [] (fun _ => True)) |].
  { intros h r h' [= <- <-]. exists [], tt. rewrite app_nil_r. auto. }
  intros _ _.
  eapply timely_bind; [apply timely_erase; lia |]. intros _ _.
  eapply timely_bind; [apply timely_setAddress; lia |]. intros _ _.
  eapply timely_bind; [apply timely_writeWithFallback; [exact Hb | lia] |]. intros _ _.
  apply timely_surely, surely_detach.
Qed.

End Simulated.

(** From the [try] block to the report. *)
Lemma timely_report clock blocks (body : Eff History unit) h :
  timely clock blocks (fun _ => True) body ->
  let run :=
    try_catch (body ;;; ret FlashComplete)
      (fun e =>
         if includes (flash_errorMsg e) "timed out" then ret FlashTimedOut
         else if includes (flash_errorMsg e) "disconnected" then ret FlashLikelyCompleted
         else ret (FlashFailed (flash_errorMsg e))) h in
  (fst run = Ret FlashComplete \/ fst run = Ret FlashTimedOut) /\
  (exists m, dnloads (snd run) = dnloads h ++ take m blocks) /\
  (fst run = Ret FlashComplete -> dnloads (snd run) = dnloads h ++ blocks) /\
  (elapsed clock h (drop (length h) (snd run)) < 5000 -> fst run = Ret FlashComplete).
Proof.
  intros Hbody. cbv zeta.
  destruct (try_catch _ _ h) as [r h'] eqn:H. cbn [fst snd].
  destruct (flash_report_body _ _ _ _ H) as (rb & E & Hc & _ & Ht & _).
  destruct (Hbody _ _ _ E)
    as (evs & -> & [[(a & -> & _) D] | [(op & T & ->) [Hlate (m & D)]]]).
  - destruct a. rewrite (proj2 Hc eq_refl). split; [left; reflexivity |].
    rewrite dnloads_app, D. split; [exists (length blocks); rewrite firstn_all; reflexivity |].
    split; reflexivity.
  - rewrite (Ht _ _ eq_refl). split; [right; reflexivity |].
    rewrite dnloads_app, D, drop_app_length.
    split; [exists m; reflexivity |]. split; [discriminate | lia].
Qed.

(** X16.  Against a bootloader that follows the DFU state machine and
    reports the DFUSe configuration descriptor, whatever it has seen before
    and whatever state it starts in, given fuel for every 2048-byte block
    and every wait: a flashing run of the second or of the third version of
    the page reports either that the flash is complete or that it timed out,
    nothing else.  What the device has received by DNLOAD when the run ends
    is an initial part of this sequence, and all of it when the report is
    that the flash is complete: the three erase commands and the address of
    the main image, the main image cut in blocks of 2048 bytes numbered from
    2 and closed by an empty block, the erase command and the address of the
    bootstub, and the bootstub image in the same form.  A run that takes
    less than 5000 ms in all (the shortest timer) is complete. *)
Theorem flash_completes clock cfg settings fuel pandaBuffer bootstubBuffer h run :
  conforming cfg ->
  cfg_descriptor cfg = dfuse_descriptor ->
  (block_count pandaBuffer 2048 <= fuel)%nat ->
  (block_count bootstubBuffer 2048 <= fuel)%nat ->
  (cfg_busy_polls cfg <= fuel)%nat ->
  run = flash clock (simulated cfg) settings fuel pandaBuffer bootstubBuffer h \/
  run = FirstSizeLadder.flash clock (simulated cfg) settings fuel pandaBuffer
          bootstubBuffer h ->
  (fst run = Ret FlashComplete \/ fst run = Ret FlashTimedOut) /\
  (exists m, dnloads (snd run)
             = dnloads h ++ take m (flash_dnloads pandaBuffer bootstubBuffer)) /\
  (fst run = Ret FlashComplete ->
   dnloads (snd run) = dnloads h ++ flash_dnloads pandaBuffer bootstubBuffer) /\
  (elapsed clock h (drop (length h) (snd run)) < 5000 -> fst run = Ret FlashComplete).
Proof.
  intros Hcfg Hdesc Hp Hb Hpolls [-> | ->].
  - exact (timely_report clock _ _ h
             (timely_flash_body clock cfg settings fuel Hcfg Hdesc Hpolls _ _ Hp Hb)).
  - exact (timely_report clock _ _ h
             (timely_first_size_flash_body clock cfg settings fuel Hcfg Hdesc Hpolls _ _
                Hp Hb)).
Qed.

Lemma flash_completes_witness :
  let run := flash (steady 1) (simulated latched) dfuse_settings 3 (image 3) (image 2) [] in
  fst run = Ret FlashComplete /\ dnloads (snd run) = flash_dnloads (image 3) (image 2).
Proof.
  cbv zeta.
  destruct (flash_completes (steady 1) latched dfuse_settings 3 (image 3) (image 2) []
              (flash (steady 1) (simulated latched) dfuse_settings 3 (image 3) (image 2) []))
    as (_ & _ & Hall & Hfast).
  - split; reflexivity.
  - reflexivity.
  - vm_compute. lia.
  - vm_compute. lia.
  - vm_compute. lia.
  - left. reflexivity.
  - assert (Hdone : fst (flash (steady 1) (simulated latched) dfuse_settings 3 (image 3)
                           (image 2) []) = Ret FlashComplete)
      by (apply Hfast; vm_compute; reflexivity).
    split; [exact Hdone | exact (Hall Hdone)].
Defined.

(** ** The helper library [webdfu.js] *)

Lemma appends_wbind {A B} P (c : WebDfu.W A) (k : A -> WebDfu.W B) :
  appends P c -> (forall a, appends P (k a)) -> appends P (WebDfu.wbind c k).
Proof.
  intros Hc Hk. unfold WebDfu.wbind. apply appends_bind; [exact Hc |].
  intros [s | a]; [apply appends_ret | apply Hk].
Qed.

Lemma appends_lift {A} P (c : Eff History A) : appends P c -> appends P (WebDfu.lift c).
Proof.
  intros Hc. unfold WebDfu.lift. apply appends_bind; [exact Hc |]. intros a. apply appends_ret.
Qed.

Lemma appends_wcatch {A} P (c : WebDfu.W A) handler :
  appends P c -> (forall error, appends P (handler error)) -> appends P (WebDfu.wcatch c handler).
Proof.
  intros Hc Hk h r h' H. unfold WebDfu.wcatch in H.
  destruct (c h) as [[[s | a] | e | l] h1] eqn:E; destruct (Hc _ _ _ E) as (evs & -> & F).
  - destruct (Hk _ _ _ _ H) as (evs' & -> & F').
    exists (evs ++ evs'). rewrite app_assoc. split; [reflexivity |]. apply Forall_app; auto.
  - injection H as <- <-. eauto.
  - destruct (Hk _ _ _ _ H) as (evs' & -> & F').
    exists (evs ++ evs'). rewrite app_assoc. split; [reflexivity |]. apply Forall_app; auto.
  - injection H as <- <-. eauto.
Qed.

Lemma appends_wret {A} P (a : A) : appends P (WebDfu.wret a).
Proof. apply appends_ret. Qed.

Lemma appends_wthrow {A} P s : appends P (@WebDfu.wthrow A s).
Proof. apply appends_ret. Qed.

(** One OUT request of the library: the transfer, and what becomes of its
    answer. *)
Lemma webdfu_requestOut_run device settings bRequest data wValue h :
  WebDfu.requestOut device settings bRequest data wValue h
  = (match answerOut device h (WebDfu.class_request settings bRequest wValue) data with
     | inl e => Throw e
     | inr result =>
         if is_ok (out_status result)
         then Ret (inr (bytesWritten result))
         else Ret (inl (show_status (out_status result)))
     end,
     h ++ [EvControlOut (WebDfu.class_request settings bRequest wValue) data
             (answerOut device h (WebDfu.class_request settings bRequest wValue) data)]).
Proof.
  unfold WebDfu.requestOut, WebDfu.wbind, WebDfu.lift, bind, controlTransferOut.
  destruct (answerOut device h _ data) as [e | result]; [reflexivity |].
  cbn [ret]. destruct (is_ok (out_status result)); reflexivity.
Qed.

Lemma webdfu_requestIn_run device settings bRequest wLength wValue h :
  WebDfu.requestIn device settings bRequest wLength wValue h
  = (match answerIn device h (WebDfu.class_request settings bRequest wValue) wLength with
     | inl e => Throw e
     | inr result =>
         if is_ok (in_status result)
         then Ret (inr (in_data result))
         else Ret (inl (show_status (in_status result)))
     end,
     h ++ [EvControlIn (WebDfu.class_request settings bRequest wValue) wLength
             (answerIn device h (WebDfu.class_request settings bRequest wValue) wLength)]).
Proof.
  unfold WebDfu.requestIn, WebDfu.wbind, WebDfu.lift, bind, controlTransferIn.
  destruct (answerIn device h _ wLength) as [e | result]; [reflexivity |].
  cbn [ret]. destruct (is_ok (in_status result)); reflexivity.
Qed.

(** The library addresses the interface the page's class addresses. *)
Lemma webdfu_class_request settings bRequest wValue :
  WebDfu.class_request settings bRequest wValue
  = class_setup (settings_of settings) bRequest wValue.
Proof. reflexivity. Qed.

Lemma housekeeping_webdfu_getStatus device settings :
  appends housekeeping (WebDfu.getStatus device settings).
Proof.
  unfold WebDfu.getStatus.
  apply appends_wbind.
  { intros h r h' H. rewrite webdfu_requestIn_run in H. injection H as <- <-.
    eexists. split; [reflexivity |]. constructor; [exact I | constructor]. }
  intros d. apply appends_wbind; [apply appends_lift, appends_getUint8 |].
  intros a. apply appends_wbind; [apply appends_lift, appends_getUint32 |].
  intros t. apply appends_wbind; [apply appends_lift, appends_getUint8 |].
  intros s. apply appends_wret.
Qed.

Lemma housekeeping_webdfu_poll_until_loop device settings state_predicate :
  forall fuel st,
    appends housekeeping (WebDfu.poll_until_loop device settings fuel state_predicate st).
Proof.
  induction fuel as [| fuel IH]; intros st; cbn [WebDfu.poll_until_loop];
    destruct (negb (state_predicate (state st)) && negb (state st =? STATE.dfuERROR));
    try apply appends_wret; try apply appends_hang.
  apply appends_wbind; [apply appends_lift, housekeeping_sleep |]. intros _.
  apply appends_wbind; [apply housekeeping_webdfu_getStatus |]. intros st'. apply IH.
Qed.

Lemma housekeeping_webdfu_poll_until device settings fuel state_predicate :
  appends housekeeping (WebDfu.poll_until device settings fuel state_predicate).
Proof.
  unfold WebDfu.poll_until.
  apply appends_wbind; [apply housekeeping_webdfu_getStatus |].
  intros st. apply housekeeping_webdfu_poll_until_loop.
Qed.

Lemma hangs_wbind {A B} P (c : WebDfu.W A) (k : A -> WebDfu.W B) :
  hangs_in P c -> (forall a, hangs_in P (k a)) -> hangs_in P (WebDfu.wbind c k).
Proof.
  intros Hc Hk. unfold WebDfu.wbind. apply hangs_bind; [exact Hc |].
  intros [s | a]; [apply hangs_ret | apply Hk].
Qed.

Lemma hangs_webdfu_requestOut P device settings bRequest data wValue :
  hangs_in P (WebDfu.requestOut device settings bRequest data wValue).
Proof.
  intros h l h' H. rewrite webdfu_requestOut_run in H.
  destruct (answerOut device h _ data) as [e | result]; [discriminate |].
  destruct (is_ok (out_status result)); discriminate.
Qed.

Lemma hangs_webdfu_getStatus P device settings :
  hangs_in P (WebDfu.getStatus device settings).
Proof.
  unfold WebDfu.getStatus. apply hangs_wbind.
  { intros h l h' H. rewrite webdfu_requestIn_run in H.
    destruct (answerIn device h _ 6) as [e | result]; [discriminate |].
    destruct (is_ok (in_status result)); discriminate. }
  intros d. apply hangs_wbind.
  { unfold WebDfu.lift. apply hangs_bind; [apply hangs_getUint8 | intros; apply hangs_ret]. }
  intros a. apply hangs_wbind.
  { unfold WebDfu.lift. apply hangs_bind; [apply hangs_getUint32 | intros; apply hangs_ret]. }
  intros t. apply hangs_wbind.
  { unfold WebDfu.lift. apply hangs_bind; [apply hangs_getUint8 | intros; apply hangs_ret]. }
  intros s. apply hangs_ret.
Qed.

Lemma hangs_webdfu_poll_until_loop device settings state_predicate :
  forall fuel st,
    hangs_in (eq PollLoop) (WebDfu.poll_until_loop device settings fuel state_predicate st).
Proof.
  induction fuel as [| fuel IH]; intros st; cbn [WebDfu.poll_until_loop];
    destruct (negb (state_predicate (state st)) && negb (state st =? STATE.dfuERROR));
    try apply hangs_ret; try (apply hangs_hang; reflexivity).
  apply hangs_wbind.
  { unfold WebDfu.lift. apply hangs_bind; [apply hangs_sleep | intros; apply hangs_ret]. }
  intros _. apply hangs_wbind; [apply hangs_webdfu_getStatus |]. intros st'. apply IH.
Qed.

Lemma hangs_webdfu_poll_until device settings fuel state_predicate :
  hangs_in (eq PollLoop) (WebDfu.poll_until device settings fuel state_predicate).
Proof.
  unfold WebDfu.poll_until. apply hangs_wbind; [apply hangs_webdfu_getStatus |].
  intros st. apply hangs_webdfu_poll_until_loop.
Qed.

(** One turn of the block loop of the library. *)
Lemma webdfu_download_loop_step device settings pollFuel fuel xfer_size data bytes_sent
    transaction h :
  bytes_sent < byteLength data ->
  WebDfu.download_loop device settings pollFuel (S fuel) xfer_size data bytes_sent
    transaction h
  = let chunk := slice data bytes_sent
                   (bytes_sent + Z.min (byteLength data - bytes_sent) xfer_size) in
    let answer := answerOut device h (WebDfu.class_request settings DFU.DNLOAD transaction)
                    (Some chunk) in
    let h1 := h ++ [EvControlOut (WebDfu.class_request settings DFU.DNLOAD transaction)
                      (Some chunk) answer] in
    match answer with
    | inl e => (Throw e, h1)
    | inr result =>
        if is_ok (out_status result)
        then
          match WebDfu.poll_until_idle device settings pollFuel STATE.dfuDNLOAD_IDLE h1 with
          | (Ret (inr st), h2) =>
              if status st =? 0
              then WebDfu.download_loop device settings pollFuel fuel xfer_size data
                     (bytes_sent + bytesWritten result) (transaction + 1)
                     (h2 ++ [EvProgress (bytes_sent + bytesWritten result) (byteLength data)])
              else (Ret (inl (WebDfu.download_failed st)), h2)
          | (Ret (inl s), h2) => (Ret (inl s), h2)
          | (Throw e, h2) => (Throw e, h2)
          | (Hang l, h2) => (Hang l, h2)
          end
        else (Ret (inl (show_status (out_status result))), h1)
    end.
Proof.
  intros Hlt. cbn [WebDfu.download_loop].
  destruct (Z.ltb_spec bytes_sent (byteLength data)); [| lia].
  cbv zeta. unfold WebDfu.download, WebDfu.wbind at 1. unfold bind at 1.
  rewrite webdfu_requestOut_run.
  destruct (answerOut device h _ _) as [e | result]; [reflexivity |].
  destruct (is_ok (out_status result)); [| reflexivity].
  unfold WebDfu.wbind at 1. unfold bind at 1.
  destruct (WebDfu.poll_until_idle device settings pollFuel STATE.dfuDNLOAD_IDLE _)
    as [[[s | st] | e | l] h2]; try reflexivity.
  destruct (status st =? 0); reflexivity.
Qed.

Lemma webdfu_download_loop_done device settings pollFuel fuel xfer_size data bytes_sent
    transaction h :
  byteLength data <= bytes_sent ->
  WebDfu.download_loop device settings pollFuel fuel xfer_size data bytes_sent transaction h
  = (Ret (inr (bytes_sent, transaction)), h).
Proof.
  intros Hge. destruct fuel; cbn [WebDfu.download_loop];
    (destruct (Z.ltb_spec bytes_sent (byteLength data)); [lia | reflexivity]).
Qed.

Lemma dnloads_webdfu_block settings blockNum data ans evs h :
  Forall housekeeping evs ->
  dnloads (h ++ EvControlOut (WebDfu.class_request settings DFU.DNLOAD blockNum) (Some data) ans
             :: evs)
  = dnloads h ++ [(blockNum, data)].
Proof. rewrite webdfu_class_request. apply dnloads_block. Qed.

(** The block loop of the library against a device that reports every
    block written in full: it sends the blocks the page's class sends. *)
Lemma webdfu_download_loop_blocks device settings pollFuel xfer_size data firstBlock :
  writes_all device ->
  1 <= xfer_size ->
  forall fuel k h r h',
    (k <= block_count data xfer_size)%nat ->
    WebDfu.download_loop device settings pollFuel fuel xfer_size data
      (Z.min (Z.of_nat k * xfer_size) (byteLength data)) (firstBlock + Z.of_nat k) h
    = (r, h') ->
    exists m,
      (k + m <= block_count data xfer_size)%nat /\
      dnloads h' = dnloads h ++ map (data_block xfer_size data firstBlock) (seq k m) /\
      (forall sent, r = Ret (inr sent) ->
                    (k + m = block_count data xfer_size)%nat /\
                    snd sent = firstBlock + Z.of_nat (block_count data xfer_size)) /\
      (r = Hang DownloadLoop -> (k + fuel < block_count data xfer_size)%nat).
Proof.
  intros Hall HS. set (n := block_count data xfer_size). set (L := byteLength data).
  assert (Hdone : forall fuel k h r h',
             L <= Z.of_nat k * xfer_size -> (k <= n)%nat ->
             WebDfu.download_loop device settings pollFuel fuel xfer_size data
               (Z.min (Z.of_nat k * xfer_size) L) (firstBlock + Z.of_nat k) h = (r, h') ->
             exists m,
               (k + m <= n)%nat /\
               dnloads h' = dnloads h ++ map (data_block xfer_size data firstBlock) (seq k m) /\
               (forall sent, r = Ret (inr sent) ->
                             (k + m = n)%nat /\ snd sent = firstBlock + Z.of_nat n) /\
               (r = Hang DownloadLoop -> (k + fuel < n)%nat)).
  { intros fuel k h r h' Hge Hk H.
    rewrite Z.min_r in H by lia. rewrite webdfu_download_loop_done in H by (fold L; lia).
    injection H as <- <-. exists 0%nat. simpl. rewrite app_nil_r.
    assert (~ (k < n)%nat) by (intros C; apply block_count_lt in C; unfold L in *; lia).
    split; [lia |]. split; [reflexivity |]. split; [| discriminate].
    intros sent [= <-]. split; [lia |]. cbn [snd]. f_equal. lia. }
  induction fuel as [| fuel IH]; intros k h r h' Hk H.
  - destruct (Z.lt_ge_cases (Z.of_nat k * xfer_size) L) as [Hlt | Hge];
      [| exact (Hdone _ _ _ _ _ Hge Hk H)].
    pose proof (proj1 (block_count_lt xfer_size data k HS) Hlt) as Hkn.
    rewrite Z.min_l in H by lia. cbn [WebDfu.download_loop] in H.
    destruct (Z.ltb_spec (Z.of_nat k * xfer_size) (byteLength data)); [| unfold L in *; lia].
    injection H as <- <-. exists 0%nat. simpl. rewrite app_nil_r.
    repeat split; try discriminate; unfold n in *; lia.
  - destruct (Z.lt_ge_cases (Z.of_nat k * xfer_size) L) as [Hlt | Hge];
      [| exact (Hdone _ _ _ _ _ Hge Hk H)].
    pose proof (proj1 (block_count_lt xfer_size data k HS) Hlt) as Hkn. fold n in Hkn.
    rewrite Z.min_l in H by lia.
    rewrite webdfu_download_loop_step in H by exact Hlt. cbv zeta in H.
    rewrite (Z.min_comm (byteLength data - Z.of_nat k * xfer_size)) in H.
    rewrite slice_chunk in H by assumption.
    assert (Hone : forall ans evs,
               Forall housekeeping evs ->
               exists m,
                 (k + m <= n)%nat /\
                 dnloads ((h ++ [EvControlOut
                                   (WebDfu.class_request settings DFU.DNLOAD
                                      (firstBlock + Z.of_nat k))
                                   (Some (chunk xfer_size data k)) ans]) ++ evs)
                 = dnloads h ++ map (data_block xfer_size data firstBlock) (seq k m) /\
                 (forall sent : Z * Z,
                     @Ret (string + Z * Z) (inl "") = Ret (inr sent) ->
                     (k + m = n)%nat /\ snd sent = firstBlock + Z.of_nat n) /\
                 (@Hang (string + Z * Z) PollLoop = Hang DownloadLoop -> (k + S fuel < n)%nat)).
    { intros ans evs F. exists 1%nat. split; [lia |]. split; [| split; discriminate].
      rewrite <- app_assoc. cbn [app]. rewrite dnloads_webdfu_block by exact F. reflexivity. }
    destruct (answerOut device h _ (Some (chunk xfer_size data k))) as [e | result] eqn:Eans.
    { injection H as <- <-. destruct (Hone (inl e) [] ltac:(constructor)) as (m & ? & D & _).
      rewrite app_nil_r in D. exists m. repeat split; try discriminate; assumption. }
    destruct (is_ok (out_status result)) eqn:Eok.
    2:{ injection H as <- <-.
        destruct (Hone (inr result) [] ltac:(constructor)) as (m & ? & D & _).
        rewrite app_nil_r in D. exists m. repeat split; try discriminate; assumption. }
    assert (Hw : bytesWritten result
                 = Z.min xfer_size (byteLength data - Z.of_nat k * xfer_size)).
    { rewrite (Hall _ _ _ _ Eans) by (destruct (out_status result); [reflexivity | discriminate ..]).
      apply (chunk_length xfer_size data k HS Hkn). }
    destruct (WebDfu.poll_until_idle device settings pollFuel STATE.dfuDNLOAD_IDLE _)
      as [[[s | st] | e | l] h2] eqn:Ep;
      destruct (housekeeping_webdfu_poll_until _ _ _ _ _ _ _ Ep) as (evs & -> & F).
    + injection H as <- <-. destruct (Hone (inr result) evs F) as (m & ? & D & _).
      exists m. repeat split; try discriminate; assumption.
    + destruct (status st =? 0).
      * replace (Z.of_nat k * xfer_size + bytesWritten result)
          with (Z.min (Z.of_nat (S k) * xfer_size) (byteLength data)) in H
          by (rewrite Hw; fold L; lia).
        replace (firstBlock + Z.of_nat k + 1) with (firstBlock + Z.of_nat (S k)) in H by lia.
        apply IH in H as (m & Hm & Hd & Hr & Hh); [| lia].
        exists (S m). split; [lia |]. split; [| split].
        -- rewrite Hd, dnloads_app.
           change (dnloads [EvProgress _ _]) with (@nil (Z * list byte)).
           rewrite app_nil_r, <- app_assoc. cbn [app].
           rewrite dnloads_webdfu_block by exact F.
           rewrite <- app_assoc. reflexivity.
        -- intros sent Hs. destruct (Hr sent Hs). split; [lia | assumption].
        -- intros Hb. specialize (Hh Hb). lia.
      * injection H as <- <-. destruct (Hone (inr result) evs F) as (m & ? & D & _).
        exists m. repeat split; try discriminate; assumption.
    + injection H as <- <-. destruct (Hone (inr result) evs F) as (m & ? & D & _).
      exists m. repeat split; try discriminate; assumption.
    + injection H as <- <-.
      pose proof (hangs_webdfu_poll_until _ _ _ _ _ _ _ Ep) as <-.
      destruct (Hone (inr result) evs F) as (m & ? & D & _).
      exists m. repeat split; try discriminate; assumption.
Qed.

Lemma webdfu_do_download_dnloads device settings device_reset fuel xfer_size data tolerant
    first_block h r h' :
  writes_all device ->
  appends housekeeping device_reset ->
  1 <= xfer_size ->
  WebDfu.do_download device settings device_reset fuel xfer_size data tolerant first_block h
  = (r, h') ->
  exists m,
    dnloads h' = dnloads h
                 ++ take m (expected_dnloads xfer_size data
                              (WebDfu.first_transaction settings first_block)) /\
    (r = Ret (inr tt) -> m = S (block_count data xfer_size)).
Proof.
  intros Hall Hreset HS H. unfold WebDfu.do_download in H.
  set (fb := WebDfu.first_transaction settings first_block) in *.
  set (n := block_count data xfer_size).
  unfold WebDfu.wbind at 1, WebDfu.lift at 1, bind at 1 2 in H. cbn [logProgress ret] in H.
  unfold WebDfu.wbind at 1, bind at 1 in H.
  destruct (WebDfu.download_loop device settings fuel fuel xfer_size data 0 fb _)
    as [[[s | sent] | e | l] h2] eqn:El.
  all: pose proof (fun h0 r0 h1 =>
                     webdfu_download_loop_blocks device settings fuel xfer_size data fb Hall HS
                       fuel 0 h0 r0 h1 ltac:(lia)) as Hloop.
  all: rewrite Z.mul_0_l, Z.min_l, Z.add_0_r in Hloop by (unfold byteLength; lia).
  all: destruct (Hloop _ _ _ El) as (m & Hm & Hd & Hr & _); clear Hloop.
  all: rewrite dnloads_app in Hd.
  all: change (dnloads [EvProgress _ _]) with (@nil (Z * list byte)) in Hd.
  all: rewrite !app_nil_r in Hd.
  all: assert (map (data_block xfer_size data fb) (seq 0 m)
               = take m (expected_dnloads xfer_size data fb)) as Hpre
         by (unfold expected_dnloads, data_blocks; fold n;
             rewrite take_app_le by (rewrite length_map, length_seq; simpl in Hm; lia);
             rewrite firstn_map, take_seq; f_equal; f_equal; simpl in Hm; lia).
  1,3,4: injection H as <- <-; exists m; rewrite Hd, Hpre;
         split; [reflexivity | discriminate].
  destruct (Hr sent eq_refl) as [Hmn Hs]. simpl in Hmn. subst m. rewrite Hs in H.
  assert (forall ans evs,
             Forall housekeeping evs ->
             dnloads (h2 ++ EvControlOut (WebDfu.class_request settings DFU.DNLOAD
                                            (fb + Z.of_nat n)) (Some []) ans :: evs)
             = dnloads h ++ take (S n) (expected_dnloads xfer_size data fb)) as Hdone.
  { intros ans evs F. rewrite dnloads_webdfu_block by exact F. rewrite Hd.
    unfold expected_dnloads, data_blocks. fold n.
    rewrite take_ge by (rewrite length_app, length_map, length_seq; simpl; lia).
    rewrite app_assoc. reflexivity. }
  exists (S n). split; [| reflexivity].
  match type of H with
  | WebDfu.wbind _ (fun _ => ?rest) _ = _ =>
      assert (appends housekeeping rest) as Hfin
  end.
  { apply appends_wbind.
    - destruct tolerant.
      + apply appends_wcatch.
        * apply appends_wbind; [apply housekeeping_webdfu_poll_until |].
          intros st. destruct negb; [apply appends_wthrow | apply appends_wret].
        * intros error. destruct (_ && _); [apply appends_wthrow | apply appends_wret].
      + apply appends_wcatch.
        * apply appends_wbind; [apply housekeeping_webdfu_getStatus |].
          intros; apply appends_wret.
        * intros; apply appends_wret.
    - intros _. apply appends_wcatch; [exact Hreset |].
      intros [s | e]; [destruct (_ || _) |]; try apply appends_wthrow; apply appends_wret. }
  unfold WebDfu.wbind at 1, bind at 1 in H. unfold WebDfu.download in H.
  rewrite webdfu_requestOut_run in H. unfold ArrayBuffer in H. cbn [replicate] in H.
  change (Z.to_nat 0) with 0%nat in H. cbn [replicate] in H.
  destruct (answerOut device h2 _ (Some [])) as [e | res].
  - injection H as <- <-. apply Hdone. constructor.
  - destruct (is_ok (out_status res)).
    + apply Hfin in H as (evs & -> & F).
      rewrite <- app_assoc. apply Hdone, F.
    + injection H as <- <-. apply Hdone. constructor.
Qed.

(** The library's default first block. *)
Lemma webdfu_first_transaction_default settings :
  WebDfu.first_transaction settings None
  = if USB.interfaceProtocol (Found.alternate settings) =? 2 then 2 else 0.
Proof. reflexivity. Qed.

Lemma slice_nonempty data from count :
  0 <= from < byteLength data -> 1 <= count ->
  slice data from (from + count) <> [].
Proof.
  intros Hf Hc E. apply (f_equal (@length byte)) in E.
  unfold slice, relative_index, byteLength in *.
  repeat match type of E with
         | context [Z.ltb ?a ?b] => destruct (Z.ltb_spec a b); try lia
         end;
    rewrite ?length_take, ?length_drop in E; simpl in E; lia.
Qed.

(** The block loop of the library ends, when every block that is taken is
    reported written at least in part: by at least one byte a turn. *)
Lemma webdfu_download_loop_ends device settings pollFuel xfer_size data :
  writes_some device ->
  1 <= xfer_size ->
  forall fuel bytes_sent transaction h,
    0 <= bytes_sent ->
    byteLength data - bytes_sent <= Z.of_nat fuel ->
    fst (WebDfu.download_loop device settings pollFuel fuel xfer_size data bytes_sent
           transaction h) <> Hang DownloadLoop.
Proof.
  intros Hsome HS.
  induction fuel as [| fuel IH]; intros bytes_sent transaction h H0 Hf.
  - rewrite webdfu_download_loop_done by lia. discriminate.
  - destruct (Z.lt_ge_cases bytes_sent (byteLength data)) as [Hlt | Hge];
      [| rewrite webdfu_download_loop_done by lia; discriminate].
    rewrite webdfu_download_loop_step by exact Hlt. cbv zeta.
    destruct (answerOut device h _ _) as [e | result] eqn:Ea; [discriminate |].
    destruct (is_ok (out_status result)) eqn:Eok; [| discriminate].
    assert (1 <= bytesWritten result) as Hw.
    { apply (Hsome _ _ _ _ Ea).
      - destruct (out_status result); [reflexivity | discriminate ..].
      - apply slice_nonempty; lia. }
    destruct (WebDfu.poll_until_idle device settings pollFuel STATE.dfuDNLOAD_IDLE _)
      as [[[s | st] | e | l] h2] eqn:Ep; try discriminate.
    + destruct (status st =? 0); [| discriminate]. apply IH; lia.
    + cbn [fst]. rewrite <- (hangs_webdfu_poll_until _ _ _ _ _ _ _ Ep). discriminate.
Qed.

(** Against a device that reports no byte written, the block loop of the
    library sends the first block again and again: no number of turns ends
    it. *)
Lemma webdfu_download_loop_stuck pollFuel :
  forall fuel transaction h,
    fst (WebDfu.download_loop (agreeable 0) bootloader_settings (S pollFuel) fuel 1 [x00] 0
           transaction h) = Hang DownloadLoop.
Proof.
  induction fuel as [| fuel IH]; intros transaction h; [reflexivity |].
  rewrite webdfu_download_loop_step by (cbv; reflexivity). cbv zeta.
  cbn [agreeable answerOut is_ok out_status bytesWritten].
  match goal with
  | |- fst (match ?p with _ => _ end) = _ =>
      assert (exists h2, p = (Ret (inr {| status := 0; pollTimeout := 7; state := 5 |}), h2))
        as [h2 ->]
  end.
  { unfold WebDfu.poll_until_idle, WebDfu.poll_until, WebDfu.wbind at 1, bind at 1.
    unfold WebDfu.getStatus, WebDfu.wbind at 1, bind at 1.
    rewrite webdfu_requestIn_run. cbn [agreeable answerIn is_ok in_status in_data].
    rewrite dnloads_app.
    replace (dnloads [EvControlOut _ _ _]) with [(transaction, [x00])]
      by (unfold dnloads; cbn; reflexivity).
    rewrite last_snoc. eexists. vm_compute. reflexivity. }
  change (status {| status := 0; pollTimeout := 7; state := 5 |} =? 0) with true. cbv iota.
  apply IH.
Qed.


(** ** The library beside the class *)













(** ** The vendor commands on the wire *)

Lemma requestOut_run device settings request data value h :
  requestOut device settings request data value h
  = (match answerOut device h (class_setup settings request value) data with
     | inl e => Throw e
     | inr result =>
         if is_ok (out_status result)
         then Ret (bytesWritten result)
         else Throw (ErrorObj ("controlTransferOut failed: "
                               +:+ show_status (out_status result)))
     end,
     h ++ [EvControlOut (class_setup settings request value) data
             (answerOut device h (class_setup settings request value) data)]).
Proof.
  unfold requestOut, bind, controlTransferOut.
  destruct (answerOut device h _ data) as [e | result]; [reflexivity |].
  cbn [ret throw]. destruct (is_ok (out_status result)); reflexivity.
Qed.





Lemma status_not_ok s : is_ok s = false -> s <> status_ok.
Proof. intros H ->. discriminate H. Qed.

Lemma status_is_ok s : is_ok s = true -> s = status_ok.
Proof. destruct s; [reflexivity | discriminate ..]. Qed.






(** ** Progress reports of the library's block loop *)

(** A turn of the loop of the class moves the count forward by
    [min xferSize remaining], which is positive. *)
Lemma progress_after_step xferSize view i :
  1 <= xferSize -> (i < block_count view xferSize)%nat ->
  let sent := fst (progress_after xferSize view i) in
  0 < Z.min xferSize (byteLength view - sent) /\
  fst (progress_after xferSize view (S i)) = sent + Z.min xferSize (byteLength view - sent).
Proof.
  intros HS Hi. apply block_count_lt in Hi; [| exact HS].
  cbv zeta. unfold progress_after. cbn [fst]. lia.
Qed.

(** The loop of the library reports the count it has reached after each
    turn; with every block written at least in part, the counts increase. *)
Lemma webdfu_download_loop_progress device settings pollFuel xfer_size data :
  writes_some device ->
  1 <= xfer_size ->
  forall fuel bytes_sent transaction h r h',
    0 <= bytes_sent ->
    WebDfu.download_loop device settings pollFuel fuel xfer_size data bytes_sent
      transaction h = (r, h') ->
    exists reports,
      progress_reports h' = progress_reports h ++ reports /\
      increasing_from bytes_sent (map fst reports).
Proof.
  intros Hsome HS.
  assert (Hnone : forall (h : History) bytes_sent,
             exists reports, progress_reports h = progress_reports h ++ reports /\
                             increasing_from bytes_sent (map fst reports)).
  { intros h b. exists []. rewrite app_nil_r. split; [reflexivity | exact I]. }
  induction fuel as [| fuel IH]; intros bytes_sent transaction h r h' H0 H.
  - cbn [WebDfu.download_loop] in H.
    destruct (bytes_sent <? byteLength data); injection H as <- <-; apply Hnone.
  - destruct (Z.lt_ge_cases bytes_sent (byteLength data)) as [Hlt | Hge].
    2:{ rewrite webdfu_download_loop_done in H by lia. injection H as <- <-. apply Hnone. }
    rewrite webdfu_download_loop_step in H by exact Hlt. cbv zeta in H.
    assert (Hblock : forall ans evs,
               Forall housekeeping evs ->
               exists reports,
                 progress_reports
                   ((h ++ [EvControlOut
                             (WebDfu.class_request settings DFU.DNLOAD transaction)
                             (Some (slice data bytes_sent
                                      (bytes_sent
                                       + Z.min (byteLength data - bytes_sent) xfer_size)))
                             ans]) ++ evs)
                 = progress_reports h ++ reports /\
                 increasing_from bytes_sent (map fst reports)).
    { intros ans evs F. exists []. rewrite <- app_assoc. cbn [app].
      rewrite progress_reports_block by exact F. rewrite app_nil_r.
      split; [reflexivity | exact I]. }
    destruct (answerOut device h _ _) as [e | result] eqn:Ea.
    { injection H as <- <-. destruct (Hblock (inl e) [] ltac:(constructor)) as (l & D & I).
      rewrite app_nil_r in D. eauto. }
    destruct (is_ok (out_status result)) eqn:Eok.
    2:{ injection H as <- <-.
        destruct (Hblock (inr result) [] ltac:(constructor)) as (l & D & I).
        rewrite app_nil_r in D. eauto. }
    assert (1 <= bytesWritten result) as Hw.
    { apply (Hsome _ _ _ _ Ea).
      - apply status_is_ok, Eok.
      - apply slice_nonempty; lia. }
    destruct (WebDfu.poll_until_idle device settings pollFuel STATE.dfuDNLOAD_IDLE _)
      as [[[s | st] | e | l] h2] eqn:Ep;
      destruct (housekeeping_webdfu_poll_until _ _ _ _ _ _ _ Ep) as (evs & -> & F).
    1,3,4: injection H as <- <-; apply Hblock, F.
    destruct (status st =? 0); [| injection H as <- <-; apply Hblock, F].
    apply IH in H as (reports & D & I); [| lia].
    exists ((bytes_sent + bytesWritten result, byteLength data) :: reports). split.
    + rewrite D, progress_reports_app. rewrite <- (app_assoc h). cbn [app].
      rewrite progress_reports_block by exact F. rewrite <- app_assoc. reflexivity.
    + cbn [map fst increasing_from]. split; [lia | exact I].
Qed.

Lemma appends_silent {A} P (c : Eff History A) : silent c -> appends P c.
Proof.
  intros Hs h r h' H. exists []. rewrite app_nil_r. split; [| constructor].
  rewrite <- (Hs h), H. reflexivity.
Qed.


Lemma simulated_writes_all cfg : writes_all (simulated cfg).
Proof.
  intros h setup data result H _. cbn [simulated answerOut] in H.
  destruct (sim_gone cfg h); [discriminate |]. injection H as <-. reflexivity.
Qed.

Lemma simulated_writes_some cfg : writes_some (simulated cfg).
Proof.
  intros h setup data result H _ Hne. cbn [simulated answerOut] in H.
  destruct (sim_gone cfg h); [discriminate |]. injection H as <-. cbn.
  destruct data; [contradiction |]. unfold byteLength. cbn [length]. lia.
Qed.

Lemma silent_wret {A} (a : A) : silent (WebDfu.wret a).
Proof. intros h. reflexivity. Qed.

(** C1.  With a chunk size [xferSize >= 1] the image of length [L] is cut in
    [n = ceil (L / xferSize)] data blocks ([n] is the number with
    [(n - 1) * xferSize < L <= n * xferSize]), each of 1 to [xferSize] bytes
    and together the image itself, numbered from the first block number on.
    A [do_download] of the page's class that returns has sent by DNLOAD
    exactly these blocks, numbered from [firstBlock] (2 when the argument is
    left out), and then one empty block with the next number; a call that
    fails or hangs has sent an initial part of that sequence.  The
    [do_download] of the library does the same against a device that reports
    every block written in full; its first block number, when the argument
    is left out, is 2 on an interface of protocol 2 and 0 on any other. *)
Theorem do_download_blocks_spec device settings library_settings device_reset fuel xferSize
    data tolerant firstBlock h :
  1 <= xferSize ->
  let n := block_count data xferSize in
  let sequence fb := data_blocks xferSize data fb ++ [(fb + Z.of_nat n, [])] in
  Z.of_nat n = ceil_div (byteLength data) xferSize /\
  (Z.of_nat n - 1) * xferSize < byteLength data <= Z.of_nat n * xferSize /\
  (forall fb,
      length (data_blocks xferSize data fb) = n /\
      map fst (data_blocks xferSize data fb) = map (fun i => fb + Z.of_nat i) (seq 0 n) /\
      Forall (fun b => 1 <= byteLength (snd b) <= xferSize) (data_blocks xferSize data fb) /\
      concat (map snd (data_blocks xferSize data fb)) = data) /\
  (forall r h',
      do_download device settings fuel xferSize data tolerant firstBlock h = (r, h') ->
      (exists m, dnloads h' = dnloads h ++ take m (sequence (default 2 firstBlock))) /\
      (r = Ret tt -> dnloads h' = dnloads h ++ sequence (default 2 firstBlock))) /\
  (writes_all device ->
   silent device_reset ->
   forall r h',
     WebDfu.do_download device library_settings device_reset fuel xferSize data tolerant
       firstBlock h = (r, h') ->
     (exists m,
         dnloads h'
         = dnloads h
           ++ take m (sequence (WebDfu.first_transaction library_settings firstBlock))) /\
     (r = Ret (inr tt) ->
      dnloads h'
      = dnloads h ++ sequence (WebDfu.first_transaction library_settings firstBlock))) /\
  WebDfu.first_transaction library_settings None
  = (if USB.interfaceProtocol (Found.alternate library_settings) =? 2 then 2 else 0) /\
  (forall b, WebDfu.first_transaction library_settings (Some b) = b).
Proof.
  intros HS n sequence.
  assert (Hfull : forall fb m,
             m = S n -> take m (expected_dnloads xferSize data fb) = sequence fb).
  { intros fb m ->. unfold sequence, expected_dnloads. fold n. apply take_ge.
    rewrite length_app, (proj1 (data_blocks_facts xferSize data fb HS)). simpl. fold n. lia. }
  split; [apply block_count_ceil, HS |].
  split.
  { pose proof (block_count_lt xferSize data n HS) as Hn.
    pose proof (block_count_lt xferSize data (n - 1) HS) as Hp.
    fold n in Hn, Hp. unfold byteLength in *.
    destruct n as [| n']; [lia |].
    replace (S n' - 1)%nat with n' in Hp by lia. lia. }
  split; [intros fb; apply (data_blocks_facts xferSize data fb HS) |].
  split.
  { intros r h' H.
    destruct (do_download_dnloads _ _ _ _ _ _ _ _ _ _ HS H) as (m & Hm & Hr).
    split; [exists m; exact Hm |].
    intros ->. rewrite Hm. f_equal. apply Hfull, Hr. reflexivity. }
  split; [| split; reflexivity].
  intros Hall Hreset r h' H.
  destruct (webdfu_do_download_dnloads _ _ _ _ _ _ _ _ _ _ _ Hall
              (appends_silent _ _ Hreset) HS H) as (m & Hm & Hr).
  split; [exists m; exact Hm |].
  intros ->. rewrite Hm. f_equal. apply Hfull, Hr. reflexivity.
Qed.

Lemma do_download_blocks_spec_witness :
  (exists h',
      do_download (simulated healthy) dfuse_settings 4 4 (image 10) true None []
      = (Ret tt, h') /\
      dnloads h' = [(2, image 4); (3, drop 4 (image 8)); (4, drop 8 (image 10)); (5, [])]) /\
  (exists h',
      WebDfu.do_download (simulated healthy) bootloader_settings (WebDfu.wret tt) 4 4
        (image 10) true None [] = (Ret (inr tt), h') /\
      dnloads h' = [(2, image 4); (3, drop 4 (image 8)); (4, drop 8 (image 10)); (5, [])]).
Proof.
  pose proof (do_download_blocks_spec (simulated healthy) dfuse_settings bootloader_settings
                (WebDfu.wret tt) 4 4 (image 10) true None [] ltac:(lia)) as T.
  cbv zeta in T. destruct T as (_ & _ & _ & Hclass & Hlib & _).
  split.
  - eexists. split; [vm_compute; reflexivity |].
    refine (eq_trans (proj2 (Hclass (Ret tt) _ _) eq_refl) _).
    + vm_compute. reflexivity.
    + vm_compute. reflexivity.
  - eexists. split; [vm_compute; reflexivity |].
    refine (eq_trans
              (proj2 (Hlib (simulated_writes_all healthy) (silent_wret tt) (Ret (inr tt)) _ _)
                 eq_refl) _).
    + vm_compute. reflexivity.
    + vm_compute. reflexivity.
Defined.

(** C1 as stated fails for the [do_download] of the library.  It moves on by
    the count of bytes the device reports written: against a device that
    reports one byte for each transfer, an image of two bytes in chunks of
    two, which is one block, goes out as two data blocks that overlap.  And
    with the first block left out, on an interface whose protocol is not 2,
    its blocks are numbered from 0. *)
Lemma do_download_blocks_counterexample :
  block_count (image 2) 2 = 1%nat /\
  (let run := WebDfu.do_download (agreeable 1) bootloader_settings (WebDfu.wret tt) 5 2
                (image 2) true None [] in
   fst run = Ret (inr tt) /\
   dnloads (snd run) = [(2, image 2); (3, drop 1 (image 2)); (4, [])]) /\
  (let run := WebDfu.do_download (simulated healthy) runtime_settings (WebDfu.wret tt) 5 2
                (image 2) true None [] in
   fst run = Ret (inr tt) /\
   dnloads (snd run) = [(0, image 2); (1, [])]).
Proof. vm_compute. repeat split; reflexivity. Qed.

(** C10.  With [xferSize >= 1] the block loop of the [do_download] of the
    class needs no more than [n = ceil (L / xferSize)] turns: given that
    much fuel it never gives up.  The counts of bytes it reports, one after
    each acknowledged block, are those of [progress_after]: each is the one
    before plus [min xferSize remaining], which is positive, and the [n]-th
    is [L].  The bound on [xferSize] is needed: with [xferSize <= 0] and a
    non-empty image the loop never returns, whatever the device and the
    fuel; no progress report ever exceeds the starting count; and on a
    device that takes every block the loop is still running when any amount
    of fuel is used up.  The loop of the library moves on by the count of
    bytes the device reports written: with [xferSize >= 1] and a device that
    reports at least one byte for every block it takes, [L] turns are
    enough, and the counts it reports increase. *)
Theorem download_loop_termination device settings library_settings pollFuel fuel xferSize view
    block h :
  (1 <= xferSize ->
   (block_count view xferSize <= fuel)%nat ->
   let run := download_loop device settings pollFuel fuel xferSize view 0 block h in
   fst run <> Hang DownloadLoop /\
   (exists p,
       (p <= block_count view xferSize)%nat /\
       progress_reports (snd run)
       = progress_reports h ++ map (progress_after xferSize view) (seq 1 p) /\
       (forall b, fst run = Ret b -> p = block_count view xferSize)) /\
   (forall i, (i < block_count view xferSize)%nat ->
              let sent := fst (progress_after xferSize view i) in
              0 < Z.min xferSize (byteLength view - sent) /\
              fst (progress_after xferSize view (S i))
              = sent + Z.min xferSize (byteLength view - sent)) /\
   fst (progress_after xferSize view 0) = 0 /\
   progress_after xferSize view (block_count view xferSize)
   = (byteLength view, byteLength view) /\
   forall sent, 0 <= sent < byteLength view ->
                0 < Z.min xferSize (byteLength view - sent) /\
                sent < sent + Z.min xferSize (byteLength view - sent) <= byteLength view) /\
  (xferSize <= 0 ->
   view <> [] ->
   (forall b, fst (download_loop device settings pollFuel fuel xferSize view 0 block h)
              <> Ret b) /\
   (exists evs,
       snd (download_loop device settings pollFuel fuel xferSize view 0 block h) = h ++ evs /\
       Forall (progress_at_most 0) evs) /\
   fst (download_loop (patient 0) settings pollFuel fuel xferSize view 0 block h)
   = Hang DownloadLoop) /\
  (1 <= xferSize ->
   writes_some device ->
   (length view <= fuel)%nat ->
   let run := WebDfu.download_loop device library_settings pollFuel fuel xferSize view 0
                block h in
   fst run <> Hang DownloadLoop /\
   exists reports,
     progress_reports (snd run) = progress_reports h ++ reports /\
     increasing_from 0 (map fst reports)).
Proof.
  split; [| split].
  - intros HS Hfuel run.
    destruct (download_loop device settings pollFuel fuel xferSize view 0 block h)
      as [r h'] eqn:E. subst run. cbn [fst snd].
    split.
    { pose proof (download_loop_blocks device settings pollFuel xferSize view block HS
                    fuel 0 h r h' ltac:(lia)) as Hloop.
      rewrite Z.mul_0_l, Z.min_l, Z.add_0_r in Hloop by (unfold byteLength; lia).
      destruct (Hloop E) as (m & _ & _ & _ & Hh).
      intros ->. specialize (Hh eq_refl). lia. }
    split.
    { pose proof (download_loop_trace device settings pollFuel xferSize view block HS
                    fuel 0 h r h' ltac:(lia)) as Hloop.
      rewrite Z.mul_0_l, Z.min_l, Z.add_0_r in Hloop by (unfold byteLength; lia).
      destruct (Hloop E) as (m & p & Hm & Hpm & _ & Hp & Hr).
      exists p. split; [simpl in Hm; lia |]. split; [exact Hp |].
      intros b ->. destruct (Hr b eq_refl) as (Hn & -> & _). simpl in Hn. lia. }
    split; [intros i Hi; apply progress_after_step; assumption |].
    split; [unfold progress_after, byteLength; cbn [fst]; lia |].
    split; [apply progress_after_last, HS |].
    intros sent Hs; lia.
  - intros HS Hne.
    destruct (download_loop device settings pollFuel fuel xferSize view 0 block h)
      as [r h'] eqn:E.
    destruct (download_loop_stuck device settings pollFuel xferSize view HS Hne
                fuel 0 block h r h' ltac:(lia) E) as [Hr Hev].
    split; [exact Hr |]. split; [exact Hev |].
    apply patient_download_loop_hangs; [assumption | assumption | lia].
  - intros HS Hsome Hfuel run. subst run. split.
    + apply webdfu_download_loop_ends; [assumption | assumption | lia |].
      unfold byteLength. lia.
    + destruct (WebDfu.download_loop device library_settings pollFuel fuel xferSize view 0
                  block h) as [r h'] eqn:E. cbn [snd].
      apply (webdfu_download_loop_progress device library_settings pollFuel xferSize view
               Hsome HS fuel 0 block h r h' ltac:(lia) E).
Qed.

Lemma download_loop_termination_witness :
  fst (download_loop (simulated healthy) dfuse_settings 2 3 4 (image 10) 0 2 [])
  <> Hang DownloadLoop /\
  fst (download_loop (patient 0) dfuse_settings 2 50 0 (image 10) 0 2 [])
  = Hang DownloadLoop /\
  fst (WebDfu.download_loop (simulated healthy) bootloader_settings 2 10 4 (image 10) 0 2 [])
  <> Hang DownloadLoop.
Proof.
  split; [| split].
  - refine (proj1 (proj1 (download_loop_termination (simulated healthy) dfuse_settings
                            bootloader_settings 2 3 4 (image 10) 2 []) _ _)).
    + lia.
    + vm_compute. lia.
  - refine (proj2 (proj2 (proj1 (proj2 (download_loop_termination (simulated healthy)
                                          dfuse_settings bootloader_settings
                                          2 50 0 (image 10) 2 [])) _ _))).
    + lia.
    + discriminate.
  - refine (proj1 (proj2 (proj2 (download_loop_termination (simulated healthy)
                                   dfuse_settings bootloader_settings
                                   2 10 4 (image 10) 2 [])) _ _ _)).
    + lia.
    + apply simulated_writes_some.
    + vm_compute. lia.
Defined.

(** C10 as stated fails for the loop of the library: against a device that
    takes every block and reports no byte written, the count stays at 0 and
    the loop sends the first block again and again, with a chunk size of 1;
    the loop of the class, on the same device and image, returns after one
    block. *)
Lemma download_loop_counterexample :
  fst (download_loop (agreeable 0) dfuse_settings 1 1 1 [x00] 0 2 []) = Ret 3 /\
  forall fuel,
    fst (WebDfu.download_loop (agreeable 0) bootloader_settings 1 fuel 1 [x00] 0 2 [])
    = Hang DownloadLoop.
Proof.
  split; [vm_compute; reflexivity |].
  intros fuel. apply webdfu_download_loop_stuck.
Qed.



(** ** The recover requests, one by one *)

Lemma attempts_recover_run device :
  forall remaining attempt h r h',
    attempt + Z.of_nat remaining = 4 ->
    attempts device remaining attempt h = (r, h') ->
    recover_run device attempt h r h'.
Proof.
  induction remaining as [| remaining IH]; intros attempt h r h' Hturn H.
  - injection H as <- <-. replace attempt with 4 by lia. apply recover_exhausted.
  - cbn [attempts] in H. unfold bind at 1 in H. rewrite attempt_once_run in H.
    cbv zeta in H. fold (recover_event device h) in H.
    destruct (answerOut device h recover_setup None) as [[m |] | result] eqn:Ha.
    + destruct (Z.eqb_spec attempt 3) as [-> | Hn]; cbn [orb] in H.
      * destruct (includes m "disconnected") eqn:Hm; injection H as <- <-.
        -- apply (recover_gone device 3 h m); [lia | exact Ha | exact Hm].
        -- apply (recover_rejected_last device h m Ha Hm).
      * destruct (includes m "disconnected") eqn:Hm.
        -- injection H as <- <-. apply (recover_gone device attempt h m); [lia | exact Ha | exact Hm].
        -- rewrite <- app_assoc in H. cbn [app] in H.
           apply (recover_rejected device attempt h m r h'); [lia | exact Ha | exact Hm |].
           apply IH; [lia | exact H].
    + injection H as <- <-. apply recover_no_error; [lia | exact Ha].
    + destruct (is_ok (out_status result)) eqn:Hok.
      * injection H as <- <-.
        apply (recover_ok device attempt h result); [lia | exact Ha |].
        apply status_is_ok, Hok.
      * apply (recover_not_ok device attempt h result r h'); [lia | exact Ha | |].
        -- apply status_not_ok, Hok.
        -- apply IH; [lia | exact H].
Qed.


(** X2.  [getTransferSize] always comes back (it cannot loop), a size it
    returns lies between 1 and 65535, and it talks to the device by at most
    two GET_DESCRIPTOR(configuration) reads.  The first asks for 4 bytes.
    The second is made exactly when the first completed "ok" with at least
    four bytes, and asks for the total length those bytes announce; if the
    first was rejected, completed otherwise or came short, it is the only
    transfer and no size is returned.  A second read that is rejected, or
    that completes with a status other than "ok", makes the call fail. *)
Theorem getTransferSize_bounds device settings h :
  let run := getTransferSize device settings h in
  let setup := descriptor_setup settings in
  let first := answerIn device h setup 4 in
  let first_read := EvControlIn setup 4 first in
  (forall v, fst run = Ret v -> 1 <= v <= 65535) /\
  (forall l, fst run <> Hang l) /\
  match first with
  | inr answer =>
      if is_ok (in_status answer) && (4 <=? byteLength (in_data answer))
      then
        let wTotalLength := byte_at (in_data answer) 2 + 256 * byte_at (in_data answer) 3 in
        let second := answerIn device (h ++ [first_read]) setup wTotalLength in
        snd run = h ++ [first_read; EvControlIn setup wTotalLength second] /\
        match second with
        | inl e => fst run = Throw e
        | inr full =>
            is_ok (in_status full) = false ->
            fst run = Throw (ErrorObj (show_status (in_status full)))
        end
      else snd run = h ++ [first_read] /\ forall v, fst run <> Ret v
  | inl e => snd run = h ++ [first_read] /\ fst run = Throw e
  end.
Proof.
  cbv zeta. split; [| split].
  - intros v Hv.
    destruct (getTransferSize device settings h) as [r h'] eqn:H. cbn [fst] in Hv. subst r.
    eapply getTransferSize_range; exact H.
  - intros l Hl.
    destruct (getTransferSize device settings h) as [r h'] eqn:H. cbn [fst] in Hl. subst r.
    exact (getTransferSize_never_hangs _ _ _ _ _ H).
  - unfold getTransferSize, bind, controlTransferIn.
    destruct (answerIn device h (descriptor_setup settings) 4) as [e | first] eqn:Ha.
    { split; reflexivity. }
    destruct (is_ok (in_status first)) eqn:Hok; cbn [negb andb].
    2:{ split; [reflexivity | discriminate]. }
    unfold getUint16, in_view. change (0 <=? 2) with true. change (2 + 2) with 4.
    cbn [andb].
    destruct (4 <=? byteLength (in_data first)) eqn:Hv.
    2:{ split; [reflexivity | discriminate]. }
    cbn [ret]. change (2 + 1) with 3.
    match goal with
    | |- context [answerIn device ?hh ?ss ?nn] =>
        destruct (answerIn device hh ss nn) as [e | full]
    end.
    { split; [rewrite <- app_assoc |]; reflexivity. }
    destruct (is_ok (in_status full)); cbn [negb].
    + split; [| discriminate].
      rewrite walk_descriptors_silent, <- app_assoc. reflexivity.
    + split; [| reflexivity]. cbn [throw snd]. rewrite <- app_assoc. reflexivity.
Qed.

Lemma getTransferSize_bounds_witness :
  fst (getTransferSize (simulated healthy) dfuse_settings []) = Ret 2048 /\ 1 <= 2048 <= 65535.
Proof.
  assert (H : fst (getTransferSize (simulated healthy) dfuse_settings []) = Ret 2048)
    by reflexivity.
  split; [exact H |].
  exact (proj1 (getTransferSize_bounds (simulated healthy) dfuse_settings []) 2048 H).
Defined.

(** X12.  [enterDfuMode].  If opening the device fails, no request is sent
    and the page reports the failure, unless the message mentions a
    disconnection, which counts as having entered DFU mode.  Once the device
    is open, between one and three recover requests (vendor request 0xd1, no
    data) go out, one turn after the other as [recover_run] has them: the
    loop stops at the first request that completes "ok" or is rejected with
    a message mentioning a disconnection; a request that completes with a
    status other than "ok" is followed by the next one at once; a rejected
    one is followed by a wait of 2000 ms and the next one, and there is no
    other wait of 2000 ms; the third request is the last.  Only a loop that
    stopped at a taken request is followed by the wait of 3000 ms.  Whether
    or not any request was taken, the device is then closed (a failure to
    close is ignored) and the page reports that DFU mode was entered.  The
    one failure reported after opening is a rejection that carries no
    [Error]. *)
Theorem enterDfuMode_spec device device_open device_close h :
  (forall m h1,
      device_open h = (Throw (ErrorObj m), h1) ->
      enterDfuMode device device_open device_close h
      = (Ret (if includes m "disconnected" then EnteredDfuMode else EnterFailed m), h1)) /\
  (forall h1 r h2,
      device_open h = (Ret tt, h1) ->
      attempts device 3 1 h1 = (r, h2) ->
      recover_run device 1 h1 r h2 /\
      exists evs,
        h2 = h1 ++ evs /\
        Forall (fun ev => recover_request ev \/ ev = EvSleep 2000) evs /\
        (1 <= transfers evs <= 3)%nat /\
        match r with
        | Ret success =>
            success = existsb recover_taken evs /\
            let h3 := if success then h2 ++ [EvSleep 3000] else h2 in
            ((forall l, fst (device_close h3) <> Hang l) ->
             enterDfuMode device device_open device_close h
             = (Ret EnteredDfuMode, snd (device_close h3)))
        | Throw e =>
            last evs = Some (EvControlOut recover_setup None (inl Undefined)) /\
            enterDfuMode device device_open device_close h
            = (Ret (EnterFailed "Cannot read properties of undefined (reading 'message')"),
               h2)
        | Hang _ => False
        end).
Proof.
  split.
  - intros m h1 Hopen. unfold enterDfuMode, try_catch.
    rewrite (bind_throw _ _ _ _ _ Hopen). cbn [message_of]. unfold bind, ret.
    destruct (includes m "disconnected"); reflexivity.
  - intros h1 r h2 Hopen Hrun.
    split; [apply (attempts_recover_run device 3 1 h1 r h2 ltac:(lia) Hrun) |].
    destruct (attempts_shape device 3 1 h1 r h2 ltac:(lia) Hrun)
      as (evs & -> & Hall & Hle & Hge & Hout).
    exists evs. split; [reflexivity |]. split; [exact Hall |].
    split; [split; [apply Hge; discriminate | exact Hle] |].
    destruct r as [success | e | l]; cbn [attempts_outcome] in Hout;
      unfold enterDfuMode; try unfold try_catch at 1;
      try rewrite (bind_run _ _ _ _ _ Hopen).
    + split; [exact Hout |]. cbv zeta. intros Hclose.
      rewrite (bind_run _ _ _ _ _ Hrun).
      assert (Hrest : forall h3,
                 (forall l, fst (device_close h3) <> Hang l) ->
                 (try_catch device_close (fun _ => ret tt) ;;; ret EnteredDfuMode) h3
                 = (Ret EnteredDfuMode, snd (device_close h3))).
      { intros h3 Hnohang. unfold bind, try_catch.
        destruct (device_close h3) as [[[] | e | l] h4]; try reflexivity.
        exfalso. exact (Hnohang l eq_refl). }
      destruct success.
      * unfold bind at 1. cbn [sleep]. rewrite (Hrest _ Hclose). reflexivity.
      * unfold bind at 1. cbn [ret]. rewrite (Hrest _ Hclose). reflexivity.
    + destruct Hout as [-> Hlast]. split; [exact Hlast |].
      rewrite (bind_throw _ _ _ _ _ Hrun). reflexivity.
    + exact Hout.
Qed.

Lemma enterDfuMode_spec_witness :
  enterDfuMode stalling (ret tt) (ret tt) []
  = (Ret EnteredDfuMode,
     [EvControlOut recover_setup None (inr {| out_status := status_stall; bytesWritten := 0 |});
      EvControlOut recover_setup None (inr {| out_status := status_stall; bytesWritten := 0 |});
      EvControlOut recover_setup None
        (inr {| out_status := status_stall; bytesWritten := 0 |})]).
Proof.
  destruct (proj2 (enterDfuMode_spec stalling (ret tt) (ret tt) []) [] _ _ eq_refl eq_refl)
    as (_ & evs & Hevs & _ & _ & _ & Hreport).
  rewrite Hreport; [reflexivity | discriminate].
Defined.


(** ** Errors that mention a disconnection *)

Lemma prefix_disconnected_no_c s : no_c s = true -> String.prefix "disconnected" s = false.
Proof.
  intros H.
  destruct s as [| c0 [| c1 [| c2 [| c3 s]]]]; try reflexivity;
    cbn [String.prefix];
    repeat match goal with
           | |- context [Ascii.ascii_dec ?a ?b] => destruct (Ascii.ascii_dec a b); try reflexivity
           end.
  subst. cbn in H. discriminate H.
Qed.

Lemma includes_no_c s : no_c s = true -> includes s "disconnected" = false.
Proof.
  induction s as [| ch s IH]; intros H; [reflexivity |].
  cbn [includes]. rewrite (prefix_disconnected_no_c _ H).
  cbn [no_c] in H. apply andb_prop in H as [_ H]. rewrite (IH H). reflexivity.
Qed.

Lemma no_c_app a b : no_c (a +:+ b) = no_c a && no_c b.
Proof.
  induction a as [| ch a IH]; [reflexivity |].
  change (String ch a +:+ b) with (String ch (a +:+ b)).
  cbn [no_c]. rewrite IH. apply andb_assoc.
Qed.

Lemma no_c_digits d : no_c (NilEmpty.string_of_uint d) = true.
Proof. induction d; cbn [NilEmpty.string_of_uint no_c]; try rewrite IHd; reflexivity. Qed.

Lemma no_c_string_of_uint d : no_c (NilZero.string_of_uint d) = true.
Proof. destruct d; try apply no_c_digits. reflexivity. Qed.

Lemma no_c_show_number z : no_c (show_number z) = true.
Proof.
  unfold show_number. destruct (Z.to_int z) as [d | d]; cbn [NilZero.string_of_int].
  - apply no_c_string_of_uint.
  - cbn [no_c]. rewrite no_c_string_of_uint. reflexivity.
Qed.

Lemma not_gone_no_c m : no_c m = true -> disconnected (ErrorObj m) = false.
Proof. apply includes_no_c. Qed.

Lemma not_gone_transfer_out s :
  disconnected (ErrorObj ("controlTransferOut failed: " +:+ show_status s)) = false.
Proof. destruct s; vm_compute; reflexivity. Qed.

Lemma not_gone_transfer_in s :
  disconnected (ErrorObj ("controlTransferIn failed: " +:+ show_status s)) = false.
Proof. destruct s; vm_compute; reflexivity. Qed.

Lemma not_gone_idle s :
  disconnected (ErrorObj ("Failed to return to IDLE, state=" +:+ show_number s)) = false.
Proof. apply not_gone_no_c. rewrite no_c_app, no_c_show_number. reflexivity. Qed.

Lemma not_gone_download_failed st : disconnected (download_failed st) = false.
Proof.
  apply not_gone_no_c. rewrite !no_c_app, !no_c_show_number. reflexivity.
Qed.

Lemma not_gone_manifest_failed st : disconnected (manifest_failed st) = false.
Proof.
  apply not_gone_no_c. rewrite !no_c_app, !no_c_show_number. reflexivity.
Qed.

(** ** Where an error that mentions a disconnection comes from *)

Lemma gone_ret {A} (a : A) : gone_on_wire (ret a).
Proof. intros h r h' [= <- <-]. exists []. rewrite app_nil_r. split; [reflexivity | discriminate]. Qed.

Lemma gone_hang {A} l : gone_on_wire (@hang History A l).
Proof. intros h r h' [= <- <-]. exists []. rewrite app_nil_r. split; [reflexivity | discriminate]. Qed.

Lemma gone_throw {A} e : disconnected e = false -> gone_on_wire (@throw History A e).
Proof.
  intros He h r h' [= <- <-]. exists []. rewrite app_nil_r. split; [reflexivity |].
  intros e' [= <-] C. congruence.
Qed.

Lemma gone_bind {A B} (c : Eff History A) (k : A -> Eff History B) :
  gone_on_wire c -> (forall a, gone_on_wire (k a)) -> gone_on_wire (bind c k).
Proof.
  intros Hc Hk h r h' H. unfold bind in H.
  destruct (c h) as [[a | e | l] h1] eqn:E; destruct (Hc _ _ _ E) as (evs & -> & G).
  - destruct (Hk a _ _ _ H) as (evs' & -> & G').
    exists (evs ++ evs'). rewrite app_assoc. split; [reflexivity |].
    intros e He Hg. destruct (G' e He Hg) as (ev & Hl & Hr).
    exists ev. split; [| exact Hr]. rewrite last_app, Hl. reflexivity.
  - injection H as <- <-. exists evs. split; [reflexivity |].
    intros e' [= <-]. apply G. reflexivity.
  - injection H as <- <-. exists evs. split; [reflexivity | discriminate].
Qed.

(** [try { c } catch { }] *)
Lemma gone_swallowed {A} (c : Eff History A) (a : A) :
  gone_on_wire c -> gone_on_wire (try_catch c (fun _ => ret a)).
Proof.
  intros Hc h r h' H. unfold try_catch in H.
  destruct (c h) as [[a' | e | l] h1] eqn:E; destruct (Hc _ _ _ E) as (evs & -> & G);
    injection H as <- <-; exists evs; split; try reflexivity; discriminate.
Qed.

Lemma gone_controlTransferOut device setup data :
  gone_on_wire (controlTransferOut device setup data).
Proof.
  intros h r h' H. unfold controlTransferOut in H. injection H as <- <-.
  eexists. split; [reflexivity |].
  intros e He Hg. destruct (answerOut device h setup data) as [e' | res]; [| discriminate].
  injection He as ->. eexists. split; [reflexivity | exact Hg].
Qed.

Lemma gone_controlTransferIn device setup len :
  gone_on_wire (controlTransferIn device setup len).
Proof.
  intros h r h' H. unfold controlTransferIn in H. injection H as <- <-.
  eexists. split; [reflexivity |].
  intros e He Hg. destruct (answerIn device h setup len) as [e' | res]; [| discriminate].
  injection He as ->. eexists. split; [reflexivity | exact Hg].
Qed.

Lemma gone_requestOut device settings req data v :
  gone_on_wire (requestOut device settings req data v).
Proof.
  unfold requestOut. apply gone_bind; [apply gone_controlTransferOut |].
  intros r. destruct is_ok; [apply gone_ret | apply gone_throw, not_gone_transfer_out].
Qed.

Lemma gone_requestIn device settings req len v :
  gone_on_wire (requestIn device settings req len v).
Proof.
  unfold requestIn. apply gone_bind; [apply gone_controlTransferIn |].
  intros r. destruct is_ok; [apply gone_ret | apply gone_throw, not_gone_transfer_in].
Qed.

Lemma gone_getUint8 d off : gone_on_wire (getUint8 d off).
Proof. unfold getUint8. destruct in_view; [apply gone_ret | apply gone_throw; reflexivity]. Qed.

Lemma gone_getUint32 d off : gone_on_wire (getUint32 d off).
Proof. unfold getUint32. destruct in_view; [apply gone_ret | apply gone_throw; reflexivity]. Qed.

Lemma gone_getStatus device settings : gone_on_wire (getStatus device settings).
Proof.
  unfold getStatus. apply gone_bind; [apply gone_requestIn |].
  intros d. apply gone_bind; [apply gone_getUint8 |].
  intros a. apply gone_bind; [apply gone_getUint32 |].
  intros t. apply gone_bind; [apply gone_getUint8 |].
  intros s. apply gone_ret.
Qed.

Lemma gone_getState device settings : gone_on_wire (getState device settings).
Proof.
  unfold getState. apply gone_bind; [apply gone_requestIn |].
  intros d. apply gone_getUint8.
Qed.

Lemma gone_abortToIdle device settings : gone_on_wire (abortToIdle device settings).
Proof.
  unfold abortToIdle.
  apply gone_bind; [apply gone_requestOut |].
  intros _. apply gone_bind; [apply gone_getState |].
  intros s. apply gone_bind.
  - destruct (s =? STATE.dfuERROR); [| apply gone_ret].
    apply gone_bind; [apply gone_requestOut |].
    intros _. apply gone_getState.
  - intros s'. destruct negb; [apply gone_throw, not_gone_idle | apply gone_ret].
Qed.

Lemma gone_sleep ms : gone_on_wire (sleep ms).
Proof.
  intros h r h' [= <- <-]. eexists. split; [reflexivity | discriminate].
Qed.

Lemma gone_logProgress done total : gone_on_wire (logProgress done total).
Proof.
  intros h r h' [= <- <-]. eexists. split; [reflexivity | discriminate].
Qed.

Lemma gone_pollUntil_loop device settings target fuel :
  forall st, gone_on_wire (pollUntil_loop device settings fuel target st).
Proof.
  induction fuel as [| fuel IH]; intros st; simpl;
    destruct (negb (state st =? target) && negb (state st =? STATE.dfuERROR));
    try apply gone_ret; try apply gone_hang.
  apply gone_bind; [apply gone_sleep |].
  intros _. apply gone_bind; [apply gone_getStatus |].
  intros st'. apply IH.
Qed.

Lemma gone_pollUntil device settings fuel target :
  gone_on_wire (pollUntil device settings fuel target).
Proof.
  unfold pollUntil. apply gone_bind; [apply gone_getStatus |].
  intros st. apply gone_pollUntil_loop.
Qed.

Lemma gone_dnloadBlock device settings fuel data blockNum :
  gone_on_wire (dnloadBlock device settings fuel data blockNum).
Proof.
  unfold dnloadBlock. apply gone_bind; [apply gone_requestOut |].
  intros _. apply gone_pollUntil.
Qed.

Lemma gone_download_loop device settings pollFuel xferSize view :
  forall fuel sent block,
    gone_on_wire (download_loop device settings pollFuel fuel xferSize view sent block).
Proof.
  induction fuel as [| fuel IH]; intros sent block; cbn [download_loop];
    destruct (sent <? byteLength view); try apply gone_ret; try apply gone_hang.
  apply gone_bind; [apply gone_dnloadBlock |].
  intros st. destruct negb; [apply gone_throw, not_gone_download_failed |].
  apply gone_bind; [apply gone_logProgress |].
  intros _. apply IH.
Qed.

Lemma gone_do_download device settings fuel xferSize data tolerant firstBlock :
  gone_on_wire (do_download device settings fuel xferSize data tolerant firstBlock).
Proof.
  unfold do_download.
  apply gone_bind; [apply gone_abortToIdle |]. intros _.
  apply gone_bind; [apply gone_logProgress |]. intros _.
  apply gone_bind; [apply gone_download_loop |]. intros block.
  apply gone_bind; [apply gone_requestOut |]. intros _.
  destruct tolerant.
  - apply gone_bind; [apply gone_pollUntil |].
    intros fin. destruct negb; [apply gone_throw, not_gone_manifest_failed | apply gone_ret].
  - apply gone_swallowed.
    apply gone_bind; [apply gone_getStatus | intros; apply gone_ret].
Qed.

(** ** The ladders on the wire *)

(** One attempt: the events of a [do_download] at size [s] send an initial
    part of the image's blocks at that size, all of them if it returns. *)
Lemma attempt_wire device settings fuel s data h r h1 :
  1 <= s ->
  do_download device settings fuel s data true (Some 2) h = (r, h1) ->
  exists evs m,
    h1 = h ++ evs /\
    dnloads evs = attempt_blocks data (s, m) /\
    (r = Ret tt -> whole data (s, m)) /\
    (forall e, r = Throw e -> disconnected e = true ->
               exists ev, last evs = Some ev /\ rejected_as_gone ev).
Proof.
  intros Hs H.
  destruct (gone_do_download _ _ _ _ _ _ _ _ _ _ H) as (evs & -> & G).
  destruct (do_download_dnloads _ _ _ _ _ _ _ _ _ _ Hs H) as (m & Hd & Hr).
  rewrite dnloads_app in Hd. apply app_inv_head in Hd.
  exists evs, m. split; [reflexivity |]. split; [exact Hd |]. split; [exact Hr | exact G].
Qed.

Lemma flashWithRetry_loop_wire device settings fuel data :
  forall sizes tried lastErr h r h',
    Forall (fun s => 1 <= s) sizes ->
    flashWithRetry_loop (do_download device settings fuel) data sizes tried lastErr h
    = (r, h') ->
    exists evs attempts,
      h' = h ++ evs /\
      dnloads evs = flat_map (attempt_blocks data) attempts /\
      map fst attempts `prefix_of` untried tried sizes /\
      (r = Ret true ->
       match last attempts with
       | Some final =>
           whole data final \/ exists ev, last evs = Some ev /\ rejected_as_gone ev
       | None => evs = [] /\ disconnected lastErr = true
       end).
Proof.
  induction sizes as [| s rest IH]; intros tried lastErr h r h' Hsizes H.
  - cbn [flashWithRetry_loop] in H. unfold after_ladder in H.
    exists [], []. rewrite app_nil_r.
    split; [destruct (disconnected lastErr); injection H as _ <-; reflexivity |].
    split; [reflexivity |]. split; [apply prefix_nil |].
    intros ->. cbn [last]. split; [reflexivity |].
    destruct (disconnected lastErr); [reflexivity | discriminate H].
  - inversion Hsizes as [| ? ? Hs Hrest]; subst.
    cbn [flashWithRetry_loop untried] in H |- *.
    destruct (bool_decide (s ∈ tried)); [apply (IH _ _ _ _ _ Hrest H) |].
    destruct (do_download device settings fuel s data true (Some 2) h) as [rd h1] eqn:Ed.
    destruct (attempt_wire _ _ _ _ _ _ _ _ Hs Ed) as (evs1 & m & -> & Hd & Hw & Hg).
    assert (Hstop : forall r0 : Outcome bool,
               (r0 = Ret true ->
                whole data (s, m) \/ exists ev, last evs1 = Some ev /\ rejected_as_gone ev) ->
               exists evs attempts,
                 h ++ evs1 = h ++ evs /\
                 dnloads evs = flat_map (attempt_blocks data) attempts /\
                 map fst attempts `prefix_of` s :: untried ({[s]} ∪ tried) rest /\
                 (r0 = Ret true ->
                  match last attempts with
                  | Some final =>
                      whole data final \/
                      exists ev, last evs = Some ev /\ rejected_as_gone ev
                  | None => evs = [] /\ disconnected lastErr = true
                  end)).
    { intros r0 Hr0. exists evs1, [(s, m)]. split; [reflexivity |].
      split; [cbn [flat_map]; rewrite app_nil_r; exact Hd |].
      split; [apply prefix_cons, prefix_nil | exact Hr0]. }
    assert (Hnext : forall e,
               rd = Throw e ->
               flashWithRetry_loop (do_download device settings fuel) data rest
                 ({[s]} ∪ tried) e (h ++ evs1) = (r, h') ->
               exists evs attempts,
                 h' = h ++ evs /\
                 dnloads evs = flat_map (attempt_blocks data) attempts /\
                 map fst attempts `prefix_of` s :: untried ({[s]} ∪ tried) rest /\
                 (r = Ret true ->
                  match last attempts with
                  | Some final =>
                      whole data final \/
                      exists ev, last evs = Some ev /\ rejected_as_gone ev
                  | None => evs = [] /\ disconnected lastErr = true
                  end)).
    { intros e -> Hrun.
      destruct (IH _ _ _ _ _ Hrest Hrun) as (evs' & attempts' & -> & Hd' & Hp' & Hr').
      exists (evs1 ++ evs'), ((s, m) :: attempts'). split; [rewrite app_assoc; reflexivity |].
      split; [rewrite dnloads_app, Hd, Hd'; reflexivity |].
      split; [cbn [map fst]; apply prefix_cons, Hp' |].
      intros Hr. specialize (Hr' Hr). rewrite last_cons.
      destruct (last attempts') as [final |].
      - destruct Hr' as [Hwhole | (ev & Hl & Hrej)]; [left; exact Hwhole |].
        right. exists ev. split; [| exact Hrej]. rewrite last_app, Hl. reflexivity.
      - destruct Hr' as [-> Hgone]. right. rewrite app_nil_r.
        apply (Hg e eq_refl Hgone). }
    destruct rd as [[] | e | l].
    + injection H as <- <-. apply Hstop. intros _. left. apply Hw. reflexivity.
    + destruct (disconnected e) eqn:He; [| apply (Hnext e eq_refl H)].
      destruct (mostly_done data).
      { injection H as <- <-. apply Hstop. intros _. right. apply (Hg e eq_refl He). }
      destruct (1 <? Z.of_nat (size ({[s]} ∪ tried))); [| apply (Hnext e eq_refl H)].
      injection H as <- <-. apply Hstop. intros _. right. apply (Hg e eq_refl He).
    + injection H as <- <-. apply Hstop. discriminate.
Qed.

Lemma plain_loop_wire device settings fuel data :
  forall sizes tried lastErr h r h',
    Forall (fun s => 1 <= s) sizes ->
    PlainLadder.writeWithFallback_loop (do_download device settings fuel) data sizes tried
      lastErr h = (r, h') ->
    exists evs attempts,
      h' = h ++ evs /\
      dnloads evs = flat_map (attempt_blocks data) attempts /\
      map fst attempts `prefix_of` untried tried sizes /\
      (r = Ret tt -> exists final, last attempts = Some final /\ whole data final).
Proof.
  induction sizes as [| s rest IH]; intros tried lastErr h r h' Hsizes H.
  - cbn [PlainLadder.writeWithFallback_loop] in H. injection H as <- <-.
    exists [], []. rewrite app_nil_r.
    split; [reflexivity |]. split; [reflexivity |]. split; [apply prefix_nil | discriminate].
  - inversion Hsizes as [| ? ? Hs Hrest]; subst.
    cbn [PlainLadder.writeWithFallback_loop untried] in H |- *.
    destruct (bool_decide (s ∈ tried)); [apply (IH _ _ _ _ _ Hrest H) |].
    unfold try_catch in H.
    destruct (do_download device settings fuel s data true (Some 2) h) as [rd h1] eqn:Ed.
    destruct (attempt_wire _ _ _ _ _ _ _ _ Hs Ed) as (evs1 & m & -> & Hd & Hw & _).
    destruct rd as [[] | e | l].
    + injection H as <- <-. exists evs1, [(s, m)]. split; [reflexivity |].
      split; [cbn [flat_map]; rewrite app_nil_r; exact Hd |].
      split; [apply prefix_cons, prefix_nil |].
      intros _. exists (s, m). split; [reflexivity | apply Hw; reflexivity].
    + destruct (IH _ _ _ _ _ Hrest H) as (evs' & attempts' & -> & Hd' & Hp' & Hr').
      exists (evs1 ++ evs'), ((s, m) :: attempts'). split; [rewrite app_assoc; reflexivity |].
      split; [rewrite dnloads_app, Hd, Hd'; reflexivity |].
      split; [cbn [map fst]; apply prefix_cons, Hp' |].
      intros Hr. destruct (Hr' Hr) as (final & Hl & Hwhole).
      exists final. split; [| exact Hwhole]. rewrite last_cons, Hl. reflexivity.
    + injection H as <- <-. exists evs1, [(s, m)]. split; [reflexivity |].
      split; [cbn [flat_map]; rewrite app_nil_r; exact Hd |].
      split; [apply prefix_cons, prefix_nil | discriminate].
Qed.

Lemma not_gone_undefined : disconnected Undefined = false.
Proof. reflexivity. Qed.

(** [flashWithRetry] that returns has sent the image down its ladder. *)
Lemma flashWithRetry_wire device settings fuel data h h' :
  flashWithRetry (do_download device settings fuel) data h = (Ret true, h') ->
  exists evs, h' = h ++ evs /\ image_sent true data transferSizes evs.
Proof.
  intros H. unfold flashWithRetry in H.
  apply flashWithRetry_loop_wire in H as (evs & attempts & -> & Hd & Hp & Hr).
  2:{ unfold transferSizes. repeat (constructor; [lia |]). constructor. }
  exists evs. split; [reflexivity |].
  specialize (Hr eq_refl).
  destruct (last attempts) as [final |] eqn:Hl.
  - apply last_Some in Hl as (earlier & ->).
    exists earlier, final. split; [exact Hd |]. split; [exact Hp |].
    destruct Hr as [Hw | Hg]; [left; exact Hw | right; split; [reflexivity | exact Hg]].
  - destruct Hr as [_ C]. discriminate C.
Qed.

(** The first version's [writeWithFallback] that returns has sent the
    image whole. *)
Lemma plain_ladder_wire device settings fuel data sizes h h' :
  Forall (fun s => 1 <= s) sizes ->
  PlainLadder.writeWithFallback (do_download device settings fuel) data sizes h
  = (Ret tt, h') ->
  exists evs, h' = h ++ evs /\ image_sent false data sizes evs.
Proof.
  intros Hs H. unfold PlainLadder.writeWithFallback in H.
  apply plain_loop_wire in H as (evs & attempts & -> & Hd & Hp & Hr); [| exact Hs].
  exists evs. split; [reflexivity |].
  destruct (Hr eq_refl) as (final & Hl & Hw).
  apply last_Some in Hl as (earlier & ->).
  exists earlier, final. split; [exact Hd |]. split; [exact Hp |]. left. exact Hw.
Qed.

(** A vendor command that returns has sent its five bytes as block 0, and
    no other block. *)
Lemma vendor_command_wire device settings fuel opcode addr failure h h' :
  vendor_command_steps device settings fuel opcode addr failure h = (Ret tt, h') ->
  exists evs, h' = h ++ evs /\ dnloads evs = [(0, command_bytes opcode addr)].
Proof.
  unfold vendor_command_steps. intros H.
  destruct (abortToIdle device settings h) as [[[] | e | l] h1] eqn:Ea; try discriminate.
  destruct (housekeeping_abortToIdle _ _ _ _ _ Ea) as (evs0 & -> & F0).
  destruct (requestOut device settings DFU.DNLOAD _ 0 (h ++ evs0)) as [[n | e | l] h2] eqn:Eo;
    try discriminate.
  rewrite requestOut_run in Eo. injection Eo as _ <-.
  destruct (pollUntil device settings fuel STATE.dfuDNLOAD_IDLE _) as [[st | e | l] h3] eqn:Ep;
    try discriminate.
  destruct (housekeeping_pollUntil _ _ _ _ _ _ _ Ep) as (evs2 & -> & F2).
  assert (h' = ((h ++ evs0) ++ [EvControlOut (class_setup settings DFU.DNLOAD 0)
                                  (Some (command_bytes opcode addr))
                                  (answerOut device (h ++ evs0)
                                     (class_setup settings DFU.DNLOAD 0)
                                     (Some (command_bytes opcode addr)))]) ++ evs2) as ->
      by (destruct (status st =? 0); [injection H as <-; reflexivity | discriminate H]).
  eexists. rewrite <- !app_assoc. split; [reflexivity |].
  rewrite dnloads_app, (dnloads_housekeeping _ F0). cbn [app].
  change (dnloads (?e :: evs2)) with ((0, command_bytes opcode addr) :: dnloads evs2).
  rewrite (dnloads_housekeeping _ F2). reflexivity.
Qed.

Lemma dfuseErase_wire device settings fuel addr h h' :
  dfuseErase device settings fuel addr h = (Ret tt, h') ->
  exists evs, h' = h ++ evs /\ dnloads evs = [(0, command_bytes 65 addr)].
Proof.
  intros H. apply (vendor_command_wire device settings fuel 65 addr erase_failed).
  rewrite <- H. symmetry. apply vendor_command_run.
Qed.

Lemma dfuseSetAddress_wire device settings fuel addr h h' :
  dfuseSetAddress device settings fuel addr h = (Ret tt, h') ->
  exists evs, h' = h ++ evs /\ dnloads evs = [(0, command_bytes 33 addr)].
Proof.
  intros H. apply (vendor_command_wire device settings fuel 33 addr setaddr_failed).
  rewrite <- H. symmetry. apply vendor_command_run.
Qed.


(** ** The steps of a flashing run *)

Lemma getState_event device settings h :
  snd (getState device settings h)
  = h ++ [EvControlIn (class_setup settings DFU.GETSTATE 0) 1
            (answerIn device h (class_setup settings DFU.GETSTATE 0) 1)].
Proof.
  unfold getState, requestIn, bind, controlTransferIn.
  destruct (answerIn device h _ 1) as [e | res]; [reflexivity |].
  destruct (is_ok (in_status res)); [| reflexivity].
  cbn [ret]. unfold getUint8. destruct in_view; reflexivity.
Qed.

Lemma flash_body_steps clock device settings fuel pandaBuffer bootstubBuffer h h' :
  flash_body clock device settings fuel pandaBuffer bootstubBuffer h = (Ret tt, h') <->
  flash_steps clock device settings fuel pandaBuffer bootstubBuffer h h'.
Proof.
  unfold flash_body, flash_steps, in_time. split.
  - intros H.
    apply bind_Ret_inv in H as (transferSize & h0 & E0 & H).
    apply bind_Ret_inv in H as ([] & h1 & E1 & H). apply withTimeout_Ret_inv in E1.
    apply bind_Ret_inv in H as ([] & h2 & E2 & H). apply withTimeout_Ret_inv in E2.
    apply bind_Ret_inv in H as ([] & h3 & E3 & H). apply withTimeout_Ret_inv in E3.
    apply bind_Ret_inv in H as ([] & h4 & E4 & H). apply withTimeout_Ret_inv in E4.
    apply bind_Ret_inv in H as (pandaSuccess & h5 & E5 & H).
    apply withTimeout_Ret_inv in E5.
    apply bind_Ret_inv in H as ([] & h5' & C5 & H).
    apply check_success_run in C5 as [-> ->].
    apply bind_Ret_inv in H as ([] & h5s & S5 & H). injection S5 as <-.
    apply bind_Ret_inv in H as ([] & h6 & E6 & H).
    rewrite probe_run in E6. injection E6 as <-.
    apply bind_Ret_inv in H as ([] & h7 & E7 & H). apply withTimeout_Ret_inv in E7.
    apply bind_Ret_inv in H as ([] & h8 & E8 & H). apply withTimeout_Ret_inv in E8.
    apply bind_Ret_inv in H as (bootstubSuccess & h9 & E9 & H).
    apply withTimeout_Ret_inv in E9.
    apply bind_Ret_inv in H as ([] & h9' & C9 & H).
    apply check_success_run in C9 as [-> ->].
    rewrite detach_run in H. injection H as <-.
    exists transferSize, h0, h1, h2, h3, h4, h5,
      (snd (getState device settings (h5 ++ [EvSleep 1000]))), h7, h8, h9.
    repeat split; try tauto.
  - intros (transferSize & h0 & h1 & h2 & h3 & h4 & h5 & h6 & h7 & h8 & h9 &
            E0 & [E1 T1] & [E2 T2] & [E3 T3] & [E4 T4] & [E5 T5] & -> & [E7 T7] &
            [E8 T8] & [E9 T9] & ->).
    rewrite (bind_run _ _ _ _ _ E0).
    rewrite (bind_run _ _ _ _ _ (withTimeout_in_time clock _ _ _ _ _ _ E1 T1)).
    rewrite (bind_run _ _ _ _ _ (withTimeout_in_time clock _ _ _ _ _ _ E2 T2)).
    rewrite (bind_run _ _ _ _ _ (withTimeout_in_time clock _ _ _ _ _ _ E3 T3)).
    rewrite (bind_run _ _ _ _ _ (withTimeout_in_time clock _ _ _ _ _ _ E4 T4)).
    rewrite (bind_run _ _ _ _ _ (withTimeout_in_time clock _ _ _ _ _ _ E5 T5)).
    unfold bind at 1. cbn [negb ret]. unfold bind at 1. cbn [sleep].
    unfold bind at 1. rewrite probe_run.
    rewrite (bind_run _ _ _ _ _ (withTimeout_in_time clock _ _ _ _ _ _ E7 T7)).
    rewrite (bind_run _ _ _ _ _ (withTimeout_in_time clock _ _ _ _ _ _ E8 T8)).
    rewrite (bind_run _ _ _ _ _ (withTimeout_in_time clock _ _ _ _ _ _ E9 T9)).
    unfold bind at 1. cbn [negb ret]. apply detach_run.
Qed.

Lemma exit_request_run (exit_request : Eff History Z) h h' :
  try_catch (exit_request ;;; ret tt) (fun _ => ret tt) h = (Ret tt, h') <->
  exists r, exit_request h = (r, h') /\ forall l, r <> Hang l.
Proof.
  unfold try_catch, bind. split.
  - intros H. destruct (exit_request h) as [[n | e | l] h1]; try discriminate;
      injection H as <-; eexists; split; try reflexivity; discriminate.
  - intros (r & -> & Hr). destruct r as [n | e | l]; try reflexivity.
    destruct (Hr l eq_refl).
Qed.

Lemma first_flash_body_steps device settings exit_request fuel pandaBin bootstubBin h h' :
  FirstVersion.flash_body device settings exit_request fuel pandaBin bootstubBin h
  = (Ret tt, h') <->
  first_flash_steps device settings exit_request fuel pandaBin bootstubBin h h'.
Proof.
  unfold FirstVersion.flash_body, first_flash_steps. split.
  - intros H.
    apply bind_Ret_inv in H as (transferSize & h0 & E0 & H).
    apply bind_Ret_inv in H as ([] & h1 & E1 & H).
    apply bind_Ret_inv in H as ([] & h2 & E2 & H).
    apply bind_Ret_inv in H as ([] & h3 & E3 & H).
    apply bind_Ret_inv in H as ([] & h4 & E4 & H).
    apply bind_Ret_inv in H as ([] & h5 & E5 & H).
    apply bind_Ret_inv in H as ([] & h7 & E7 & H).
    apply bind_Ret_inv in H as ([] & h8 & E8 & H).
    apply bind_Ret_inv in H as ([] & h9 & E9 & H).
    apply exit_request_run in H as (r & Hx & Hr).
    exists transferSize, h0, h1, h2, h3, h4, h5, h7, h8, h9, r.
    repeat split; assumption.
  - intros (transferSize & h0 & h1 & h2 & h3 & h4 & h5 & h7 & h8 & h9 & r &
            E0 & E1 & E2 & E3 & E4 & E5 & E7 & E8 & E9 & Hx & Hr).
    rewrite (bind_run _ _ _ _ _ E0), (bind_run _ _ _ _ _ E1), (bind_run _ _ _ _ _ E2),
      (bind_run _ _ _ _ _ E3), (bind_run _ _ _ _ _ E4), (bind_run _ _ _ _ _ E5),
      (bind_run _ _ _ _ _ E7), (bind_run _ _ _ _ _ E8), (bind_run _ _ _ _ _ E9).
    apply exit_request_run. exists r. split; assumption.
Qed.

(** ** A flashing run on the wire *)

Lemma flash_steps_wire clock device settings fuel pandaBuffer bootstubBuffer h h' :
  flash_steps clock device settings fuel pandaBuffer bootstubBuffer h h' ->
  exists evs,
    h' = h ++ evs /\
    flash_wire true transferSizes pandaBuffer bootstubBuffer (paused settings)
      (detached settings) evs.
Proof.
  intros (transferSize & h0 & h1 & h2 & h3 & h4 & h5 & h6 & h7 & h8 & h9 &
          E0 & [E1 _] & [E2 _] & [E3 _] & [E4 _] & [E5 _] & E6 & [E7 _] & [E8 _] &
          [E9 _] & ->).
  destruct (housekeeping_getTransferSize _ _ _ _ _ E0) as (ev0 & -> & F0).
  apply dfuseErase_wire in E1 as (ev1 & -> & D1).
  apply dfuseErase_wire in E2 as (ev2 & -> & D2).
  apply dfuseErase_wire in E3 as (ev3 & -> & D3).
  apply dfuseSetAddress_wire in E4 as (ev4 & -> & D4).
  apply flashWithRetry_wire in E5 as (main & -> & Hmain).
  rewrite getState_event in E6. subst h6.
  apply dfuseErase_wire in E7 as (ev7 & -> & D7).
  apply dfuseSetAddress_wire in E8 as (ev8 & -> & D8).
  apply flashWithRetry_wire in E9 as (boot & -> & Hboot).
  eexists. split; [rewrite <- !app_assoc; reflexivity |].
  exists (ev0 ++ ev1 ++ ev2 ++ ev3 ++ ev4), main,
    [EvSleep 1000;
     EvControlIn (class_setup settings DFU.GETSTATE 0) 1
       (answerIn device
          (((((((h ++ ev0) ++ ev1) ++ ev2) ++ ev3) ++ ev4) ++ main) ++ [EvSleep 1000])
          (class_setup settings DFU.GETSTATE 0) 1)],
    (ev7 ++ ev8), boot.
  eexists. split; [rewrite <- !app_assoc; reflexivity |].
  split; [rewrite !dnloads_app, (dnloads_housekeeping _ F0), D1, D2, D3, D4; reflexivity |].
  split; [exact Hmain |].
  split; [eexists; reflexivity |].
  split; [rewrite dnloads_app, D7, D8; reflexivity |].
  split; [exact Hboot |].
  eexists. reflexivity.
Qed.

Lemma first_flash_steps_wire device settings exit_request fuel pandaBin bootstubBin h h' :
  first_flash_steps device settings exit_request fuel pandaBin bootstubBin h h' ->
  exists transferSize evs,
    fst (getTransferSize device settings h) = Ret transferSize /\
    flash_wire false [transferSize; 2048; 1024; 512; 256] pandaBin bootstubBin
      (eq []) (eq []) evs /\
    h' = snd (exit_request (h ++ evs)).
Proof.
  intros (transferSize & h0 & h1 & h2 & h3 & h4 & h5 & h7 & h8 & h9 & r &
          E0 & E1 & E2 & E3 & E4 & E5 & E7 & E8 & E9 & Hx & _).
  assert (Hladder : Forall (fun s => 1 <= s) [transferSize; 2048; 1024; 512; 256]).
  { pose proof (getTransferSize_range _ _ _ _ _ E0).
    repeat (constructor; [lia |]). constructor. }
  exists transferSize. rewrite E0.
  destruct (housekeeping_getTransferSize _ _ _ _ _ E0) as (ev0 & -> & F0).
  apply dfuseErase_wire in E1 as (ev1 & -> & D1).
  apply dfuseErase_wire in E2 as (ev2 & -> & D2).
  apply dfuseErase_wire in E3 as (ev3 & -> & D3).
  apply dfuseSetAddress_wire in E4 as (ev4 & -> & D4).
  apply (plain_ladder_wire _ _ _ _ _ _ _ Hladder) in E5 as (main & -> & Hmain).
  apply dfuseErase_wire in E7 as (ev7 & -> & D7).
  apply dfuseSetAddress_wire in E8 as (ev8 & -> & D8).
  apply (plain_ladder_wire _ _ _ _ _ _ _ Hladder) in E9 as (boot & -> & Hboot).
  exists ((ev0 ++ ev1 ++ ev2 ++ ev3 ++ ev4) ++ main ++ [] ++ (ev7 ++ ev8) ++ boot ++ []).
  split; [reflexivity |]. split.
  - exists (ev0 ++ ev1 ++ ev2 ++ ev3 ++ ev4), main, [], (ev7 ++ ev8), boot, [].
    split; [reflexivity |].
    split; [rewrite !dnloads_app, (dnloads_housekeeping _ F0), D1, D2, D3, D4; reflexivity |].
    split; [exact Hmain |].
    split; [reflexivity |].
    split; [rewrite dnloads_app, D7, D8; reflexivity |].
    split; [exact Hboot | reflexivity].
  - replace (h ++ (ev0 ++ ev1 ++ ev2 ++ ev3 ++ ev4) ++ main ++ [] ++ (ev7 ++ ev8) ++ boot ++ [])
      with (((((((((h ++ ev0) ++ ev1) ++ ev2) ++ ev3) ++ ev4) ++ main) ++ ev7) ++ ev8) ++ boot).
    + rewrite Hx. reflexivity.
    + cbn [app]. rewrite app_nil_r, <- !app_assoc. reflexivity.
Qed.

(** C8.  A flashing run that completes.  In the second version of the page
    it is made of these steps, in this order, each starting where the one
    before ended and each timed one within its time limit: read the
    transfer size; erase 0x08004000, 0x08008000, 0x0800C000; set the address
    to 0x08004000; download the main image through [flashWithRetry]; wait
    1000 ms and probe the state once (the outcome of the probe is ignored);
    erase 0x08000000; set the address to 0x08000000; download the bootstub
    image through [flashWithRetry]; send DETACH.  These steps are also
    enough for the run to complete: nothing is asked of the answer to
    DETACH.  On the wire, in this order: the four commands as DNLOADs of
    block 0; the blocks of the main image, attempt after attempt down the
    ladder 2048, 1024, 512, 256, the last attempt sending the image whole or
    ending in a transfer rejected as a disconnection; the wait and the
    probe; the two commands of the bootstub; the blocks of the bootstub
    image in the same way; the DETACH request.  The vendor commands of the
    run are those six and no other.  In the first version of the page the
    steps are the same but for three things: there is no wait and no probe
    between the two images; the ladder starts at the transfer size read
    from the device, and the last attempt at an image always sends it
    whole; the run ends with the exit request, of which nothing is asked
    but that it settles. *)
Theorem flash_sequence clock device settings exit_request fuel pandaBuffer bootstubBuffer h :
  (forall h',
      flash_body clock device settings fuel pandaBuffer bootstubBuffer h = (Ret tt, h') <->
      flash_steps clock device settings fuel pandaBuffer bootstubBuffer h h') /\
  (forall h',
      flash_body clock device settings fuel pandaBuffer bootstubBuffer h = (Ret tt, h') ->
      (exists evs,
          h' = h ++ evs /\
          flash_wire true transferSizes pandaBuffer bootstubBuffer (paused settings)
            (detached settings) evs) /\
      vendor_commands h' = vendor_commands h ++ flash_commands) /\
  (forall h',
      FirstVersion.flash_body device settings exit_request fuel pandaBuffer bootstubBuffer h
      = (Ret tt, h') <->
      first_flash_steps device settings exit_request fuel pandaBuffer bootstubBuffer h h') /\
  (forall h',
      FirstVersion.flash_body device settings exit_request fuel pandaBuffer bootstubBuffer h
      = (Ret tt, h') ->
      exists transferSize evs,
        fst (getTransferSize device settings h) = Ret transferSize /\
        flash_wire false [transferSize; 2048; 1024; 512; 256] pandaBuffer bootstubBuffer
          (eq []) (eq []) evs /\
        h' = snd (exit_request (h ++ evs))) /\
  untried ∅ transferSizes = [2048; 1024; 512; 256].
Proof.
  split; [intros h'; apply flash_body_steps |].
  split.
  { intros h' H. apply flash_body_steps in H as Hsteps.
    split; [apply (flash_steps_wire _ _ _ _ _ _ _ _ Hsteps) |].
    destruct Hsteps as (transferSize & h0 & h1 & h2 & h3 & h4 & h5 & h6 & h7 & h8 & h9 &
                        E0 & [E1 _] & [E2 _] & [E3 _] & [E4 _] & [E5 _] & E6 & [E7 _] &
                        [E8 _] & [E9 _] & ->).
    apply (no_vendor_command_housekeeping _ (housekeeping_getTransferSize device settings))
      in E0.
    apply dfuseErase_commands in E1, E2, E3, E7.
    apply dfuseSetAddress_commands in E4, E8.
    apply flashWithRetry_commands in E5, E9.
    assert (vendor_commands h6 = vendor_commands h5) as E6'.
    { subst h6.
      destruct (getState device settings (h5 ++ [EvSleep 1000])) as [r6 h6] eqn:Eg.
      apply (no_vendor_command_housekeeping _ (housekeeping_getState device settings)) in Eg.
      simpl. rewrite Eg, vendor_commands_app. apply app_nil_r. }
    rewrite vendor_commands_app.
    change (vendor_commands [detach_event _ _ _]) with (@nil (Z * Z)).
    rewrite app_nil_r, E9, E8, E7, E6', E5, E4, E3, E2, E1, E0.
    rewrite <- !app_assoc. reflexivity. }
  split; [intros h'; apply first_flash_body_steps |].
  split; [| vm_compute; reflexivity].
  intros h' H. apply first_flash_body_steps in H.
  apply (first_flash_steps_wire _ _ _ _ _ _ _ _ H).
Qed.


Lemma flash_sequence_witness :
  exists h',
    flash_body (steady 1) (simulated healthy) dfuse_settings 3 (image 3) (image 2) []
    = (Ret tt, h') /\
    vendor_commands h'
    = [(65, 0x08004000); (65, 0x08008000); (65, 0x0800C000); (33, 0x08004000);
       (65, 0x08000000); (33, 0x08000000)] /\
    exists evs,
      h' = evs /\
      flash_wire true transferSizes (image 3) (image 2) (paused dfuse_settings)
        (detached dfuse_settings) evs.
Proof.
  eexists. split; [vm_compute; reflexivity |].
  pose proof (proj1 (proj2 (flash_sequence (steady 1) (simulated healthy) dfuse_settings
                              (ret 0) 3 (image 3) (image 2) [])) _
                ltac:(vm_compute; reflexivity)) as [Hwire Hcommands].
  split; [exact Hcommands | exact Hwire].
Defined.

(** C8 as stated fails for the first version of the page: there is no pause
    between the two images.  On a device that is never busy a run completes
    without a single wait, the erase of the bootstub's page beginning with
    the transfer after the last status read of the main image. *)
Lemma flash_sequence_counterexample :
  let run := FirstVersion.flash_body (simulated eager) dfuse_settings (ret 0) 3
               (image 3) (image 2) [] in
  fst run = Ret tt /\
  existsb (fun ev => match ev with EvSleep _ => true | _ => false end) (snd run) = false /\
  dnloads (snd run)
  = main_commands ++ [(2, image 3); (3, [])] ++ bootstub_commands ++ [(2, image 2); (3, [])].
Proof. vm_compute. repeat split; reflexivity. Qed.

(** A device that is gone by the time DETACH is sent: the request is rejected
    and the run still completes. *)
Example flash_detach_failure_ignored :
  let run := flash (steady 1) (simulated (unplugged_after 64)) dfuse_settings 3
               (image 3) (image 2) [] in
  fst run = Ret FlashComplete /\
  last (snd run)
  = Some (EvControlOut (class_setup dfuse_settings DFU.DETACH 1000) (Some [])
            (inl device_gone)).
Proof. vm_compute. split; reflexivity. Qed.

(** ** The later ladders on the wire *)






